(** * Radar rainfall analyzer: a shallow embedding of [Analisi_file_radar.py]

    Definitions first (one module per part of the program, with the names
    of the source), then the properties.

    - Numbers that are [float] / [np.float64] in the program are binary64
      values ([PrimFloat.float]); "not a number" is the IEEE NaN, which is
      also how pandas marks a missing cell.
    - A [datetime] is the number of seconds since 1970-01-01 00:00 ([Z]);
      the timestamps the program builds have no sub-second part.
    - A Python exception is the [Eccezione] case of [esito].
    - Dictionaries are [gmap]s.
    - The raster and vector libraries (rasterio, geopandas), the directory
      listing, numpy's reductions and pandas' rolling sum are taken as an
      environment ([ambiente]): the program only calls them.
    - Console output and logging are left out. *)

From Stdlib Require Import ZArith List Bool Lia Floats Ascii String Sorted Permutation.
From stdpp Require Import gmap strings list pretty.

Local Open Scope Z_scope.

(** ** Exceptions *)

Inductive esito (A : Type) : Type :=
| Ok (a : A)
| Eccezione (msg : string).
Arguments Ok {A} a.
Arguments Eccezione {A} msg.

Global Instance esito_ret : MRet esito := fun _ a => Ok a.
Global Instance esito_bind : MBind esito := fun _ _ k m =>
  match m with
  | Ok a => k a
  | Eccezione e => Eccezione e
  end.

Definition riuscito {A} (m : esito A) : bool :=
  match m with Ok _ => true | Eccezione _ => false end.

(** ** Binary64 helpers *)

Module F.
Definition zero : float := 0%float.
Definition is_nan (x : float) : bool := PrimFloat.is_nan x.
Definition notna (x : float) : bool := negb (PrimFloat.is_nan x).
(** [x >= 0] on floats: false on NaN. *)
Definition ge0 (x : float) : bool := PrimFloat.leb zero x.
(** [x > 0] on floats: false on NaN. *)
Definition gt0 (x : float) : bool := PrimFloat.ltb zero x.
(** [Series.fillna(0)] on one cell. *)
Definition fillna0 (x : float) : float := if PrimFloat.is_nan x then zero else x.
(** [np.maximum]: the larger value, NaN if either is NaN. *)
Definition np_maximum (a b : float) : float :=
  if PrimFloat.is_nan a then a
  else if PrimFloat.is_nan b then b
  else if PrimFloat.ltb a b then b else a.
End F.

(** ** The order of binary64 values

    Every value but NaN has a rank in [Z * Z * Z], ordered
    lexicographically: the comparisons of two floats are the comparisons of
    their ranks, and a comparison with NaN is false. *)

Module Ordine.

Definition rango (f : spec_float) : option (Z * Z * Z) :=
  match f with
  | S754_nan => None
  | S754_infinity s => Some (if s then -2 else 2, 0, 0)
  | S754_zero _ => Some (0, 0, 0)
  | S754_finite s m e => Some (if s then (-1, - e, Zneg m) else (1, e, Zpos m))
  end.

Definition lex (a b : Z * Z * Z) : comparison :=
  let '(a1, a2, a3) := a in
  let '(b1, b2, b3) := b in
  match a1 ?= b1 with
  | Eq => match a2 ?= b2 with Eq => a3 ?= b3 | c => c end
  | c => c
  end.

Definition lt3 (a b : Z * Z * Z) : Prop :=
  let '(a1, a2, a3) := a in
  let '(b1, b2, b3) := b in
  a1 < b1 \/ (a1 = b1 /\ (a2 < b2 \/ (a2 = b2 /\ a3 < b3))).

Definition rf (x : float) : option (Z * Z * Z) := rango (Prim2SF x).

End Ordine.

(** ** Equivalent rainfall (Peq0) *)

Module Peq0.

(** [LAMBDA_PEQ = 0.2]: the binary64 value nearest to 0.2. *)
Definition LAMBDA_PEQ : float := Eval cbv in 0x1.999999999999ap-3%float.

(** [S = 25400 / CN - 254].  [CN] is a Python float: dividing by a
    zero Python float raises [ZeroDivisionError]. *)
Definition peq0_S (CN : float) : esito float :=
  if PrimFloat.eqb CN F.zero then Eccezione "ZeroDivisionError"
  else Ok (25400 / CN - 254)%float.

(** [sqrt_term = S * (P5 + ((1 - lam) / 2) ** 2 * S)]; the square is
    the product of the value with itself. *)
Definition peq0_sqrt_term (S P5 lam : float) : float :=
  let q := ((1 - lam) / 2)%float in
  (S * (P5 + (q * q) * S))%float.

(** [M = np.maximum(np.sqrt(sqrt_term) - ((1 + lam) / 2) * S, 0)] *)
Definition peq0_M (S P5 lam : float) : float :=
  F.np_maximum
    (PrimFloat.sqrt (peq0_sqrt_term S P5 lam) - ((1 + lam) / 2) * S)%float
    F.zero.

(** The divisor of the last line, [S + M]: a numpy scalar, so the
    division follows IEEE and does not raise. *)
Definition peq0_divisore (S M : float) : float := (S + M)%float.

(** [calcola_peq0(P5, CN, lam)] *)
Definition calcola_peq0 (P5 CN lam : float) : esito float :=
  S ← peq0_S CN;
  let M := peq0_M S P5 lam in
  Ok (M * (1 + lam * S / peq0_divisore S M))%float.

(** The function applied to every cell of a zone column in
    [calcola_peq0_per_tutte_zone]:
    [calcola_peq0(p5, cn_value) if pd.notna(p5) and p5 > 0 else 0]. *)
Definition peq0_cella (cn_value p5 : float) : esito float :=
  if F.notna p5 && F.gt0 p5 then calcola_peq0 p5 cn_value LAMBDA_PEQ
  else Ok F.zero.

End Peq0.

(** ** Dates and times *)

Module Tempo.

(** [timedelta(hours=1)], [timedelta(minutes=60)] and
    [timedelta(days=1)], in seconds. *)
Definition ora : Z := 3600.
Definition giorno : Z := 86400.
Definition timedelta_hours (h : Z) : Z := h * ora.

(** [t.date()]: the calendar day, as a day number. *)
Definition date (t : Z) : Z := t / giorno.
(** [t.replace(hour=h, minute=0, second=0, microsecond=0)] *)
Definition replace_ora (t h : Z) : Z := giorno * date t + h * ora.
Definition minute (t : Z) : Z := (t mod ora) / 60.
Definition second (t : Z) : Z := t mod 60.

Definition bisestile (y : Z) : bool :=
  (y mod 4 =? 0) && (negb (y mod 100 =? 0) || (y mod 400 =? 0)).

Definition giorni_del_mese (y m : Z) : Z :=
  match m with
  | 1 | 3 | 5 | 7 | 8 | 10 | 12 => 31
  | 4 | 6 | 9 | 11 => 30
  | 2 => if bisestile y then 29 else 28
  | _ => 0
  end.

(** Day number of the civil date [y-m-d] (day 0 is 1970-01-01). *)
Definition giorni_da_civile (y m d : Z) : Z :=
  let y' := if m <=? 2 then y - 1 else y in
  let era := y' / 400 in
  let yoe := y' - era * 400 in
  let mp := if 2 <? m then m - 3 else m + 9 in
  let doy := (153 * mp + 2) / 5 + d - 1 in
  let doe := yoe * 365 + yoe / 4 - yoe / 100 + doy in
  era * 146097 + doe - 719468.

(** The constructor [datetime(y, m, d, hh, mm, ss)]: [ValueError] on a
    field out of range. *)
Definition datetime (y m d hh mm ss : Z) : esito Z :=
  if (1 <=? y) && (y <=? 9999) && (1 <=? m) && (m <=? 12)
     && (1 <=? d) && (d <=? giorni_del_mese y m)
     && (0 <=? hh) && (hh <=? 23) && (0 <=? mm) && (mm <=? 59)
     && (0 <=? ss) && (ss <=? 59)
  then Ok (giorni_da_civile y m d * giorno + hh * ora + mm * 60 + ss)
  else Eccezione "ValueError".

(** [pd.date_range(data_inizio, data_fine)]: one entry per day from
    [data_inizio] while not after [data_fine]. *)
Definition date_range (data_inizio data_fine : Z) : list Z :=
  if data_fine <? data_inizio then []
  else map (fun k => data_inizio + Z.of_nat k * giorno)
           (seq 0 (Z.to_nat ((data_fine - data_inizio) / giorno) + 1)).

End Tempo.

(** ** File names *)

Module Nomi.

Definition cifra (c : ascii) : option Z :=
  let n := Z.of_nat (nat_of_ascii c) in
  if (48 <=? n) && (n <=? 57) then Some (n - 48) else None.

(** The first [n] characters of [s], when they are all decimal digits. *)
Fixpoint cifre (n : nat) (s : string) : option (list Z) :=
  match n with
  | O => Some []
  | S n' =>
      match s with
      | EmptyString => None
      | String c s' =>
          match cifra c, cifre n' s' with
          | Some d, Some ds => Some (d :: ds)
          | _, _ => None
          end
      end
  end.

(** [re.search] for a run of [n] digits: the leftmost match. *)
Fixpoint cerca_cifre (n : nat) (s : string) : option (list Z) :=
  match cifre n s with
  | Some ds => Some ds
  | None =>
      match s with
      | EmptyString => None
      | String _ s' => cerca_cifre n s'
      end
  end.

(** [int] of a group of digits. *)
Definition numero (ds : list Z) : Z := fold_left (fun acc d => 10 * acc + d) ds 0.

(** [nome_file.endswith('.tif')] *)
Definition endswith_tif (s : string) : bool :=
  let n := String.length s in
  (4 <=? n)%nat && String.eqb (substring (n - 4) 4 s) ".tif".

(** [estrai_timestamp], on the base name of the file: the pattern with
    seconds first, then the one without; [None] when neither matches.
    The [datetime] constructor may raise. *)
Definition estrai_timestamp (nome_file : string) : esito (option Z) :=
  match cerca_cifre 14 nome_file with
  | Some [y1; y2; y3; y4; m1; m2; d1; d2; h1; h2; n1; n2; s1; s2] =>
      t ← Tempo.datetime (numero [y1; y2; y3; y4]) (numero [m1; m2])
             (numero [d1; d2]) (numero [h1; h2]) (numero [n1; n2])
             (numero [s1; s2]);
      Ok (Some t)
  | _ =>
      match cerca_cifre 12 nome_file with
      | Some [y1; y2; y3; y4; m1; m2; d1; d2; h1; h2; n1; n2] =>
          t ← Tempo.datetime (numero [y1; y2; y3; y4]) (numero [m1; m2])
                 (numero [d1; d2]) (numero [h1; h2]) (numero [n1; n2]) 0;
          Ok (Some t)
      | _ => Ok None
      end
  end.

End Nomi.

(** ** Rasters and the environment *)

(** A raster band as numpy has it: a shape and the pixels in row-major
    order. *)
Record array := { forma : nat * nat; valori : list float }.

Module Np.

Definition compatibili (a b : nat) : bool :=
  (a =? b)%nat || (a =? 1)%nat || (b =? 1)%nat.
Definition estesa (a b : nat) : nat := if (a =? 1)%nat then b else a.

(** Pixel [(i, j)] of [a] seen at a broadcast shape. *)
Definition pixel (a : array) (i j : nat) : float :=
  let '(h, w) := forma a in
  let i' := if (h =? 1)%nat then O else i in
  let j' := if (w =? 1)%nat then O else j in
  nth (i' * w + j')%nat (valori a) nan.

(** [a + b] on two-dimensional arrays: pixel-wise, with numpy's
    broadcasting; [ValueError] when the shapes do not agree. *)
Definition add (a b : array) : esito array :=
  let '(h1, w1) := forma a in
  let '(h2, w2) := forma b in
  if compatibili h1 h2 && compatibili w1 w2 then
    let h := estesa h1 h2 in
    let w := estesa w1 w2 in
    Ok {| forma := (h, w);
          valori := flat_map (fun i =>
                      map (fun j => (pixel a i j + pixel b i j)%float) (seq 0 w))
                      (seq 0 h) |}
  else Eccezione "ValueError: operands could not be broadcast together".

End Np.

(** A tile path: the day directory [root/YYYY/MM/DD] (as its day number)
    and the file name; [os.path.basename] is the file name. *)
Record percorso := { cartella : Z; nome : string }.

Definition basename (p : percorso) : string := nome p.

(** What [rasterio.open] gives for a readable file: the number of bands,
    the outcome of [read(1)] when there is a band, and the CRS (an EPSG
    code) when the file has one. *)
Record dataset := {
  count : nat;
  banda1 : esito array;
  crs : option Z
}.

(** [src.read(1)] *)
Definition read1 (src : dataset) : esito array :=
  if (count src =? 0)%nat then Eccezione "IndexError: band index out of range"
  else banda1 src.

(** A raster written to the scratch directory and handed to the next
    stage: the template CRS and the band. *)
Record raster := { r_crs : Z; r_dati : array }.

(** The libraries and the file system the program calls.  [forme] is
    what [gpd.read_file] returns. *)
Record ambiente := {
  forme : Type;
  (** [os.listdir] of a day directory; [None] when
      [os.path.exists(path_giorno)] is false. *)
  os_listdir : Z -> option (list string);
  rasterio_open : percorso -> esito dataset;
  gpd_read_file : string -> esito forme;
  (** [rasterio.mask.mask(src, shapes, crop=True, nodata=-9999,
      all_touched=True)] on a written raster, then band [out_image[0]]. *)
  rasterio_mask : raster -> forme -> esito array;
  np_mean : list float -> float;
  np_median : list float -> float;
  np_percentile : list float -> Z -> float;
  np_max : list float -> float;
  np_min : list float -> float;
  np_std : list float -> float;
  (** [s.rolling(window=w, min_periods=p).sum()] of pandas, row by row:
      [pd_rolling_sum w p s i] is the value at row [i] (pandas keeps a
      running compensated sum from one window to the next, so the value
      is not, in general, the plain sum of the rows of the window). *)
  pd_rolling_sum : nat -> nat -> list float -> nat -> float
}.

(** ** Archive integrity *)

Module Integrita.

Record voce_corrotta := {
  c_data : Z; c_timestamp : Z; c_percorso : percorso; c_errore : string }.
Record voce_mancante := { m_data : Z; m_timestamp : Z }.
Record voce_valida := { v_data : Z; v_timestamp : Z; v_percorso : percorso }.

(** [FileIntegrityReport]; the ['data'] and ['ora'] strings of an
    entry are formats of the day and of the timestamp kept here. *)
Record FileIntegrityReport := {
  file_corrotti : list voce_corrotta;
  file_mancanti : list voce_mancante;
  file_validi : list voce_valida;
  giorni_analizzati : gset Z
}.

Definition report_vuoto : FileIntegrityReport :=
  {| file_corrotti := []; file_mancanti := []; file_validi := [];
     giorni_analizzati := ∅ |}.

Definition aggiungi_file_corrotto (r : FileIntegrityReport)
    (data ora : Z) (p : percorso) (errore : string) : FileIntegrityReport :=
  {| file_corrotti := file_corrotti r ++
       [{| c_data := Tempo.date data; c_timestamp := ora;
           c_percorso := p; c_errore := errore |}];
     file_mancanti := file_mancanti r;
     file_validi := file_validi r;
     giorni_analizzati := giorni_analizzati r |}.

Definition aggiungi_file_mancante (r : FileIntegrityReport)
    (data ora_attesa : Z) : FileIntegrityReport :=
  {| file_corrotti := file_corrotti r;
     file_mancanti := file_mancanti r ++
       [{| m_data := Tempo.date data; m_timestamp := ora_attesa |}];
     file_validi := file_validi r;
     giorni_analizzati := giorni_analizzati r |}.

Definition aggiungi_file_valido (r : FileIntegrityReport)
    (data ora : Z) (p : percorso) : FileIntegrityReport :=
  {| file_corrotti := file_corrotti r;
     file_mancanti := file_mancanti r;
     file_validi := file_validi r ++
       [{| v_data := Tempo.date data; v_timestamp := ora; v_percorso := p |}];
     giorni_analizzati := giorni_analizzati r |}.

Definition aggiungi_giorno (r : FileIntegrityReport) (d : Z) : FileIntegrityReport :=
  {| file_corrotti := file_corrotti r;
     file_mancanti := file_mancanti r;
     file_validi := file_validi r;
     giorni_analizzati := {[ d ]} ∪ giorni_analizzati r |}.

Definition ore_del_giorno : list Z := map Z.of_nat (seq 0 24).

(** The state of the scan of one day directory: the report and
    [file_trovati]. *)
Definition stato : Type := FileIntegrityReport * gmap Z percorso.

(** The body of [for nome_file in os.listdir(path_giorno)]. *)
Definition esamina_file (amb : ambiente) (data_corrente : Z)
    (st : stato) (nome_file : string) : esito stato :=
  let '(report, file_trovati) := st in
  if Nomi.endswith_tif nome_file then
    let file_path := {| cartella := Tempo.date data_corrente; nome := nome_file |} in
    ts ← Nomi.estrai_timestamp (basename file_path);
    match ts with
    | Some timestamp =>
        if (Tempo.minute timestamp =? 0) && (Tempo.second timestamp =? 0) then
          match rasterio_open amb file_path with
          | Ok src =>
              if (count src =? 0)%nat then
                Ok (aggiungi_file_corrotto report data_corrente timestamp
                      file_path "File senza bande raster", file_trovati)
              else
                match read1 src with
                | Ok _ =>
                    Ok (aggiungi_file_valido report data_corrente timestamp file_path,
                        <[timestamp := file_path]> file_trovati)
                | Eccezione e =>
                    Ok (aggiungi_file_corrotto report data_corrente timestamp
                          file_path e, file_trovati)
                end
          | Eccezione e =>
              Ok (aggiungi_file_corrotto report data_corrente timestamp
                    file_path e, file_trovati)
          end
        else Ok st
    | None => Ok st
    end
  else Ok st.

Fixpoint esamina_tutti (amb : ambiente) (data_corrente : Z)
    (st : stato) (nomi : list string) : esito stato :=
  match nomi with
  | [] => Ok st
  | n :: resto =>
      st' ← esamina_file amb data_corrente st n;
      esamina_tutti amb data_corrente st' resto
  end.

(** [for ora in range(24)]: an hour is recorded missing when its
    expected timestamp is not a key of [file_trovati]. *)
Definition segna_mancanti (data_corrente : Z) (file_trovati : gmap Z percorso)
    (report : FileIntegrityReport) : FileIntegrityReport :=
  fold_left (fun r ora =>
               let timestamp_atteso := Tempo.replace_ora data_corrente ora in
               match file_trovati !! timestamp_atteso with
               | None => aggiungi_file_mancante r data_corrente timestamp_atteso
               | Some _ => r
               end)
            ore_del_giorno report.

(** The day directory does not exist: all 24 hours are recorded
    missing. *)
Definition tutte_mancanti (data_corrente : Z)
    (report : FileIntegrityReport) : FileIntegrityReport :=
  fold_left (fun r ora =>
               aggiungi_file_mancante r data_corrente
                 (Tempo.replace_ora data_corrente ora))
            ore_del_giorno report.

(** The body of [for data_corrente in date_range]. *)
Definition verifica_giorno (amb : ambiente) (report : FileIntegrityReport)
    (data_corrente : Z) : esito FileIntegrityReport :=
  let report := aggiungi_giorno report (Tempo.date data_corrente) in
  match os_listdir amb (Tempo.date data_corrente) with
  | None => Ok (tutte_mancanti data_corrente report)
  | Some nomi =>
      '(report, file_trovati) ← esamina_tutti amb data_corrente (report, ∅) nomi;
      Ok (segna_mancanti data_corrente file_trovati report)
  end.

Fixpoint verifica_giorni (amb : ambiente) (report : FileIntegrityReport)
    (giorni : list Z) : esito FileIntegrityReport :=
  match giorni with
  | [] => Ok report
  | d :: resto =>
      report' ← verifica_giorno amb report d;
      verifica_giorni amb report' resto
  end.

(** [verifica_integrita_archivio(data_inizio, data_fine)] *)
Definition verifica_integrita_archivio (amb : ambiente)
    (data_inizio data_fine : Z) : esito FileIntegrityReport :=
  verifica_giorni amb report_vuoto (Tempo.date_range data_inizio data_fine).

End Integrita.

(** ** Window summation, cropping and statistics

    The program writes the summed raster to a scratch file, reads it back
    for the crop and removes both files once the statistics are taken.  Here
    the raster is handed from one stage to the next, and writing a scratch
    file is taken to succeed. *)

Module Finestre.

(** A statistics dictionary, and the truth value [if stats:] of an
    optional one. *)
Definition vero (stats : option (gmap string float)) : bool :=
  match stats with
  | Some d => negb (bool_decide (d = ∅))
  | None => false
  end.

(** The window test [finestra_inizio <= timestamp < finestra_fine]. *)
Definition in_finestra (finestra_inizio finestra_fine timestamp : Z) : bool :=
  (finestra_inizio <=? timestamp) && (timestamp <? finestra_fine).

(** The tiles the first loop of [somma_file_tif_finestra] keeps;
    [file_finestra] and [timestamp_inclusi] are its two projections. *)
Definition tile_finestra (lista_file_con_timestamp : list (percorso * Z))
    (finestra_inizio finestra_fine : Z) : list (percorso * Z) :=
  List.filter (fun x => in_finestra finestra_inizio finestra_fine (snd x))
              lista_file_con_timestamp.

Definition file_finestra (lista : list (percorso * Z)) (inizio fine : Z)
    : list percorso :=
  map fst (tile_finestra lista inizio fine).

(** What a call returns when some tile matches: the scratch raster,
    the window and the base names of the matching files.  The call returns
    [(None, None, [])] otherwise, [None] here. *)
Record somma_out := {
  temp_file : raster;
  finestra_info : Z * Z;
  file_inclusi : list string
}.

(** [rasterio.open(p)] then [read(1).astype(np.float64)]. *)
Definition leggi (amb : ambiente) (p : percorso) : esito array :=
  src ← rasterio_open amb p;
  read1 src.

(** The body of [for file_path in file_finestra[1:]]: a tile that
    fails to open, to read or to add is skipped. *)
Definition accumula (amb : ambiente) (data_somma : array) (file_path : percorso)
    : array :=
  match (data_temp ← leggi amb file_path; Np.add data_somma data_temp) with
  | Ok s => s
  | Eccezione _ => data_somma
  end.

(** [somma_file_tif_finestra]; the first matching file is opened
    outside any [try]. *)
Definition somma_file_tif_finestra (amb : ambiente)
    (lista_file_con_timestamp : list (percorso * Z))
    (finestra_inizio finestra_fine : Z) : esito (option somma_out) :=
  match file_finestra lista_file_con_timestamp finestra_inizio finestra_fine with
  | [] => Ok None
  | primo :: resto =>
      src ← rasterio_open amb primo;
      data_somma ← read1 src;
      let meta_crs := match crs src with Some c => c | None => 4326 end in
      let data_somma := fold_left (accumula amb) resto data_somma in
      Ok (Some {| temp_file := {| r_crs := meta_crs; r_dati := data_somma |};
                  finestra_info := (finestra_inizio, finestra_fine);
                  file_inclusi := map basename (primo :: resto) |})
  end.

(** [ritaglia_raster_sommato_con_shapefile]: the cropped band, or
    [None] when there is no raster or anything raises. *)
Definition ritaglia_raster_sommato_con_shapefile (amb : ambiente)
    (raster_sommato : option raster) (shapefile_path : string)
    : option array :=
  match raster_sommato with
  | None => None
  | Some r =>
      match (shapefile ← gpd_read_file amb shapefile_path;
             rasterio_mask amb r shapefile) with
      | Ok out_image => Some out_image
      | Eccezione _ => None
      end
  end.

(** [if statistiche_config.get(k, False): risultato[k] = v] *)
Definition se_richiesta (statistiche_config : gmap string bool) (k : string)
    (v : float) (risultato : gmap string float) : gmap string float :=
  if default false (statistiche_config !! k) then <[k := v]> risultato
  else risultato.

(** [calcola_statistiche_su_array_ritagliato] *)
Definition calcola_statistiche_su_array_ritagliato (amb : ambiente)
    (array_ritagliato : option array) (statistiche_config : gmap string bool)
    : option (gmap string float) :=
  match array_ritagliato with
  | None => None
  | Some a =>
      let mask_validi := map F.ge0 (valori a) in
      if negb (existsb (fun b => b) mask_validi) then None
      else
        let valori_validi := List.filter F.ge0 (valori a) in
        if (length valori_validi =? 0)%nat then None
        else
          let cfg := statistiche_config in
          let r := ∅ in
          let r := se_richiesta cfg "media" (np_mean amb valori_validi) r in
          let r := se_richiesta cfg "mediana" (np_median amb valori_validi) r in
          let r := se_richiesta cfg "75_perc" (np_percentile amb valori_validi 75) r in
          let r := se_richiesta cfg "95_perc" (np_percentile amb valori_validi 95) r in
          let r := se_richiesta cfg "99_perc" (np_percentile amb valori_validi 99) r in
          let r := se_richiesta cfg "max" (np_max amb valori_validi) r in
          let r := se_richiesta cfg "min" (np_min amb valori_validi) r in
          let r := se_richiesta cfg "std" (np_std amb valori_validi) r in
          Some r
  end.

(** The value of the statistic named [k] over the valid pixels [vv];
    [None] for a name that is not a statistic. *)
Definition statistica_attesa (amb : ambiente) (k : string) (vv : list float)
    : option float :=
  if String.eqb k "media" then Some (np_mean amb vv)
  else if String.eqb k "mediana" then Some (np_median amb vv)
  else if String.eqb k "75_perc" then Some (np_percentile amb vv 75)
  else if String.eqb k "95_perc" then Some (np_percentile amb vv 95)
  else if String.eqb k "99_perc" then Some (np_percentile amb vv 99)
  else if String.eqb k "max" then Some (np_max amb vv)
  else if String.eqb k "min" then Some (np_min amb vv)
  else if String.eqb k "std" then Some (np_std amb vv)
  else None.

(** An entry of [lista_finestre_log]. *)
Record voce_log := {
  l_inizio : Z;
  l_fine : Z;
  l_stats : gmap string float;
  l_file : list string
}.

(** The sort key of the selection: [x[1].get('media', 0)]. *)
Definition chiave_media (stats : gmap string float) : float :=
  default F.zero (stats !! "media").

(** [max(risultati, key=...)] on a non-empty list: a linear scan that
    replaces the candidate only by a strictly greater key. *)
Fixpoint py_max_da {A} (key : A -> float) (migliore : A) (resto : list A) : A :=
  match resto with
  | [] => migliore
  | x :: resto' =>
      py_max_da key (if PrimFloat.ltb (key migliore) (key x) then x else migliore) resto'
  end.

Definition py_max {A} (key : A -> float) (l : list A) : option A :=
  match l with
  | [] => None
  | x :: resto => Some (py_max_da key x resto)
  end.

(** [min(timestamps)] and [max(timestamps)] of a non-empty list. *)
Definition minimo (x : Z) (l : list Z) : Z := fold_left Z.min l x.
Definition massimo (x : Z) (l : list Z) : Z := fold_left Z.max l x.

(** The loop variables of the rolling case, with the list of the
    windows the summation was called on (kept for the proofs). *)
Record stato_ciclo := {
  corrente : Z;
  risultati : list (Z * gmap string float);
  lista_finestre_log : list voce_log;
  valutate : list (Z * Z)
}.

Section Ciclo.
Variable amb : ambiente.
Variable file_con_timestamp : list (percorso * Z).
Variable shapefile_path : string.
Variable statistiche_config : gmap string bool.
Variable durata : Z.
Variable max_time_effettivo : Z.

(** [step = timedelta(minutes=60)] *)
Definition step : Z := 60 * 60.

(** The counting loop that gives [finestre_attese]. *)
Fixpoint conta_finestre (fuel : nat) (temp_corrente : Z) (finestre_attese : Z)
    : option Z :=
  match fuel with
  | O => None
  | S fuel' =>
      if temp_corrente + durata <=? max_time_effettivo
      then conta_finestre fuel' (temp_corrente + step) (finestre_attese + 1)
      else Some finestre_attese
  end.

(** One iteration of the main loop. *)
Definition passo (st : stato_ciclo) : esito stato_ciclo :=
  let c := corrente st in
  somma ← somma_file_tif_finestra amb file_con_timestamp c (c + durata);
  let '(ris, log) :=
    match somma with
    | Some out =>
        match ritaglia_raster_sommato_con_shapefile amb
                (Some (temp_file out)) shapefile_path with
        | Some array_ritagliato =>
            let stats := calcola_statistiche_su_array_ritagliato amb
                           (Some array_ritagliato) statistiche_config in
            match stats with
            | Some d =>
                if vero stats then
                  (risultati st ++ [(c, d)],
                   lista_finestre_log st ++
                     [{| l_inizio := c; l_fine := c + durata; l_stats := d;
                         l_file := file_inclusi out |}])
                else (risultati st, lista_finestre_log st)
            | None => (risultati st, lista_finestre_log st)
            end
        | None => (risultati st, lista_finestre_log st)
        end
    | None => (risultati st, lista_finestre_log st)
    end in
  Ok {| corrente := c + step; risultati := ris; lista_finestre_log := log;
        valutate := valutate st ++ [(c, c + durata)] |}.

(** [while corrente + durata <= max_time_effettivo]: [None] when the
    fuel runs out; an exception ends the loop and keeps the windows
    tried so far. *)
Fixpoint ciclo (fuel : nat) (st : stato_ciclo)
    : option (list (Z * Z) * esito stato_ciclo) :=
  match fuel with
  | O => None
  | S fuel' =>
      if corrente st + durata <=? max_time_effettivo then
        match passo st with
        | Ok st' => ciclo fuel' st'
        | Eccezione e =>
            Some (valutate st ++ [(corrente st, corrente st + durata)], Eccezione e)
        end
      else Some (valutate st, Ok st)
  end.
End Ciclo.

(** The windows of [n] consecutive iterations that start at [c]. *)
Definition finestre_da (n : nat) (c durata : Z) : list (Z * Z) :=
  map (fun k => (c + Z.of_nat k * step, c + Z.of_nat k * step + durata))
      (seq 0 n).

(** The number of windows of length [durata] that start at [c], one
    per hour, and end by [max_time_effettivo]. *)
Definition numero_finestre (c durata max_time_effettivo : Z) : Z :=
  Z.max 0 ((max_time_effettivo - c - durata) / step + 1).

(** Every tile of the list can be opened and read. *)
Definition tutti_leggibili (amb : ambiente) (lista : list (percorso * Z)) : Prop :=
  forall p t, In (p, t) lista -> riuscito (leggi amb p) = true.

(** The loop state agrees with itself: [risultati] and the log list
    the same windows, in increasing order of their start, all before
    [corrente]. *)
Definition coerente (st : stato_ciclo) : Prop :=
  risultati st = map (fun e => (l_inizio e, l_stats e)) (lista_finestre_log st) /\
  Forall (fun e => l_inizio e < corrente st) (lista_finestre_log st) /\
  StronglySorted (fun a b => l_inizio a < l_inizio b) (lista_finestre_log st).

(** The result of the search: what the function returns (the best
    statistics and the log), or the exception it raises. *)
Definition ritorno : Type := esito (option (gmap string float) * list voce_log).

(** The case [durata_ore == 24]. *)
Definition caso_24h (amb : ambiente) (file_con_timestamp : list (percorso * Z))
    (data_corrente : Z) (shapefile_path : string)
    (statistiche_config : gmap string bool) : list (Z * Z) * ritorno :=
  let file_data_corrente :=
    List.filter (fun x => Tempo.date (snd x) =? Tempo.date data_corrente)
                file_con_timestamp in
  match file_data_corrente with
  | [] => ([], Ok (None, []))
  | _ :: _ =>
      let inizio_giorno := Tempo.replace_ora data_corrente 0 in
      let fine_giorno := inizio_giorno + Tempo.giorno in
      ([(inizio_giorno, fine_giorno)],
       somma ← somma_file_tif_finestra amb file_data_corrente inizio_giorno fine_giorno;
       match somma with
       | None => Ok (None, [])
       | Some out =>
           match ritaglia_raster_sommato_con_shapefile amb
                   (Some (temp_file out)) shapefile_path with
           | None => Ok (None, [])
           | Some array_ritagliato =>
               let stats := calcola_statistiche_su_array_ritagliato amb
                              (Some array_ritagliato) statistiche_config in
               let lista_finestre_log :=
                 match stats with
                 | Some d =>
                     if vero stats then
                       [{| l_inizio := inizio_giorno; l_fine := fine_giorno;
                           l_stats := d; l_file := file_inclusi out |}]
                     else []
                 | None => []
                 end in
               Ok (stats, lista_finestre_log)
           end
       end)
  end.

(** The rolling case ([durata_ore != 24]). *)
Definition caso_mobile (amb : ambiente) (fuel : nat)
    (file_con_timestamp : list (percorso * Z)) (durata_ore : Z)
    (shapefile_path : string) (statistiche_config : gmap string bool)
    : option (list (Z * Z) * ritorno) :=
  match map snd file_con_timestamp with
  | [] => Some ([], Ok (None, []))
  | t0 :: altri =>
      let min_time := minimo t0 altri in
      let max_time := massimo t0 altri in
      let max_time_effettivo := max_time + Tempo.timedelta_hours 1 in
      let durata := Tempo.timedelta_hours durata_ore in
      '(finestre, fine) ←
         ciclo amb file_con_timestamp shapefile_path statistiche_config
               durata max_time_effettivo fuel
               {| corrente := min_time; risultati := [];
                  lista_finestre_log := []; valutate := [] |};
      Some (finestre,
            st ← fine;
            match py_max (fun x => chiave_media (snd x)) (risultati st) with
            | None => Ok (None, lista_finestre_log st)
            | Some m => Ok (Some (snd m), lista_finestre_log st)
            end)
  end.

(** [finestre_mobili_con_somma_e_ritaglio], with the windows the
    summation was called on.  [None] only when the fuel runs out. *)
Definition finestre_mobili_tracciate (amb : ambiente) (fuel : nat)
    (file_con_timestamp : list (percorso * Z)) (durata_ore : Z)
    (data_corrente : Z) (shapefile_path : string)
    (statistiche_config : gmap string bool)
    : option (list (Z * Z) * ritorno) :=
  match file_con_timestamp with
  | [] => Some ([], Ok (None, []))
  | _ :: _ =>
      match gpd_read_file amb shapefile_path with
      | Eccezione _ => Some ([], Ok (None, []))
      | Ok _ =>
          if durata_ore =? 24 then
            Some (caso_24h amb file_con_timestamp data_corrente shapefile_path
                           statistiche_config)
          else
            caso_mobile amb fuel file_con_timestamp durata_ore shapefile_path
                        statistiche_config
      end
  end.

Definition finestre_mobili_con_somma_e_ritaglio (amb : ambiente) (fuel : nat)
    (file_con_timestamp : list (percorso * Z)) (durata_ore : Z)
    (data_corrente : Z) (shapefile_path : string)
    (statistiche_config : gmap string bool) : option ritorno :=
  snd <$> finestre_mobili_tracciate amb fuel file_con_timestamp durata_ore
            data_corrente shapefile_path statistiche_config.

(** Fuel that is enough for both loops. *)
Definition carburante (file_con_timestamp : list (percorso * Z))
    (durata_ore : Z) : nat :=
  match map snd file_con_timestamp with
  | [] => 1%nat
  | t0 :: altri =>
      Z.to_nat ((massimo t0 altri + Tempo.ora - minimo t0 altri
                 - Tempo.timedelta_hours durata_ore) / Tempo.ora + 1) + 1
  end.

(** The try/except around each duration in [processa_zona_giorno]:
    an exception of the search becomes a null result and an empty log. *)
Definition risultato_durata (r : ritorno)
    : option (gmap string float) * list voce_log :=
  match r with
  | Ok v => v
  | Eccezione _ => (None, [])
  end.

End Finestre.

(** ** Result tables and the Peq0 post-pass *)

Module Tabelle.

(** A date-by-zone table: the zone columns (every column but ['Data'])
    and, for each row, the ['Data'] string with the cells in column order.
    A missing cell is NaN. *)
Record DataFrame := {
  colonne : list string;
  righe : list (string * list float)
}.

(** [df[col]] for the column at position [j]. *)
Definition serie (df : DataFrame) (j : nat) : list float :=
  map (fun r => nth j (snd r) nan) (righe df).

(** *** [calcola_cum_5d] *)

(** [s.rolling(window=w, min_periods=p).sum()]: a series with the rows
    of [s], whose values are pandas' work. *)
Definition rolling_sum (amb : ambiente) (w p : nat) (s : list float) : list float :=
  map (pd_rolling_sum amb w p s) (seq 0 (length s)).

(** [s.shift(1)] *)
Definition shift1 (s : list float) : list float :=
  match s with
  | [] => []
  | _ :: _ => nan :: removelast s
  end.

(** [s.fillna(0)] *)
Definition fillna (s : list float) : list float := map F.fillna0 s.

(** The new column of [calcola_cum_5d]:
    [rolling(window=6, min_periods=1).sum().shift(1).fillna(0)]. *)
Definition colonna_cum_5d (amb : ambiente) (s : list float) : list float :=
  fillna (shift1 (rolling_sum amb 6 1 s)).

(** A copy of [df] whose zone column [j] is [nuova j]. *)
Definition con_colonne (df : DataFrame) (nuova : nat -> list float) : DataFrame :=
  {| colonne := colonne df;
     righe := imap (fun i r =>
                      (fst r, map (fun j => nth i (nuova j) nan)
                                  (seq 0 (length (colonne df)))))
                   (righe df) |}.

Definition calcola_cum_5d (amb : ambiente) (df_24h : DataFrame) : DataFrame :=
  con_colonne df_24h (fun j => colonna_cum_5d amb (serie df_24h j)).

(** *** [calcola_peq0_per_tutte_zone] *)

Definition calcola_peq0_per_tutte_zone (cum_5d : DataFrame)
    (zone_cn : gmap string float) : esito DataFrame :=
  nuove ← mapM (fun r =>
             celle ← mapM (fun cp : string * float =>
                        match zone_cn !! fst cp with
                        | Some cn_value => Peq0.peq0_cella cn_value (snd cp)
                        | None => Ok F.zero
                        end)
                      (zip (colonne cum_5d) (snd r));
             Ok (fst r, celle))
           (righe cum_5d);
  Ok {| colonne := colonne cum_5d; righe := nuove |}.

(** *** [somma_statistiche_con_peq0] *)

(** Position of a column name. *)
Fixpoint posizione (col : string) (cols : list string) : option nat :=
  match cols with
  | [] => None
  | c :: resto =>
      if String.eqb c col then Some O else S <$> posizione col resto
  end.

(** [df_statistica.merge(df_peq0, on='Data', how='left', ...)], the
    rows: every row of the left table, in order, once per row of the right
    table with the same date, and once with no right row when there is
    none. *)
Definition merge_left (df_statistica df_peq0 : DataFrame)
    : list (string * list float * option (list float)) :=
  flat_map (fun r =>
              match List.filter (fun q => String.eqb (fst q) (fst r)) (righe df_peq0) with
              | [] => [(fst r, snd r, None)]
              | trovate => map (fun q => (fst r, snd r, Some (snd q))) trovate
              end)
           (righe df_statistica).

(** [c in cols] *)
Definition presente (c : string) (cols : list string) : bool :=
  existsb (String.eqb c) cols.

(** The labels of the columns of the right table in [merged], with
    [suffixes=('', '_peq0')]: a name that is also a column of the left
    table gets the suffix [_peq0], any other name stays; the labels of the
    left table are its names. *)
Definition etichetta_destra (sinistra : list string) (c : string) : string :=
  if presente c sinistra then c +:+ "_peq0" else c.

Definition etichette_destra (sinistra destra : list string) : list string :=
  map (etichetta_destra sinistra) destra.

(** pandas refuses suffixes that make two columns of the right table
    equal ([MergeError]): a label that repeats an earlier label while its
    name did not repeat an earlier name. *)
Definition conflitto_suffissi (sinistra destra : list string) : bool :=
  let etichette := etichette_destra sinistra destra in
  existsb (fun k => presente (nth k etichette "") (firstn k etichette)
                    && negb (presente (nth k destra "") (firstn k destra)))
          (seq 0 (length destra)).

(** The positions of a label among the columns, counted from [da]. *)
Fixpoint posizioni (label : string) (cols : list string) (da : nat) : list nat :=
  match cols with
  | [] => []
  | c :: resto =>
      if String.eqb c label then da :: posizioni label resto (S da)
      else posizioni label resto (S da)
  end.

(** One turn of the loop over [zone_columns], for the column [col]: the
    position of [merged[col]] and, when [col_peq0] is a column of
    [merged], the position of [merged[col_peq0]].  A label carried by
    several columns selects a frame, not a series, and the assignment to
    [result[col]] raises. *)
Definition addendo (cols : list string) (col : string) : esito (nat * option nat) :=
  match posizioni col cols 0 with
  | [j] =>
      match posizioni (col +:+ "_peq0") cols 0 with
      | [] => Ok (j, None)
      | [k] => Ok (j, Some k)
      | _ => Eccezione "ValueError"
      end
  | _ => Eccezione "ValueError"
  end.

(** The cell of a row of [merged] at the column position [k]: the
    columns of the left table come first ([n_sx] of them), then those of
    the right table, missing when the date has no row there. *)
Definition cella_merged (n_sx : nat)
    (riga : string * list float * option (list float)) (k : nat) : float :=
  let '(_, sx, dx) := riga in
  if (k <? n_sx)%nat then nth k sx nan
  else match dx with
       | Some celle => nth (k - n_sx) celle nan
       | None => nan
       end.

(** One cell of the result:
    [merged[col].fillna(0) + merged[col_peq0].fillna(0)] when [col_peq0]
    is a column of [merged], [merged[col].fillna(0)] otherwise. *)
Definition cella_sommata (n_sx : nat)
    (riga : string * list float * option (list float))
    (piano : nat * option nat) : float :=
  match snd piano with
  | Some k =>
      (F.fillna0 (cella_merged n_sx riga (fst piano))
       + F.fillna0 (cella_merged n_sx riga k))%float
  | None => F.fillna0 (cella_merged n_sx riga (fst piano))
  end.

(** [sort_values('Data')]: rows in increasing order of the date
    string (an insertion sort; the order pandas gives to rows of equal
    date is not fixed). *)
Fixpoint inserisci (r : string * list float) (l : list (string * list float))
    : list (string * list float) :=
  match l with
  | [] => [r]
  | x :: l' => if String.leb (fst r) (fst x) then r :: l else x :: inserisci r l'
  end.

Definition sort_values_Data (l : list (string * list float))
    : list (string * list float) :=
  fold_right inserisci [] l.

Definition somma_statistiche_con_peq0 (df_statistica df_peq0 : DataFrame)
    : esito DataFrame :=
  let sinistra := colonne df_statistica in
  let destra := colonne df_peq0 in
  if conflitto_suffissi sinistra destra then Eccezione "MergeError"
  else
    let merged := merge_left df_statistica df_peq0 in
    let merged_columns := sinistra ++ etichette_destra sinistra destra in
    let zone_columns := sinistra in
    piani ← mapM (addendo merged_columns) zone_columns;
    let result :=
      map (fun riga =>
             (fst (fst riga), map (cella_sommata (length sinistra) riga) piani))
          merged in
    Ok {| colonne := zone_columns; righe := sort_values_Data result |}.

(** The row of the result built from the row [r] of the base table. *)
Definition riga_sommata (base peq0 : DataFrame) (piani : list (nat * option nat))
    (r : string * list float) : string * list float :=
  let dx := snd <$> List.find (fun q => String.eqb (fst q) (fst r)) (righe peq0) in
  (fst r, map (cella_sommata (length (colonne base)) (fst r, snd r, dx)) piani).

(** *** The sheets of the Peq0 pass *)

(** The sheet name of a base table, [f"{stat}_{durata}h"]. *)
Definition chiave_foglio (stat : string) (durata : Z) : string :=
  stat +:+ "_" +:+ pretty durata +:+ "h".

(** The loop of [main] that fills [fogli_peq0]: the Peq0 and Cum_5d
    sheets, then one sheet [..._Peq0] for every base table present in
    [dataframes_finali]; an exception of the merge ends the loop. *)
Definition crea_fogli_peq0 (dataframes_finali : gmap string DataFrame)
    (peq0_df cum_5d : DataFrame) (durate : list Z)
    (statistiche_attive : list string) : esito (gmap string DataFrame) :=
  fold_left (fun acc durata =>
    fold_left (fun acc stat =>
      fogli ← acc;
      let chiave_originale := chiave_foglio stat durata in
      let chiave_peq0 := chiave_originale +:+ "_Peq0" in
      match dataframes_finali !! chiave_originale with
      | Some df_originale =>
          df_con_peq0 ← somma_statistiche_con_peq0 df_originale peq0_df;
          Ok (<[chiave_peq0 := df_con_peq0]> fogli)
      | None => Ok fogli
      end) statistiche_attive acc)
    durate (Ok (<["Cum_5d" := cum_5d]> (<["Peq0" := peq0_df]> ∅))).

(** Writing the sheets into the workbook of the base tables
    ([mode='a', if_sheet_exists='replace']): a sheet of the same name is
    replaced, the others stay. *)
Definition scrivi_fogli (cartella fogli : gmap string DataFrame)
    : gmap string DataFrame :=
  fogli ∪ cartella.

(** The last character of a name. *)
Fixpoint ultimo (s : string) : option ascii :=
  match s with
  | EmptyString => None
  | String c EmptyString => Some c
  | String _ s' => ultimo s'
  end.

(** *** Reading a table by date and zone *)

(** The cell at date [d] and zone [z]: [None] when the table has no
    row for the date or no column for the zone. *)
Definition cella (df : DataFrame) (d z : string) : option float :=
  match List.find (fun r => String.eqb (fst r) d) (righe df),
        posizione z (colonne df) with
  | Some r, Some j => Some (nth j (snd r) nan)
  | _, _ => None
  end.

(** The same with an absent entry read as missing (NaN). *)
Definition valore (df : DataFrame) (d z : string) : float :=
  default nan (cella df d z).

Definition date (df : DataFrame) : list string := map fst (righe df).

(** *** The antecedent rainfall in the words of the specification *)


(** *** The merge as the specification words it *)

(** For every date of either table and every zone of the base table the
    result holds base + peq0, an absent or missing entry on either side
    counting as zero. *)
Definition fusione_dichiarata (base peq0 risultato : DataFrame) : Prop :=
  forall d z,
    In z (colonne base) ->
    In d (date base) \/ In d (date peq0) ->
    cella risultato d z
      = Some (F.fillna0 (valore base d z) + F.fillna0 (valore peq0 d z))%float.

End Tabelle.

(** ** A small concrete environment

    Used to run the definitions on explicit inputs: an archive with a few
    one-pixel tiles, a crop that keeps the whole raster, plain
    left-to-right versions of numpy's reductions and the running sum of
    pandas. *)

Module Esempi.

Definition di_nat (n : nat) : float := PrimFloat.of_uint63 (Uint63.of_Z (Z.of_nat n)).

Definition somma (l : list float) : float := fold_left PrimFloat.add l F.zero.
Definition media (l : list float) : float := (somma l / di_nat (length l))%float.
Definition massimo (l : list float) : float :=
  match l with
  | [] => nan
  | x :: r => fold_left (fun a b => if PrimFloat.ltb a b then b else a) r x
  end.
Definition minimo (l : list float) : float :=
  match l with
  | [] => nan
  | x :: r => fold_left (fun a b => if PrimFloat.ltb b a then b else a) r x
  end.

Fixpoint inserisci (x : float) (l : list float) : list float :=
  match l with
  | [] => [x]
  | y :: l' => if PrimFloat.leb x y then x :: l else y :: inserisci x l'
  end.
Definition ordina (l : list float) : list float := fold_right inserisci [] l.

(** Percentile by linear interpolation between the two nearest ranks. *)
Definition percentile (l : list float) (q : Z) : float :=
  let s := ordina l in
  let pos := q * (Z.of_nat (length l) - 1) in
  let i := Z.to_nat (pos / 100) in
  let a := nth i s nan in
  let b := nth (Nat.min (i + 1) (length l - 1)) s nan in
  (a + (b - a) * (di_nat (Z.to_nat (pos mod 100)) / 100))%float.

Definition deviazione (l : list float) : float :=
  let m := media l in
  PrimFloat.sqrt (media (map (fun x => ((x - m) * (x - m))%float) l)).

(** pandas' rolling sum over the fixed window of [w] rows that ends at
    each row ([roll_sum] of its window aggregations): a running sum with
    Kahan compensation, to which the value entering the window is added
    and from which the value leaving it is removed; a missing value is not
    counted, an infinite one is read as missing, and a window of equal
    values gives their product by their number. *)
Record somma_mobile := {
  nobs : nat;
  sum_x : float;
  compensation_add : float;
  compensation_remove : float;
  num_consecutive_same_value : nat;
  prev_value : float
}.

Definition add_sum (val : float) (a : somma_mobile) : somma_mobile :=
  if PrimFloat.eqb val val then
    let y := (val - compensation_add a)%float in
    let t := (sum_x a + y)%float in
    {| nobs := S (nobs a);
       sum_x := t;
       compensation_add := (t - sum_x a - y)%float;
       compensation_remove := compensation_remove a;
       num_consecutive_same_value :=
         if PrimFloat.eqb val (prev_value a)
         then S (num_consecutive_same_value a) else 1%nat;
       prev_value := val |}
  else a.

Definition remove_sum (val : float) (a : somma_mobile) : somma_mobile :=
  if PrimFloat.eqb val val then
    let y := (- val - compensation_remove a)%float in
    let t := (sum_x a + y)%float in
    {| nobs := pred (nobs a);
       sum_x := t;
       compensation_add := compensation_add a;
       compensation_remove := (t - sum_x a - y)%float;
       num_consecutive_same_value := num_consecutive_same_value a;
       prev_value := prev_value a |}
  else a.

Definition calc_sum (minp : nat) (a : somma_mobile) : float :=
  if (nobs a =? 0)%nat && (minp =? 0)%nat then F.zero
  else if (minp <=? nobs a)%nat then
    if (nobs a <=? num_consecutive_same_value a)%nat
    then (prev_value a * di_nat (nobs a))%float
    else sum_x a
  else nan.

(** The running state after the window that ends at row [i]. *)
Fixpoint stato_mobile (w : nat) (values : list float) (i : nat) : somma_mobile :=
  let s := (i + 1 - w)%nat in
  let da_capo :=
    fold_left (fun a j => add_sum (nth j values nan) a) (seq s (i + 1 - s))
      {| nobs := 0; sum_x := F.zero; compensation_add := F.zero;
         compensation_remove := F.zero; num_consecutive_same_value := 0;
         prev_value := nth s values nan |} in
  match i with
  | O => da_capo
  | S i' =>
      if (i <=? s)%nat then da_capo
      else
        let a := stato_mobile w values i' in
        let a := fold_left (fun a j => remove_sum (nth j values nan) a)
                           (seq (i' + 1 - w) (s - (i' + 1 - w))) a in
        add_sum (nth i values nan) a
  end.

Definition rolling_sum (w p : nat) (s : list float) (i : nat) : float :=
  let values := map (fun v => if PrimFloat.is_infinity v then nan else v) s in
  calc_sum p (stato_mobile w values i).

(** A one-pixel band. *)
Definition punto (v : float) : array := {| forma := (1%nat, 1%nat); valori := [v] |}.
Definition tile_buona (v : float) : esito dataset :=
  Ok {| count := 1; banda1 := Ok (punto v); crs := None |}.

(** The archive: the files whose name starts with [x] cannot be
    opened, the others hold one pixel whose value is the hour of their
    name (0 when the name has no timestamp). *)
Definition apri (p : percorso) : esito dataset :=
  match nome p with
  | String "x" _ => Eccezione "not recognized as a supported file format"
  | n =>
      match Nomi.estrai_timestamp n with
      | Ok (Some t) => tile_buona (di_nat (Z.to_nat ((t mod Tempo.giorno) / Tempo.ora)))
      | _ => tile_buona F.zero
      end
  end.

(** Day 19362 is 2023-01-05. *)
Definition elenco (d : Z) : option (list string) :=
  if d =? 19362 then Some ["x_20230105090000.tif"; "r_20230105100000.tif"]
  else None.

Definition amb : ambiente := {|
  forme := unit;
  os_listdir := elenco;
  rasterio_open := apri;
  gpd_read_file := fun _ => Ok tt;
  rasterio_mask := fun r _ => Ok (r_dati r);
  np_mean := media;
  np_median := fun l => percentile l 50;
  np_percentile := percentile;
  np_max := massimo;
  np_min := minimo;
  np_std := deviazione;
  pd_rolling_sum := rolling_sum
|}.

Definition file (n : string) : percorso := {| cartella := 19362; nome := n |}.

(** 2023-01-05 00:00 and the hours after it. *)
Definition t0 : Z := 19362 * Tempo.giorno.
Definition alle (h : Z) : Z := t0 + h * Tempo.ora.

(** Three good tiles, at 10:00, 11:00 and 12:00. *)
Definition tre_tile : list (percorso * Z) :=
  [(file "r_20230105100000.tif", alle 10);
   (file "r_20230105110000.tif", alle 11);
   (file "r_20230105120000.tif", alle 12)].

(** A base table with one date and a Peq0 table with one more. *)
Definition tabella_base : Tabelle.DataFrame :=
  {| Tabelle.colonne := ["IM_01"; "IM_02"];
     Tabelle.righe := [("2023-01-01", [1; nan])]%float |}.
Definition tabella_peq0 : Tabelle.DataFrame :=
  {| Tabelle.colonne := ["IM_01"; "IM_02"];
     Tabelle.righe := [("2023-01-01", [2; 4]); ("2023-01-02", [3; 5])]%float |}.


Definition tutte : gmap string bool :=
  list_to_map [("media", true); ("max", true); ("min", true)].

End Esempi.

(** ** The number of worker processes *)

Module Processi.

(** [get_optimal_process_count], as a function of what
    [psutil.cpu_count(logical=True)] returns. *)
Definition get_optimal_process_count (total_cores : Z) : Z :=
  Z.max 1 (total_cores / 3 - 1).

End Processi.

(** ** Sorting

    [sorted(l)]: an insertion sort that keeps the order of equal
    elements, for an order given as a boolean [leb]. *)

Module Ordinamento.

Fixpoint inserisci {A} (leb : A -> A -> bool) (x : A) (l : list A) : list A :=
  match l with
  | [] => [x]
  | y :: l' => if leb x y then x :: l else y :: inserisci leb x l'
  end.

Definition sorted {A} (leb : A -> A -> bool) (l : list A) : list A :=
  fold_right (inserisci leb) [] l.

(** The order of two tile paths as strings: the day directories
    [YYYY/MM/DD] compare as their days, two files of one directory as
    their names. *)
Definition percorso_leb (p q : percorso) : bool :=
  (cartella p <? cartella q)
  || ((cartella p =? cartella q) && String.leb (nome p) (nome q)).

End Ordinamento.

(** ** The summary of an integrity report *)

Module Riepilogo.

Record riepilogo := {
  totale_corrotti : nat;
  totale_mancanti : nat;
  totale_validi : nat;
  giorni_analizzati : nat
}.

(** [FileIntegrityReport.get_summary] *)
Definition get_summary (r : Integrita.FileIntegrityReport) : riepilogo :=
  {| totale_corrotti := length (Integrita.file_corrotti r);
     totale_mancanti := length (Integrita.file_mancanti r);
     totale_validi := length (Integrita.file_validi r);
     giorni_analizzati := size (Integrita.giorni_analizzati r) |}.

End Riepilogo.

(** ** The tiles of a day *)

Module Elenco.

(** The test both scans of a day directory make on a name:
    [f.endswith('.tif')] and a timestamp with [minute == 0] and
    [second == 0].  False as well when [estrai_timestamp] raises. *)
Definition tile_oraria (nome_file : string) : bool :=
  Nomi.endswith_tif nome_file &&
  match Nomi.estrai_timestamp nome_file with
  | Ok (Some timestamp) =>
      (Tempo.minute timestamp =? 0) && (Tempo.second timestamp =? 0)
  | _ => false
  end.

(** The path of the file [f] of the directory of the day. *)
Definition nel_giorno (data_corrente : Z) (f : string) : percorso :=
  {| cartella := Tempo.date data_corrente; nome := f |}.

(** The timestamp in a name that holds one. *)
Definition marca (nome_file : string) : Z :=
  match Nomi.estrai_timestamp nome_file with
  | Ok (Some timestamp) => timestamp
  | _ => 0
  end.

(** The file opens and band 1 reads. *)
Definition leggibile (amb : ambiente) (p : percorso) : bool :=
  riuscito (Finestre.leggi amb p).

(** The file opens and has a band. *)
Definition con_bande (amb : ambiente) (p : percorso) : bool :=
  match rasterio_open amb p with
  | Ok src => (0 <? count src)%nat
  | Eccezione _ => false
  end.

(** The top-of-hour tiles among the names of a day directory that can
    be read, and those that cannot, in the order of the listing. *)
Definition tile_leggibili (amb : ambiente) (data_corrente : Z)
    (nomi : list string) : list string :=
  List.filter (fun f => tile_oraria f && leggibile amb (nel_giorno data_corrente f))
              nomi.

Definition tile_illeggibili (amb : ambiente) (data_corrente : Z)
    (nomi : list string) : list string :=
  List.filter (fun f => tile_oraria f
                        && negb (leggibile amb (nel_giorno data_corrente f)))
              nomi.

(** The entry of the report for a valid tile. *)
Definition voce_del_file (data_corrente : Z) (f : string) : Integrita.voce_valida :=
  {| Integrita.v_data := Tempo.date data_corrente;
     Integrita.v_timestamp := marca f;
     Integrita.v_percorso := nel_giorno data_corrente f |}.

(** The 24 expected timestamps of a day. *)
Definition ore_attese (data_corrente : Z) : list Z :=
  map (Tempo.replace_ora data_corrente) Integrita.ore_del_giorno.

(** What the verification is to record for one day: as valid, the
    readable top-of-hour tiles of the listing; as corrupt (day, timestamp
    and path), the unreadable ones; as missing, every expected timestamp
    that no readable tile of the listing carries, and all 24 when the
    directory does not exist. *)
Definition validi_del_giorno (amb : ambiente) (data_corrente : Z)
    : list Integrita.voce_valida :=
  match os_listdir amb (Tempo.date data_corrente) with
  | Some nomi =>
      map (voce_del_file data_corrente) (tile_leggibili amb data_corrente nomi)
  | None => []
  end.

Definition corrotti_del_giorno (amb : ambiente) (data_corrente : Z)
    : list (Z * Z * percorso) :=
  match os_listdir amb (Tempo.date data_corrente) with
  | Some nomi =>
      map (fun f => (Tempo.date data_corrente, marca f, nel_giorno data_corrente f))
          (tile_illeggibili amb data_corrente nomi)
  | None => []
  end.

Definition mancanti_del_giorno (amb : ambiente) (data_corrente : Z)
    : list Integrita.voce_mancante :=
  map (fun ts => {| Integrita.m_data := Tempo.date data_corrente;
                    Integrita.m_timestamp := ts |})
      match os_listdir amb (Tempo.date data_corrente) with
      | Some nomi =>
          List.filter
            (fun ts => negb (existsb (Z.eqb ts)
                               (map marca (tile_leggibili amb data_corrente nomi))))
            (ore_attese data_corrente)
      | None => ore_attese data_corrente
      end.

(** A name of the listing of the day on which [estrai_timestamp] is
    called and raises. *)
Definition nome_non_valido (amb : ambiente) (data_corrente : Z) (f : string) : Prop :=
  exists nomi,
    os_listdir amb (Tempo.date data_corrente) = Some nomi /\ In f nomi /\
    Nomi.endswith_tif f = true /\ riuscito (Nomi.estrai_timestamp f) = false.

(** The body of the fallback loop [for f in os.listdir(path)]: only
    [rasterio.open] is inside the [try]. *)
Definition aggiungi_file (amb : ambiente) (data_corrente : Z)
    (files : list percorso) (f : string) : esito (list percorso) :=
  if Nomi.endswith_tif f then
    timestamp ← Nomi.estrai_timestamp f;
    match timestamp with
    | Some t =>
        if (Tempo.minute t =? 0) && (Tempo.second t =? 0) then
          let file_path := nel_giorno data_corrente f in
          match rasterio_open amb file_path with
          | Ok src =>
              if (0 <? count src)%nat then Ok (files ++ [file_path]) else Ok files
          | Eccezione _ => Ok files
          end
        else Ok files
    | None => Ok files
    end
  else Ok files.

Fixpoint aggiungi_tutti (amb : ambiente) (data_corrente : Z)
    (files : list percorso) (nomi : list string) : esito (list percorso) :=
  match nomi with
  | [] => Ok files
  | f :: resto =>
      files' ← aggiungi_file amb data_corrente files f;
      aggiungi_tutti amb data_corrente files' resto
  end.

(** [ottieni_lista_file_giorno(data_corrente, integrity_report)]; an
    entry of the report is of the day when its ['data'] string is the
    one of [data_corrente]. *)
Definition ottieni_lista_file_giorno (amb : ambiente) (data_corrente : Z)
    (integrity_report : option Integrita.FileIntegrityReport)
    : esito (list percorso) :=
  match os_listdir amb (Tempo.date data_corrente) with
  | None => Ok []
  | Some nomi =>
      files ← match integrity_report with
              | Some report =>
                  Ok (map Integrita.v_percorso
                        (List.filter
                           (fun file_info =>
                              Integrita.v_data file_info =? Tempo.date data_corrente)
                           (Integrita.file_validi report)))
              | None => aggiungi_tutti amb data_corrente [] nomi
              end;
      Ok (Ordinamento.sorted Ordinamento.percorso_leb files)
  end.

End Elenco.

(** ** The entries of the search log *)

Module Ricerca.

(** What holds of an entry the search logs for the duration [durata]
    (in seconds) on the tiles [lista]: the window has that length, the
    files are the tiles of the list in the window, at least one, and the
    dictionary is not empty and is what the statistics function returned
    for some cropped array. *)
Definition voce_regolare (amb : ambiente) (lista : list (percorso * Z))
    (cfg : gmap string bool) (durata : Z) (e : Finestre.voce_log) : Prop :=
  Finestre.l_fine e = Finestre.l_inizio e + durata /\
  Finestre.l_file e
    = map basename (Finestre.file_finestra lista (Finestre.l_inizio e)
                                           (Finestre.l_fine e)) /\
  Finestre.l_file e <> [] /\
  Finestre.vero (Some (Finestre.l_stats e)) = true /\
  exists a,
    Finestre.calcola_statistiche_su_array_ritagliato amb (Some a) cfg
      = Some (Finestre.l_stats e).

(** What the search does with one window [[inizio, fine)]: the
    summation over the list, the crop of the summed raster and the
    statistics of the crop, with the names of the files summed; the
    exception is that of the summation. *)
Definition valuta_finestra (amb : ambiente) (lista : list (percorso * Z))
    (shp : string) (cfg : gmap string bool) (inizio fine : Z)
    : esito (option (gmap string float) * list string) :=
  somma ← Finestre.somma_file_tif_finestra amb lista inizio fine;
  Ok match somma with
     | None => (None, [])
     | Some out =>
         (Finestre.calcola_statistiche_su_array_ritagliato amb
            (Finestre.ritaglia_raster_sommato_con_shapefile amb
               (Some (Finestre.temp_file out)) shp)
            cfg,
          Finestre.file_inclusi out)
     end.

(** The entry a window adds to the log: a window produces statistics
    when its dictionary is there and passes [if stats:]. *)
Definition voce_finestra (amb : ambiente) (lista : list (percorso * Z))
    (shp : string) (cfg : gmap string bool) (w : Z * Z)
    : option Finestre.voce_log :=
  match valuta_finestra amb lista shp cfg (fst w) (snd w) with
  | Ok (Some d, file) =>
      if Finestre.vero (Some d)
      then Some {| Finestre.l_inizio := fst w; Finestre.l_fine := snd w;
                   Finestre.l_stats := d; Finestre.l_file := file |}
      else None
  | _ => None
  end.

(** The mean of a window: the mean statistic it has when the mean is
    asked for (numpy's mean of the valid pixels of the crop of its sum),
    whatever the configuration of the run. *)
Definition media_finestra (amb : ambiente) (lista : list (percorso * Z))
    (shp : string) (w : Z * Z) : option float :=
  match valuta_finestra amb lista shp {[ "media" := true ]} (fst w) (snd w) with
  | Ok (Some d, _) => d !! "media"
  | _ => None
  end.

(** The windows of a search in which no call raises and the zone file
    loads: for 24 hours the day of [data_corrente] when the list has a
    tile of that day, and no window otherwise; for another duration the
    windows that start at the earliest timestamp and every hour after it
    and end by the latest timestamp plus one hour. *)
Definition finestre_attese (lista : list (percorso * Z))
    (durata_ore data_corrente : Z) : list (Z * Z) :=
  match map snd lista with
  | [] => []
  | t0 :: altri =>
      if durata_ore =? 24 then
        if existsb (fun x => Tempo.date (snd x) =? Tempo.date data_corrente) lista
        then [(Tempo.replace_ora data_corrente 0,
               Tempo.replace_ora data_corrente 0 + Tempo.giorno)]
        else []
      else
        let min_time := Finestre.minimo t0 altri in
        let max_time_effettivo := Finestre.massimo t0 altri + Tempo.timedelta_hours 1 in
        let durata := Tempo.timedelta_hours durata_ore in
        Finestre.finestre_da
          (Z.to_nat (Finestre.numero_finestre min_time durata max_time_effettivo))
          min_time durata
  end.

End Ricerca.

(** ** Runs of digits in a name *)

Module Sequenze.

(** The [n] characters of [s] from position [k] on are decimal digits,
    and [ds] are their values. *)
Definition sequenza_a (s : string) (k n : nat) (ds : list Z) : Prop :=
  length ds = n /\
  forall i, (i < n)%nat ->
    exists c, String.get (k + i) s = Some c /\
              48 <= Z.of_nat (nat_of_ascii c) <= 57 /\
              nth i ds 0 = Z.of_nat (nat_of_ascii c) - 48.

(** The leftmost run of [n] digits of [s] starts at [k]. *)
Definition prima_sequenza (s : string) (n k : nat) (ds : list Z) : Prop :=
  sequenza_a s k n ds /\
  forall j ds', (j < k)%nat -> ~ sequenza_a s j n ds'.

End Sequenze.

(** ** The worker *)

Module Lavoro.

(** A Python dict keyed by a duration, in insertion order: setting a key
    that is present keeps its place. *)
Definition dict (V : Type) : Type := list (Z * V).

Fixpoint dict_set {V} (d : dict V) (k : Z) (v : V) : dict V :=
  match d with
  | [] => [(k, v)]
  | (k', v') :: d' =>
      if k' =? k then (k, v) :: d' else (k', v') :: dict_set d' k v
  end.

Definition dict_get {V} (d : dict V) (k : Z) : option V :=
  snd <$> List.find (fun kv => fst kv =? k) d.

(** [s.split('.')[0]] *)
Fixpoint prima_del_punto (s : string) : string :=
  match s with
  | EmptyString => EmptyString
  | String c s' =>
      if Ascii.eqb c "." then EmptyString else String c (prima_del_punto s')
  end.

(** What a task returns: the zone name, the day, the statistics and the
    log of every duration. *)
Record esito_zona := {
  z_nome : string;
  z_data : Z;
  z_risultati : dict (option (gmap string float));
  z_log : dict (list Finestre.voce_log)
}.

(** [{durata: None for durata in durate}] *)
Definition tutte_nulle (durate : list Z) : dict (option (gmap string float)) :=
  fold_left (fun d durata => dict_set d durata None) durate [].

(** The body of [for durata in durate], with its [try]; the search runs
    on fuel that is enough for it ([None] if it were not). *)
Definition per_durata (amb : ambiente) (file_con_timestamp : list (percorso * Z))
    (data_corrente : Z) (zona_path : string)
    (statistiche_config : gmap string bool)
    (acc : option (dict (option (gmap string float)) * dict (list Finestre.voce_log)))
    (durata : Z)
    : option (dict (option (gmap string float)) * dict (list Finestre.voce_log)) :=
  '(risultati, log_data) ← acc;
  r ← Finestre.finestre_mobili_con_somma_e_ritaglio amb
         (Finestre.carburante file_con_timestamp durata)
         file_con_timestamp durata data_corrente zona_path statistiche_config;
  let '(risultato, finestre_log) := Finestre.risultato_durata r in
  Some (dict_set risultati durata risultato, dict_set log_data durata finestre_log).

(** The pairs [(raster, timestamp)] of the tiles whose name holds a
    timestamp; [estrai_timestamp] may raise. *)
Definition con_timestamp (raster_giorno : list percorso)
    : esito (list (percorso * Z)) :=
  coppie ← mapM (fun raster =>
              timestamp ← Nomi.estrai_timestamp (basename raster);
              Ok (raster, timestamp))
            raster_giorno;
  Ok (omap (fun c : percorso * option Z =>
              match snd c with
              | Some t => Some (fst c, t)
              | None => None
              end) coppie).

(** [processa_zona_giorno]; the zone file is named by its file name in
    the zone directory, which is the base name of the path [main]
    builds.  Any exception outside the loop of the durations gives the
    all-null result. *)
Definition processa_zona_giorno (amb : ambiente) (zona_path : string)
    (data_corrente : Z) (durate : list Z)
    (statistiche_config : gmap string bool)
    (integrity_report : option Integrita.FileIntegrityReport)
    : option esito_zona :=
  let zona_nome := prima_del_punto zona_path in
  let nulle := {| z_nome := zona_nome; z_data := data_corrente;
                  z_risultati := tutte_nulle durate; z_log := [] |} in
  match Elenco.ottieni_lista_file_giorno amb data_corrente integrity_report with
  | Eccezione _ => Some nulle
  | Ok [] => Some nulle
  | Ok raster_giorno =>
      match con_timestamp raster_giorno with
      | Eccezione _ => Some nulle
      | Ok [] => Some nulle
      | Ok file_con_timestamp =>
          '(risultati, log_data) ←
             fold_left (per_durata amb file_con_timestamp data_corrente
                          zona_path statistiche_config)
                       durate (Some ([], []));
          Some {| z_nome := zona_nome; z_data := data_corrente;
                  z_risultati := risultati; z_log := log_data |}
      end
  end.

End Lavoro.

(** ** The ranking written to the log *)

Module Registro.

(** [sorted(finestre_dati, key=..., reverse=True)]: decreasing keys,
    equal keys in their original order (for keys that are numbers). *)
Fixpoint inserisci_decrescente {A} (key : A -> float) (x : A) (l : list A)
    : list A :=
  match l with
  | [] => [x]
  | y :: l' =>
      if PrimFloat.ltb (key x) (key y) then y :: inserisci_decrescente key x l'
      else x :: l
  end.

Definition finestre_ordinate (finestre_dati : list Finestre.voce_log)
    : list Finestre.voce_log :=
  fold_right
    (inserisci_decrescente (fun x => Finestre.chiave_media (Finestre.l_stats x)))
    [] finestre_dati.

(** [max_finestra = finestre_ordinate[0]] of
    [log_finestre_analizzate]; nothing is ranked for an empty list. *)
Definition max_finestra (finestre_dati : list Finestre.voce_log)
    : option Finestre.voce_log :=
  head (finestre_ordinate finestre_dati).

End Registro.

(** ** Curve numbers of the zones *)

Module CurveNumber.

(** The directory of the CN rasters: whether it exists, the names that
    match [*.ASC], and, for a name, the mean of band 1 of the raster
    ([float(np.ma.mean(src.read(1, masked=True)))]) or the exception of
    opening or reading it. *)
Record cartella_cn := {
  exists_ : bool;
  glob_ASC : list string;
  cn_medio : string -> esito float
}.

(** [name.rfind('.')] *)
Fixpoint rfind_punto (s : string) : option nat :=
  match s with
  | EmptyString => None
  | String c s' =>
      match rfind_punto s' with
      | Some i => Some (S i)
      | None => if Ascii.eqb c "." then Some O else None
      end
  end.

(** [Path.stem]: the name up to its last dot, when that dot is neither
    the first nor the last character. *)
Definition stem (name : string) : string :=
  match rfind_punto name with
  | Some i =>
      if (0 <? i)%nat && (i <? String.length name - 1)%nat
      then substring 0 i name else name
  | None => name
  end.

(** The characters of a string, last first. *)
Fixpoint rovescia (s : string) (acc : list ascii) : list ascii :=
  match s with
  | EmptyString => acc
  | String c s' => rovescia s' (c :: acc)
  end.

(** [int(re.search(r"(\d{1,2})$", stem).group())]: the last two
    characters when both are digits, the last one when it alone is; [$]
    also matches before a final newline. *)
Definition numero_zona (stem : string) : option Z :=
  let fine :=
    match rovescia stem [] with
    | "010"%char :: r => r
    | r => r
    end in
  match fine with
  | c1 :: c2 :: _ =>
      match Nomi.cifra c1, Nomi.cifra c2 with
      | Some d1, Some d2 => Some (Nomi.numero [d2; d1])
      | Some d1, None => Some (Nomi.numero [d1])
      | None, _ => None
      end
  | [c1] =>
      match Nomi.cifra c1 with
      | Some d1 => Some (Nomi.numero [d1])
      | None => None
      end
  | [] => None
  end.

(** [f"IM_{n:02d}"] for a number that is not negative. *)
Definition zona_key (n : Z) : string :=
  "IM_" +:+ (if n <? 10 then "0" +:+ pretty n else pretty n).

(** [calcola_cn_per_zone] *)
Definition calcola_cn_per_zone (raster_folder : cartella_cn)
    : gmap string float :=
  if negb (exists_ raster_folder) then ∅
  else
    fold_left (fun zone_cn asc_file =>
                 match numero_zona (stem asc_file) with
                 | None => zone_cn
                 | Some n =>
                     match cn_medio raster_folder asc_file with
                     | Ok cn => <[zona_key n := cn]> zone_cn
                     | Eccezione _ => zone_cn
                     end
                 end)
              (Ordinamento.sorted String.leb (glob_ASC raster_folder)) ∅.

End CurveNumber.

(** ** The orchestrator *)

Module Principale.

(** [risultati_finali]: sheet name, then date string, then zone name. *)
Abbreviation risultati_finali := (gmap string (gmap string (gmap string float))).

(** The sheets [main] prepares before the tasks: an empty one for every
    duration and every active statistic. *)
Definition tabelle_vuote (durate : list Z) (statistiche_attive : list string)
    : risultati_finali :=
  fold_left (fun rf durata =>
               fold_left (fun rf stat => <[Tabelle.chiave_foglio stat durata := ∅]> rf)
                         statistiche_attive rf)
            durate ∅.

(** The two statements that store one value:
    [if data_str not in risultati_finali[chiave]: ...[data_str] = {}]
    and [risultati_finali[chiave][data_str][zona_nome] = v]. *)
Definition salva_valore (rf : risultati_finali) (chiave data_str zona_nome : string)
    (v : float) : esito risultati_finali :=
  match rf !! chiave with
  | None => Eccezione "KeyError"
  | Some per_data =>
      let per_data :=
        match per_data !! data_str with
        | None => <[data_str := ∅]> per_data
        | Some _ => per_data
        end in
      match per_data !! data_str with
      | None => Eccezione "KeyError"
      | Some per_zona =>
          Ok (<[chiave := <[data_str := <[zona_nome := v]> per_zona]> per_data]> rf)
      end
  end.

(** The sheets after these two statements, unchanged when they
    raise. *)
Definition scrivi (chiave data_str zona_nome : string) (v : float)
    (rf : risultati_finali) : risultati_finali :=
  match salva_valore rf chiave data_str zona_nome v with
  | Ok rf' => rf'
  | Eccezione _ => rf
  end.

(** The sheets after storing, for one date and one zone, a list of
    values given with their sheet names. *)
Definition scrivi_tutte (data_str zona_nome : string) (valori : list (string * float))
    (rf : risultati_finali) : risultati_finali :=
  fold_left (fun rf cv => scrivi (fst cv) data_str zona_nome (snd cv) rf) valori rf.

(** A [for] loop whose body may raise: the exception ends the loop and
    what was stored before it stays. *)
Fixpoint per_ogni {S A} (corpo : S -> A -> S * option string) (l : list A) (s : S)
    : S * option string :=
  match l with
  | [] => (s, None)
  | x :: l' =>
      match corpo s x with
      | (s', None) => per_ogni corpo l' s'
      | (s', Some e) => (s', Some e)
      end
  end.

Section Raccolta.
(** [data_corrente.strftime('%Y-%m-%d')] *)
Variable strftime : Z -> string.
Variable statistiche_attive : list string.

(** The body of [for stat in statistiche_attive]. *)
Definition salva_statistica (zona_nome : string) (data_corrente durata : Z)
    (valori : gmap string float) (rf : risultati_finali) (stat : string)
    : risultati_finali * option string :=
  match valori !! stat with
  | Some v =>
      if PrimFloat.is_nan v then (rf, None)
      else
        match salva_valore rf (Tabelle.chiave_foglio stat durata)
                (strftime data_corrente) zona_nome v with
        | Ok rf' => (rf', None)
        | Eccezione e => (rf, Some e)
        end
  | None => (rf, None)
  end.

(** The body of [for durata, valori in stats_zona.items()]. *)
Definition salva_durata (zona_nome : string) (data_corrente : Z)
    (rf : risultati_finali) (voce : Z * option (gmap string float))
    : risultati_finali * option string :=
  match snd voce with
  | Some valori =>
      if Finestre.vero (Some valori) then
        per_ogni (salva_statistica zona_nome data_corrente (fst voce) valori)
                 statistiche_attive rf
      else (rf, None)
  | None => (rf, None)
  end.

(** What [main] does with the result of one task; the exception, if
    any, is the one its [except] reports. *)
Definition salva_risultati (rf : risultati_finali) (t : Lavoro.esito_zona)
    : risultati_finali * option string :=
  per_ogni (salva_durata (Lavoro.z_nome t) (Lavoro.z_data t))
           (Lavoro.z_risultati t) rf.

(** The loop [for future in as_completed(...)], on the results in the
    order the tasks complete. *)
Definition raccogli (completati : list Lavoro.esito_zona) (rf : risultati_finali)
    : risultati_finali :=
  fold_left (fun rf t => fst (salva_risultati rf t)) completati rf.

(** The values a task holds for the sheets, in the order [main] goes
    through them: the sheet name and the value. *)
Definition scritture (t : Lavoro.esito_zona) : list (string * float) :=
  flat_map (fun voce : Z * option (gmap string float) =>
              match snd voce with
              | Some valori =>
                  if Finestre.vero (Some valori) then
                    flat_map (fun stat =>
                                match valori !! stat with
                                | Some v =>
                                    if PrimFloat.is_nan v then []
                                    else [(Tabelle.chiave_foglio stat (fst voce), v)]
                                | None => []
                                end)
                             statistiche_attive
                  else []
              | None => []
              end)
           (Lavoro.z_risultati t).

End Raccolta.

(** One stored value, read back: [None] when the sheet has no row for
    the date or the row no value for the zone. *)
Definition valore_salvato (rf : risultati_finali) (chiave data_str zona : string)
    : option float :=
  per_data ← rf !! chiave;
  per_zona ← per_data !! data_str;
  per_zona !! zona.

(** The table of one sheet:
    [DataFrame.from_dict(dati_dict, orient='index')], then
    [reindex(columns=zone_ordinate)], [sort_index()] and
    [reset_index()]. *)
Definition tabella (dati_dict : gmap string (gmap string float))
    (zone_ordinate : list string) : Tabelle.DataFrame :=
  {| Tabelle.colonne := zone_ordinate;
     Tabelle.righe :=
       map (fun data_str =>
              (data_str,
               map (fun zona =>
                      default nan (default ∅ (dati_dict !! data_str) !! zona))
                   zone_ordinate))
           (Ordinamento.sorted String.leb (map fst (map_to_list dati_dict))) |}.

(** [zone_ordinate = [z.split('.')[0] for z in zone_shapefiles]] *)
Definition zone_ordinate (zone_shapefiles : list string) : list string :=
  map Lavoro.prima_del_punto zone_shapefiles.

(** [dataframes_finali]: a table for every sheet that received a
    value. *)
Definition dataframes_finali (rf : risultati_finali) (zone_shapefiles : list string)
    : gmap string Tabelle.DataFrame :=
  omap (fun dati_dict : gmap string (gmap string float) =>
          if bool_decide (dati_dict = ∅) then None
          else Some (tabella dati_dict (zone_ordinate zone_shapefiles)))
       rf.

(** Phase 5 of [main]: the sheets added to the workbook, [None] when
    the phase is skipped; the exception of the Peq0 computation ends
    [main] in its last [except]. *)
Definition fase_peq0 (amb : ambiente) (peq_0 : bool) (durate : list Z)
    (raster_cn_directory : option CurveNumber.cartella_cn)
    (dataframes : gmap string Tabelle.DataFrame)
    (statistiche_attive : list string)
    : esito (option (gmap string Tabelle.DataFrame)) :=
  if negb peq_0 then Ok None
  else if negb (existsb (Z.eqb 24) durate) then Ok None
  else
    match raster_cn_directory with
    | None => Ok None
    | Some raster_cn_dir =>
        if negb (CurveNumber.exists_ raster_cn_dir) then Ok None
        else
          let zone_cn := CurveNumber.calcola_cn_per_zone raster_cn_dir in
          if bool_decide (zone_cn = ∅) then Ok None
          else
            match dataframes !! "media_24h" with
            | None => Ok None
            | Some df_24h =>
                let cum_5d := Tabelle.calcola_cum_5d amb df_24h in
                peq0_df ← Tabelle.calcola_peq0_per_tutte_zone cum_5d zone_cn;
                fogli_peq0 ← Tabelle.crea_fogli_peq0 dataframes peq0_df cum_5d
                               durate statistiche_attive;
                Ok (Some fogli_peq0)
            end
    end.

End Principale.

(** * Properties *)

(** ** The definitions at work *)

Example estrai_timestamp_con_secondi :
  Nomi.estrai_timestamp "radar_20230105090000.tif" = Ok (Some (Esempi.alle 9)).
Proof. reflexivity. Qed.

Example estrai_timestamp_senza_secondi :
  Nomi.estrai_timestamp "radar_202301050900.tif" = Ok (Some (Esempi.alle 9)).
Proof. reflexivity. Qed.

Example estrai_timestamp_mese_errato :
  Nomi.estrai_timestamp "radar_20231305090000.tif" = Eccezione "ValueError".
Proof. reflexivity. Qed.

(** [calcola_peq0(15.0, 80.0)] is [2.2341800256383246] in Python. *)
#[warnings="-inexact-float"]
Example calcola_peq0_cn80 :
  Peq0.calcola_peq0 15 80 Peq0.LAMBDA_PEQ = Ok 2.2341800256383246%float.
Proof. vm_compute. reflexivity. Qed.

Example calcola_peq0_cn0 :
  Peq0.calcola_peq0 15 0 Peq0.LAMBDA_PEQ = Eccezione "ZeroDivisionError".
Proof. reflexivity. Qed.

Example colonna_cum_5d_esempio :
  Tabelle.colonna_cum_5d Esempi.amb [1; 2; 3; 4; 5; 6; 7; 8]%float
    = [0; 1; 3; 6; 10; 15; 21; 27]%float.
Proof. vm_compute. reflexivity. Qed.

Example colonna_cum_5d_mancanti :
  Tabelle.colonna_cum_5d Esempi.amb [nan; nan; 5; nan; 1]%float
    = [0; 0; 0; 5; 5]%float.
Proof. vm_compute. reflexivity. Qed.

(** Two-hour windows over tiles of 10, 11 and 12 mm: the sums are 21 and
    23, and the second window is selected. *)
Example finestre_due_ore :
  match Finestre.finestre_mobili_tracciate Esempi.amb 5 Esempi.tre_tile 2
          Esempi.t0 "zona.shp" Esempi.tutte with
  | Some (finestre, Ok (Some stats, log)) =>
      finestre = [(Esempi.alle 10, Esempi.alle 12); (Esempi.alle 11, Esempi.alle 13)] /\
      map (fun e => Finestre.chiave_media (Finestre.l_stats e)) log = [21; 23]%float /\
      Finestre.chiave_media stats = 23%float
  | _ => False
  end.
Proof. vm_compute. repeat split; reflexivity. Qed.

(** ** Loops that may raise *)

Lemma mapM_esito_Ok {A B} (f : A -> esito B) (g : A -> B) : forall l : list A,
  (forall x, In x l -> f x = Ok (g x)) -> mapM f l = Ok (map g l).
Proof.
  induction l as [|x l IH]; intros H; [reflexivity|].
  change (mapM f (x :: l)) with (y ← f x; k ← mapM f l; mret (y :: k)).
  rewrite (H x (or_introl eq_refl)), IH by (intros y Hy; apply H; right; exact Hy).
  reflexivity.
Qed.

Lemma mapM_esito_Forall2 {A B} (f : A -> esito B) : forall (l : list A) (l' : list B),
  mapM f l = Ok l' -> Forall2 (fun x y => f x = Ok y) l l'.
Proof.
  induction l as [|x l IH]; intros l' H.
  - injection H as <-. constructor.
  - change (mapM f (x :: l)) with (y ← f x; k ← mapM f l; mret (y :: k)) in H.
    destruct (f x) as [y|e] eqn:Ex; [|discriminate H].
    destruct (mapM f l) as [k|e] eqn:Ek; [|discriminate H].
    injection H as <-. constructor; [exact Ex|apply IH; reflexivity].
Qed.

Lemma mapM_esito_errore {A B} (f : A -> esito B) : forall l : list A,
  riuscito (mapM f l) = false <-> exists x, In x l /\ riuscito (f x) = false.
Proof.
  induction l as [|x l IH].
  - split; [discriminate|]. intros (x & [] & _).
  - change (mapM f (x :: l)) with (y ← f x; k ← mapM f l; mret (y :: k)).
    destruct (f x) as [y|e] eqn:Ex; cbv beta iota delta [mbind esito_bind].
    + destruct (mapM f l) as [k|e] eqn:Ek.
      * split; [discriminate|]. intros (z & [<-|Hz] & R).
        -- rewrite Ex in R. discriminate R.
        -- assert (riuscito (Ok k : esito (list B)) = false) as T
             by (apply IH; eauto). discriminate T.
      * split; [|reflexivity]. intros _.
        destruct (proj1 IH eq_refl) as (z & Hz & R). exists z.
        split; [right; exact Hz|exact R].
    + split; [|reflexivity]. intros _. exists x. rewrite Ex.
      split; [left; reflexivity|reflexivity].
Qed.

(** ** Window membership and summation *)

Section Somma.
Import Finestre.
Variable amb : ambiente.

Lemma in_finestra_spec inizio fine t :
  in_finestra inizio fine t = true <-> inizio <= t < fine.
Proof. unfold in_finestra. rewrite andb_true_iff, Z.leb_le, Z.ltb_lt. tauto. Qed.

Lemma tile_finestra_In lista inizio fine p t :
  In (p, t) (tile_finestra lista inizio fine) <->
  In (p, t) lista /\ inizio <= t < fine.
Proof.
  unfold tile_finestra. rewrite filter_In. simpl.
  rewrite in_finestra_spec. tauto.
Qed.

Lemma leggi_Ok p d :
  leggi amb p = Ok d ->
  exists src, rasterio_open amb p = Ok src /\ read1 src = Ok d.
Proof.
  unfold leggi. destruct (rasterio_open amb p) as [src|e]; simpl; [|discriminate].
  intros H. exists src. auto.
Qed.

(** The three outcomes of a call, read off the first matching file. *)
Lemma somma_casi lista inizio fine :
  match somma_file_tif_finestra amb lista inizio fine with
  | Ok (Some out) =>
      exists primo resto d0,
        file_finestra lista inizio fine = primo :: resto /\
        leggi amb primo = Ok d0 /\
        r_dati (temp_file out) = fold_left (accumula amb) resto d0 /\
        finestra_info out = (inizio, fine) /\
        file_inclusi out = map basename (file_finestra lista inizio fine)
  | Ok None => file_finestra lista inizio fine = []
  | Eccezione _ =>
      exists primo resto,
        file_finestra lista inizio fine = primo :: resto /\
        riuscito (leggi amb primo) = false
  end.
Proof.
  unfold somma_file_tif_finestra.
  destruct (file_finestra lista inizio fine) as [|primo resto] eqn:E; [reflexivity|].
  destruct (rasterio_open amb primo) as [src|e] eqn:Eo; simpl.
  - destruct (read1 src) as [d0|e] eqn:Er; simpl.
    + exists primo, resto, d0. unfold leggi. rewrite Eo. simpl.
      repeat split; assumption || reflexivity.
    + exists primo, resto. unfold leggi. rewrite Eo. simpl. rewrite Er.
      split; reflexivity.
  - exists primo, resto. unfold leggi. rewrite Eo. split; reflexivity.
Qed.

(** A tile after the first one that cannot be read leaves the running
    sum as it is. *)
Lemma accumula_illeggibile data_somma p :
  riuscito (leggi amb p) = false -> accumula amb data_somma p = data_somma.
Proof.
  unfold accumula. destruct (leggi amb p); simpl; [discriminate|reflexivity].
Qed.

(** When the first matching tile is readable the call returns a sum,
    whatever happens with the other tiles. *)
Lemma somma_completa lista inizio fine primo resto d0 :
  file_finestra lista inizio fine = primo :: resto ->
  leggi amb primo = Ok d0 ->
  exists out,
    somma_file_tif_finestra amb lista inizio fine = Ok (Some out) /\
    r_dati (temp_file out) = fold_left (accumula amb) resto d0.
Proof.
  intros E H. pose proof (somma_casi lista inizio fine) as C.
  destruct (somma_file_tif_finestra amb lista inizio fine) as [[out|]|e].
  - destruct C as (p' & r' & d' & E' & H' & D & _).
    rewrite E in E'. injection E' as <- <-. rewrite H in H'. injection H' as <-.
    exists out. auto.
  - rewrite E in C. discriminate.
  - destruct C as (p' & r' & E' & H').
    rewrite E in E'. injection E' as <- <-. rewrite H in H'. discriminate.
Qed.

End Somma.

(** C1.  Window membership is half-open.  A tile of the list is among
    the tiles a call of [somma_file_tif_finestra] keeps exactly when
    [start <= timestamp < end]; the call sums these files and no others, and
    lists them; a tile at the end of the window is left out, a tile at the
    start of a non-empty window is kept. *)
Theorem finestra_semiaperta :
  forall (amb : ambiente) (lista : list (percorso * Z)) (inizio fine : Z),
    (forall p t, In (p, t) (Finestre.tile_finestra lista inizio fine) <->
                 In (p, t) lista /\ inizio <= t < fine) /\
    match Finestre.somma_file_tif_finestra amb lista inizio fine with
    | Ok (Some out) =>
        Finestre.file_inclusi out =
          map (fun x => basename (fst x)) (Finestre.tile_finestra lista inizio fine) /\
        Finestre.finestra_info out = (inizio, fine) /\
        exists primo resto d0,
          map fst (Finestre.tile_finestra lista inizio fine) = primo :: resto /\
          Finestre.leggi amb primo = Ok d0 /\
          r_dati (Finestre.temp_file out) =
            fold_left (Finestre.accumula amb) resto d0
    | Ok None => Finestre.tile_finestra lista inizio fine = []
    | Eccezione _ => Finestre.tile_finestra lista inizio fine <> []
    end /\
    (forall p, ~ In (p, fine) (Finestre.tile_finestra lista inizio fine)) /\
    (forall p, inizio < fine -> In (p, inizio) lista ->
               In (p, inizio) (Finestre.tile_finestra lista inizio fine)).
Proof.
  intros amb lista inizio fine. split; [|split; [|split]].
  - intros p t. apply tile_finestra_In.
  - pose proof (somma_casi amb lista inizio fine) as C.
    destruct (Finestre.somma_file_tif_finestra amb lista inizio fine) as [[out|]|e].
    + destruct C as (primo & resto & d0 & E & H & D & W & I).
      split; [|split; [exact W|]].
      * rewrite I. unfold Finestre.file_finestra. rewrite map_map. reflexivity.
      * exists primo, resto, d0. auto.
    + unfold Finestre.file_finestra in C.
      destruct (Finestre.tile_finestra lista inizio fine); [reflexivity|discriminate].
    + destruct C as (primo & resto & E & _). unfold Finestre.file_finestra in E.
      intros N. rewrite N in E. discriminate.
  - intros p H. apply tile_finestra_In in H. lia.
  - intros p Hlt H. apply tile_finestra_In. split; [exact H|lia].
Qed.

(** C6 (the code departs from the claim).  The first matching tile is
    opened outside the [try]: with an unreadable tile at 09:00 first and a
    readable tile at 10:00 after it, the sum over [09:00, 11:00) raises
    instead of returning the 10:00 tile alone, and the search for a 2-hour
    window on these tiles yields no result.  The same two tiles in the
    other order are summed, the unreadable one being skipped. *)
Theorem somma_primo_file_illeggibile :
  let guasto := Esempi.file "x_20230105090000.tif" in
  let buono := Esempi.file "r_20230105100000.tif" in
  let lista := [(guasto, Esempi.alle 9); (buono, Esempi.alle 10)] in
  riuscito (Finestre.leggi Esempi.amb guasto) = false /\
  Finestre.leggi Esempi.amb buono = Ok (Esempi.punto 10) /\
  Finestre.somma_file_tif_finestra Esempi.amb lista (Esempi.alle 9) (Esempi.alle 11)
    = Eccezione "not recognized as a supported file format" /\
  match Finestre.somma_file_tif_finestra Esempi.amb (rev lista)
          (Esempi.alle 9) (Esempi.alle 11) with
  | Ok (Some out) =>
      r_dati (Finestre.temp_file out) = Esempi.punto 10 /\
      Finestre.file_inclusi out = ["r_20230105100000.tif"; "x_20230105090000.tif"]
  | _ => False
  end /\
  Finestre.risultato_durata <$>
    Finestre.finestre_mobili_con_somma_e_ritaglio Esempi.amb 5 lista 2
      Esempi.t0 "zona.shp" Esempi.tutte
    = Some (None, []).
Proof. vm_compute. repeat split; reflexivity. Qed.

(** ** Statistics *)

Section Statistiche.
Import Finestre.
Variable amb : ambiente.

Lemma lookup_se_richiesta (cfg : gmap string bool) k' v (r : gmap string float) k :
  se_richiesta cfg k' v r !! k =
    if decide (k' = k)
    then (if default false (cfg !! k') then Some v else r !! k)
    else r !! k.
Proof.
  unfold se_richiesta.
  destruct (default false (cfg !! k')); destruct (decide (k' = k)) as [->|N];
    try reflexivity.
  - apply lookup_insert_eq.
  - apply lookup_insert_ne. exact N.
Qed.

Lemma existsb_filter {A} (f : A -> bool) (l : list A) :
  existsb (fun b => b) (map f l) = negb (length (List.filter f l) =? 0)%nat.
Proof.
  induction l as [|x l IH]; simpl; [reflexivity|].
  destruct (f x); simpl; [reflexivity|exact IH].
Qed.

Lemma filter_nessuno {A} (f : A -> bool) (l : list A) :
  (forall x, In x l -> f x = false) -> List.filter f l = [].
Proof.
  induction l as [|x l IH]; simpl; intros H; [reflexivity|].
  rewrite (H x) by auto. apply IH. intros y Hy. apply H. auto.
Qed.

Ltac chiave_nota :=
  simpl; repeat case_decide; try discriminate;
  match goal with |- context [default false ?o] => destruct (default false o) end;
  reflexivity.

(** The dictionary built from the valid pixels [vv], key by key. *)
Lemma statistiche_lookup (cfg : gmap string bool) (vv : list float) (k : string) :
  let r := ∅ in
  let r := se_richiesta cfg "media" (np_mean amb vv) r in
  let r := se_richiesta cfg "mediana" (np_median amb vv) r in
  let r := se_richiesta cfg "75_perc" (np_percentile amb vv 75) r in
  let r := se_richiesta cfg "95_perc" (np_percentile amb vv 95) r in
  let r := se_richiesta cfg "99_perc" (np_percentile amb vv 99) r in
  let r := se_richiesta cfg "max" (np_max amb vv) r in
  let r := se_richiesta cfg "min" (np_min amb vv) r in
  let r := se_richiesta cfg "std" (np_std amb vv) r in
  r !! k = if default false (cfg !! k) then statistica_attesa amb k vv else None.
Proof.
  cbv zeta. rewrite !lookup_se_richiesta, lookup_empty.
  unfold statistica_attesa.
  destruct (decide ("std" = k)) as [<-|N1]; [chiave_nota|].
  destruct (decide ("min" = k)) as [<-|N2]; [chiave_nota|].
  destruct (decide ("max" = k)) as [<-|N3]; [chiave_nota|].
  destruct (decide ("99_perc" = k)) as [<-|N4]; [chiave_nota|].
  destruct (decide ("95_perc" = k)) as [<-|N5]; [chiave_nota|].
  destruct (decide ("75_perc" = k)) as [<-|N6]; [chiave_nota|].
  destruct (decide ("mediana" = k)) as [<-|N7]; [chiave_nota|].
  destruct (decide ("media" = k)) as [<-|N8]; [chiave_nota|].
  repeat match goal with
         | |- context [String.eqb k ?c] =>
             replace (String.eqb k c) with false
               by (symmetry; apply String.eqb_neq; congruence)
         end.
  destruct (default false (cfg !! k)); reflexivity.
Qed.

(** With the mean enabled, the selection key of a computed dictionary is
    its mean statistic: numpy's mean of the valid pixels. *)
Lemma chiave_media_calcolata (cfg : gmap string bool) (a : array)
    (d : gmap string float) :
  default false (cfg !! "media") = true ->
  calcola_statistiche_su_array_ritagliato amb (Some a) cfg = Some d ->
  d !! "media" = Some (np_mean amb (List.filter F.ge0 (valori a))) /\
  chiave_media d = np_mean amb (List.filter F.ge0 (valori a)).
Proof.
  intros Hm. unfold calcola_statistiche_su_array_ritagliato.
  destruct (negb _); [discriminate|].
  destruct (_ =? _)%nat; [discriminate|].
  intros H. injection H as <-.
  assert (L := statistiche_lookup cfg (List.filter F.ge0 (valori a)) "media").
  cbv zeta in L. rewrite Hm in L. unfold chiave_media.
  rewrite L. split; reflexivity.
Qed.

End Statistiche.

(** C5.  Statistics are computed over the pixels with value >= 0 only:
    the result is null exactly when no pixel qualifies (so an array whose
    pixels are all negative gives null, not zeros); otherwise each enabled
    statistic is the numpy reduction of the valid pixels, and a statistic
    that is not enabled in the configuration has no entry. *)
Theorem statistiche_solo_pixel_validi :
  forall (amb : ambiente) (a : array) (cfg : gmap string bool),
    let validi := List.filter F.ge0 (valori a) in
    match Finestre.calcola_statistiche_su_array_ritagliato amb (Some a) cfg with
    | None => validi = []
    | Some d =>
        validi <> [] /\
        forall k : string,
          d !! k = if default false (cfg !! k)
                   then Finestre.statistica_attesa amb k validi
                   else None
    end /\
    ((forall x, In x (valori a) -> F.ge0 x = false) ->
     Finestre.calcola_statistiche_su_array_ritagliato amb (Some a) cfg = None) /\
    Finestre.calcola_statistiche_su_array_ritagliato amb None cfg = None.
Proof.
  intros amb a cfg validi.
  assert (Main :
    match Finestre.calcola_statistiche_su_array_ritagliato amb (Some a) cfg with
    | None => validi = []
    | Some d =>
        validi <> [] /\
        forall k : string,
          d !! k = if default false (cfg !! k)
                   then Finestre.statistica_attesa amb k validi
                   else None
    end).
  { unfold Finestre.calcola_statistiche_su_array_ritagliato.
    rewrite existsb_filter, negb_involutive. fold validi.
    destruct validi as [|v vs] eqn:E; simpl; [reflexivity|].
    split; [discriminate|]. intros k. apply statistiche_lookup. }
  split; [exact Main|split; [|reflexivity]].
  intros Hneg.
  destruct (Finestre.calcola_statistiche_su_array_ritagliato amb (Some a) cfg)
    as [d|]; [|reflexivity].
  destruct Main as [Hne _]. exfalso. apply Hne.
  apply filter_nessuno. exact Hneg.
Qed.

(** ** Archive integrity *)

(** C7 (the code departs from the claim).  In a day directory that holds
    an unreadable top-of-hour tile for 09:00 and a good one for 10:00, the
    09:00 slot is recorded corrupt and is recorded missing as well:
    [file_trovati] only receives the valid tiles.  The report counts 1
    corrupt, 1 valid and 23 missing entries for the 24 slots of the day. *)
Theorem corrotto_registrato_anche_mancante :
  match Integrita.verifica_integrita_archivio Esempi.amb Esempi.t0 Esempi.t0 with
  | Ok r =>
      map Integrita.c_timestamp (Integrita.file_corrotti r) = [Esempi.alle 9] /\
      map Integrita.v_timestamp (Integrita.file_validi r) = [Esempi.alle 10] /\
      In (Esempi.alle 9) (map Integrita.m_timestamp (Integrita.file_mancanti r)) /\
      ~ In (Esempi.alle 10) (map Integrita.m_timestamp (Integrita.file_mancanti r)) /\
      length (Integrita.file_mancanti r) = 23%nat
  | Eccezione _ => False
  end.
Proof.
  vm_compute. repeat split; try reflexivity.
  - do 9 right. left. reflexivity.
  - intros H. repeat (destruct H as [H|H]; [discriminate H|]). exact H.
Qed.

(** ** Comparisons of floats *)

Module Confronti.
Import Ordine.

Lemma SFcompare_rango x y :
  SFcompare x y =
    match rango x, rango y with
    | Some a, Some b => Some (lex a b)
    | _, _ => None
    end.
Proof.
  destruct x as [sx|sx| |sx mx ex], y as [sy|sy| |sy my ey];
    try destruct sx; try destruct sy; try reflexivity.
  simpl. rewrite Z.compare_opp, (Z.compare_antisym ex ey).
  destruct (ex ?= ey); reflexivity.
Qed.

Lemma lex_Lt a b : lex a b = Lt <-> lt3 a b.
Proof.
  destruct a as [[a1 a2] a3], b as [[b1 b2] b3]. unfold lex, lt3.
  destruct (Z.compare_spec a1 b1); destruct (Z.compare_spec a2 b2);
    destruct (Z.compare_spec a3 b3); split; intros K; try discriminate;
    try reflexivity; lia.
Qed.

Lemma lex_Gt a b : lex a b = Gt <-> lt3 b a.
Proof.
  destruct a as [[a1 a2] a3], b as [[b1 b2] b3]. unfold lex, lt3.
  destruct (Z.compare_spec a1 b1); destruct (Z.compare_spec a2 b2);
    destruct (Z.compare_spec a3 b3); split; intros K; try discriminate;
    try reflexivity; lia.
Qed.

Lemma lex_Eq a b : lex a b = Eq <-> a = b.
Proof.
  destruct a as [[a1 a2] a3], b as [[b1 b2] b3]. unfold lex.
  destruct (Z.compare_spec a1 b1); destruct (Z.compare_spec a2 b2);
    destruct (Z.compare_spec a3 b3); split; intros K; try discriminate;
    try reflexivity; try (injection K; lia); subst; reflexivity.
Qed.

Lemma lt3_trans a b c : lt3 a b -> lt3 b c -> lt3 a c.
Proof.
  destruct a as [[a1 a2] a3], b as [[b1 b2] b3], c as [[c1 c2] c3].
  unfold lt3. lia.
Qed.

Lemma lt3_irrefl a : ~ lt3 a a.
Proof. destruct a as [[a1 a2] a3]. unfold lt3. lia. Qed.

Lemma lt3_totale a b : lt3 a b \/ a = b \/ lt3 b a.
Proof.
  destruct (lex a b) eqn:E.
  - right. left. apply lex_Eq. exact E.
  - left. apply lex_Lt. exact E.
  - right. right. apply lex_Gt. exact E.
Qed.

(** The comparisons of binary64 values through their rank. *)
Lemma ltb_rango x y :
  PrimFloat.ltb x y = true <->
  exists a b, rf x = Some a /\ rf y = Some b /\ lt3 a b.
Proof.
  rewrite FloatAxioms.ltb_spec. unfold SFltb, rf. rewrite SFcompare_rango.
  destruct (rango (Prim2SF x)) as [a|], (rango (Prim2SF y)) as [b|];
    try (split; [discriminate|intros (a' & b' & H1 & H2 & _); discriminate]).
  split.
  - destruct (lex a b) eqn:E; try discriminate. intros _.
    exists a, b. repeat split. apply lex_Lt. exact E.
  - intros (a' & b' & H1 & H2 & H3). injection H1 as <-. injection H2 as <-.
    apply lex_Lt in H3. rewrite H3. reflexivity.
Qed.

Lemma leb_rango x y :
  PrimFloat.leb x y = true <->
  exists a b, rf x = Some a /\ rf y = Some b /\ (lt3 a b \/ a = b).
Proof.
  rewrite FloatAxioms.leb_spec. unfold SFleb, rf. rewrite SFcompare_rango.
  destruct (rango (Prim2SF x)) as [a|], (rango (Prim2SF y)) as [b|];
    try (split; [discriminate|intros (a' & b' & H1 & H2 & _); discriminate]).
  split.
  - destruct (lex a b) eqn:E; try discriminate; intros _; exists a, b; repeat split.
    + right. apply lex_Eq. exact E.
    + left. apply lex_Lt. exact E.
  - intros (a' & b' & H1 & H2 & H3). injection H1 as <-. injection H2 as <-.
    destruct H3 as [H3|H3].
    + apply lex_Lt in H3. rewrite H3. reflexivity.
    + apply lex_Eq in H3. rewrite H3. reflexivity.
Qed.

Lemma eqb_rango x y :
  PrimFloat.eqb x y = true <->
  exists a, rf x = Some a /\ rf y = Some a.
Proof.
  rewrite FloatAxioms.eqb_spec. unfold SFeqb, rf. rewrite SFcompare_rango.
  destruct (rango (Prim2SF x)) as [a|], (rango (Prim2SF y)) as [b|];
    try (split; [discriminate|intros (a' & H1 & H2); discriminate]).
  split.
  - destruct (lex a b) eqn:E; try discriminate; intros _.
    apply lex_Eq in E. exists a. rewrite <- E. auto.
  - intros (a' & H1 & H2). injection H1 as <-. injection H2 as <-.
    rewrite (proj2 (lex_Eq _ _) eq_refl). reflexivity.
Qed.

Lemma is_nan_rango x :
  PrimFloat.is_nan x = false <-> exists a, rf x = Some a.
Proof.
  unfold PrimFloat.is_nan.
  split.
  - intros H. apply negb_false_iff in H. apply eqb_rango in H.
    destruct H as (a & H & _). exists a. exact H.
  - intros (a & H). apply negb_false_iff. apply eqb_rango. exists a. auto.
Qed.

Lemma lt_trans x y z :
  PrimFloat.ltb x y = true -> PrimFloat.ltb y z = true -> PrimFloat.ltb x z = true.
Proof.
  rewrite !ltb_rango. intros (a & b & Ha & Hb & L1) (b' & c & Hb' & Hc & L2).
  rewrite Hb in Hb'. injection Hb' as <-.
  exists a, c. repeat split; auto. eapply lt3_trans; eauto.
Qed.

Lemma le_lt_trans x y z :
  PrimFloat.leb x y = true -> PrimFloat.ltb y z = true -> PrimFloat.ltb x z = true.
Proof.
  rewrite leb_rango, !ltb_rango.
  intros (a & b & Ha & Hb & L1) (b' & c & Hb' & Hc & L2).
  rewrite Hb in Hb'. injection Hb' as <-.
  exists a, c. repeat split; auto.
  destruct L1 as [L1| ->]; [eapply lt3_trans; eauto|exact L2].
Qed.

Lemma lt_le x y : PrimFloat.ltb x y = true -> PrimFloat.leb x y = true.
Proof.
  rewrite ltb_rango, leb_rango. intros (a & b & Ha & Hb & L).
  exists a, b. auto.
Qed.

Lemma le_refl x : PrimFloat.is_nan x = false -> PrimFloat.leb x x = true.
Proof.
  rewrite is_nan_rango, leb_rango. intros (a & Ha). exists a, a. auto.
Qed.

Lemma non_lt_le x y :
  PrimFloat.is_nan x = false -> PrimFloat.is_nan y = false ->
  PrimFloat.ltb x y = false -> PrimFloat.leb y x = true.
Proof.
  rewrite !is_nan_rango, leb_rango. intros (a & Ha) (b & Hb) N.
  exists b, a. repeat split; auto.
  destruct (lt3_totale a b) as [L|[E|L]]; auto.
  exfalso. assert (PrimFloat.ltb x y = true) as T; [|congruence].
  apply ltb_rango. exists a, b. auto.
Qed.

Lemma lt_non_eq x y :
  PrimFloat.ltb x y = true -> PrimFloat.eqb x y = false.
Proof.
  rewrite ltb_rango. intros (a & b & Ha & Hb & L).
  destruct (PrimFloat.eqb x y) eqn:E; [|reflexivity].
  apply eqb_rango in E. destruct E as (c & Hc1 & Hc2).
  rewrite Ha in Hc1. rewrite Hb in Hc2. injection Hc1 as <-. injection Hc2 as <-.
  exfalso. eapply lt3_irrefl; eauto.
Qed.

Lemma le_trans x y z :
  PrimFloat.leb x y = true -> PrimFloat.leb y z = true -> PrimFloat.leb x z = true.
Proof.
  rewrite !leb_rango. intros (a & b & Ha & Hb & L1) (b' & c & Hb' & Hc & L2).
  rewrite Hb in Hb'. injection Hb' as <-.
  exists a, c. repeat split; auto.
  destruct L1 as [L1| ->]; [|exact L2].
  destruct L2 as [L2| ->]; [left; eapply lt3_trans; eauto|left; exact L1].
Qed.

End Confronti.

(** ** The rolling search *)

Section CicloMobile.
Import Finestre.
Variable amb : ambiente.
Variable lista : list (percorso * Z).
Variable shp : string.
Variable cfg : gmap string bool.
Variable durata : Z.
Variable max_eff : Z.

Lemma finestre_da_S n c :
  finestre_da (S n) c durata = (c, c + durata) :: finestre_da n (c + step) durata.
Proof.
  unfold finestre_da. simpl. f_equal; [f_equal; lia|].
  rewrite <- seq_shift, map_map.
  apply map_ext. intros k. f_equal; lia.
Qed.

Lemma numero_finestre_dentro c :
  c + durata <= max_eff ->
  numero_finestre c durata max_eff = 1 + numero_finestre (c + step) durata max_eff.
Proof.
  intros H. unfold numero_finestre, step.
  replace (max_eff - (c + 60 * 60) - durata) with (max_eff - c - durata + (-1) * 3600) by lia.
  rewrite Z.div_add by lia. change (60 * 60) with 3600.
  assert (0 <= (max_eff - c - durata) / 3600) by (apply Z.div_pos; lia).
  lia.
Qed.

Lemma numero_finestre_fuori c :
  max_eff < c + durata -> numero_finestre c durata max_eff = 0.
Proof.
  intros H. unfold numero_finestre, step. change (60 * 60) with 3600.
  assert ((max_eff - c - durata) / 3600 < 0) by (apply Z.div_lt_upper_bound; lia).
  lia.
Qed.

Lemma numero_finestre_nonneg c : 0 <= numero_finestre c durata max_eff.
Proof. unfold numero_finestre. lia. Qed.

(** What one iteration does to the loop variables. *)
Lemma passo_campi st st' :
  passo amb lista shp cfg durata st = Ok st' ->
  corrente st' = corrente st + step /\
  valutate st' = valutate st ++ [(corrente st, corrente st + durata)] /\
  (coerente st -> coerente st').
Proof.
  unfold passo.
  destruct (somma_file_tif_finestra amb lista (corrente st) (corrente st + durata))
    as [somma|e]; cbv beta iota zeta delta [mbind esito_bind]; [|discriminate].
  assert (Hstep : corrente st < corrente st + step) by (unfold step; lia).
  assert (Stessa : forall st0,
    corrente st0 = corrente st + step ->
    risultati st0 = risultati st ->
    lista_finestre_log st0 = lista_finestre_log st ->
    coerente st -> coerente st0).
  { intros st0 Hc Hr Hl (C1 & C2 & C3). unfold coerente.
    rewrite Hc, Hr, Hl. repeat split; auto.
    eapply List.Forall_impl; [|exact C2]. simpl. intros; lia. }
  assert (Nuova : forall st0 d f,
    corrente st0 = corrente st + step ->
    risultati st0 = risultati st ++ [(corrente st, d)] ->
    lista_finestre_log st0 = lista_finestre_log st ++
      [{| l_inizio := corrente st; l_fine := corrente st + durata;
          l_stats := d; l_file := f |}] ->
    coerente st -> coerente st0).
  { intros st0 d f Hc Hr Hl (C1 & C2 & C3). unfold coerente.
    rewrite Hc, Hr, Hl. repeat split.
    - rewrite map_app, C1. reflexivity.
    - apply Forall_app. split.
      + eapply List.Forall_impl; [|exact C2]. simpl. intros; lia.
      + constructor; [simpl; lia|constructor].
    - clear -C2 C3. induction (lista_finestre_log st) as [|x l IH]; simpl.
      + constructor; constructor.
      + apply StronglySorted_inv in C3. destruct C3 as [S1 S2].
        apply Forall_cons_iff in C2. destruct C2 as [L1 L2].
        constructor; [apply IH; assumption|].
        apply Forall_app. split; [exact S2|].
        constructor; [simpl; exact L1|constructor]. }
  assert (Fine : forall ris log,
    (coerente st -> coerente
       {| corrente := corrente st + step; risultati := ris;
          lista_finestre_log := log;
          valutate := valutate st ++ [(corrente st, corrente st + durata)] |}) ->
    Ok {| corrente := corrente st + step; risultati := ris;
          lista_finestre_log := log;
          valutate := valutate st ++ [(corrente st, corrente st + durata)] |}
      = Ok st' ->
    corrente st' = corrente st + step /\
    valutate st' = valutate st ++ [(corrente st, corrente st + durata)] /\
    (coerente st -> coerente st')).
  { intros ris log K H. injection H as <-. simpl. auto. }
  destruct somma as [out|]; cbv beta iota.
  - destruct (ritaglia_raster_sommato_con_shapefile amb (Some (temp_file out)) shp)
      as [arr|].
    + destruct (calcola_statistiche_su_array_ritagliato amb (Some arr) cfg)
        as [d|] eqn:Es.
      * destruct (vero (Some d)); apply Fine; intros C0;
          [eapply Nuova; [reflexivity..|exact C0]|apply Stessa; auto].
      * apply Fine; intros C0; apply Stessa; auto.
    + apply Fine; intros C0; apply Stessa; auto.
  - apply Fine; intros C0; apply Stessa; auto.
Qed.

(** With readable tiles an iteration does not raise. *)
Lemma passo_riesce st :
  tutti_leggibili amb lista -> exists st', passo amb lista shp cfg durata st = Ok st'.
Proof.
  intros L. unfold passo.
  pose proof (somma_casi amb lista (corrente st) (corrente st + durata)) as C.
  destruct (somma_file_tif_finestra amb lista (corrente st) (corrente st + durata))
    as [somma|e]; simpl.
  - destruct (match somma with Some _ => _ | None => _ end) as [ris log].
    eexists. reflexivity.
  - exfalso. destruct C as (primo & resto & E & N).
    assert (In primo (file_finestra lista (corrente st) (corrente st + durata))) as I
      by (rewrite E; left; reflexivity).
    unfold file_finestra in I. apply in_map_iff in I.
    destruct I as ([p t] & <- & I). apply tile_finestra_In in I.
    destruct I as [I _]. apply L in I. simpl in N. congruence.
Qed.

(** The loop ends: fuel above the number of windows left is enough. *)
Lemma ciclo_termina n : forall fuel st,
  Z.of_nat n = numero_finestre (corrente st) durata max_eff ->
  (n < fuel)%nat ->
  exists tr r, ciclo amb lista shp cfg durata max_eff fuel st = Some (tr, r).
Proof.
  induction n as [|n IH]; intros fuel st Hn Hf;
    (destruct fuel as [|fuel]; [lia|]); simpl.
  - destruct (Z.leb_spec (corrente st + durata) max_eff) as [G|G].
    + rewrite numero_finestre_dentro in Hn by exact G.
      pose proof (numero_finestre_nonneg (corrente st + step)). lia.
    + eauto.
  - destruct (Z.leb_spec (corrente st + durata) max_eff) as [G|G].
    + destruct (passo amb lista shp cfg durata st) as [st'|e] eqn:P; [|eauto].
      apply passo_campi in P. destruct P as (Pc & _).
      apply IH; [|lia]. rewrite Pc.
      rewrite numero_finestre_dentro in Hn by exact G. lia.
    + rewrite numero_finestre_fuori in Hn by exact G. lia.
Qed.

(** With readable tiles the loop tries every window. *)
Lemma ciclo_tutte n : forall fuel st,
  tutti_leggibili amb lista ->
  Z.of_nat n = numero_finestre (corrente st) durata max_eff ->
  (n < fuel)%nat ->
  exists st',
    ciclo amb lista shp cfg durata max_eff fuel st
      = Some (valutate st ++ finestre_da n (corrente st) durata, Ok st').
Proof.
  induction n as [|n IH]; intros fuel st L Hn Hf;
    (destruct fuel as [|fuel]; [lia|]); simpl.
  - destruct (Z.leb_spec (corrente st + durata) max_eff) as [G|G].
    + rewrite numero_finestre_dentro in Hn by exact G.
      pose proof (numero_finestre_nonneg (corrente st + step)). lia.
    + exists st. unfold finestre_da. simpl. rewrite app_nil_r. reflexivity.
  - destruct (Z.leb_spec (corrente st + durata) max_eff) as [G|G].
    + destruct (passo_riesce st L) as [st' P]. rewrite P.
      apply passo_campi in P. destruct P as (Pc & Pv & _).
      destruct (IH fuel st' L) as [st'' R]; [|lia|].
      * rewrite Pc. rewrite numero_finestre_dentro in Hn by exact G. lia.
      * exists st''. rewrite R, Pv, Pc, finestre_da_S, <- app_assoc. reflexivity.
    + rewrite numero_finestre_fuori in Hn by exact G. lia.
Qed.

(** The counting loop gives the same number. *)
Lemma conta_tutte n : forall fuel c k,
  Z.of_nat n = numero_finestre c durata max_eff ->
  (n < fuel)%nat ->
  conta_finestre durata max_eff fuel c k = Some (k + Z.of_nat n).
Proof.
  induction n as [|n IH]; intros fuel c k Hn Hf;
    (destruct fuel as [|fuel]; [lia|]); simpl.
  - destruct (Z.leb_spec (c + durata) max_eff) as [G|G].
    + rewrite numero_finestre_dentro in Hn by exact G.
      pose proof (numero_finestre_nonneg (c + step)). lia.
    + f_equal. lia.
  - destruct (Z.leb_spec (c + durata) max_eff) as [G|G].
    + rewrite IH; [f_equal; lia| |lia].
      rewrite numero_finestre_dentro in Hn by exact G. lia.
    + rewrite numero_finestre_fuori in Hn by exact G. lia.
Qed.

(** Whatever the loop returns normally is a coherent state. *)
Lemma ciclo_coerente : forall fuel st tr st',
  coerente st ->
  ciclo amb lista shp cfg durata max_eff fuel st = Some (tr, Ok st') ->
  coerente st'.
Proof.
  induction fuel as [|fuel IH]; intros st tr st' C; simpl; [discriminate|].
  destruct (corrente st + durata <=? max_eff).
  - destruct (passo amb lista shp cfg durata st) as [st1|e] eqn:P; [|discriminate].
    apply passo_campi in P. destruct P as (_ & _ & Pc).
    apply IH. auto.
  - intros H. injection H as _ <-. exact C.
Qed.

End CicloMobile.

Lemma minimo_spec t0 l :
  In (Finestre.minimo t0 l) (t0 :: l) /\
  forall t, In t (t0 :: l) -> Finestre.minimo t0 l <= t.
Proof.
  unfold Finestre.minimo. revert t0.
  induction l as [|x l IH]; intros t0; simpl.
  - split; [auto|]. intros t [<-|[]]. lia.
  - destruct (IH (Z.min t0 x)) as [I M]. split.
    + destruct I as [I|I]; [|auto].
      rewrite <- I. destruct (Z.min_spec t0 x) as [[_ ->]|[_ ->]]; auto.
    + intros t [<-|[<-|H]].
      * specialize (M (Z.min t0 x) (or_introl eq_refl)). lia.
      * specialize (M (Z.min t0 x) (or_introl eq_refl)). lia.
      * apply M. right. exact H.
Qed.

Lemma massimo_spec t0 l :
  In (Finestre.massimo t0 l) (t0 :: l) /\
  forall t, In t (t0 :: l) -> t <= Finestre.massimo t0 l.
Proof.
  unfold Finestre.massimo. revert t0.
  induction l as [|x l IH]; intros t0; simpl.
  - split; [auto|]. intros t [<-|[]]. lia.
  - destruct (IH (Z.max t0 x)) as [I M]. split.
    + destruct I as [I|I]; [|auto].
      rewrite <- I. destruct (Z.max_spec t0 x) as [[_ ->]|[_ ->]]; auto.
    + intros t [<-|[<-|H]].
      * specialize (M (Z.max t0 x) (or_introl eq_refl)). lia.
      * specialize (M (Z.max t0 x) (or_introl eq_refl)). lia.
      * apply M. right. exact H.
Qed.

Lemma nth_map_seq {A} (f : nat -> A) (n k : nat) (d : A) :
  (k < n)%nat -> nth k (map f (seq 0 n)) d = f k.
Proof.
  intros H. rewrite (nth_indep _ d (f O)) by (rewrite length_map, length_seq; exact H).
  rewrite map_nth, seq_nth by exact H. reflexivity.
Qed.

Lemma carburante_basta lista durata_ore t0 altri fuel :
  map snd lista = t0 :: altri ->
  (Finestre.carburante lista durata_ore <= fuel)%nat ->
  let n := Z.to_nat (Finestre.numero_finestre (Finestre.minimo t0 altri)
             (Tempo.timedelta_hours durata_ore)
             (Finestre.massimo t0 altri + Tempo.timedelta_hours 1)) in
  Z.of_nat n = Finestre.numero_finestre (Finestre.minimo t0 altri)
                 (Tempo.timedelta_hours durata_ore)
                 (Finestre.massimo t0 altri + Tempo.timedelta_hours 1) /\
  (n < fuel)%nat.
Proof.
  intros E Hf n. unfold Finestre.carburante in Hf. rewrite E in Hf.
  subst n. unfold Finestre.numero_finestre, Finestre.step, Tempo.timedelta_hours,
    Tempo.ora in *.
  change (60 * 60) with 3600. split; [lia|].
  replace (Finestre.massimo t0 altri + 1 * 3600 - Finestre.minimo t0 altri
           - durata_ore * 3600)
    with (Finestre.massimo t0 altri + 3600 - Finestre.minimo t0 altri
          - durata_ore * 3600) by lia.
  lia.
Qed.

(** C3 (as amended).  For a rolling duration, a non-empty list of
    readable tiles and a zone file that loads, the search tries the
    windows that start at the earliest timestamp and then every hour after
    it, as long as the window ends by the latest timestamp plus one hour.
    Their number is floor (span - duration) + 1 in hours when that is
    positive and zero otherwise, the span running from the earliest
    timestamp to one hour past the latest; the counting loop of the source
    gives the same number. *)
Theorem finestre_mobili_numero :
  forall (amb : ambiente) (fuel : nat) (lista : list (percorso * Z))
         (durata_ore data_corrente : Z) (shp : string) (cfg : gmap string bool)
         (t0 : Z) (altri : list Z),
    durata_ore <> 24 ->
    map snd lista = t0 :: altri ->
    riuscito (gpd_read_file amb shp) = true ->
    Finestre.tutti_leggibili amb lista ->
    (Finestre.carburante lista durata_ore <= fuel)%nat ->
    let min_time := Finestre.minimo t0 altri in
    let max_time := Finestre.massimo t0 altri in
    let fine_span := max_time + Tempo.ora in
    let durata := durata_ore * Tempo.ora in
    let n := Z.to_nat (Z.max 0 ((fine_span - min_time - durata) / Tempo.ora + 1)) in
    (In min_time (t0 :: altri) /\ In max_time (t0 :: altri) /\
     forall t, In t (t0 :: altri) -> min_time <= t <= max_time) /\
    (exists r,
       Finestre.finestre_mobili_tracciate amb fuel lista durata_ore data_corrente
         shp cfg = Some (Finestre.finestre_da n min_time durata, Ok r)) /\
    Finestre.conta_finestre durata fine_span fuel min_time 0 = Some (Z.of_nat n) /\
    length (Finestre.finestre_da n min_time durata) = n /\
    (forall k, (k < n)%nat ->
       nth k (Finestre.finestre_da n min_time durata) (0, 0)
         = (min_time + Z.of_nat k * Tempo.ora,
            min_time + Z.of_nat k * Tempo.ora + durata) /\
       min_time + Z.of_nat k * Tempo.ora + durata <= fine_span) /\
    fine_span < min_time + Z.of_nat n * Tempo.ora + durata.
Proof.
  intros amb fuel lista durata_ore data_corrente shp cfg t0 altri
    H24 E Hshp Hl Hf min_time max_time fine_span durata n.
  destruct (carburante_basta lista durata_ore t0 altri fuel E Hf) as [Hn Hlt].
  assert (En : Z.to_nat (Finestre.numero_finestre (Finestre.minimo t0 altri)
             (Tempo.timedelta_hours durata_ore)
             (Finestre.massimo t0 altri + Tempo.timedelta_hours 1)) = n).
  { subst n fine_span durata min_time max_time.
    unfold Finestre.numero_finestre, Finestre.step, Tempo.timedelta_hours, Tempo.ora.
    change (60 * 60) with 3600.
    match goal with
    | |- Z.to_nat (Z.max 0 (?a / _ + 1)) = Z.to_nat (Z.max 0 (?b / _ + 1)) =>
        replace a with b by lia
    end. reflexivity. }
  rewrite En in Hn, Hlt.
  assert (Ed : Tempo.timedelta_hours durata_ore = durata) by reflexivity.
  assert (Ef : Finestre.massimo t0 altri + Tempo.timedelta_hours 1 = fine_span)
    by (subst fine_span max_time; unfold Tempo.timedelta_hours; lia).
  rewrite Ed, Ef in Hn. fold min_time in Hn.
  split; [|split; [|split; [|split; [|split]]]].
  - destruct (minimo_spec t0 altri) as [I1 M1].
    destruct (massimo_spec t0 altri) as [I2 M2].
    split; [exact I1|split; [exact I2|]]. intros t Ht.
    specialize (M1 t Ht). specialize (M2 t Ht). subst min_time max_time. lia.
  - unfold Finestre.finestre_mobili_tracciate.
    destruct lista as [|x lista']; [discriminate E|].
    destruct (gpd_read_file amb shp) as [f|e]; [|discriminate Hshp].
    destruct (Z.eqb_spec durata_ore 24) as [|_]; [contradiction|].
    unfold Finestre.caso_mobile. rewrite E. cbv zeta. rewrite Ed, Ef.
    fold min_time.
    destruct (ciclo_tutte amb (x :: lista') shp cfg durata fine_span n fuel
                {| Finestre.corrente := min_time; Finestre.risultati := [];
                   Finestre.lista_finestre_log := []; Finestre.valutate := [] |}
                Hl Hn Hlt) as [st' R].
    rewrite R. simpl.
    destruct (Finestre.py_max _ (Finestre.risultati st')); eexists; reflexivity.
  - rewrite (conta_tutte durata fine_span n fuel min_time 0 Hn Hlt). f_equal.
  - unfold Finestre.finestre_da. rewrite length_map, length_seq. reflexivity.
  - intros k Hk. split.
    + unfold Finestre.finestre_da. rewrite nth_map_seq by exact Hk. reflexivity.
    + unfold Finestre.numero_finestre, Finestre.step in Hn.
      change (60 * 60) with 3600 in Hn. unfold Tempo.ora.
      assert (Z.of_nat k + 1 <= (fine_span - min_time - durata) / 3600 + 1) by lia.
      assert (0 <= (fine_span - min_time - durata) / 3600) by lia.
      assert (0 <= fine_span - min_time - durata).
      { destruct (Z_lt_le_dec (fine_span - min_time - durata) 0) as [N|N]; [|exact N].
        assert ((fine_span - min_time - durata) / 3600 < 0)
          by (apply Z.div_lt_upper_bound; lia). lia. }
      pose proof (Z.mul_div_le (fine_span - min_time - durata) 3600 ltac:(lia)).
      nia.
  - unfold Finestre.numero_finestre, Finestre.step in Hn.
    change (60 * 60) with 3600 in Hn. unfold Tempo.ora.
    pose proof (Z.div_mod (fine_span - min_time - durata) 3600 ltac:(lia)).
    pose proof (Z.mod_pos_bound (fine_span - min_time - durata) 3600 ltac:(lia)).
    nia.
Qed.

Lemma finestre_mobili_numero_witness :
  exists r,
    Finestre.finestre_mobili_tracciate Esempi.amb 5 Esempi.tre_tile 2 Esempi.t0
      "zona.shp" Esempi.tutte
    = Some ([(Esempi.alle 10, Esempi.alle 12); (Esempi.alle 11, Esempi.alle 13)], Ok r).
Proof.
  destruct (finestre_mobili_numero Esempi.amb 5 Esempi.tre_tile 2 Esempi.t0
              "zona.shp" Esempi.tutte (Esempi.alle 10)
              [Esempi.alle 11; Esempi.alle 12]) as (_ & [r Hr] & _).
  - discriminate.
  - reflexivity.
  - reflexivity.
  - intros p t [H|[H|[H|[]]]]; injection H as <- _; reflexivity.
  - vm_compute. lia.
  - exists r. exact Hr.
Defined.

(** C3, the claim as stated fails: with a single tile at 10:00 and a
    6-hour duration the span is one hour, no window is tried, and
    floor (1 - 6) + 1 is -4. *)
Lemma finestre_mobili_numero_controesempio :
  let lista := [(Esempi.file "r_20230105100000.tif", Esempi.alle 10)] in
  let span_ore := (Esempi.alle 10 + Tempo.ora - Esempi.alle 10) / Tempo.ora in
  match Finestre.finestre_mobili_tracciate Esempi.amb 5 lista 6 Esempi.t0
          "zona.shp" Esempi.tutte with
  | Some (finestre, Ok _) =>
      finestre = [] /\
      span_ore - 6 + 1 = -4 /\
      Z.of_nat (length finestre) <> span_ore - 6 + 1
  | _ => False
  end.
Proof. vm_compute. repeat split; discriminate. Qed.

(** ** The calendar-day case *)

Lemma stesso_giorno t data :
  Tempo.date t = Tempo.date data <->
  Tempo.giorno * Tempo.date data <= t < Tempo.giorno * Tempo.date data + Tempo.giorno.
Proof.
  unfold Tempo.date, Tempo.giorno.
  pose proof (Z.div_mod t 86400 ltac:(lia)).
  pose proof (Z.mod_pos_bound t 86400 ltac:(lia)).
  split; intros E.
  - rewrite <- E. lia.
  - symmetry. apply (Z.div_unique t 86400 (data / 86400) (t - 86400 * (data / 86400))); lia.
Qed.

Lemma filter_filter_stesso {A} (f : A -> bool) (l : list A) :
  List.filter f (List.filter f l) = List.filter f l.
Proof.
  induction l as [|x l IH]; simpl; [reflexivity|].
  destruct (f x) eqn:E; simpl; [rewrite E, IH; reflexivity|exact IH].
Qed.

Lemma filter_tutti {A} (f : A -> bool) (l : list A) :
  (forall x, In x l -> f x = true) -> List.filter f l = l.
Proof.
  induction l as [|x l IH]; simpl; intros H; [reflexivity|].
  rewrite (H x) by auto. f_equal. apply IH. intros y Hy. apply H. auto.
Qed.

(** ** Selection of the best window *)

Section Selezione.
Import Finestre.
Context {A : Type} (key : A -> float).

(** The scan keeps the first element whose key is not exceeded: every
    element before the selected one has a strictly smaller key, every
    element after it a key that is not greater. *)
Lemma py_max_da_primo : forall (resto : list A) (migliore : A),
  (forall x, In x (migliore :: resto) -> PrimFloat.is_nan (key x) = false) ->
  exists pre post,
    migliore :: resto = pre ++ py_max_da key migliore resto :: post /\
    (forall x, In x pre ->
       PrimFloat.ltb (key x) (key (py_max_da key migliore resto)) = true) /\
    (forall x, In x post ->
       PrimFloat.leb (key x) (key (py_max_da key migliore resto)) = true).
Proof.
  induction resto as [|x resto IH]; intros migliore Hn; simpl.
  - exists [], []. repeat split; intros y [].
  - destruct (PrimFloat.ltb (key migliore) (key x)) eqn:L.
    + destruct (IH x) as (pre & post & E & Hpre & Hpost).
      { intros y Hy. apply Hn. right. exact Hy. }
      exists (migliore :: pre), post. split; [simpl; rewrite <- E; reflexivity|].
      split; [|exact Hpost].
      intros y [<-|Hy]; [|apply Hpre; exact Hy].
      destruct pre as [|z pre].
      * simpl in E. injection E as E _. rewrite <- E. exact L.
      * simpl in E. injection E as E _. subst z.
        eapply Confronti.lt_trans; [exact L|]. apply Hpre. left. reflexivity.
    + destruct (IH migliore) as (pre & post & E & Hpre & Hpost).
      { intros y [<-|Hy]; apply Hn; [left; reflexivity|right; right; exact Hy]. }
      assert (Lx : PrimFloat.leb (key x) (key migliore) = true).
      { apply Confronti.non_lt_le; [apply Hn; left; reflexivity
                                   |apply Hn; right; left; reflexivity|exact L]. }
      destruct pre as [|z pre].
      * simpl in E. injection E as E1 E2.
        exists [], (x :: post). split; [simpl; rewrite <- E1, <- E2; reflexivity|].
        split; [intros y []|].
        intros y [<-|Hy]; [rewrite <- E1; exact Lx|apply Hpost; exact Hy].
      * simpl in E. injection E as E1 E2. subst z.
        exists (migliore :: x :: pre), post.
        split; [simpl; rewrite <- E2; reflexivity|].
        split; [|exact Hpost].
        intros y [<-|[<-|Hy]].
        -- apply Hpre. left. reflexivity.
        -- eapply Confronti.le_lt_trans; [exact Lx|]. apply Hpre. left. reflexivity.
        -- apply Hpre. right. exact Hy.
Qed.

End Selezione.

Lemma StronglySorted_app_inv {A} (R : A -> A -> Prop) (pre post : list A) (x : A) :
  StronglySorted R (pre ++ x :: post) ->
  (forall y, In y pre -> R y x) /\ (forall y, In y post -> R x y).
Proof.
  induction pre as [|z pre IH]; simpl; intros S.
  - apply StronglySorted_inv in S. destruct S as [_ F].
    split; [intros y []|]. intros y Hy. rewrite List.Forall_forall in F. apply F. exact Hy.
  - apply StronglySorted_inv in S. destruct S as [S F].
    destruct (IH S) as [I1 I2]. split; [|exact I2].
    intros y [<-|Hy]; [|apply I1; exact Hy].
    rewrite List.Forall_forall in F. apply F. apply in_or_app. right. left. reflexivity.
Qed.

Lemma filter_filter_implica {A} (p q : A -> bool) (l : list A) :
  (forall x, p x = true -> q x = true) ->
  List.filter p (List.filter q l) = List.filter p l.
Proof.
  intros H. induction l as [|x l IH]; simpl; [reflexivity|].
  destruct (q x) eqn:Q; simpl.
  - rewrite IH. reflexivity.
  - destruct (p x) eqn:P; [|exact IH]. rewrite (H x P) in Q. discriminate.
Qed.

(** ** The 5-day antecedent rainfall *)

Section Cum5d.
Import Tabelle.
Variable amb : ambiente.

Lemma nth_removelast {A} (d : A) : forall (l : list A) (i : nat),
  (S i < length l)%nat -> nth i (removelast l) d = nth i l d.
Proof.
  induction l as [|x l IH]; intros i H; [simpl in H; lia|].
  destruct l as [|y l]; [simpl in H; lia|].
  destruct i as [|i]; [reflexivity|].
  change (removelast (x :: y :: l)) with (x :: removelast (y :: l)).
  simpl nth. apply IH. simpl in *. lia.
Qed.

Lemma length_removelast_cons {A} : forall (l : list A) (x : A),
  length (removelast (x :: l)) = length l.
Proof.
  induction l as [|y l IH]; intros x; [reflexivity|].
  change (removelast (x :: y :: l)) with (x :: removelast (y :: l)).
  simpl length. f_equal. apply IH.
Qed.

Lemma length_shift1 (l : list float) : length (shift1 l) = length l.
Proof.
  destruct l as [|x l]; [reflexivity|].
  unfold shift1. simpl length. f_equal. apply length_removelast_cons.
Qed.

Lemma nth_shift1 (l : list float) (i : nat) :
  (i < length l)%nat ->
  nth i (shift1 l) nan = match i with O => nan | S i' => nth i' l nan end.
Proof.
  intros H. destruct l as [|x l]; [simpl in H; lia|].
  unfold shift1. destruct i as [|i]; [reflexivity|].
  change (nth (S i) (nan :: removelast (x :: l)) nan)
    with (nth i (removelast (x :: l)) nan).
  apply nth_removelast. exact H.
Qed.

Lemma length_rolling_sum w p s : length (rolling_sum amb w p s) = length s.
Proof. unfold rolling_sum. rewrite length_map, length_seq. reflexivity. Qed.

Lemma nth_rolling_sum w p s i :
  (i < length s)%nat ->
  nth i (rolling_sum amb w p s) nan = pd_rolling_sum amb w p s i.
Proof. intros H. unfold rolling_sum. rewrite nth_map_seq by exact H. reflexivity. Qed.

(** The column the code builds, row by row: zero on the first row, and
    on every other row the rolling sum at the row before, zero when that
    is missing. *)
Lemma colonna_cum_5d_nth (s : list float) (i : nat) :
  (i < length s)%nat ->
  nth i (colonna_cum_5d amb s) nan
    = match i with
      | O => F.zero
      | S k => F.fillna0 (pd_rolling_sum amb 6 1 s k)
      end.
Proof.
  intros H. unfold colonna_cum_5d, fillna.
  rewrite (nth_indep _ nan (F.fillna0 nan))
    by (rewrite length_map, length_shift1, length_rolling_sum; exact H).
  rewrite map_nth, nth_shift1 by (rewrite length_rolling_sum; exact H).
  destruct i as [|k]; [reflexivity|].
  rewrite nth_rolling_sum by lia. reflexivity.
Qed.


Lemma length_serie df j : length (serie df j) = length (righe df).
Proof. unfold serie. apply length_map. Qed.

Lemma map_fst_imap {B C : Type} : forall (l : list (string * B)) (g : nat -> string * B -> C),
  map fst (imap (fun i r => (fst r, g i r)) l) = map fst l.
Proof.
  induction l as [|x l IH]; intros g; [reflexivity|].
  simpl. f_equal. apply (IH (fun i r => g (S i) r)).
Qed.

Lemma date_con_colonne df nuova : date (con_colonne df nuova) = date df.
Proof. unfold date, con_colonne. simpl. apply map_fst_imap. Qed.

(** The rows of the table [calcola_cum_5d] returns. *)
Lemma cum_5d_riga (df : DataFrame) (i : nat) (r : string * list float) :
  righe (calcola_cum_5d amb df) !! i = Some r ->
  (i < length (righe df))%nat /\
  snd r = map (fun j => match i with
                        | O => F.zero
                        | S k => F.fillna0 (pd_rolling_sum amb 6 1 (serie df j) k)
                        end)
              (seq 0 (length (colonne df))).
Proof.
  unfold calcola_cum_5d, con_colonne. cbn [righe].
  rewrite list_lookup_imap.
  destruct (righe df !! i) as [r0|] eqn:E; [|discriminate].
  intros H. injection H as <-. apply lookup_lt_Some in E.
  split; [exact E|]. cbn [snd].
  apply map_ext. intros j. apply colonna_cum_5d_nth. rewrite length_serie. exact E.
Qed.

End Cum5d.




(** ** The Peq0 merge *)

Section Fusione.
Import Tabelle.

(** Adding zero to a float keeps its rank: the value is the same number
    (the sign of a zero apart). *)
Lemma add_zero_r_rango (x : float) :
  Ordine.rf (x + F.zero)%float = Ordine.rf x.
Proof.
  unfold Ordine.rf. rewrite FloatAxioms.add_spec.
  change (Prim2SF F.zero) with (S754_zero false).
  destruct (Prim2SF x) as [s|s| |s m e]; try destruct s; reflexivity.
Qed.

Lemma add_zero_l_rango (x : float) :
  Ordine.rf (F.zero + x)%float = Ordine.rf x.
Proof.
  unfold Ordine.rf. rewrite FloatAxioms.add_spec.
  change (Prim2SF F.zero) with (S754_zero false).
  destruct (Prim2SF x) as [s|s| |s m e]; try destruct s; reflexivity.
Qed.

Lemma eqb_da_rango (x y : float) :
  PrimFloat.is_nan y = false -> Ordine.rf x = Ordine.rf y -> PrimFloat.eqb x y = true.
Proof.
  intros Hn E. apply Confronti.is_nan_rango in Hn. destruct Hn as [a Ha].
  apply Confronti.eqb_rango. exists a. rewrite E. auto.
Qed.

Lemma fillna0_valore (x : float) : PrimFloat.is_nan x = false -> F.fillna0 x = x.
Proof. unfold F.fillna0. intros ->. reflexivity. Qed.

Lemma fillna0_mancante (x : float) : PrimFloat.is_nan x = true -> F.fillna0 x = F.zero.
Proof. unfold F.fillna0. intros ->. reflexivity. Qed.

(** Rows found by their date. *)
Lemma find_unico {B} (l : list (string * B)) (r : string * B) :
  List.NoDup (map fst l) -> In r l ->
  List.find (fun x => String.eqb (fst x) (fst r)) l = Some r.
Proof.
  induction l as [|x l IH]; intros N I; [destruct I|].
  simpl in N. apply List.NoDup_cons_iff in N. destruct N as [Nx N].
  simpl. destruct I as [<-|I].
  - rewrite String.eqb_refl. reflexivity.
  - destruct (String.eqb_spec (fst x) (fst r)) as [E|_]; [|apply IH; assumption].
    exfalso. apply Nx. rewrite E. apply in_map. exact I.
Qed.

Lemma find_assente {B} (l : list (string * B)) (d : string) :
  ~ In d (map fst l) -> List.find (fun x => String.eqb (fst x) d) l = None.
Proof.
  induction l as [|x l IH]; intros N; [reflexivity|]. simpl.
  destruct (String.eqb_spec (fst x) d) as [E|_].
  - exfalso. apply N. left. exact E.
  - apply IH. intros I. apply N. right. exact I.
Qed.

Lemma filter_unico {B} (l : list (string * B)) (d : string) :
  List.NoDup (map fst l) ->
  List.filter (fun q => String.eqb (fst q) d) l =
    match List.find (fun q => String.eqb (fst q) d) l with
    | Some q => [q]
    | None => []
    end.
Proof.
  induction l as [|x l IH]; intros N; [reflexivity|].
  simpl in N. apply List.NoDup_cons_iff in N. destruct N as [Nx N]. simpl.
  destruct (String.eqb_spec (fst x) d) as [E|_]; [|apply IH; exact N].
  f_equal. apply filter_nessuno. intros y Hy.
  apply String.eqb_neq. intros E'. apply Nx. rewrite E, <- E'. apply in_map. exact Hy.
Qed.

Lemma posizione_lookup (col : string) : forall (cols : list string) (j : nat),
  posizione col cols = Some j -> cols !! j = Some col.
Proof.
  induction cols as [|c cols IH]; intros j H; [discriminate|]. simpl in H.
  destruct (String.eqb_spec c col) as [->|_].
  - injection H as <-. reflexivity.
  - destruct (posizione col cols) as [k|]; [|discriminate].
    injection H as <-. simpl. apply IH. reflexivity.
Qed.

(** Sorting permutes the rows. *)
Lemma inserisci_perm r l : Permutation (inserisci r l) (r :: l).
Proof.
  induction l as [|x l IH]; simpl; [reflexivity|].
  destruct (String.leb (fst r) (fst x)); [reflexivity|].
  rewrite IH. apply perm_swap.
Qed.

Lemma sort_values_perm l : Permutation (sort_values_Data l) l.
Proof.
  induction l as [|x l IH]; simpl; [reflexivity|].
  unfold sort_values_Data in *. simpl. rewrite inserisci_perm, IH. reflexivity.
Qed.

(** What a call that returns has done. *)
Lemma somma_con_peq0_Ok (base peq0 ris : DataFrame) :
  somma_statistiche_con_peq0 base peq0 = Ok ris ->
  conflitto_suffissi (colonne base) (colonne peq0) = false /\
  exists piani,
    mapM (addendo (colonne base ++ etichette_destra (colonne base) (colonne peq0)))
         (colonne base) = Ok piani /\
    length piani = length (colonne base) /\
    ris = {| colonne := colonne base;
             righe := sort_values_Data
                        (map (fun riga =>
                                (fst (fst riga),
                                 map (cella_sommata (length (colonne base)) riga) piani))
                             (merge_left base peq0)) |}.
Proof.
  unfold somma_statistiche_con_peq0.
  destruct (conflitto_suffissi (colonne base) (colonne peq0)); [discriminate|].
  cbv zeta.
  destruct (mapM _ (colonne base)) as [piani|e] eqn:Ep;
    cbv beta iota delta [mbind esito_bind]; [|discriminate].
  intros H. injection H as <-. split; [reflexivity|].
  exists piani. split; [reflexivity|]. split; [|reflexivity].
  apply mapM_esito_Forall2 in Ep. symmetry. eapply Forall2_length. exact Ep.
Qed.

Lemma righe_unite (base peq0 : DataFrame) (piani : list (nat * option nat)) :
  List.NoDup (date peq0) ->
  forall l : list (string * list float),
    map (fun riga : string * list float * option (list float) =>
           (fst (fst riga),
            map (cella_sommata (length (colonne base)) riga) piani))
        (flat_map (fun r =>
           match List.filter (fun q => String.eqb (fst q) (fst r)) (righe peq0) with
           | [] => [(fst r, snd r, None)]
           | trovate => map (fun q => (fst r, snd r, Some (snd q))) trovate
           end) l)
    = map (riga_sommata base peq0 piani) l.
Proof.
  intros N. induction l as [|r l IH]; [reflexivity|].
  cbn [flat_map]. rewrite map_app, IH. cbn [map].
  change (riga_sommata base peq0 piani r :: map (riga_sommata base peq0 piani) l)
    with ([riga_sommata base peq0 piani r] ++ map (riga_sommata base peq0 piani) l).
  f_equal. rewrite (filter_unico (righe peq0) (fst r) N).
  unfold riga_sommata.
  destruct (List.find _ (righe peq0)) as [q|]; reflexivity.
Qed.

Lemma righe_sommate (base peq0 ris : DataFrame) :
  List.NoDup (date peq0) ->
  somma_statistiche_con_peq0 base peq0 = Ok ris ->
  exists piani,
    mapM (addendo (colonne base ++ etichette_destra (colonne base) (colonne peq0)))
         (colonne base) = Ok piani /\
    colonne ris = colonne base /\
    Permutation (righe ris) (map (riga_sommata base peq0 piani) (righe base)).
Proof.
  intros N H. apply somma_con_peq0_Ok in H.
  destruct H as (_ & piani & Ep & _ & ->).
  exists piani. split; [exact Ep|]. split; [reflexivity|].
  cbn [righe]. rewrite sort_values_perm. unfold merge_left.
  rewrite (righe_unite base peq0 piani N). reflexivity.
Qed.

(** *** The columns of [merged] *)

Lemma presente_In (c : string) (cols : list string) :
  presente c cols = true <-> In c cols.
Proof.
  unfold presente. rewrite existsb_exists. split.
  - intros (x & Hx & E). apply String.eqb_eq in E. subst x. exact Hx.
  - intros H. exists c. split; [exact H|apply String.eqb_refl].
Qed.

Lemma length_append_stringa (s t : string) :
  String.length (s +:+ t) = (String.length s + String.length t)%nat.
Proof. induction s as [|c s IH]; simpl; [reflexivity|]. rewrite IH. reflexivity. Qed.

Lemma append_inj_sx (t : string) : forall p q : string, p +:+ t = q +:+ t -> p = q.
Proof.
  induction p as [|c p IH]; intros [|c' q] E.
  - reflexivity.
  - exfalso. apply (f_equal String.length) in E.
    rewrite !length_append_stringa in E. simpl in E. lia.
  - exfalso. apply (f_equal String.length) in E.
    rewrite !length_append_stringa in E. simpl in E. lia.
  - change (String c (p +:+ t) = String c' (q +:+ t)) in E.
    injection E as -> E. f_equal. apply IH. exact E.
Qed.

Lemma posizioni_app (x : string) : forall (l1 l2 : list string) (da : nat),
  posizioni x (l1 ++ l2) da = posizioni x l1 da ++ posizioni x l2 (da + length l1).
Proof.
  induction l1 as [|c l1 IH]; intros l2 da; simpl.
  - replace (da + 0)%nat with da by lia. reflexivity.
  - rewrite IH. replace (S da + length l1)%nat with (da + S (length l1))%nat by lia.
    destruct (String.eqb c x); reflexivity.
Qed.

Lemma posizioni_map (f : string -> string) (x y : string) :
  forall (l : list string) (da : nat),
    (forall c, In c l -> String.eqb (f c) x = String.eqb c y) ->
    posizioni x (map f l) da = posizioni y l da.
Proof.
  induction l as [|c l IH]; intros da H; [reflexivity|]. simpl.
  rewrite (H c (or_introl eq_refl)), IH by (intros c' Hc'; apply H; right; exact Hc').
  reflexivity.
Qed.

Lemma posizioni_assente (x : string) : forall (l : list string) (da : nat),
  ~ In x l -> posizioni x l da = [].
Proof.
  induction l as [|c l IH]; intros da N; [reflexivity|]. simpl.
  destruct (String.eqb_spec c x) as [E|_].
  - exfalso. apply N. left. exact E.
  - apply IH. intros I. apply N. right. exact I.
Qed.

Lemma posizione_In (x : string) : forall (l : list string),
  In x l <-> exists j, posizione x l = Some j.
Proof.
  induction l as [|c l IH]; simpl.
  - split; [intros []|intros [j H]; discriminate].
  - destruct (String.eqb_spec c x) as [E|N].
    + split; [eauto|]. intros _. left. exact E.
    + rewrite IH. split.
      * intros [E|[j H]]; [contradiction|]. exists (S j). rewrite H. reflexivity.
      * intros [j H]. right. destruct (posizione x l) as [k|]; [eauto|discriminate].
Qed.

Lemma posizioni_unica (x : string) : forall (l : list string) (da j : nat),
  List.NoDup l -> posizione x l = Some j -> posizioni x l da = [(da + j)%nat].
Proof.
  induction l as [|c l IH]; intros da j N H; [discriminate|].
  apply List.NoDup_cons_iff in N. destruct N as [Nc N]. simpl in *.
  destruct (String.eqb_spec c x) as [->|Ne].
  - injection H as <-. rewrite posizioni_assente by exact Nc.
    replace (da + 0)%nat with da by lia. reflexivity.
  - destruct (posizione x l) as [k|] eqn:Ek; [|discriminate].
    injection H as <-. rewrite (IH (S da) k N eq_refl). f_equal. lia.
Qed.

Lemma posizioni_di (x : string) (l : list string) (da : nat) :
  List.NoDup l ->
  posizioni x l da = match posizione x l with
                     | Some j => [(da + j)%nat]
                     | None => []
                     end.
Proof.
  intros N. destruct (posizione x l) as [j|] eqn:E.
  - apply posizioni_unica; assumption.
  - apply posizioni_assente. intros I. apply posizione_In in I.
    destruct I as [j I]. congruence.
Qed.

Lemma NoDup_nth_firstn (l : list string) : forall k : nat,
  List.NoDup l -> (k < length l)%nat -> ~ In (nth k l "") (firstn k l).
Proof.
  induction l as [|c l IH]; intros k N Hk; [simpl in Hk; lia|].
  apply List.NoDup_cons_iff in N. destruct N as [Nc N].
  destruct k as [|k]; [intros []|]. simpl. intros [E|I].
  - apply Nc. rewrite E. apply nth_In. simpl in Hk. lia.
  - apply (IH k N); [simpl in Hk; lia|exact I].
Qed.

Section NomiColonne.
Variables sinistra destra : list string.
Hypothesis Hsx : List.NoDup sinistra.
Hypothesis Hdx : List.NoDup destra.
Hypothesis Hsuff : forall z c,
  In z sinistra -> In c (sinistra ++ destra) -> c <> z +:+ "_peq0".

Lemma etichetta_inj c c' :
  In c destra -> In c' destra ->
  etichetta_destra sinistra c = etichetta_destra sinistra c' -> c = c'.
Proof.
  unfold etichetta_destra. intros I I' E.
  destruct (presente c sinistra) eqn:P; destruct (presente c' sinistra) eqn:P'.
  - apply (append_inj_sx "_peq0"). exact E.
  - exfalso. apply presente_In in P.
    apply (Hsuff c c' P); [apply in_or_app; right; exact I'|symmetry; exact E].
  - exfalso. apply presente_In in P'.
    apply (Hsuff c' c P'); [apply in_or_app; right; exact I|exact E].
  - exact E.
Qed.

Lemma etichette_NoDup : List.NoDup (etichette_destra sinistra destra).
Proof.
  unfold etichette_destra. apply NoDup_ListNoDup.
  apply (NoDup_fmap_2_strong (etichetta_destra sinistra)).
  - intros c c' I I'. apply etichetta_inj; apply list_elem_of_In; assumption.
  - apply NoDup_ListNoDup. exact Hdx.
Qed.

Lemma nessun_conflitto : conflitto_suffissi sinistra destra = false.
Proof.
  unfold conflitto_suffissi. cbv zeta.
  apply not_true_is_false. intros E. apply existsb_exists in E.
  destruct E as (k & Hk & E). apply in_seq in Hk.
  apply andb_true_iff in E. destruct E as [E _].
  apply presente_In in E. revert E.
  apply NoDup_nth_firstn; [apply etichette_NoDup|].
  unfold etichette_destra. rewrite length_map. lia.
Qed.

(** The plan of a zone column: its own position, and the position of
    the column of the same name of the right table when there is one. *)
Lemma addendo_dei_nomi (z : string) :
  In z sinistra ->
  addendo (sinistra ++ etichette_destra sinistra destra) z
    = Ok (default 0%nat (posizione z sinistra),
          (fun k => (length sinistra + k)%nat) <$> posizione z destra).
Proof.
  intros Iz. unfold addendo. rewrite !posizioni_app. simpl "+"%nat.
  assert (E1 : posizioni z (etichette_destra sinistra destra) (length sinistra) = []).
  { apply posizioni_assente. unfold etichette_destra. intros I.
    apply in_map_iff in I. destruct I as (c & E & Ic).
    unfold etichetta_destra in E. destruct (presente c sinistra) eqn:P.
    - apply presente_In in P.
      apply (Hsuff c z P); [apply in_or_app; left; exact Iz|symmetry; exact E].
    - subst c. apply presente_In in Iz. congruence. }
  assert (E2 : posizioni (z +:+ "_peq0") sinistra 0 = []).
  { apply posizioni_assente. intros I.
    apply (Hsuff z (z +:+ "_peq0") Iz); [apply in_or_app; left; exact I|reflexivity]. }
  assert (E3 : posizioni (z +:+ "_peq0") (etichette_destra sinistra destra)
                 (length sinistra)
               = posizioni z destra (length sinistra)).
  { unfold etichette_destra. apply posizioni_map. intros c Ic.
    unfold etichetta_destra. destruct (presente c sinistra) eqn:P.
    - destruct (String.eqb_spec c z) as [->|N]; [apply String.eqb_refl|].
      apply String.eqb_neq. intros E. apply N. apply (append_inj_sx "_peq0"). exact E.
    - destruct (String.eqb_spec c z) as [->|N].
      + apply presente_In in Iz. congruence.
      + apply String.eqb_neq. intros E.
        apply (Hsuff z c Iz); [apply in_or_app; right; exact Ic|exact E]. }
  rewrite E1, E2, E3, app_nil_r. cbn [app].
  rewrite (posizioni_di z sinistra 0 Hsx), (posizioni_di z destra (length sinistra) Hdx).
  apply posizione_In in Iz. destruct Iz as [j Ej]. rewrite Ej.
  destruct (posizione z destra) as [k|]; reflexivity.
Qed.

Lemma piani_dei_nomi :
  mapM (addendo (sinistra ++ etichette_destra sinistra destra)) sinistra
    = Ok (map (fun z => (default 0%nat (posizione z sinistra),
                         (fun k => (length sinistra + k)%nat) <$> posizione z destra))
              sinistra).
Proof. apply mapM_esito_Ok. intros z Iz. apply addendo_dei_nomi. exact Iz. Qed.

End NomiColonne.

End Fusione.

(** ** The sheets of the Peq0 pass leave the base tables in place *)

Section Fogli.
Import Tabelle.

Lemma append_non_vuoto (s t : string) : t <> EmptyString -> s +:+ t <> EmptyString.
Proof. intros Ht. destruct s; [exact Ht|discriminate]. Qed.

Lemma ultimo_app (s t : string) : t <> EmptyString -> ultimo (s +:+ t) = ultimo t.
Proof.
  intros Ht. induction s as [|c s IH]; [reflexivity|].
  change (String c s +:+ t) with (String c (s +:+ t)).
  simpl. rewrite IH.
  pose proof (append_non_vuoto s t Ht) as N.
  destruct (s +:+ t); [contradiction|reflexivity].
Qed.

Lemma ultimo_chiave_foglio stat durata : ultimo (chiave_foglio stat durata) = Some "h"%char.
Proof.
  unfold chiave_foglio.
  rewrite ultimo_app by (apply append_non_vuoto, append_non_vuoto; discriminate).
  rewrite ultimo_app by (apply append_non_vuoto; discriminate).
  rewrite ultimo_app by discriminate. reflexivity.
Qed.

(** What holds of the two first sheets and is kept when a sheet
    [..._Peq0] is added holds of the sheets the loop returns. *)
Lemma crea_fogli_peq0_invariante (P : gmap string DataFrame -> Prop)
    (dataframes_finali : gmap string DataFrame)
    (peq0_df cum_5d : DataFrame) (durate : list Z) (statistiche_attive : list string)
    (fogli : gmap string DataFrame) :
  P (<["Cum_5d" := cum_5d]> (<["Peq0" := peq0_df]> ∅)) ->
  (forall f stat durata df,
     P f -> P (<[chiave_foglio stat durata +:+ "_Peq0" := df]> f)) ->
  crea_fogli_peq0 dataframes_finali peq0_df cum_5d durate statistiche_attive = Ok fogli ->
  P fogli.
Proof.
  intros P0 Pins. unfold crea_fogli_peq0.
  set (inv := fun acc : esito (gmap string DataFrame) =>
                forall f, acc = Ok f -> P f).
  assert (I0 : inv (Ok (<["Cum_5d" := cum_5d]> (<["Peq0" := peq0_df]> ∅)))).
  { intros f H. injection H as <-. exact P0. }
  revert I0.
  generalize (Ok (<["Cum_5d" := cum_5d]> (<["Peq0" := peq0_df]> (∅ : gmap string DataFrame)))).
  intros acc I H. revert fogli H. fold (inv (fold_left
    (fun acc durata =>
       fold_left (fun acc stat =>
         fogli ← acc;
         match dataframes_finali !! chiave_foglio stat durata with
         | Some df_originale =>
             df_con_peq0 ← somma_statistiche_con_peq0 df_originale peq0_df;
             Ok (<[chiave_foglio stat durata +:+ "_Peq0" := df_con_peq0]> fogli)
         | None => Ok fogli
         end) statistiche_attive acc) durate acc)).
  revert acc I.
  induction durate as [|durata durate IHd]; intros acc I; [exact I|].
  simpl. apply IHd. clear IHd. revert acc I.
  induction statistiche_attive as [|stat stats IHs]; intros acc I; [exact I|].
  simpl. apply IHs. intros f.
  destruct acc as [f0|e]; cbv beta iota delta [mbind esito_bind]; [|discriminate].
  specialize (I f0 eq_refl).
  destruct (dataframes_finali !! chiave_foglio stat durata) as [df|].
  - destruct (somma_statistiche_con_peq0 df peq0_df) as [r|e];
      cbv beta iota delta [mbind esito_bind]; [|discriminate].
    intros H. injection H as <-. apply Pins. exact I.
  - intros H. injection H as <-. exact I.
Qed.

(** No sheet of the Peq0 pass has the name of a base table. *)
Lemma fogli_peq0_nomi (dataframes_finali : gmap string DataFrame)
    (peq0_df cum_5d : DataFrame) (durate : list Z) (statistiche_attive : list string)
    (fogli : gmap string DataFrame) :
  crea_fogli_peq0 dataframes_finali peq0_df cum_5d durate statistiche_attive = Ok fogli ->
  forall k, ultimo k = Some "h"%char -> fogli !! k = None.
Proof.
  intros H k Hk.
  apply (crea_fogli_peq0_invariante (fun f => f !! k = None) _ _ _ _ _ _) in H;
    [exact H| |].
  - rewrite !lookup_insert_ne, lookup_empty; [reflexivity| |];
      intros <-; discriminate Hk.
  - intros f stat durata df I. rewrite lookup_insert_ne; [exact I|].
    intros <-. rewrite ultimo_app in Hk by discriminate. discriminate Hk.
Qed.

Lemma foglio_base_conservato (cartella : gmap string DataFrame)
    (peq0_df cum_5d : DataFrame) (durate : list Z) (statistiche_attive : list string)
    (fogli : gmap string DataFrame) (stat : string) (durata : Z) :
  crea_fogli_peq0 cartella peq0_df cum_5d durate statistiche_attive = Ok fogli ->
  scrivi_fogli cartella fogli !! chiave_foglio stat durata
  = cartella !! chiave_foglio stat durata.
Proof.
  intros H. unfold scrivi_fogli. rewrite lookup_union_r; [reflexivity|].
  eapply fogli_peq0_nomi; [exact H|]. apply ultimo_chiave_foglio.
Qed.

End Fogli.

(** A column of the Peq0 table whose name is a zone name followed by
    [_peq0] is the one the code adds to the zone: 1 + 5 is 6. *)
Example somma_con_peq0_colonna_con_suffisso :
  Tabelle.somma_statistiche_con_peq0
    {| Tabelle.colonne := ["A"]; Tabelle.righe := [("2023-01-01", [1])]%float |}
    {| Tabelle.colonne := ["A_peq0"]; Tabelle.righe := [("2023-01-01", [5])]%float |}
  = Ok {| Tabelle.colonne := ["A"]; Tabelle.righe := [("2023-01-01", [6])]%float |}.
Proof. vm_compute. reflexivity. Qed.

(** Two columns of the Peq0 table that get the same label make the merge
    raise. *)
Example somma_con_peq0_etichette_uguali :
  Tabelle.somma_statistiche_con_peq0
    {| Tabelle.colonne := ["A"]; Tabelle.righe := [("2023-01-01", [1])]%float |}
    {| Tabelle.colonne := ["A"; "A_peq0"];
       Tabelle.righe := [("2023-01-01", [2; 5])]%float |}
  = Eccezione "MergeError".
Proof. vm_compute. reflexivity. Qed.

(** C9 (as amended).  When the dates of each table are distinct, the
    zone names of each table are distinct and no column of either table
    is named as a zone of the base table followed by [_peq0], the call
    returns, and the table with Peq0 has the columns and, up to order, the
    dates of the base table: a date that is absent from the base table is
    absent from it.  For every date and zone of the base table it holds
    base + peq0 with a missing entry on either side counted as zero (the
    base value filled alone when the Peq0 table lacks the zone): with no
    Peq0 value the result is the base value, and with a missing base cell
    on a date of the base table it is the Peq0 value.  The sheets written
    by the Peq0 pass never replace the sheet of a base table, which stays
    as it was. *)
Theorem somma_con_peq0_additiva :
  forall base peq0 : Tabelle.DataFrame,
    List.NoDup (Tabelle.date base) ->
    List.NoDup (Tabelle.date peq0) ->
    List.NoDup (Tabelle.colonne base) ->
    List.NoDup (Tabelle.colonne peq0) ->
    (forall z c,
       In z (Tabelle.colonne base) ->
       In c (Tabelle.colonne base ++ Tabelle.colonne peq0) ->
       c <> z +:+ "_peq0") ->
    exists ris,
      Tabelle.somma_statistiche_con_peq0 base peq0 = Ok ris /\
      Tabelle.colonne ris = Tabelle.colonne base /\
      Permutation (Tabelle.date ris) (Tabelle.date base) /\
      (forall d z, ~ In d (Tabelle.date base) -> Tabelle.cella ris d z = None) /\
      (forall d z b,
         Tabelle.cella base d z = Some b ->
         exists v,
           Tabelle.cella ris d z = Some v /\
           v = match Tabelle.posizione z (Tabelle.colonne peq0) with
               | Some _ => (F.fillna0 b + F.fillna0 (Tabelle.valore peq0 d z))%float
               | None => F.fillna0 b
               end /\
           (F.is_nan b = false -> F.is_nan (Tabelle.valore peq0 d z) = true ->
            PrimFloat.eqb v b = true) /\
           (F.is_nan b = true -> F.is_nan (Tabelle.valore peq0 d z) = false ->
            PrimFloat.eqb v (Tabelle.valore peq0 d z) = true)) /\
      (forall (cartella fogli : gmap string Tabelle.DataFrame)
              (cum_5d : Tabelle.DataFrame)
              (durate : list Z) (statistiche_attive : list string)
              (stat : string) (durata : Z),
         Tabelle.crea_fogli_peq0 cartella peq0 cum_5d durate statistiche_attive
           = Ok fogli ->
         Tabelle.scrivi_fogli cartella fogli !! Tabelle.chiave_foglio stat durata
         = cartella !! Tabelle.chiave_foglio stat durata).
Proof.
  intros base peq0 Nb Np Cb Cp Hs.
  set (n := length (Tabelle.colonne base)).
  set (piani := map (fun z => (default 0%nat (Tabelle.posizione z (Tabelle.colonne base)),
                               (fun k => (n + k)%nat)
                                 <$> Tabelle.posizione z (Tabelle.colonne peq0)))
                    (Tabelle.colonne base)).
  assert (Ep : mapM (Tabelle.addendo (Tabelle.colonne base ++
                       Tabelle.etichette_destra (Tabelle.colonne base)
                                                (Tabelle.colonne peq0)))
                    (Tabelle.colonne base) = Ok piani)
    by (apply piani_dei_nomi; assumption).
  set (ris := {| Tabelle.colonne := Tabelle.colonne base;
                 Tabelle.righe :=
                   Tabelle.sort_values_Data
                     (map (fun riga =>
                             (fst (fst riga), map (Tabelle.cella_sommata n riga) piani))
                          (Tabelle.merge_left base peq0)) |}).
  assert (Er : Tabelle.somma_statistiche_con_peq0 base peq0 = Ok ris).
  { unfold Tabelle.somma_statistiche_con_peq0.
    rewrite (nessun_conflitto _ _ Cp Hs). cbv zeta. rewrite Ep. reflexivity. }
  assert (P : Permutation (Tabelle.righe ris)
                (map (Tabelle.riga_sommata base peq0 piani) (Tabelle.righe base))).
  { destruct (righe_sommate base peq0 ris Np Er) as (piani' & Ep' & _ & P).
    rewrite Ep in Ep'. injection Ep' as <-. exact P. }
  assert (Pd : Permutation (Tabelle.date ris) (Tabelle.date base)).
  { unfold Tabelle.date. rewrite P, map_map. reflexivity. }
  exists ris. split; [exact Er|]. split; [reflexivity|]. split; [exact Pd|].
  split; [|split].
  3:{ intros. eapply foglio_base_conservato. eassumption. }
  - intros d z N. unfold Tabelle.cella.
    rewrite find_assente; [reflexivity|].
    intros I. apply N. eapply Permutation_in; [exact Pd|exact I].
  - intros d z b Hb. unfold Tabelle.cella in Hb.
    destruct (List.find (fun r => String.eqb (fst r) d) (Tabelle.righe base))
      as [r|] eqn:Fr; [|discriminate].
    destruct (Tabelle.posizione z (Tabelle.colonne base)) as [j|] eqn:Pj; [|discriminate].
    injection Hb as Hb.
    apply find_some in Fr. destruct Fr as [Ir Er']. apply String.eqb_eq in Er'.
    assert (Fris : List.find (fun x => String.eqb (fst x) d) (Tabelle.righe ris)
                   = Some (Tabelle.riga_sommata base peq0 piani r)).
    { rewrite <- Er'.
      change (fst r) with (fst (Tabelle.riga_sommata base peq0 piani r)).
      apply find_unico.
      - eapply Permutation_NoDup; [symmetry; exact Pd|exact Nb].
      - eapply Permutation_in; [symmetry; exact P|]. apply in_map. exact Ir. }
    pose proof (posizione_lookup _ _ _ Pj) as Lj.
    assert (Hj : (j < n)%nat) by (apply lookup_lt_Some in Lj; exact Lj).
    set (dx := snd <$> List.find (fun q => String.eqb (fst q) d) (Tabelle.righe peq0)).
    assert (V : Tabelle.valore peq0 d z =
                match Tabelle.posizione z (Tabelle.colonne peq0) with
                | Some k =>
                    match dx with
                    | Some celle => nth k celle nan
                    | None => nan
                    end
                | None => nan
                end).
    { unfold Tabelle.valore, Tabelle.cella, dx.
      destruct (List.find _ (Tabelle.righe peq0)) as [q|];
        destruct (Tabelle.posizione z (Tabelle.colonne peq0)); reflexivity. }
    assert (Cella : nth j (snd (Tabelle.riga_sommata base peq0 piani r)) nan
                    = match Tabelle.posizione z (Tabelle.colonne peq0) with
                      | Some _ =>
                          (F.fillna0 b + F.fillna0 (Tabelle.valore peq0 d z))%float
                      | None => F.fillna0 b
                      end).
    { unfold Tabelle.riga_sommata. cbn [snd]. fold n.
      rewrite Er'. fold dx.
      rewrite nth_lookup, list_lookup_fmap. unfold piani at 1.
      rewrite list_lookup_fmap, Lj. cbn [fmap option_fmap option_map default].
      rewrite Pj. cbn [default]. unfold Tabelle.cella_sommata. cbn [fst snd].
      rewrite V.
      assert (Sx : Tabelle.cella_merged n (d, snd r, dx) j = b).
      { unfold Tabelle.cella_merged.
        replace (j <? n)%nat with true by (symmetry; apply Nat.ltb_lt; exact Hj).
        exact Hb. }
      destruct (Tabelle.posizione z (Tabelle.colonne peq0)) as [k|].
      - cbn [fmap option_fmap option_map]. unfold id. rewrite Sx. f_equal. f_equal.
        unfold Tabelle.cella_merged.
        replace (n + k <? n)%nat with false by (symmetry; apply Nat.ltb_ge; lia).
        replace (n + k - n)%nat with k by lia. reflexivity.
      - cbn [fmap option_fmap option_map]. unfold id. rewrite Sx. reflexivity. }
    eexists. split; [|split; [|split]].
    + unfold Tabelle.cella. rewrite Fris.
      change (Tabelle.colonne ris) with (Tabelle.colonne base). rewrite Pj. reflexivity.
    + exact Cella.
    + intros B1 B2. rewrite Cella.
      destruct (Tabelle.posizione z (Tabelle.colonne peq0)) as [k|].
      * rewrite (fillna0_mancante _ B2), (fillna0_valore _ B1).
        apply eqb_da_rango; [exact B1|apply add_zero_r_rango].
      * rewrite (fillna0_valore _ B1). apply eqb_da_rango; [exact B1|reflexivity].
    + intros B1 B2. rewrite Cella.
      destruct (Tabelle.posizione z (Tabelle.colonne peq0)) as [k|] eqn:Pk.
      * rewrite (fillna0_mancante _ B1), (fillna0_valore _ B2).
        apply eqb_da_rango; [exact B2|apply add_zero_l_rango].
      * rewrite V in B2. discriminate B2.
Qed.

Lemma somma_con_peq0_additiva_witness :
  exists ris,
    Tabelle.somma_statistiche_con_peq0 Esempi.tabella_base Esempi.tabella_peq0 = Ok ris /\
    Tabelle.cella ris "2023-01-01" "IM_01" = Some 3%float /\
    Permutation (Tabelle.date ris) ["2023-01-01"].
Proof.
  destruct (somma_con_peq0_additiva Esempi.tabella_base Esempi.tabella_peq0)
    as (ris & Er & _ & Pd & _ & Hc & _).
  - repeat constructor. intros [].
  - repeat constructor; simpl; intros H;
      repeat (destruct H as [H|H]; [discriminate H|]); exact H.
  - repeat constructor; simpl; intros H;
      repeat (destruct H as [H|H]; [discriminate H|]); exact H.
  - repeat constructor; simpl; intros H;
      repeat (destruct H as [H|H]; [discriminate H|]); exact H.
  - intros z c Hz Hc. simpl in Hz, Hc.
    repeat (destruct Hz as [<-|Hz]; [
      repeat (destruct Hc as [<-|Hc]; [discriminate|]); destruct Hc|]).
    destruct Hz.
  - exists ris. split; [exact Er|]. split; [|exact Pd].
    destruct (Hc "2023-01-01" "IM_01" 1%float eq_refl) as (v & Hv & -> & _).
    exact Hv.
Defined.

(** C9, the claim as stated fails: the Peq0 table has the date
    2023-01-02 and the base table has not; the merged table has no row for
    that date, so the Peq0 value 3 of zone IM_01 is not there. *)
Lemma somma_con_peq0_controesempio :
  In "2023-01-02" (Tabelle.date Esempi.tabella_peq0) /\
  Tabelle.cella Esempi.tabella_peq0 "2023-01-02" "IM_01" = Some 3%float /\
  match Tabelle.somma_statistiche_con_peq0 Esempi.tabella_base Esempi.tabella_peq0 with
  | Ok ris =>
      Tabelle.cella ris "2023-01-02" "IM_01" = None /\
      ~ Tabelle.fusione_dichiarata Esempi.tabella_base Esempi.tabella_peq0 ris
  | Eccezione _ => False
  end.
Proof.
  split; [right; left; reflexivity|]. split; [reflexivity|].
  assert (exists ris,
    Tabelle.somma_statistiche_con_peq0 Esempi.tabella_base Esempi.tabella_peq0 = Ok ris /\
    Tabelle.cella ris "2023-01-02" "IM_01" = None) as (ris & -> & Hc)
    by (eexists; split; vm_compute; reflexivity).
  split; [exact Hc|].
  intros H.
  specialize (H "2023-01-02" "IM_01" (or_introl eq_refl)
                (or_intror (or_intror (or_introl eq_refl)))).
  rewrite Hc in H. discriminate H.
Qed.

(** ** Peq0 at CN = 100 *)

Section Peq0Cento.

Lemma gt0_casi (x : float) :
  F.gt0 x = true ->
  (exists m e, Prim2SF x = S754_finite false m e) \/ Prim2SF x = S754_infinity false.
Proof.
  unfold F.gt0. rewrite FloatAxioms.ltb_spec.
  change (Prim2SF F.zero) with (S754_zero false).
  destruct (Prim2SF x) as [s|s| |s m e]; try destruct s; try discriminate; eauto.
Qed.

Lemma add_zero_positivo (x : float) :
  F.gt0 x = true -> (x + 0)%float = x.
Proof.
  intros H. apply Prim2SF_inj. rewrite FloatAxioms.add_spec.
  change (Prim2SF 0) with (S754_zero false).
  destruct (gt0_casi x H) as [(m & e & ->)| ->]; reflexivity.
Qed.

Lemma mul_zero_positivo (x : float) :
  F.gt0 x = true -> (0 * x)%float = 0%float \/ (0 * x)%float = nan.
Proof.
  intros H. destruct (gt0_casi x H) as [(m & e & E)|E]; [left|right];
    apply Prim2SF_inj; rewrite FloatAxioms.mul_spec, E; reflexivity.
Qed.

(** With CN = 100 every antecedent rainfall that passes the guard of the
    caller gives NaN. *)
Lemma peq0_cella_cn100 (p5 : float) :
  F.gt0 p5 = true ->
  exists v, Peq0.calcola_peq0 p5 100 Peq0.LAMBDA_PEQ = Ok v /\ F.is_nan v = true.
Proof.
  intros H. unfold Peq0.calcola_peq0.
  change (Peq0.peq0_S 100) with (Ok 0%float).
  cbv beta iota zeta delta [mbind esito_bind Peq0.peq0_M Peq0.peq0_sqrt_term
                             Peq0.peq0_divisore].
  change (((1 - Peq0.LAMBDA_PEQ) / 2 * ((1 - Peq0.LAMBDA_PEQ) / 2) * 0)%float)
    with 0%float.
  rewrite (add_zero_positivo p5 H).
  destruct (mul_zero_positivo p5 H) as [-> | ->]; eexists; split;
    try reflexivity; vm_compute; reflexivity.
Qed.

End Peq0Cento.

(** C10.  With the legal curve number CN = 100 and the antecedent rainfall
    P5 = 10 mm (> 0, not NaN), S and M are both zero, the divisor S + M is
    zero, [calcola_peq0] returns NaN (not 0, and no exception), and the
    caller's guard lets that input through: the cell function returns the
    same NaN.  The same holds for every P5 the guard lets through: with
    CN = 100 the cell is NaN whenever P5 is not missing and P5 > 0. *)
Theorem peq0_cn100_is_nan :
  (exists P5 S M v : float,
     F.gt0 P5 = true /\ F.notna P5 = true /\
     Peq0.peq0_S 100 = Ok S /\ S = F.zero /\
     Peq0.peq0_M S P5 Peq0.LAMBDA_PEQ = M /\ M = F.zero /\
     Peq0.peq0_divisore S M = F.zero /\
     Peq0.calcola_peq0 P5 100 Peq0.LAMBDA_PEQ = Ok v /\
     Peq0.peq0_cella 100 P5 = Ok v /\
     F.is_nan v = true /\ v <> F.zero) /\
  (forall p5 : float,
     F.notna p5 && F.gt0 p5 = true ->
     exists v, Peq0.peq0_cella 100 p5 = Ok v /\ F.is_nan v = true).
Proof.
  split.
  - exists 10%float, F.zero, F.zero, nan.
    repeat split; try (vm_compute; reflexivity).
    intros H. apply (f_equal PrimFloat.is_nan) in H. vm_compute in H. discriminate.
  - intros p5 G. unfold Peq0.peq0_cella. rewrite G.
    apply andb_true_iff in G. destruct G as [_ G].
    apply peq0_cella_cn100. exact G.
Qed.

(** ** The number of worker processes *)

(** X1.  [get_optimal_process_count] always gives at least one process;
    on a machine with at least one core it never gives more processes
    than cores, and from six cores on the processes and one more core
    fit three times in the cores: two thirds of them stay free. *)
Theorem processi_almeno_uno :
  forall total_cores : Z,
    1 <= Processi.get_optimal_process_count total_cores /\
    (1 <= total_cores ->
     Processi.get_optimal_process_count total_cores <= total_cores) /\
    (6 <= total_cores ->
     Processi.get_optimal_process_count total_cores = total_cores / 3 - 1 /\
     3 * (Processi.get_optimal_process_count total_cores + 1) <= total_cores).
Proof.
  intros n. unfold Processi.get_optimal_process_count.
  pose proof (Z.div_mod n 3 ltac:(lia)).
  pose proof (Z.mod_pos_bound n 3 ltac:(lia)).
  repeat split; lia.
Qed.

(** ** Sorting *)

Section Ordinati.
Import Ordinamento.
Context {A : Type} (leb : A -> A -> bool).

Lemma inserisci_permutazione (x : A) (l : list A) :
  Permutation (inserisci leb x l) (x :: l).
Proof.
  induction l as [|y l IH]; simpl; [reflexivity|].
  destruct (leb x y); [reflexivity|].
  rewrite IH. apply perm_swap.
Qed.

Lemma sorted_permutazione (l : list A) : Permutation (sorted leb l) l.
Proof.
  induction l as [|x l IH]; simpl; [reflexivity|].
  rewrite inserisci_permutazione, IH. reflexivity.
Qed.

Lemma sorted_In (l : list A) (x : A) : In x (sorted leb l) <-> In x l.
Proof.
  split; apply Permutation_in; [|symmetry]; apply sorted_permutazione.
Qed.

Hypothesis leb_totale : forall x y, leb x y = true \/ leb y x = true.
Hypothesis leb_transitiva :
  forall x y z, leb x y = true -> leb y z = true -> leb x z = true.

Lemma inserisci_ordinata (x : A) (l : list A) :
  StronglySorted (fun a b => leb a b = true) l ->
  StronglySorted (fun a b => leb a b = true) (inserisci leb x l).
Proof.
  induction l as [|y l IH]; simpl; intros S.
  - constructor; constructor.
  - apply StronglySorted_inv in S. destruct S as [S F].
    destruct (leb x y) eqn:E.
    + constructor; [constructor; assumption|].
      constructor; [exact E|].
      eapply List.Forall_impl; [|exact F]. simpl. intros z Hz.
      eapply leb_transitiva; eassumption.
    + constructor; [apply IH; exact S|].
      rewrite List.Forall_forall. intros z Hz.
      apply (Permutation_in _ (inserisci_permutazione x l)) in Hz.
      destruct Hz as [<-|Hz].
      * destruct (leb_totale x y) as [T|T]; [congruence|exact T].
      * rewrite List.Forall_forall in F. apply F. exact Hz.
Qed.

Lemma sorted_ordinata (l : list A) :
  StronglySorted (fun a b => leb a b = true) (sorted leb l).
Proof.
  induction l as [|x l IH]; simpl; [constructor|].
  apply inserisci_ordinata. exact IH.
Qed.

End Ordinati.

(** The order of strings is transitive. *)
Lemma ascii_compare_N (a b : ascii) :
  Ascii.compare a b = N.compare (N_of_ascii a) (N_of_ascii b).
Proof. reflexivity. Qed.

Lemma string_compare_Lt_trans : forall s1 s2 s3 : string,
  String.compare s1 s2 = Lt -> String.compare s2 s3 = Lt -> String.compare s1 s3 = Lt.
Proof.
  induction s1 as [|c1 s1 IH]; intros [|c2 s2] [|c3 s3]; simpl;
    try discriminate; try reflexivity.
  rewrite !ascii_compare_N.
  destruct (N.compare_spec (N_of_ascii c1) (N_of_ascii c2)) as [E12|L12|G12];
    try discriminate;
    destruct (N.compare_spec (N_of_ascii c2) (N_of_ascii c3)) as [E23|L23|G23];
    try discriminate; intros H1 H2.
  - rewrite E12, E23, N.compare_refl. eapply IH; eassumption.
  - rewrite E12. apply N.compare_lt_iff in L23. rewrite L23. reflexivity.
  - rewrite <- E23. apply N.compare_lt_iff in L12. rewrite L12. reflexivity.
  - assert (N_of_ascii c1 < N_of_ascii c3)%N as L by lia.
    apply N.compare_lt_iff in L. rewrite L. reflexivity.
Qed.

Lemma string_leb_casi (s1 s2 : string) :
  String.leb s1 s2 = true <-> String.compare s1 s2 = Lt \/ s1 = s2.
Proof.
  unfold String.leb. split.
  - destruct (String.compare s1 s2) eqn:E; try discriminate; intros _.
    + right. apply String.compare_eq_iff. exact E.
    + left. reflexivity.
  - intros [-> | ->]; [reflexivity|].
    assert (String.compare s2 s2 = Eq) as ->; [|reflexivity].
    induction s2 as [|c s IH]; simpl; [reflexivity|].
    rewrite ascii_compare_N, N.compare_refl. exact IH.
Qed.

Lemma string_leb_trans (s1 s2 s3 : string) :
  String.leb s1 s2 = true -> String.leb s2 s3 = true -> String.leb s1 s3 = true.
Proof.
  rewrite !string_leb_casi. intros [H1 | ->] [H2 | ->]; auto.
  left. eapply string_compare_Lt_trans; eassumption.
Qed.

Lemma percorso_leb_totale (p q : percorso) :
  Ordinamento.percorso_leb p q = true \/ Ordinamento.percorso_leb q p = true.
Proof.
  unfold Ordinamento.percorso_leb.
  destruct (Z.ltb_spec (cartella p) (cartella q)); [left; reflexivity|].
  destruct (Z.ltb_spec (cartella q) (cartella p)); [right; reflexivity|].
  assert (cartella p = cartella q) as -> by lia.
  rewrite Z.eqb_refl. simpl. apply String.leb_total.
Qed.

Lemma percorso_leb_trans (p q r : percorso) :
  Ordinamento.percorso_leb p q = true -> Ordinamento.percorso_leb q r = true ->
  Ordinamento.percorso_leb p r = true.
Proof.
  unfold Ordinamento.percorso_leb.
  rewrite !orb_true_iff, !andb_true_iff, !Z.ltb_lt, !Z.eqb_eq.
  intros [H1|[H1 L1]] [H2|[H2 L2]]; try (left; lia).
  right. split; [lia|]. eapply string_leb_trans; eassumption.
Qed.

(** ** The scan of a day directory *)

Section Scansione.
Import Integrita Elenco.
Variable amb : ambiente.
Variable data_corrente : Z.

(** What the body of the scan does with one name. *)
Lemma esamina_file_casi (r : FileIntegrityReport) (ft : gmap Z percorso) (f : string) :
  match esamina_file amb data_corrente (r, ft) f with
  | Eccezione _ =>
      Nomi.endswith_tif f = true /\ riuscito (Nomi.estrai_timestamp f) = false
  | Ok (r', ft') =>
      (Nomi.endswith_tif f = true -> riuscito (Nomi.estrai_timestamp f) = true) /\
      if tile_oraria f then
        if leggibile amb (nel_giorno data_corrente f) then
          r' = aggiungi_file_valido r data_corrente (marca f)
                 (nel_giorno data_corrente f) /\
          ft' = <[marca f := nel_giorno data_corrente f]> ft
        else
          (exists e, r' = aggiungi_file_corrotto r data_corrente (marca f)
                            (nel_giorno data_corrente f) e) /\
          ft' = ft
      else r' = r /\ ft' = ft
  end.
Proof.
  unfold esamina_file, tile_oraria, marca, leggibile, Finestre.leggi, basename.
  cbn [nome].
  destruct (Nomi.endswith_tif f); [|simpl; split; [discriminate|auto]].
  destruct (Nomi.estrai_timestamp f) as [[t|]|e]; simpl;
    [|split; auto|split; reflexivity].
  destruct ((Tempo.minute t =? 0) && (Tempo.second t =? 0)); [|split; auto].
  fold (nel_giorno data_corrente f).
  destruct (rasterio_open amb (nel_giorno data_corrente f)) as [src|e]; simpl.
  - unfold read1. destruct (count src =? 0)%nat; simpl; [split; eauto|].
    destruct (banda1 src) as [a|e]; simpl; split; eauto.
  - split; eauto.
Qed.

(** The scan of the whole listing. *)
Lemma esamina_tutti_casi : forall (nomi : list string)
    (r : FileIntegrityReport) (ft : gmap Z percorso),
  match esamina_tutti amb data_corrente (r, ft) nomi with
  | Eccezione _ =>
      exists f, In f nomi /\ Nomi.endswith_tif f = true /\
                riuscito (Nomi.estrai_timestamp f) = false
  | Ok (r', ft') =>
      (forall f, In f nomi -> Nomi.endswith_tif f = true ->
                 riuscito (Nomi.estrai_timestamp f) = true) /\
      file_validi r' = file_validi r
        ++ map (voce_del_file data_corrente) (tile_leggibili amb data_corrente nomi) /\
      map (fun c => (c_data c, c_timestamp c, c_percorso c)) (file_corrotti r')
        = map (fun c => (c_data c, c_timestamp c, c_percorso c)) (file_corrotti r)
          ++ map (fun f => (Tempo.date data_corrente, marca f, nel_giorno data_corrente f))
                 (tile_illeggibili amb data_corrente nomi) /\
      file_mancanti r' = file_mancanti r /\
      giorni_analizzati r' = giorni_analizzati r /\
      (forall ts, ft' !! ts = None <->
                  ft !! ts = None /\
                  ~ In ts (map marca (tile_leggibili amb data_corrente nomi)))
  end.
Proof.
  induction nomi as [|f nomi IH]; intros r ft.
  - simpl. rewrite !app_nil_r. repeat split; try tauto; intros ? [].
  - cbn [esamina_tutti]. pose proof (esamina_file_casi r ft f) as C.
    destruct (esamina_file amb data_corrente (r, ft) f) as [[r1 ft1]|e];
      cbv beta iota delta [mbind esito_bind].
    + specialize (IH r1 ft1).
      destruct (esamina_tutti amb data_corrente (r1, ft1) nomi) as [[r' ft']|e'].
      * destruct C as [C0 C]. destruct IH as (I0 & Iv & Ic & Im & Ig & If).
        unfold tile_leggibili, tile_illeggibili in *. cbn [List.filter].
        split; [intros g [<-|Hg]; [exact C0|apply I0; exact Hg]|].
        destruct (tile_oraria f); cbn [andb];
          [destruct (leggibile amb (nel_giorno data_corrente f)); cbn [andb negb]|].
        -- destruct C as [-> ->]. cbn [aggiungi_file_valido file_validi file_corrotti
             file_mancanti giorni_analizzati] in *.
           rewrite Iv, Ic, <- app_assoc.
           split; [reflexivity|]. split; [reflexivity|].
           split; [exact Im|]. split; [exact Ig|].
           intros ts. rewrite If. cbn [map].
           destruct (decide (marca f = ts)) as [E|N].
           ++ subst ts. rewrite lookup_insert_eq.
              split; [intros [? _]; discriminate|].
              intros [_ H]. exfalso. apply H. left. reflexivity.
           ++ rewrite lookup_insert_ne by exact N. simpl. tauto.
        -- destruct C as [[e ->] ->]. cbn [aggiungi_file_corrotto file_validi
             file_corrotti file_mancanti giorni_analizzati] in *.
           rewrite Iv, Ic, map_app, <- app_assoc.
           split; [reflexivity|]. split; [reflexivity|].
           split; [exact Im|]. split; [exact Ig|exact If].
        -- destruct C as [-> ->]. auto.
      * destruct IH as (g & Hg & Hg'). exists g. split; [right; exact Hg|exact Hg'].
    + exists f. split; [left; reflexivity|exact C].
Qed.

(** The hours recorded missing are the expected timestamps that are no
    key of [file_trovati], in order. *)
Lemma segna_mancanti_campi (ft : gmap Z percorso) (r : FileIntegrityReport) :
  file_mancanti (segna_mancanti data_corrente ft r)
    = file_mancanti r
      ++ map (fun ts => {| m_data := Tempo.date data_corrente; m_timestamp := ts |})
             (List.filter (fun ts => bool_decide (ft !! ts = None))
                          (ore_attese data_corrente)) /\
  file_validi (segna_mancanti data_corrente ft r) = file_validi r /\
  file_corrotti (segna_mancanti data_corrente ft r) = file_corrotti r /\
  giorni_analizzati (segna_mancanti data_corrente ft r) = giorni_analizzati r.
Proof.
  unfold segna_mancanti, ore_attese. revert r.
  induction ore_del_giorno as [|h ore IH]; intros r; cbn [fold_left map List.filter].
  - rewrite app_nil_r. auto.
  - destruct (IH (match ft !! Tempo.replace_ora data_corrente h with
                  | Some _ => r
                  | None => aggiungi_file_mancante r data_corrente
                              (Tempo.replace_ora data_corrente h)
                  end)) as (Im & Iv & Ic & Ig).
    rewrite Im, Iv, Ic, Ig.
    destruct (ft !! Tempo.replace_ora data_corrente h) eqn:E.
    + rewrite bool_decide_eq_false_2 by discriminate. auto.
    + rewrite bool_decide_eq_true_2 by reflexivity.
      cbn [aggiungi_file_mancante file_mancanti file_validi file_corrotti
           giorni_analizzati map]. rewrite <- app_assoc. auto.
Qed.

Lemma tutte_mancanti_campi (r : FileIntegrityReport) :
  file_mancanti (tutte_mancanti data_corrente r)
    = file_mancanti r
      ++ map (fun ts => {| m_data := Tempo.date data_corrente; m_timestamp := ts |})
             (ore_attese data_corrente) /\
  file_validi (tutte_mancanti data_corrente r) = file_validi r /\
  file_corrotti (tutte_mancanti data_corrente r) = file_corrotti r /\
  giorni_analizzati (tutte_mancanti data_corrente r) = giorni_analizzati r.
Proof.
  unfold tutte_mancanti, ore_attese. revert r.
  induction ore_del_giorno as [|h ore IH]; intros r; cbn [fold_left map].
  - rewrite app_nil_r. auto.
  - destruct (IH (aggiungi_file_mancante r data_corrente
                    (Tempo.replace_ora data_corrente h))) as (Im & Iv & Ic & Ig).
    rewrite Im, Iv, Ic, Ig.
    cbn [aggiungi_file_mancante file_mancanti file_validi file_corrotti
         giorni_analizzati]. rewrite <- app_assoc. auto.
Qed.

(** One day of the verification, field by field. *)
Lemma verifica_giorno_casi (r : FileIntegrityReport) :
  match os_listdir amb (Tempo.date data_corrente) with
  | None =>
      exists r', verifica_giorno amb r data_corrente = Ok r' /\
        file_validi r' = file_validi r /\
        file_corrotti r' = file_corrotti r /\
        file_mancanti r' = file_mancanti r
          ++ map (fun ts => {| m_data := Tempo.date data_corrente; m_timestamp := ts |})
                 (ore_attese data_corrente) /\
        giorni_analizzati r' = {[ Tempo.date data_corrente ]} ∪ giorni_analizzati r
  | Some nomi =>
      match verifica_giorno amb r data_corrente with
      | Eccezione _ =>
          exists f, In f nomi /\ Nomi.endswith_tif f = true /\
                    riuscito (Nomi.estrai_timestamp f) = false
      | Ok r' =>
          (forall f, In f nomi -> Nomi.endswith_tif f = true ->
                     riuscito (Nomi.estrai_timestamp f) = true) /\
          file_validi r' = file_validi r
            ++ map (voce_del_file data_corrente)
                   (tile_leggibili amb data_corrente nomi) /\
          map (fun c => (c_data c, c_timestamp c, c_percorso c)) (file_corrotti r')
            = map (fun c => (c_data c, c_timestamp c, c_percorso c)) (file_corrotti r)
              ++ map (fun f => (Tempo.date data_corrente, marca f,
                                nel_giorno data_corrente f))
                     (tile_illeggibili amb data_corrente nomi) /\
          file_mancanti r' = file_mancanti r
            ++ map (fun ts => {| m_data := Tempo.date data_corrente; m_timestamp := ts |})
                   (List.filter
                      (fun ts => negb (existsb (Z.eqb ts)
                                         (map marca (tile_leggibili amb data_corrente nomi))))
                      (ore_attese data_corrente)) /\
          giorni_analizzati r' = {[ Tempo.date data_corrente ]} ∪ giorni_analizzati r
      end
  end.
Proof.
  unfold verifica_giorno.
  destruct (os_listdir amb (Tempo.date data_corrente)) as [nomi|].
  - pose proof (esamina_tutti_casi nomi
                  (aggiungi_giorno r (Tempo.date data_corrente)) ∅) as C.
    destruct (esamina_tutti amb data_corrente
                (aggiungi_giorno r (Tempo.date data_corrente), ∅) nomi)
      as [[r1 ft1]|e]; cbv beta iota delta [mbind esito_bind]; [|exact C].
    destruct C as (C0 & Cv & Cc & Cm & Cg & Cf).
    destruct (segna_mancanti_campi ft1 r1) as (Sm & Sv & Sc & Sg).
    rewrite Sm, Sv, Sc, Sg, Cv, Cc, Cm, Cg.
    cbn [aggiungi_giorno file_validi file_corrotti file_mancanti giorni_analizzati].
    repeat (split; [assumption || reflexivity|]).
    split; [|reflexivity]. f_equal. f_equal.
    apply List.filter_ext. intros ts.
    destruct (existsb (Z.eqb ts) _) eqn:E; cbn [negb].
    + apply bool_decide_eq_false_2. intros N. apply Cf in N. destruct N as [_ N].
      apply N. apply existsb_exists in E. destruct E as (x & Hx & Ex).
      apply Z.eqb_eq in Ex. subst x. exact Hx.
    + apply bool_decide_eq_true_2. apply Cf. split; [apply lookup_empty|].
      intros I. assert (existsb (Z.eqb ts)
        (map marca (tile_leggibili amb data_corrente nomi)) = true) as T.
      { apply existsb_exists. exists ts. split; [exact I|apply Z.eqb_refl]. }
      congruence.
  - destruct (tutte_mancanti_campi (aggiungi_giorno r (Tempo.date data_corrente)))
      as (Tm & Tv & Tc & Tg).
    eexists. split; [reflexivity|]. rewrite Tm, Tv, Tc, Tg. auto.
Qed.

End Scansione.

(** ** The verification of a range of days *)

Section Verifica.
Import Integrita Elenco.
Variable amb : ambiente.

Lemma verifica_giorno_attesi (r : FileIntegrityReport) (data_corrente : Z) :
  match verifica_giorno amb r data_corrente with
  | Eccezione _ => exists f, nome_non_valido amb data_corrente f
  | Ok r' =>
      (forall f, ~ nome_non_valido amb data_corrente f) /\
      file_validi r' = file_validi r ++ validi_del_giorno amb data_corrente /\
      map (fun c => (c_data c, c_timestamp c, c_percorso c)) (file_corrotti r')
        = map (fun c => (c_data c, c_timestamp c, c_percorso c)) (file_corrotti r)
          ++ corrotti_del_giorno amb data_corrente /\
      file_mancanti r' = file_mancanti r ++ mancanti_del_giorno amb data_corrente /\
      giorni_analizzati r' = {[ Tempo.date data_corrente ]} ∪ giorni_analizzati r
  end.
Proof.
  pose proof (verifica_giorno_casi amb data_corrente r) as C.
  unfold validi_del_giorno, corrotti_del_giorno, mancanti_del_giorno, nome_non_valido.
  destruct (os_listdir amb (Tempo.date data_corrente)) as [nomi|].
  - destruct (verifica_giorno amb r data_corrente) as [r'|e].
    + destruct C as (C0 & Cv & Cc & Cm & Cg).
      split; [|auto].
      intros f (nomi' & E & I & T & N). injection E as <-.
      rewrite (C0 f I T) in N. discriminate.
    + destruct C as (f & I & T & N). exists f, nomi. auto.
  - destruct C as (r' & -> & Cv & Cc & Cm & Cg).
    rewrite app_nil_r. rewrite Cc, app_nil_r. split; [|auto].
    intros f (nomi' & E & _). discriminate.
Qed.

Lemma verifica_giorni_attesi : forall (giorni : list Z) (r : FileIntegrityReport),
  match verifica_giorni amb r giorni with
  | Eccezione _ => exists d f, In d giorni /\ nome_non_valido amb d f
  | Ok r' =>
      (forall d f, In d giorni -> ~ nome_non_valido amb d f) /\
      file_validi r' = file_validi r ++ flat_map (validi_del_giorno amb) giorni /\
      map (fun c => (c_data c, c_timestamp c, c_percorso c)) (file_corrotti r')
        = map (fun c => (c_data c, c_timestamp c, c_percorso c)) (file_corrotti r)
          ++ flat_map (corrotti_del_giorno amb) giorni /\
      file_mancanti r' = file_mancanti r ++ flat_map (mancanti_del_giorno amb) giorni /\
      giorni_analizzati r' = list_to_set (map Tempo.date giorni) ∪ giorni_analizzati r
  end.
Proof.
  induction giorni as [|d giorni IH]; intros r.
  - simpl. rewrite !app_nil_r. repeat split; try tauto.
    symmetry. apply (left_id_L ∅ (∪)).
  - cbn [verifica_giorni]. pose proof (verifica_giorno_attesi r d) as C.
    destruct (verifica_giorno amb r d) as [r1|e];
      cbv beta iota delta [mbind esito_bind].
    + specialize (IH r1). destruct (verifica_giorni amb r1 giorni) as [r'|e'].
      * destruct C as (C0 & Cv & Cc & Cm & Cg).
        destruct IH as (I0 & Iv & Ic & Im & Ig).
        rewrite Iv, Ic, Im, Ig, Cv, Cc, Cm, Cg. cbn [flat_map map].
        rewrite <- !app_assoc.
        split; [intros d' f [<-|I]; [apply C0|apply I0; exact I]|].
        repeat (split; [reflexivity|]).
        rewrite (assoc_L (∪)), (comm_L (∪) _ {[ Tempo.date d ]}). reflexivity.
      * destruct IH as (d' & f & I & N). exists d', f. split; [right; exact I|exact N].
    + destruct C as (f & N). exists d, f. split; [left; reflexivity|exact N].
Qed.

End Verifica.

(** ** The days of a range *)

Lemma date_somma_giorni (t : Z) (k : nat) :
  Tempo.date (t + Z.of_nat k * Tempo.giorno) = Tempo.date t + Z.of_nat k.
Proof. unfold Tempo.date, Tempo.giorno. apply Z.div_add. lia. Qed.

Lemma date_range_In (data_inizio data_fine d : Z) :
  In d (Tempo.date_range data_inizio data_fine) <->
  exists k : nat,
    d = data_inizio + Z.of_nat k * Tempo.giorno /\ d <= data_fine.
Proof.
  unfold Tempo.date_range, Tempo.giorno.
  destruct (Z.ltb_spec data_fine data_inizio) as [L|L].
  - split; [intros []|]. intros (k & -> & H). lia.
  - rewrite in_map_iff. split.
    + intros (k & <- & I). apply in_seq in I. exists k. split; [reflexivity|].
      assert (Z.of_nat k <= (data_fine - data_inizio) / 86400) as B.
      { assert (0 <= (data_fine - data_inizio) / 86400) by (apply Z.div_pos; lia). lia. }
      pose proof (Z.mul_div_le (data_fine - data_inizio) 86400 ltac:(lia)). nia.
    + intros (k & -> & H). exists k. split; [reflexivity|]. apply in_seq.
      assert (Z.of_nat k <= (data_fine - data_inizio) / 86400) as B.
      { apply Z.div_le_lower_bound; lia. }
      lia.
Qed.

Lemma date_range_date (data_inizio data_fine : Z) :
  map Tempo.date (Tempo.date_range data_inizio data_fine)
    = map (fun k => Tempo.date data_inizio + Z.of_nat k)
          (seq 0 (length (Tempo.date_range data_inizio data_fine))).
Proof.
  unfold Tempo.date_range.
  destruct (data_fine <? data_inizio); [reflexivity|].
  rewrite length_map, length_seq, map_map. apply map_ext.
  intros k. apply date_somma_giorni.
Qed.

Lemma date_range_length (data_inizio data_fine : Z) :
  data_inizio <= data_fine ->
  length (Tempo.date_range data_inizio data_fine)
    = (Z.to_nat ((data_fine - data_inizio) / Tempo.giorno) + 1)%nat.
Proof.
  intros H. unfold Tempo.date_range.
  destruct (Z.ltb_spec data_fine data_inizio); [lia|].
  rewrite length_map, length_seq. reflexivity.
Qed.

Lemma NoDup_map_seq_Z (a : Z) (n : nat) :
  List.NoDup (map (fun k => a + Z.of_nat k) (seq 0 n)).
Proof.
  apply Finite.Injective_map_NoDup; [|apply seq_NoDup].
  intros x y H. lia.
Qed.

Lemma date_range_NoDup (data_inizio data_fine : Z) :
  List.NoDup (map Tempo.date (Tempo.date_range data_inizio data_fine)).
Proof. rewrite date_range_date. apply NoDup_map_seq_Z. Qed.

(** Two days of a range with the same calendar date are the same. *)
Lemma date_range_stessa_data (data_inizio data_fine d d' : Z) :
  In d (Tempo.date_range data_inizio data_fine) ->
  In d' (Tempo.date_range data_inizio data_fine) ->
  Tempo.date d = Tempo.date d' -> d = d'.
Proof.
  rewrite !date_range_In. intros (k & -> & _) (k' & -> & _).
  rewrite !date_somma_giorni. intros E. assert (k = k') as -> by lia. reflexivity.
Qed.

(** The 24 expected timestamps of a day are distinct. *)
Lemma ore_attese_NoDup (data_corrente : Z) : List.NoDup (Elenco.ore_attese data_corrente).
Proof.
  unfold Elenco.ore_attese, Integrita.ore_del_giorno. rewrite map_map.
  apply Finite.Injective_map_NoDup; [|apply seq_NoDup].
  intros x y. unfold Tempo.replace_ora, Tempo.ora. lia.
Qed.

Lemma ore_attese_length (data_corrente : Z) :
  length (Elenco.ore_attese data_corrente) = 24%nat.
Proof. reflexivity. Qed.

(** ** What the verification records *)

(** X2.  When the verification of a range returns, its valid entries
    are, day by day and in the order of the listings, the [.tif] files
    with a top-of-hour timestamp that open and read, and its corrupt
    entries those that do not: no other file of a listing is recorded,
    and none is recorded twice or on both lists. *)
Theorem verifica_classifica_le_tile :
  forall (amb : ambiente) (data_inizio data_fine : Z)
         (r : Integrita.FileIntegrityReport),
    Integrita.verifica_integrita_archivio amb data_inizio data_fine = Ok r ->
    Integrita.file_validi r
      = flat_map (Elenco.validi_del_giorno amb)
                 (Tempo.date_range data_inizio data_fine) /\
    map (fun c => (Integrita.c_data c, Integrita.c_timestamp c, Integrita.c_percorso c))
        (Integrita.file_corrotti r)
      = flat_map (Elenco.corrotti_del_giorno amb)
                 (Tempo.date_range data_inizio data_fine) /\
    (forall v, In v (Integrita.file_validi r) ->
       Elenco.tile_oraria (nome (Integrita.v_percorso v)) = true /\
       Elenco.leggibile amb (Integrita.v_percorso v) = true /\
       cartella (Integrita.v_percorso v) = Integrita.v_data v /\
       Nomi.estrai_timestamp (nome (Integrita.v_percorso v))
         = Ok (Some (Integrita.v_timestamp v))).
Proof.
  intros amb di df r H. unfold Integrita.verifica_integrita_archivio in H.
  pose proof (verifica_giorni_attesi amb (Tempo.date_range di df)
                Integrita.report_vuoto) as C.
  rewrite H in C. destruct C as (_ & Cv & Cc & _ & _). simpl in Cv, Cc.
  split; [exact Cv|]. split; [exact Cc|].
  intros v Hv. rewrite Cv in Hv. apply in_flat_map in Hv.
  destruct Hv as (d & _ & Hv). unfold Elenco.validi_del_giorno in Hv.
  destruct (os_listdir amb (Tempo.date d)) as [nomi|]; [|destruct Hv].
  apply in_map_iff in Hv. destruct Hv as (f & <- & Hf).
  unfold Elenco.tile_leggibili in Hf. apply filter_In in Hf.
  destruct Hf as [_ Hf]. apply andb_true_iff in Hf. destruct Hf as [T L].
  cbn. repeat split; try assumption.
  unfold Elenco.tile_oraria in T. unfold Elenco.marca.
  apply andb_true_iff in T. destruct T as [_ T].
  destruct (Nomi.estrai_timestamp f) as [[t|]|e]; try discriminate. reflexivity.
Qed.

Lemma verifica_classifica_le_tile_witness :
  exists r,
    Integrita.verifica_integrita_archivio Esempi.amb Esempi.t0 Esempi.t0 = Ok r /\
    Integrita.file_validi r
      = flat_map (Elenco.validi_del_giorno Esempi.amb)
                 (Tempo.date_range Esempi.t0 Esempi.t0).
Proof.
  assert (exists r,
    Integrita.verifica_integrita_archivio Esempi.amb Esempi.t0 Esempi.t0 = Ok r)
    as [r H] by (eexists; vm_compute; reflexivity).
  exists r. split; [exact H|].
  exact (proj1 (verifica_classifica_le_tile Esempi.amb Esempi.t0 Esempi.t0 r H)).
Defined.

Lemma ore_attese_In (data_corrente ts : Z) :
  In ts (Elenco.ore_attese data_corrente) <->
  exists h, 0 <= h < 24 /\ ts = Tempo.replace_ora data_corrente h.
Proof.
  unfold Elenco.ore_attese, Integrita.ore_del_giorno. rewrite map_map, in_map_iff.
  split.
  - intros (k & <- & I). apply in_seq in I. exists (Z.of_nat k). split; [lia|reflexivity].
  - intros (h & B & ->). exists (Z.to_nat h). split; [f_equal; lia|apply in_seq; lia].
Qed.

Lemma mancanti_del_giorno_In (amb : ambiente) (d : Z) (m : Integrita.voce_mancante) :
  In m (Elenco.mancanti_del_giorno amb d) <->
  Integrita.m_data m = Tempo.date d /\
  In (Integrita.m_timestamp m) (Elenco.ore_attese d) /\
  match os_listdir amb (Tempo.date d) with
  | None => True
  | Some nomi =>
      forall f, In f (Elenco.tile_leggibili amb d nomi) ->
                Elenco.marca f <> Integrita.m_timestamp m
  end.
Proof.
  unfold Elenco.mancanti_del_giorno. rewrite in_map_iff.
  destruct (os_listdir amb (Tempo.date d)) as [nomi|].
  - split.
    + intros (ts & <- & I). apply filter_In in I. destruct I as [I N].
      cbn [Integrita.m_data Integrita.m_timestamp]. split; [reflexivity|]. split; [exact I|].
      intros f Hf E. apply negb_true_iff in N.
      assert (existsb (Z.eqb ts) (map Elenco.marca (Elenco.tile_leggibili amb d nomi))
              = true) as T; [|congruence].
      apply existsb_exists. exists (Elenco.marca f).
      split; [apply in_map; exact Hf|apply Z.eqb_eq; symmetry; exact E].
    + intros (Ed & I & N). destruct m as [md mt].
      cbn [Integrita.m_data Integrita.m_timestamp] in *. subst md.
      exists mt. split; [reflexivity|]. apply filter_In. split; [exact I|].
      apply negb_true_iff. destruct (existsb _ _) eqn:E; [|reflexivity].
      exfalso. apply existsb_exists in E. destruct E as (x & Hx & Ex).
      apply Z.eqb_eq in Ex. subst x. apply in_map_iff in Hx.
      destruct Hx as (f & Ef & Hf). exact (N f Hf Ef).
  - split.
    + intros (ts & <- & I). cbn [Integrita.m_data Integrita.m_timestamp]. auto.
    + intros (Ed & I & _). destruct m as [md mt].
      cbn [Integrita.m_data Integrita.m_timestamp] in *. subst md.
      exists mt. auto.
Qed.

(** X3.  When the verification returns, an hour of a day of the range
    is recorded missing exactly when no readable top-of-hour tile of the
    listing of that day carries its timestamp: every hour of a day whose
    directory does not exist, and also the hour of a tile that was found
    but could not be read.  The missing entries come day by day, hours in
    increasing order. *)
Theorem verifica_ore_mancanti :
  forall (amb : ambiente) (data_inizio data_fine : Z)
         (r : Integrita.FileIntegrityReport),
    Integrita.verifica_integrita_archivio amb data_inizio data_fine = Ok r ->
    Integrita.file_mancanti r
      = flat_map (Elenco.mancanti_del_giorno amb)
                 (Tempo.date_range data_inizio data_fine) /\
    forall d h,
      In d (Tempo.date_range data_inizio data_fine) -> 0 <= h < 24 ->
      (In {| Integrita.m_data := Tempo.date d;
             Integrita.m_timestamp := Tempo.replace_ora d h |}
          (Integrita.file_mancanti r) <->
       match os_listdir amb (Tempo.date d) with
       | None => True
       | Some nomi =>
           forall f, In f (Elenco.tile_leggibili amb d nomi) ->
                     Elenco.marca f <> Tempo.replace_ora d h
       end).
Proof.
  intros amb di df r H. unfold Integrita.verifica_integrita_archivio in H.
  pose proof (verifica_giorni_attesi amb (Tempo.date_range di df)
                Integrita.report_vuoto) as C.
  rewrite H in C. destruct C as (_ & _ & _ & Cm & _). simpl in Cm.
  split; [exact Cm|]. intros d h Hd Hh. rewrite Cm, in_flat_map. split.
  - intros (d' & Hd' & I). apply mancanti_del_giorno_In in I.
    cbn [Integrita.m_data Integrita.m_timestamp] in I.
    destruct I as (E & _ & N).
    rewrite <- (date_range_stessa_data di df d d' Hd Hd' E) in N. exact N.
  - intros N. exists d. split; [exact Hd|]. apply mancanti_del_giorno_In.
    cbn [Integrita.m_data Integrita.m_timestamp].
    split; [reflexivity|]. split; [|exact N]. apply ore_attese_In. exists h. auto.
Qed.

Lemma verifica_ore_mancanti_witness :
  exists r,
    Integrita.verifica_integrita_archivio Esempi.amb Esempi.t0 Esempi.t0 = Ok r /\
    Integrita.file_mancanti r
      = flat_map (Elenco.mancanti_del_giorno Esempi.amb)
                 (Tempo.date_range Esempi.t0 Esempi.t0).
Proof.
  assert (exists r,
    Integrita.verifica_integrita_archivio Esempi.amb Esempi.t0 Esempi.t0 = Ok r)
    as [r H] by (eexists; vm_compute; reflexivity).
  exists r. split; [exact H|].
  exact (proj1 (verifica_ore_mancanti Esempi.amb Esempi.t0 Esempi.t0 r H)).
Defined.

(** X4.  The verification raises exactly when the listing of some day
    of the range holds a [.tif] name on which [estrai_timestamp] raises
    (digits that are no date): the timestamp is taken outside any [try],
    so one such name ends the whole verification. *)
Theorem verifica_solleva_per_nome_non_valido :
  forall (amb : ambiente) (data_inizio data_fine : Z),
    riuscito (Integrita.verifica_integrita_archivio amb data_inizio data_fine) = false
    <-> exists d f,
          In d (Tempo.date_range data_inizio data_fine) /\
          Elenco.nome_non_valido amb d f.
Proof.
  intros amb di df. unfold Integrita.verifica_integrita_archivio.
  pose proof (verifica_giorni_attesi amb (Tempo.date_range di df)
                Integrita.report_vuoto) as C.
  destruct (Integrita.verifica_giorni amb Integrita.report_vuoto
              (Tempo.date_range di df)) as [r|e]; simpl.
  - destruct C as (C0 & _). split; [discriminate|].
    intros (d & f & I & N). exfalso. exact (C0 d f I N).
  - split; [intros _; exact C|reflexivity].
Qed.

(** ** The counts of the summary *)

Lemma length_flat_map_limitato {A B} (f : A -> list B) (n : nat) (l : list A) :
  (forall x, In x l -> (length (f x) <= n)%nat) ->
  (length (flat_map f l) <= n * length l)%nat.
Proof.
  induction l as [|x l IH]; simpl; intros H; [lia|].
  rewrite length_app. specialize (H x (or_introl eq_refl)) as Hx.
  assert (length (flat_map f l) <= n * length l)%nat
    by (apply IH; intros y Hy; apply H; right; exact Hy).
  lia.
Qed.

Lemma length_flat_map_somma {A B C} (f : A -> list B) (g : A -> list C)
    (n : nat) (l : list A) :
  (forall x, In x l -> (n <= length (f x) + length (g x))%nat) ->
  (n * length l <= length (flat_map f l) + length (flat_map g l))%nat.
Proof.
  induction l as [|x l IH]; simpl; intros H; [lia|].
  rewrite !length_app. specialize (H x (or_introl eq_refl)) as Hx.
  assert (n * length l <= length (flat_map f l) + length (flat_map g l))%nat
    by (apply IH; intros y Hy; apply H; right; exact Hy).
  lia.
Qed.

Lemma length_filter_negb {A} (p : A -> bool) (l : list A) :
  (length (List.filter p l) + length (List.filter (fun x => negb (p x)) l))%nat
    = length l.
Proof.
  induction l as [|x l IH]; simpl; [reflexivity|].
  destruct (p x); simpl; lia.
Qed.

(** Distinct values are found among [m] at most [length m] times. *)
Lemma length_filter_presenti (m : list Z) : forall l : list Z,
  List.NoDup l ->
  (length (List.filter (fun ts => existsb (Z.eqb ts) m) l) <= length m)%nat.
Proof.
  induction m as [|x m IH]; intros l N.
  - simpl. rewrite filter_nessuno by reflexivity. simpl. lia.
  - cbn [existsb length].
    assert (forall l, List.NoDup l ->
      (length (List.filter (fun ts => Z.eqb ts x || existsb (Z.eqb ts) m) l)
       <= (if existsb (Z.eqb x) l then 1 else 0)
          + length (List.filter (fun ts => existsb (Z.eqb ts) m) l))%nat) as K.
    { clear l N. induction l as [|y l IHl]; intros N; simpl; [lia|].
      apply List.NoDup_cons_iff in N. destruct N as [Ny N].
      specialize (IHl N). rewrite (Z.eqb_sym x y).
      destruct (Z.eqb_spec y x) as [->|Ne]; cbn [orb].
      - assert (existsb (Z.eqb x) l = false) as F.
        { destruct (existsb (Z.eqb x) l) eqn:E; [|reflexivity].
          apply existsb_exists in E. destruct E as (z & Hz & Ez).
          apply Z.eqb_eq in Ez. subst z. contradiction. }
        rewrite F in IHl. destruct (existsb (Z.eqb x) m); simpl; lia.
      - destruct (existsb (Z.eqb y) m); simpl; lia. }
    specialize (K l N). specialize (IH l N).
    destruct (existsb (Z.eqb x) l); lia.
Qed.

Lemma mancanti_del_giorno_length (amb : ambiente) (d : Z) :
  (length (Elenco.mancanti_del_giorno amb d) <= 24)%nat /\
  (24 <= length (Elenco.validi_del_giorno amb d)
         + length (Elenco.mancanti_del_giorno amb d))%nat.
Proof.
  unfold Elenco.mancanti_del_giorno, Elenco.validi_del_giorno.
  rewrite length_map.
  destruct (os_listdir amb (Tempo.date d)) as [nomi|].
  - rewrite length_map.
    pose proof (length_filter_negb
      (fun ts => existsb (Z.eqb ts)
                   (map Elenco.marca (Elenco.tile_leggibili amb d nomi)))
      (Elenco.ore_attese d)) as S.
    pose proof (length_filter_presenti
      (map Elenco.marca (Elenco.tile_leggibili amb d nomi))
      (Elenco.ore_attese d) (ore_attese_NoDup d)) as P.
    rewrite length_map in P. rewrite ore_attese_length in S. lia.
  - rewrite ore_attese_length. simpl. lia.
Qed.

(** X5.  When the verification returns, the summary counts one analysed
    day for every day of the range (the whole days from [data_inizio] to
    [data_fine], both included); the missing entries are at most 24 for
    each day, and the valid and missing entries together are at least 24
    for each day: every hour of every day is covered by a valid tile or
    recorded missing. *)
Theorem riepilogo_del_periodo :
  forall (amb : ambiente) (data_inizio data_fine : Z)
         (r : Integrita.FileIntegrityReport),
    Integrita.verifica_integrita_archivio amb data_inizio data_fine = Ok r ->
    let s := Riepilogo.get_summary r in
    let giorni := length (Tempo.date_range data_inizio data_fine) in
    Riepilogo.giorni_analizzati s = giorni /\
    (data_inizio <= data_fine ->
     giorni = (Z.to_nat ((data_fine - data_inizio) / Tempo.giorno) + 1)%nat) /\
    (data_fine < data_inizio -> giorni = 0%nat) /\
    (Riepilogo.totale_mancanti s <= 24 * giorni)%nat /\
    (24 * giorni <= Riepilogo.totale_validi s + Riepilogo.totale_mancanti s)%nat.
Proof.
  intros amb di df r H s giorni. unfold Integrita.verifica_integrita_archivio in H.
  pose proof (verifica_giorni_attesi amb (Tempo.date_range di df)
                Integrita.report_vuoto) as C.
  rewrite H in C. destruct C as (_ & Cv & _ & Cm & Cg). simpl in Cv, Cm, Cg.
  subst s giorni. unfold Riepilogo.get_summary.
  cbn [Riepilogo.giorni_analizzati Riepilogo.totale_mancanti Riepilogo.totale_validi].
  rewrite Cv, Cm, Cg. repeat split.
  - rewrite (right_id_L ∅ (∪)), size_list_to_set
      by (apply NoDup_ListNoDup, date_range_NoDup).
    apply length_map.
  - apply date_range_length.
  - intros L. unfold Tempo.date_range.
    destruct (Z.ltb_spec df di); [reflexivity|lia].
  - apply length_flat_map_limitato. intros d _. apply mancanti_del_giorno_length.
  - apply length_flat_map_somma. intros d _. apply mancanti_del_giorno_length.
Qed.

Lemma riepilogo_del_periodo_witness :
  exists r,
    Integrita.verifica_integrita_archivio Esempi.amb Esempi.t0
      (Esempi.t0 + 2 * Tempo.giorno) = Ok r /\
    Riepilogo.giorni_analizzati (Riepilogo.get_summary r) = 3%nat.
Proof.
  assert (exists r,
    Integrita.verifica_integrita_archivio Esempi.amb Esempi.t0
      (Esempi.t0 + 2 * Tempo.giorno) = Ok r)
    as [r H] by (eexists; vm_compute; reflexivity).
  exists r. split; [exact H|].
  exact (proj1 (riepilogo_del_periodo Esempi.amb Esempi.t0
                  (Esempi.t0 + 2 * Tempo.giorno) r H)).
Defined.

(** X6.  When no day directory of the range exists, the verification
    returns a report with no valid and no corrupt entry and with the 24
    hours of every day of the range as missing entries. *)
Theorem archivio_assente_tutto_mancante :
  forall (amb : ambiente) (data_inizio data_fine : Z),
    (forall d, In d (Tempo.date_range data_inizio data_fine) ->
               os_listdir amb (Tempo.date d) = None) ->
    exists r,
      Integrita.verifica_integrita_archivio amb data_inizio data_fine = Ok r /\
      Integrita.file_validi r = [] /\
      Integrita.file_corrotti r = [] /\
      Integrita.file_mancanti r
        = flat_map (fun d =>
                      map (fun h => {| Integrita.m_data := Tempo.date d;
                                       Integrita.m_timestamp := Tempo.replace_ora d h |})
                          Integrita.ore_del_giorno)
                   (Tempo.date_range data_inizio data_fine) /\
      Riepilogo.totale_mancanti (Riepilogo.get_summary r)
        = (24 * length (Tempo.date_range data_inizio data_fine))%nat.
Proof.
  intros amb di df Hn. unfold Integrita.verifica_integrita_archivio.
  pose proof (verifica_giorni_attesi amb (Tempo.date_range di df)
                Integrita.report_vuoto) as C.
  destruct (Integrita.verifica_giorni amb Integrita.report_vuoto
              (Tempo.date_range di df)) as [r|e].
  - destruct C as (_ & Cv & Cc & Cm & _). simpl in Cv, Cc, Cm.
    assert (Ev : flat_map (Elenco.validi_del_giorno amb) (Tempo.date_range di df) = []).
    { clear -Hn. induction (Tempo.date_range di df) as [|d l IH]; [reflexivity|].
      simpl. unfold Elenco.validi_del_giorno at 1.
      rewrite (Hn d (or_introl eq_refl)). apply IH. intros; apply Hn; right; assumption. }
    assert (Ec : flat_map (Elenco.corrotti_del_giorno amb) (Tempo.date_range di df) = []).
    { clear -Hn. induction (Tempo.date_range di df) as [|d l IH]; [reflexivity|].
      simpl. unfold Elenco.corrotti_del_giorno at 1.
      rewrite (Hn d (or_introl eq_refl)). apply IH. intros; apply Hn; right; assumption. }
    assert (Em : flat_map (Elenco.mancanti_del_giorno amb) (Tempo.date_range di df)
                 = flat_map (fun d =>
                      map (fun h => {| Integrita.m_data := Tempo.date d;
                                       Integrita.m_timestamp := Tempo.replace_ora d h |})
                          Integrita.ore_del_giorno) (Tempo.date_range di df)).
    { clear -Hn. induction (Tempo.date_range di df) as [|d l IH]; [reflexivity|].
      cbn [flat_map]. rewrite IH by (intros; apply Hn; right; assumption).
      f_equal. unfold Elenco.mancanti_del_giorno, Elenco.ore_attese.
      rewrite (Hn d (or_introl eq_refl)), map_map. reflexivity. }
    exists r. split; [reflexivity|]. rewrite Ev in Cv. rewrite Ec in Cc.
    split; [exact Cv|]. split; [destruct (Integrita.file_corrotti r);
                                 [reflexivity|discriminate Cc]|].
    rewrite Em in Cm. split; [exact Cm|].
    unfold Riepilogo.get_summary. cbn [Riepilogo.totale_mancanti]. rewrite Cm.
    clear. induction (Tempo.date_range di df) as [|d l IH]; [reflexivity|].
    cbn [flat_map]. rewrite length_app, IH. cbn [length]. rewrite length_map.
    change (length Integrita.ore_del_giorno) with 24%nat. lia.
  - exfalso. destruct C as (d & f & I & (nomi & E & _)).
    rewrite (Hn d I) in E. discriminate.
Qed.

Lemma archivio_assente_tutto_mancante_witness :
  exists r,
    Integrita.verifica_integrita_archivio Esempi.amb
      (Esempi.t0 + Tempo.giorno) (Esempi.t0 + 2 * Tempo.giorno) = Ok r /\
    Riepilogo.totale_mancanti (Riepilogo.get_summary r) = 48%nat.
Proof.
  destruct (archivio_assente_tutto_mancante Esempi.amb
              (Esempi.t0 + Tempo.giorno) (Esempi.t0 + 2 * Tempo.giorno))
    as (r & H & _ & _ & _ & T).
  - intros d [<-|[<-|[]]]; reflexivity.
  - exists r. split; [exact H|exact T].
Defined.

(** ** The tiles handed to a task *)

Lemma sorted_map {A B} (leb : A -> A -> bool) (leb' : B -> B -> bool) (f : A -> B) :
  (forall x y, leb' (f x) (f y) = leb x y) ->
  forall l, Ordinamento.sorted leb' (map f l) = map f (Ordinamento.sorted leb l).
Proof.
  intros H. induction l as [|x l IH]; simpl; [reflexivity|].
  rewrite IH. clear IH. induction (Ordinamento.sorted leb l) as [|y s IHs]; simpl;
    [reflexivity|].
  rewrite H. destruct (leb x y); simpl; [reflexivity|]. rewrite IHs. reflexivity.
Qed.

Lemma percorso_leb_nel_giorno (d : Z) (x y : string) :
  Ordinamento.percorso_leb (Elenco.nel_giorno d x) (Elenco.nel_giorno d y)
    = String.leb x y.
Proof.
  unfold Ordinamento.percorso_leb, Elenco.nel_giorno. cbn [cartella nome].
  rewrite Z.ltb_irrefl, Z.eqb_refl. reflexivity.
Qed.

(** The valid entries of a report with the date of one day of the
    range are the entries of that day. *)
Lemma validi_della_data (amb : ambiente) (d : Z) : forall giorni : list Z,
  In d giorni -> List.NoDup giorni ->
  (forall d', In d' giorni -> Tempo.date d' = Tempo.date d -> d' = d) ->
  List.filter (fun v => Integrita.v_data v =? Tempo.date d)
              (flat_map (Elenco.validi_del_giorno amb) giorni)
    = Elenco.validi_del_giorno amb d.
Proof.
  assert (Stessa : forall d',
    Tempo.date d' = Tempo.date d ->
    List.filter (fun v => Integrita.v_data v =? Tempo.date d)
                (Elenco.validi_del_giorno amb d') = Elenco.validi_del_giorno amb d').
  { intros d' E. apply filter_tutti. intros v Hv. unfold Elenco.validi_del_giorno in Hv.
    destruct (os_listdir amb (Tempo.date d')); [|destruct Hv].
    apply in_map_iff in Hv. destruct Hv as (f & <- & _).
    cbn [Elenco.voce_del_file Integrita.v_data]. apply Z.eqb_eq. exact E. }
  assert (Altra : forall d',
    Tempo.date d' <> Tempo.date d ->
    List.filter (fun v => Integrita.v_data v =? Tempo.date d)
                (Elenco.validi_del_giorno amb d') = []).
  { intros d' E. apply filter_nessuno. intros v Hv. unfold Elenco.validi_del_giorno in Hv.
    destruct (os_listdir amb (Tempo.date d')); [|destruct Hv].
    apply in_map_iff in Hv. destruct Hv as (f & <- & _).
    cbn [Elenco.voce_del_file Integrita.v_data]. apply Z.eqb_neq. exact E. }
  induction giorni as [|g giorni IH]; intros I N U; [destruct I|].
  cbn [flat_map]. rewrite List.filter_app.
  apply List.NoDup_cons_iff in N. destruct N as [Ng N].
  destruct (Z.eq_dec g d) as [->|Ne].
  - rewrite Stessa by reflexivity.
    assert (List.filter (fun v => Integrita.v_data v =? Tempo.date d)
              (flat_map (Elenco.validi_del_giorno amb) giorni) = []) as ->;
      [|apply app_nil_r].
    clear IH I. induction giorni as [|g giorni IH]; [reflexivity|].
    cbn [flat_map]. rewrite List.filter_app.
    rewrite Altra, IH; [reflexivity| | | |].
    + intros H. apply Ng. right. exact H.
    + apply List.NoDup_cons_iff in N. tauto.
    + intros d' Hd'. apply U. destruct Hd' as [<-|Hd']; [left; reflexivity|].
      right. right. exact Hd'.
    + intros E. apply Ng. left. apply U; [right; left; reflexivity|exact E].
  - rewrite Altra.
    + simpl. destruct I as [I|I]; [contradiction|].
      apply IH; [exact I|exact N|]. intros d' Hd'. apply U. right. exact Hd'.
    + intros E. apply Ne. apply U; [left; reflexivity|exact E].
Qed.

Lemma date_range_giorni_NoDup (data_inizio data_fine : Z) :
  List.NoDup (Tempo.date_range data_inizio data_fine).
Proof.
  eapply NoDup_map_inv. apply date_range_NoDup.
Qed.

(** The fallback scan of a listing. *)
Lemma aggiungi_tutti_casi (amb : ambiente) (d : Z) : forall (nomi : list string)
    (files : list percorso),
  match Elenco.aggiungi_tutti amb d files nomi with
  | Eccezione _ =>
      exists f, In f nomi /\ Nomi.endswith_tif f = true /\
                riuscito (Nomi.estrai_timestamp f) = false
  | Ok files' =>
      (forall f, In f nomi -> Nomi.endswith_tif f = true ->
                 riuscito (Nomi.estrai_timestamp f) = true) /\
      files' = files
        ++ map (Elenco.nel_giorno d)
               (List.filter (fun f => Elenco.tile_oraria f
                                      && Elenco.con_bande amb (Elenco.nel_giorno d f))
                            nomi)
  end.
Proof.
  induction nomi as [|f nomi IH]; intros files.
  - simpl. rewrite app_nil_r. split; [intros f []|reflexivity].
  - cbn [Elenco.aggiungi_tutti List.filter].
    assert (C : match Elenco.aggiungi_file amb d files f with
                | Eccezione _ =>
                    Nomi.endswith_tif f = true /\
                    riuscito (Nomi.estrai_timestamp f) = false
                | Ok files' =>
                    (Nomi.endswith_tif f = true ->
                     riuscito (Nomi.estrai_timestamp f) = true) /\
                    files' = files ++
                      (if Elenco.tile_oraria f
                          && Elenco.con_bande amb (Elenco.nel_giorno d f)
                       then [Elenco.nel_giorno d f] else [])
                end).
    { unfold Elenco.aggiungi_file, Elenco.tile_oraria, Elenco.con_bande.
      destruct (Nomi.endswith_tif f);
        [|simpl; rewrite app_nil_r; split; [discriminate|reflexivity]].
      destruct (Nomi.estrai_timestamp f) as [[t|]|e]; simpl;
        [|rewrite app_nil_r; split; reflexivity|split; reflexivity].
      destruct ((Tempo.minute t =? 0) && (Tempo.second t =? 0)); simpl;
        [|rewrite app_nil_r; split; reflexivity].
      destruct (rasterio_open amb (Elenco.nel_giorno d f)) as [src|e];
        [|rewrite app_nil_r; split; reflexivity].
      destruct (0 <? count src)%nat; [|rewrite app_nil_r]; split; reflexivity. }
    destruct (Elenco.aggiungi_file amb d files f) as [files1|e];
      cbv beta iota delta [mbind esito_bind].
    + specialize (IH files1).
      destruct (Elenco.aggiungi_tutti amb d files1 nomi) as [files'|e'].
      * destruct C as [C0 ->]. destruct IH as [I0 ->].
        split; [intros g [<-|Hg]; [exact C0|apply I0; exact Hg]|].
        rewrite <- app_assoc. f_equal.
        destruct (Elenco.tile_oraria f && Elenco.con_bande amb (Elenco.nel_giorno d f));
          reflexivity.
      * destruct IH as (g & Hg & Hg'). exists g. split; [right; exact Hg|exact Hg'].
    + exists f. split; [left; reflexivity|exact C].
Qed.

(** A tile that opens and reads has a band. *)
Lemma leggibile_con_bande (amb : ambiente) (p : percorso) :
  Elenco.leggibile amb p = true -> Elenco.con_bande amb p = true.
Proof.
  unfold Elenco.leggibile, Elenco.con_bande, Finestre.leggi, read1.
  destruct (rasterio_open amb p) as [src|e]; simpl; [|discriminate].
  destruct (count src) as [|n]; simpl; [discriminate|reflexivity].
Qed.

Lemma StronglySorted_map_leb (d : Z) (l : list string) :
  StronglySorted (fun f g => String.leb f g = true) l ->
  StronglySorted (fun p q => String.leb (nome p) (nome q) = true)
                 (map (Elenco.nel_giorno d) l).
Proof.
  induction 1 as [|x s S IHS F]; simpl; constructor; [exact IHS|].
  rewrite List.Forall_forall in *. intros p Hp. apply in_map_iff in Hp.
  destruct Hp as (y & <- & Hy). simpl. apply F. exact Hy.
Qed.

(** X7.  With the report of a verification, the list of the tiles of a
    day of the verified range is made of the [.tif] files of the listing
    of that day with a top-of-hour timestamp that open and read, sorted by
    name (empty when the directory does not exist): files of other days,
    unreadable tiles and names without a top-of-hour timestamp are not in
    it, and every tile of it is also found by the scan without a report. *)
Theorem lista_giorno_dal_report :
  forall (amb : ambiente) (data_inizio data_fine d : Z)
         (report : Integrita.FileIntegrityReport),
    Integrita.verifica_integrita_archivio amb data_inizio data_fine = Ok report ->
    In d (Tempo.date_range data_inizio data_fine) ->
    let attese :=
      match os_listdir amb (Tempo.date d) with
      | Some nomi => Elenco.tile_leggibili amb d nomi
      | None => []
      end in
    Elenco.ottieni_lista_file_giorno amb d (Some report)
      = Ok (map (Elenco.nel_giorno d) (Ordinamento.sorted String.leb attese)) /\
    StronglySorted (fun f g => String.leb f g = true)
                   (Ordinamento.sorted String.leb attese) /\
    Permutation (Ordinamento.sorted String.leb attese) attese /\
    forall l, Elenco.ottieni_lista_file_giorno amb d None = Ok l ->
              incl (map (Elenco.nel_giorno d) (Ordinamento.sorted String.leb attese)) l.
Proof.
  intros amb di df d report H Hd attese.
  unfold Integrita.verifica_integrita_archivio in H.
  pose proof (verifica_giorni_attesi amb (Tempo.date_range di df)
                Integrita.report_vuoto) as C.
  rewrite H in C. destruct C as (_ & Cv & _). simpl in Cv.
  split; [|split; [|split]].
  - unfold Elenco.ottieni_lista_file_giorno. rewrite Cv.
    rewrite (validi_della_data amb d (Tempo.date_range di df) Hd
               (date_range_giorni_NoDup di df)).
    + subst attese. unfold Elenco.validi_del_giorno.
      destruct (os_listdir amb (Tempo.date d)) as [nomi|]; [|reflexivity].
      cbv beta iota delta [mbind esito_bind]. f_equal.
      rewrite map_map. cbn [Elenco.voce_del_file Integrita.v_percorso].
      apply sorted_map. apply percorso_leb_nel_giorno.
    + intros d' Hd' E. exact (date_range_stessa_data di df d' d Hd' Hd E).
  - apply sorted_ordinata; [apply String.leb_total|apply string_leb_trans].
  - apply sorted_permutazione.
  - intros l Hl p Hp. apply in_map_iff in Hp. destruct Hp as (f & <- & Hf).
    apply sorted_In in Hf. subst attese.
    unfold Elenco.ottieni_lista_file_giorno in Hl.
    destruct (os_listdir amb (Tempo.date d)) as [nomi|]; [|destruct Hf].
    pose proof (aggiungi_tutti_casi amb d nomi []) as A.
    destruct (Elenco.aggiungi_tutti amb d [] nomi) as [files|e];
      cbv beta iota delta [mbind esito_bind] in Hl; [|discriminate Hl].
    injection Hl as <-. destruct A as [_ ->]. apply sorted_In. simpl.
    apply in_map. unfold Elenco.tile_leggibili in Hf. apply filter_In in Hf.
    destruct Hf as [Hf T]. apply filter_In. split; [exact Hf|].
    apply andb_true_iff in T. destruct T as [T L].
    rewrite T. apply leggibile_con_bande. exact L.
Qed.

Lemma lista_giorno_dal_report_witness :
  exists report,
    Integrita.verifica_integrita_archivio Esempi.amb Esempi.t0 Esempi.t0 = Ok report /\
    Elenco.ottieni_lista_file_giorno Esempi.amb Esempi.t0 (Some report)
      = Ok [Esempi.file "r_20230105100000.tif"].
Proof.
  assert (exists r,
    Integrita.verifica_integrita_archivio Esempi.amb Esempi.t0 Esempi.t0 = Ok r)
    as [r H] by (eexists; vm_compute; reflexivity).
  exists r. split; [exact H|].
  destruct (lista_giorno_dal_report Esempi.amb Esempi.t0 Esempi.t0 Esempi.t0 r H)
    as (E & _).
  - left. reflexivity.
  - rewrite E. reflexivity.
Defined.

(** X8.  Without a report, the list of the tiles of a day is made of
    the [.tif] files of the listing with a top-of-hour timestamp that open
    with at least one band (band 1 is not read), sorted by name, and it is
    empty when the directory does not exist.  The call raises exactly when
    the listing holds a [.tif] name on which [estrai_timestamp] raises. *)
Theorem lista_giorno_senza_report :
  forall (amb : ambiente) (d : Z),
    match Elenco.ottieni_lista_file_giorno amb d None with
    | Eccezione _ => exists f, Elenco.nome_non_valido amb d f
    | Ok l =>
        (forall f, ~ Elenco.nome_non_valido amb d f) /\
        l = map (Elenco.nel_giorno d)
              (Ordinamento.sorted String.leb
                 match os_listdir amb (Tempo.date d) with
                 | Some nomi =>
                     List.filter
                       (fun f => Elenco.tile_oraria f
                                 && Elenco.con_bande amb (Elenco.nel_giorno d f))
                       nomi
                 | None => []
                 end) /\
        StronglySorted (fun p q => String.leb (nome p) (nome q) = true) l
    end.
Proof.
  intros amb d. unfold Elenco.ottieni_lista_file_giorno, Elenco.nome_non_valido.
  destruct (os_listdir amb (Tempo.date d)) as [nomi|].
  - pose proof (aggiungi_tutti_casi amb d nomi []) as A.
    destruct (Elenco.aggiungi_tutti amb d [] nomi) as [files|e];
      cbv beta iota delta [mbind esito_bind].
    + destruct A as [A0 ->]. simpl.
      assert (E : Ordinamento.sorted Ordinamento.percorso_leb
                    (map (Elenco.nel_giorno d)
                       (List.filter
                          (fun f => Elenco.tile_oraria f
                                    && Elenco.con_bande amb (Elenco.nel_giorno d f))
                          nomi))
                  = map (Elenco.nel_giorno d)
                      (Ordinamento.sorted String.leb
                         (List.filter
                            (fun f => Elenco.tile_oraria f
                                      && Elenco.con_bande amb (Elenco.nel_giorno d f))
                            nomi)))
        by (apply sorted_map, percorso_leb_nel_giorno).
      rewrite E. split; [|split; [reflexivity|]].
      * intros f (nomi' & En & I & T & N). injection En as <-.
        rewrite (A0 f I T) in N. discriminate.
      * apply StronglySorted_map_leb.
        apply sorted_ordinata; [apply String.leb_total|apply string_leb_trans].
    + destruct A as (f & I & T & N). exists f, nomi. auto.
  - split; [|split; [reflexivity|constructor]].
    intros f (nomi' & En & _). discriminate.
Qed.

(** ** The log of the search *)

Section VociDelLog.
Import Finestre Ricerca.
Variable amb : ambiente.
Variable lista : list (percorso * Z).
Variable shp : string.
Variable cfg : gmap string bool.
Variable durata : Z.
Variable max_eff : Z.

(** An iteration keeps the entries regular and among the windows
    tried. *)
Lemma passo_voci st st' :
  passo amb lista shp cfg durata st = Ok st' ->
  Forall (fun e => voce_regolare amb lista cfg durata e /\
                   In (l_inizio e, l_fine e) (valutate st))
         (lista_finestre_log st) ->
  Forall (fun e => voce_regolare amb lista cfg durata e /\
                   In (l_inizio e, l_fine e) (valutate st'))
         (lista_finestre_log st').
Proof.
  unfold passo.
  pose proof (somma_casi amb lista (corrente st) (corrente st + durata)) as S.
  destruct (somma_file_tif_finestra amb lista (corrente st) (corrente st + durata))
    as [somma|e]; cbv beta iota zeta delta [mbind esito_bind]; [|discriminate].
  intros H C.
  assert (C' : Forall (fun e => voce_regolare amb lista cfg durata e /\
                 In (l_inizio e, l_fine e)
                    (valutate st ++ [(corrente st, corrente st + durata)]))
               (lista_finestre_log st)).
  { eapply List.Forall_impl; [|exact C]. simpl. intros e [R I].
    split; [exact R|]. apply in_or_app. left. exact I. }
  destruct somma as [out|]; cbv beta iota in H;
    [|injection H as <-; exact C'].
  destruct (ritaglia_raster_sommato_con_shapefile amb (Some (temp_file out)) shp)
    as [arr|]; [|injection H as <-; exact C'].
  destruct (calcola_statistiche_su_array_ritagliato amb (Some arr) cfg)
    as [d|] eqn:Es; [|injection H as <-; exact C'].
  destruct (vero (Some d)) eqn:V; injection H as <-; [|exact C'].
  cbn [lista_finestre_log valutate]. apply Forall_app. split; [exact C'|].
  constructor; [|constructor].
  destruct S as (primo & resto & d0 & Ef & _ & _ & _ & Fi).
  split.
  - unfold voce_regolare. cbn [l_inizio l_fine l_file l_stats].
    split; [reflexivity|]. split; [exact Fi|].
    split; [rewrite Fi, Ef; discriminate|]. split; [exact V|].
    exists arr. exact Es.
  - cbn [l_inizio l_fine]. apply in_or_app. right. left. reflexivity.
Qed.

Lemma ciclo_voci : forall fuel st tr st',
  Forall (fun e => voce_regolare amb lista cfg durata e /\
                   In (l_inizio e, l_fine e) (valutate st))
         (lista_finestre_log st) ->
  ciclo amb lista shp cfg durata max_eff fuel st = Some (tr, Ok st') ->
  tr = valutate st' /\
  Forall (fun e => voce_regolare amb lista cfg durata e /\ In (l_inizio e, l_fine e) tr)
         (lista_finestre_log st').
Proof.
  induction fuel as [|fuel IH]; intros st tr st' C; simpl; [discriminate|].
  destruct (corrente st + durata <=? max_eff).
  - destruct (passo amb lista shp cfg durata st) as [st1|e] eqn:P; [|discriminate].
    apply IH. eapply passo_voci; eauto.
  - intros H. injection H as <- <-. split; [reflexivity|exact C].
Qed.

End VociDelLog.

(** The outcome of a search with enough fuel: the log holds regular
    entries, for windows that were tried, in increasing order of their
    start, and the statistics returned are those the selection finds in
    the log. *)
Lemma ricerca_esito (amb : ambiente) (fuel : nat) (lista : list (percorso * Z))
    (durata_ore data_corrente : Z) (shp : string) (cfg : gmap string bool) :
  (Finestre.carburante lista durata_ore <= fuel)%nat ->
  exists finestre r,
    Finestre.finestre_mobili_tracciate amb fuel lista durata_ore data_corrente
      shp cfg = Some (finestre, r) /\
    forall stats log,
      r = Ok (stats, log) ->
      Forall (fun e =>
                Ricerca.voce_regolare amb lista cfg
                  (Tempo.timedelta_hours durata_ore) e /\
                In (Finestre.l_inizio e, Finestre.l_fine e) finestre) log /\
      StronglySorted (fun a b => Finestre.l_inizio a < Finestre.l_inizio b) log /\
      (log = [] -> Finestre.vero stats = false) /\
      (log <> [] ->
       stats = snd <$> Finestre.py_max (fun x => Finestre.chiave_media (snd x))
                         (map (fun e => (Finestre.l_inizio e, Finestre.l_stats e)) log)).
Proof.
  intros Hf.
  assert (Vuoto : forall (finestre : list (Z * Z)),
    Forall (fun e =>
              Ricerca.voce_regolare amb lista cfg (Tempo.timedelta_hours durata_ore) e /\
              In (Finestre.l_inizio e, Finestre.l_fine e) finestre) [] /\
    StronglySorted (fun a b => Finestre.l_inizio a < Finestre.l_inizio b) [] /\
    (@nil Finestre.voce_log = [] -> Finestre.vero None = false) /\
    (@nil Finestre.voce_log <> [] ->
     None = snd <$> Finestre.py_max (fun x => Finestre.chiave_media (snd x))
                      (map (fun e => (Finestre.l_inizio e, Finestre.l_stats e)) []))).
  { intros finestre. repeat split; constructor. }
  unfold Finestre.finestre_mobili_tracciate.
  destruct lista as [|x0 lista'] eqn:El.
  { eexists _, _. split; [reflexivity|].
    intros stats log H. injection H as <- <-. apply Vuoto. }
  rewrite <- El in *.
  destruct (gpd_read_file amb shp) as [shapefile|e].
  2:{ eexists _, _. split; [reflexivity|].
      intros stats log H. injection H as <- <-. apply Vuoto. }
  destruct (Z.eqb_spec durata_ore 24) as [->|Hd].
  - (* the calendar day *)
    unfold Finestre.caso_24h.
    destruct (List.filter _ lista) as [|y dg] eqn:Edg.
    { eexists _, _. split; [reflexivity|].
      intros stats log H. injection H as <- <-. apply Vuoto. }
    rewrite <- Edg. cbv zeta.
    eexists _, _. split; [reflexivity|].
    intros stats log.
    set (del_giorno :=
           List.filter (fun x => Tempo.date (snd x) =? Tempo.date data_corrente) lista).
    set (inizio := Tempo.replace_ora data_corrente 0).
    pose proof (somma_casi amb del_giorno inizio (inizio + Tempo.giorno)) as S.
    destruct (Finestre.somma_file_tif_finestra amb del_giorno inizio
                (inizio + Tempo.giorno))
      as [[out|]|e]; cbv beta iota delta [mbind esito_bind];
      [|intros H; injection H as <- <-; apply Vuoto|discriminate].
    destruct (Finestre.ritaglia_raster_sommato_con_shapefile amb
                (Some (Finestre.temp_file out)) shp) as [arr|];
      [|intros H; injection H as <- <-; apply Vuoto].
    destruct (Finestre.calcola_statistiche_su_array_ritagliato amb (Some arr) cfg)
      as [d|] eqn:Es; [|intros H; injection H as <- <-; apply Vuoto].
    destruct (Finestre.vero (Some d)) eqn:V; intros H; injection H as <- <-.
    2:{ split; [constructor|]. split; [constructor|].
        split; [intros _; exact V|intros N; contradiction]. }
    destruct S as (primo & resto & d0 & Ef & _ & _ & _ & Fi).
    assert (Stessi : Finestre.file_finestra del_giorno inizio (inizio + Tempo.giorno)
                     = Finestre.file_finestra lista inizio (inizio + Tempo.giorno)).
    { unfold Finestre.file_finestra, Finestre.tile_finestra. f_equal.
      subst del_giorno. apply filter_filter_implica. intros [p t] I. simpl in *.
      apply in_finestra_spec in I. apply Z.eqb_eq. apply stesso_giorno.
      subst inizio. unfold Tempo.replace_ora in I. lia. }
    split; [|split; [|split]].
    + constructor; [|constructor]. split; [|left; reflexivity].
      unfold Ricerca.voce_regolare.
      cbn [Finestre.l_inizio Finestre.l_fine Finestre.l_file Finestre.l_stats].
      split; [reflexivity|]. split; [rewrite Fi, Stessi; reflexivity|].
      split; [rewrite Fi, Ef; discriminate|]. split; [exact V|].
      exists arr. exact Es.
    + constructor; constructor.
    + discriminate.
    + intros _. reflexivity.
  - (* the rolling windows *)
    unfold Finestre.caso_mobile.
    destruct (map snd lista) as [|t0 altri] eqn:Et.
    { rewrite El in Et. discriminate Et. }
    cbv zeta.
    destruct (carburante_basta lista durata_ore t0 altri fuel Et Hf) as [Hn Hlt].
    set (st0 := {| Finestre.corrente := Finestre.minimo t0 altri;
                   Finestre.risultati := [];
                   Finestre.lista_finestre_log := [];
                   Finestre.valutate := [] |}).
    destruct (ciclo_termina amb lista shp cfg (Tempo.timedelta_hours durata_ore)
                (Finestre.massimo t0 altri + Tempo.timedelta_hours 1) _ fuel st0
                Hn Hlt) as (tr & r & R).
    rewrite R. cbn [mbind option_bind].
    eexists _, _. split; [reflexivity|].
    intros stats log.
    destruct r as [st|e]; cbv beta iota delta [mbind esito_bind]; [|discriminate].
    assert (C : Finestre.coerente st).
    { eapply ciclo_coerente; [|exact R]. unfold Finestre.coerente, st0. simpl.
      repeat split; constructor. }
    destruct (ciclo_voci amb lista shp cfg (Tempo.timedelta_hours durata_ore)
                (Finestre.massimo t0 altri + Tempo.timedelta_hours 1) fuel st0 tr st)
      as [_ K]; [constructor|exact R|].
    destruct C as (C1 & _ & C3).
    assert (Fine : forall s : option (gmap string float),
      s = snd <$> Finestre.py_max (fun x => Finestre.chiave_media (snd x))
                    (Finestre.risultati st) ->
      Ok (s, Finestre.lista_finestre_log st) = Ok (stats, log) ->
      Forall (fun e =>
                Ricerca.voce_regolare amb lista cfg
                  (Tempo.timedelta_hours durata_ore) e /\
                In (Finestre.l_inizio e, Finestre.l_fine e) tr) log /\
      StronglySorted (fun a b => Finestre.l_inizio a < Finestre.l_inizio b) log /\
      (log = [] -> Finestre.vero stats = false) /\
      (log <> [] ->
       stats = snd <$> Finestre.py_max (fun x => Finestre.chiave_media (snd x))
                         (map (fun e => (Finestre.l_inizio e, Finestre.l_stats e)) log))).
    { intros s Es H. injection H as <- <-. rewrite C1 in Es.
      split; [exact K|]. split; [exact C3|]. split; [|intros _; exact Es].
      intros N. rewrite N in Es. rewrite Es. reflexivity. }
    destruct (Finestre.py_max _ (Finestre.risultati st)) as [m|] eqn:Em;
      apply Fine; reflexivity.
Qed.

(** ** What each window of a search gives *)

Section Valutazione.
Import Finestre Ricerca.
Variable amb : ambiente.
Variable lista : list (percorso * Z).
Variable shp : string.
Variable cfg : gmap string bool.

(** Whether a crop has statistics does not depend on the configuration. *)
Lemma statistiche_nulle (a : option array) (cfg' : gmap string bool) :
  calcola_statistiche_su_array_ritagliato amb a cfg = None <->
  calcola_statistiche_su_array_ritagliato amb a cfg' = None.
Proof.
  unfold calcola_statistiche_su_array_ritagliato.
  destruct a as [a|]; [|tauto].
  destruct (negb _); [tauto|]. destruct (_ =? _)%nat; [tauto|].
  split; discriminate.
Qed.

Lemma omap_cons_lista {A B} (f : A -> option B) (x : A) (l : list A) :
  omap f (x :: l) = option_list (f x) ++ omap f l.
Proof. cbn. destruct (f x); reflexivity. Qed.

(** One iteration adds the entry of its window, when the window has one,
    to the log and to the results. *)
Lemma passo_voce (durata : Z) (st st' : stato_ciclo) :
  passo amb lista shp cfg durata st = Ok st' ->
  lista_finestre_log st'
    = lista_finestre_log st
      ++ option_list (voce_finestra amb lista shp cfg
                        (corrente st, corrente st + durata)) /\
  risultati st'
    = risultati st
      ++ map (fun e => (l_inizio e, l_stats e))
             (option_list (voce_finestra amb lista shp cfg
                             (corrente st, corrente st + durata))).
Proof.
  unfold passo, voce_finestra, valuta_finestra. cbn [fst snd].
  destruct (somma_file_tif_finestra amb lista (corrente st) (corrente st + durata))
    as [somma|e]; cbv beta iota zeta delta [mbind esito_bind]; [|discriminate].
  destruct somma as [out|]; cbv beta iota.
  - destruct (ritaglia_raster_sommato_con_shapefile amb (Some (temp_file out)) shp)
      as [arr|]; cbv beta iota.
    + destruct (calcola_statistiche_su_array_ritagliato amb (Some arr) cfg) as [d|];
        cbv beta iota.
      * destruct (vero (Some d)); intros H; injection H as <-;
          cbn [lista_finestre_log risultati option_list map];
          rewrite ?app_nil_r; split; reflexivity.
      * intros H; injection H as <-.
        cbn [lista_finestre_log risultati option_list map].
        rewrite ?app_nil_r; split; reflexivity.
    + intros H; injection H as <-.
      cbn [lista_finestre_log risultati option_list map calcola_statistiche_su_array_ritagliato].
      rewrite ?app_nil_r; split; reflexivity.
  - intros H; injection H as <-.
    cbn [lista_finestre_log risultati option_list map].
    rewrite ?app_nil_r; split; reflexivity.
Qed.

(** A loop that ends without raising has tried every window of the
    span, and its log and results hold the entries of those windows, in
    order. *)
Lemma ciclo_registro (durata max_eff : Z) : forall (fuel : nat) (st : stato_ciclo)
    (tr : list (Z * Z)) (st' : stato_ciclo),
  ciclo amb lista shp cfg durata max_eff fuel st = Some (tr, Ok st') ->
  let nuove :=
    finestre_da (Z.to_nat (numero_finestre (corrente st) durata max_eff))
                (corrente st) durata in
  tr = valutate st ++ nuove /\
  lista_finestre_log st'
    = lista_finestre_log st ++ omap (voce_finestra amb lista shp cfg) nuove /\
  risultati st'
    = risultati st
      ++ map (fun e => (l_inizio e, l_stats e))
             (omap (voce_finestra amb lista shp cfg) nuove).
Proof.
  induction fuel as [|fuel IH]; intros st tr st'; simpl; [discriminate|].
  destruct (Z.leb_spec (corrente st + durata) max_eff) as [G|G].
  - destruct (passo amb lista shp cfg durata st) as [st1|e] eqn:P; [|discriminate].
    intros H. apply IH in H. destruct H as (Ht & Hl & Hr).
    destruct (passo_campi amb lista shp cfg durata st st1 P) as (Pc & Pv & _).
    destruct (passo_voce durata st st1 P) as (Pl & Pr).
    rewrite (numero_finestre_dentro durata max_eff (corrente st) G).
    pose proof (numero_finestre_nonneg durata max_eff (corrente st + step)) as N.
    replace (Z.to_nat (1 + numero_finestre (corrente st + step) durata max_eff))
      with (S (Z.to_nat (numero_finestre (corrente st + step) durata max_eff)))
      by lia.
    rewrite finestre_da_S, omap_cons_lista, map_app.
    rewrite Pc in Ht, Hl, Hr. rewrite Ht, Hl, Hr, Pv, Pl, Pr.
    rewrite <- !app_assoc. repeat split; reflexivity.
  - intros H. injection H as <- <-.
    rewrite (numero_finestre_fuori durata max_eff (corrente st) G).
    cbn. rewrite !app_nil_r. repeat split; reflexivity.
Qed.

(** *** The window of the day *)

Lemma finestra_del_giorno (data_corrente : Z) (t : Z) :
  in_finestra (Tempo.replace_ora data_corrente 0)
              (Tempo.replace_ora data_corrente 0 + Tempo.giorno) t
  = (Tempo.date t =? Tempo.date data_corrente).
Proof.
  apply eq_iff_eq_true. rewrite in_finestra_spec, Z.eqb_eq, stesso_giorno.
  unfold Tempo.replace_ora. lia.
Qed.

(** Summing the window of the day over the whole list is summing it
    over the tiles of the day. *)
Lemma somma_del_giorno (data_corrente : Z) :
  let inizio := Tempo.replace_ora data_corrente 0 in
  let del_giorno :=
    List.filter (fun x => Tempo.date (snd x) =? Tempo.date data_corrente) lista in
  tile_finestra lista inizio (inizio + Tempo.giorno) = del_giorno /\
  tile_finestra del_giorno inizio (inizio + Tempo.giorno) = del_giorno /\
  somma_file_tif_finestra amb del_giorno inizio (inizio + Tempo.giorno)
  = somma_file_tif_finestra amb lista inizio (inizio + Tempo.giorno).
Proof.
  intros inizio del_giorno.
  assert (E1 : tile_finestra lista inizio (inizio + Tempo.giorno) = del_giorno).
  { unfold tile_finestra, del_giorno. apply filter_ext. intros [p t].
    apply finestra_del_giorno. }
  assert (E2 : tile_finestra del_giorno inizio (inizio + Tempo.giorno) = del_giorno).
  { rewrite <- E1 at 2. unfold tile_finestra, del_giorno.
    rewrite (filter_ext _ (fun x => Tempo.date (snd x) =? Tempo.date data_corrente))
      by (intros [p t]; apply finestra_del_giorno).
    rewrite filter_filter_stesso. symmetry. apply filter_ext. intros [p t].
    apply finestra_del_giorno. }
  split; [exact E1|]. split; [exact E2|].
  unfold somma_file_tif_finestra, file_finestra. rewrite E1, E2. reflexivity.
Qed.

Lemma filter_existsb {A} (f : A -> bool) (l : list A) :
  existsb f l = negb (bool_decide (List.filter f l = [])).
Proof.
  induction l as [|x l IH]; [reflexivity|]. simpl.
  destruct (f x); [reflexivity|exact IH].
Qed.

(** The calendar-day case, in terms of the window of the day. *)
Lemma caso_24h_esito (data_corrente : Z) :
  let inizio := Tempo.replace_ora data_corrente 0 in
  let fine := inizio + Tempo.giorno in
  caso_24h amb lista data_corrente shp cfg
  = if existsb (fun x => Tempo.date (snd x) =? Tempo.date data_corrente) lista
    then ([(inizio, fine)],
          v ← valuta_finestra amb lista shp cfg inizio fine;
          Ok (fst v, option_list (voce_finestra amb lista shp cfg (inizio, fine))))
    else ([], Ok (None, [])).
Proof.
  intros inizio fine. unfold caso_24h. rewrite filter_existsb.
  destruct (somma_del_giorno data_corrente) as (_ & _ & Es).
  fold inizio in Es. fold fine in Es.
  destruct (List.filter _ lista) as [|x dg] eqn:Edg; [reflexivity|].
  rewrite bool_decide_eq_false_2 by discriminate. cbn [negb].
  cbv zeta. fold inizio. fold fine. f_equal.
  unfold voce_finestra, valuta_finestra. cbn [fst snd].
  rewrite Es.
  destruct (somma_file_tif_finestra amb lista inizio fine) as [[out|]|e];
    cbv beta iota delta [mbind esito_bind]; [|reflexivity|reflexivity].
  destruct (ritaglia_raster_sommato_con_shapefile amb (Some (temp_file out)) shp)
    as [arr|]; cbv beta iota; [|reflexivity].
  destruct (calcola_statistiche_su_array_ritagliato amb (Some arr) cfg) as [d|];
    cbn [fst]; [|reflexivity].
  destruct (vero (Some d)); reflexivity.
Qed.

(** *** The mean of a window *)

(** With the mean enabled, the mean of a window is the mean statistic of
    its entry, and a window without an entry has no mean. *)
Lemma media_della_voce (w : Z * Z) :
  default false (cfg !! "media") = true ->
  media_finestra amb lista shp w
  = e ← voce_finestra amb lista shp cfg w; l_stats e !! "media".
Proof.
  intros Hm. unfold media_finestra, voce_finestra, valuta_finestra.
  destruct (somma_file_tif_finestra amb lista (fst w) (snd w)) as [[out|]|e];
    cbv beta iota delta [mbind esito_bind]; [|reflexivity|reflexivity].
  destruct (ritaglia_raster_sommato_con_shapefile amb (Some (temp_file out)) shp)
    as [arr|]; [|reflexivity].
  destruct (calcola_statistiche_su_array_ritagliato amb (Some arr) cfg) as [d|] eqn:Ed.
  - destruct (calcola_statistiche_su_array_ritagliato amb (Some arr) {[ "media" := true ]})
      as [d'|] eqn:Ed'.
    + destruct (chiave_media_calcolata amb cfg arr d Hm Ed) as [M _].
      assert (Hm' : default false (({[ "media" := true ]} : gmap string bool) !! "media")
                    = true) by (rewrite lookup_singleton_eq; reflexivity).
      destruct (chiave_media_calcolata amb {[ "media" := true ]} arr d' Hm' Ed')
        as [M' _].
      assert (V : vero (Some d) = true).
      { unfold vero. apply negb_true_iff, bool_decide_eq_false. intros ->.
        rewrite lookup_empty in M. discriminate M. }
      rewrite V. cbn. rewrite M, M'. reflexivity.
    + exfalso. apply (proj2 (statistiche_nulle (Some arr) {[ "media" := true ]})) in Ed'.
      congruence.
  - apply (proj1 (statistiche_nulle (Some arr) {[ "media" := true ]})) in Ed.
    rewrite Ed. reflexivity.
Qed.

End Valutazione.

(** The selection over a log in increasing order of start. *)
Lemma selezione_del_log (log : list Finestre.voce_log) :
  StronglySorted (fun a b => Finestre.l_inizio a < Finestre.l_inizio b) log ->
  log <> [] ->
  (forall e, In e log ->
     PrimFloat.is_nan (Finestre.chiave_media (Finestre.l_stats e)) = false) ->
  exists sel,
    Finestre.py_max (fun x => Finestre.chiave_media (snd x))
      (map (fun e => (Finestre.l_inizio e, Finestre.l_stats e)) log)
      = Some (Finestre.l_inizio sel, Finestre.l_stats sel) /\
    In sel log /\
    (forall e, In e log ->
       PrimFloat.leb (Finestre.chiave_media (Finestre.l_stats e))
                     (Finestre.chiave_media (Finestre.l_stats sel)) = true) /\
    (forall e, In e log ->
       PrimFloat.eqb (Finestre.chiave_media (Finestre.l_stats e))
                     (Finestre.chiave_media (Finestre.l_stats sel)) = true ->
       Finestre.l_inizio sel <= Finestre.l_inizio e).
Proof.
  intros C3 Hne Hnan.
  set (f := fun e => (Finestre.l_inizio e, Finestre.l_stats e)) in *.
  set (key := fun x : Z * gmap string float => Finestre.chiave_media (snd x)).
  destruct log as [|e0 log]; [contradiction|].
  unfold Finestre.py_max. cbn [map].
  destruct (py_max_da_primo key (map f log) (f e0)) as (pre & post & E & Hpre & Hpost).
  { intros x Hx. change (f e0 :: map f log) with (map f (e0 :: log)) in Hx.
    apply in_map_iff in Hx. destruct Hx as (e & <- & He). apply Hnan. exact He. }
  change (f e0 :: map f log) with (map f (e0 :: log)) in E.
  apply map_eq_app in E. destruct E as (pre' & rest' & E1 & E2 & E3).
  apply map_eq_cons in E3. destruct E3 as (sel & post' & E3 & E4 & E5).
  subst rest'. rewrite E1 in C3, Hnan.
  destruct (StronglySorted_app_inv _ _ _ _ C3) as [S1 S2].
  set (m := Finestre.py_max_da key (f e0) (map f log)) in *.
  assert (Ksel : Finestre.chiave_media (Finestre.l_stats sel) = key m)
    by (rewrite <- E4; reflexivity).
  exists sel. split; [rewrite <- E4; reflexivity|]. split.
  { rewrite E1. apply in_or_app. right. left. reflexivity. }
  split.
  - intros e He. rewrite E1 in He. apply in_app_or in He. rewrite Ksel.
    destruct He as [He|[<-|He]].
    + apply Confronti.lt_le. apply (Hpre (f e)). rewrite <- E2.
      apply in_map. exact He.
    + rewrite <- Ksel. apply Confronti.le_refl. apply Hnan.
      apply in_or_app. right. left. reflexivity.
    + apply (Hpost (f e)). rewrite <- E5. apply in_map. exact He.
  - intros e He Q. rewrite E1 in He. apply in_app_or in He.
    destruct He as [He|[<-|He]].
    + exfalso. rewrite Ksel in Q.
      assert (PrimFloat.ltb (Finestre.chiave_media (Finestre.l_stats e)) (key m) = true) as L.
      { apply (Hpre (f e)). rewrite <- E2. apply in_map. exact He. }
      apply Confronti.lt_non_eq in L. congruence.
    + lia.
    + specialize (S2 e He). simpl in S2. lia.
Qed.

(** The outcome of a search with enough fuel, window by window: the
    windows tried are those of the span (or the day), the log holds the
    entries of the windows that have one, in order, and the statistics
    returned are those the selection finds in the log. *)
Lemma ricerca_registro (amb : ambiente) (fuel : nat) (lista : list (percorso * Z))
    (durata_ore data_corrente : Z) (shp : string) (cfg : gmap string bool) :
  (Finestre.carburante lista durata_ore <= fuel)%nat ->
  exists finestre r,
    Finestre.finestre_mobili_tracciate amb fuel lista durata_ore data_corrente
      shp cfg = Some (finestre, r) /\
    forall stats log,
      r = Ok (stats, log) ->
      (riuscito (gpd_read_file amb shp) = true ->
       finestre = Ricerca.finestre_attese lista durata_ore data_corrente) /\
      log = omap (Ricerca.voce_finestra amb lista shp cfg) finestre /\
      StronglySorted (fun a b => Finestre.l_inizio a < Finestre.l_inizio b) log /\
      (log = [] -> Finestre.vero stats = false) /\
      (log <> [] ->
       stats = snd <$> Finestre.py_max (fun x => Finestre.chiave_media (snd x))
                         (map (fun e => (Finestre.l_inizio e, Finestre.l_stats e)) log)).
Proof.
  intros Hf.
  destruct (ricerca_esito amb fuel lista durata_ore data_corrente shp cfg Hf)
    as (finestre & r & E & K).
  exists finestre, r. split; [exact E|].
  intros stats log Hr. destruct (K stats log Hr) as (_ & K2 & K3 & K4).
  assert (N : (riuscito (gpd_read_file amb shp) = true ->
               finestre = Ricerca.finestre_attese lista durata_ore data_corrente) /\
              log = omap (Ricerca.voce_finestra amb lista shp cfg) finestre);
    [|destruct N as [N1 N2]; repeat split; assumption].
  clear K K2 K3 K4. subst r. revert E.
  unfold Finestre.finestre_mobili_tracciate, Ricerca.finestre_attese.
  destruct lista as [|x0 lista'].
  { intros H. injection H as <- _ <-. split; reflexivity. }
  cbn [map]. set (lista := x0 :: lista').
  destruct (gpd_read_file amb shp) as [shapefile|e].
  2:{ intros H. injection H as <- _ <-. split; [discriminate|reflexivity]. }
  destruct (Z.eqb_spec durata_ore 24) as [->|Hd].
  - rewrite caso_24h_esito.
    destruct (existsb _ lista).
    + intros H. injection H as <- H. split; [reflexivity|].
      destruct (Ricerca.valuta_finestra amb lista shp cfg _ _) as [v|e];
        cbv beta iota delta [mbind esito_bind] in H; [|discriminate H].
      injection H as _ <-. cbn. destruct (Ricerca.voce_finestra _ _ _ _ _); reflexivity.
    + intros H. injection H as <- _ <-. split; reflexivity.
  - unfold Finestre.caso_mobile.
    change (map snd lista) with (snd x0 :: map snd lista').
    cbv beta iota zeta.
    match goal with
    | |- context [Finestre.ciclo ?a ?l ?s ?c ?d ?m ?f ?st] =>
        destruct (Finestre.ciclo a l s c d m f st) as [[tr fine]|] eqn:Ec
    end; cbn [mbind option_bind]; [|discriminate].
    intros H. injection H as <- H.
    destruct fine as [st|e]; cbv beta iota delta [mbind esito_bind] in H;
      [|discriminate H].
    apply ciclo_registro in Ec. cbn [Finestre.corrente Finestre.valutate
      Finestre.lista_finestre_log Finestre.risultati app] in Ec.
    destruct Ec as (Et & El' & _).
    split; [intros _; exact Et|].
    rewrite <- Et in El'.
    destruct (Finestre.py_max _ (Finestre.risultati st));
      injection H as _ <-; exact El'.
Qed.

(** C4 (as amended).  For the 24-hour duration, when the list has a tile
    of the day and the zone file loads, the search tries exactly one
    window, whatever the fuel: the day, from 00:00 to 00:00 of the next
    day.  Its outcome is the evaluation of that window: the exception of
    the summation, or the statistics of the crop with the entry of the
    window as the only one of the log, when it has one.  The tiles summed
    are those of the list whose date is the day, in the order of the list,
    and the outcome is the one obtained from the tiles of the day alone,
    whatever the other tiles of the list (nothing slides). *)
Theorem caso_24h_una_sola_finestra :
  forall (amb : ambiente) (fuel : nat) (lista : list (percorso * Z))
         (data_corrente : Z) (shp : string) (cfg : gmap string bool),
    (exists p t, In (p, t) lista /\ Tempo.date t = Tempo.date data_corrente) ->
    riuscito (gpd_read_file amb shp) = true ->
    let inizio := Tempo.giorno * Tempo.date data_corrente in
    let fine := inizio + Tempo.giorno in
    let del_giorno :=
      List.filter (fun x => Tempo.date (snd x) =? Tempo.date data_corrente) lista in
    Finestre.finestre_mobili_tracciate amb fuel lista 24 data_corrente shp cfg
      = Some ([(inizio, fine)],
              v ← Ricerca.valuta_finestra amb lista shp cfg inizio fine;
              Ok (fst v,
                  option_list (Ricerca.voce_finestra amb lista shp cfg (inizio, fine)))) /\
    (forall p t, In (p, t) del_giorno <-> In (p, t) lista /\ inizio <= t < fine) /\
    Finestre.file_finestra lista inizio fine = map fst del_giorno /\
    Ricerca.valuta_finestra amb del_giorno shp cfg inizio fine
      = Ricerca.valuta_finestra amb lista shp cfg inizio fine /\
    Finestre.finestre_mobili_tracciate amb fuel del_giorno 24 data_corrente shp cfg
      = Finestre.finestre_mobili_tracciate amb fuel lista 24 data_corrente shp cfg.
Proof.
  intros amb fuel lista data_corrente shp cfg (p0 & t0 & I0 & D0) Hshp
    inizio fine del_giorno.
  assert (Ei : Tempo.replace_ora data_corrente 0 = inizio)
    by (unfold Tempo.replace_ora; subst inizio; lia).
  destruct (somma_del_giorno amb lista data_corrente) as (T1 & T2 & Es).
  rewrite Ei in T1, T2, Es. fold fine in T1, T2, Es. fold del_giorno in T1, T2, Es.
  assert (Mem : forall p t, In (p, t) del_giorno <->
                            In (p, t) lista /\ inizio <= t < fine).
  { intros p t. rewrite <- T1. apply tile_finestra_In. }
  assert (I1 : In (p0, t0) del_giorno).
  { apply Mem. split; [exact I0|]. apply stesso_giorno in D0.
    subst fine inizio. exact D0. }
  assert (Ex : forall l, In (p0, t0) l ->
             existsb (fun x => Tempo.date (snd x) =? Tempo.date data_corrente) l = true).
  { intros l I. apply existsb_exists. exists (p0, t0). split; [exact I|].
    apply Z.eqb_eq. exact D0. }
  assert (Ev : Ricerca.valuta_finestra amb del_giorno shp cfg inizio fine
               = Ricerca.valuta_finestra amb lista shp cfg inizio fine).
  { unfold Ricerca.valuta_finestra. rewrite Es. reflexivity. }
  assert (Evo : Ricerca.voce_finestra amb del_giorno shp cfg (inizio, fine)
                = Ricerca.voce_finestra amb lista shp cfg (inizio, fine)).
  { unfold Ricerca.voce_finestra. cbn [fst snd]. rewrite Ev. reflexivity. }
  assert (Tr : forall l, In (p0, t0) l ->
             Finestre.finestre_mobili_tracciate amb fuel l 24 data_corrente shp cfg
             = Some ([(inizio, fine)],
                     v ← Ricerca.valuta_finestra amb l shp cfg inizio fine;
                     Ok (fst v,
                         option_list (Ricerca.voce_finestra amb l shp cfg (inizio, fine))))).
  { intros l I. unfold Finestre.finestre_mobili_tracciate.
    destruct l as [|x l'] eqn:El; [destruct I|]. rewrite <- El in *.
    destruct (gpd_read_file amb shp); [|discriminate Hshp].
    simpl (24 =? 24). cbv iota. rewrite caso_24h_esito, (Ex l I), Ei. reflexivity. }
  split; [apply Tr; exact I0|]. split; [exact Mem|].
  split; [unfold Finestre.file_finestra; rewrite T1; reflexivity|].
  split; [exact Ev|].
  rewrite (Tr lista I0), (Tr del_giorno I1), Ev, Evo. reflexivity.
Qed.

Lemma caso_24h_una_sola_finestra_witness :
  exists stats log,
    Finestre.finestre_mobili_tracciate Esempi.amb 0
      ((Esempi.file "r_20230104230000.tif", Esempi.alle (-1)) :: Esempi.tre_tile)
      24 Esempi.t0 "zona.shp" Esempi.tutte
    = Some ([(Esempi.alle 0, Esempi.alle 24)], Ok (Some stats, log)) /\
    stats !! "media" = Some 33%float /\
    map Finestre.l_file log
      = [["r_20230105100000.tif"; "r_20230105110000.tif"; "r_20230105120000.tif"]].
Proof.
  destruct (caso_24h_una_sola_finestra Esempi.amb 0
              ((Esempi.file "r_20230104230000.tif", Esempi.alle (-1)) :: Esempi.tre_tile)
              Esempi.t0 "zona.shp" Esempi.tutte) as (E & _).
  - exists (Esempi.file "r_20230105100000.tif"), (Esempi.alle 10).
    split; [right; left; reflexivity|reflexivity].
  - reflexivity.
  - rewrite E. eexists _, _. split; [vm_compute; reflexivity|].
    split; vm_compute; reflexivity.
Defined.

(** C4, the claim as stated fails: with the 23:00 tile of the day before
    as the only tile of the list, no window is tried for the day and the
    result is null. *)
Lemma caso_24h_controesempio :
  Finestre.finestre_mobili_tracciate Esempi.amb 5
    [(Esempi.file "r_20230104230000.tif", Esempi.alle (-1))]
    24 Esempi.t0 "zona.shp" Esempi.tutte
  = Some ([], Ok (None, [])) /\
  riuscito (gpd_read_file Esempi.amb "zona.shp") = true.
Proof. split; vm_compute; reflexivity. Qed.

(** C2 (as amended).  With the mean enabled in the configuration and
    enough fuel the search returns, and when it returns statistics and a
    log: the windows tried are those of the span (of the day for 24
    hours) when the zone file loads; the log holds, in order, the entry of
    every window tried that produced statistics, and no other; the mean of
    every window tried is the mean statistic of its entry (a window
    without an entry has no mean); the result is null or empty when no
    window produced statistics; and otherwise, when no mean is NaN, the
    statistics returned are those of a logged window whose mean is greater
    than or equal to the mean of every logged window, and every logged
    window with an equal mean starts no earlier than the selected one. *)
Theorem finestra_con_media_massima :
  forall (amb : ambiente) (fuel : nat) (lista : list (percorso * Z))
         (durata_ore data_corrente : Z) (shp : string) (cfg : gmap string bool),
    default false (cfg !! "media") = true ->
    (Finestre.carburante lista durata_ore <= fuel)%nat ->
    exists finestre r,
      Finestre.finestre_mobili_tracciate amb fuel lista durata_ore data_corrente
        shp cfg = Some (finestre, r) /\
      forall stats log,
        r = Ok (stats, log) ->
        (riuscito (gpd_read_file amb shp) = true ->
         finestre = Ricerca.finestre_attese lista durata_ore data_corrente) /\
        log = omap (Ricerca.voce_finestra amb lista shp cfg) finestre /\
        (forall w, In w finestre ->
           Ricerca.media_finestra amb lista shp w
           = e ← Ricerca.voce_finestra amb lista shp cfg w;
             Finestre.l_stats e !! "media") /\
        (forall e, In e log -> is_Some (Finestre.l_stats e !! "media")) /\
        (log = [] -> Finestre.vero stats = false) /\
        (log <> [] ->
         (forall e m, In e log -> Finestre.l_stats e !! "media" = Some m ->
                      F.is_nan m = false) ->
         exists sel m_sel,
           In sel log /\
           stats = Some (Finestre.l_stats sel) /\
           Finestre.l_stats sel !! "media" = Some m_sel /\
           forall e m, In e log -> Finestre.l_stats e !! "media" = Some m ->
             PrimFloat.leb m m_sel = true /\
             (PrimFloat.eqb m m_sel = true ->
              Finestre.l_inizio sel <= Finestre.l_inizio e)).
Proof.
  intros amb fuel lista durata_ore data_corrente shp cfg Hm Hf.
  destruct (ricerca_registro amb fuel lista durata_ore data_corrente shp cfg Hf)
    as (finestre & r & E & K).
  exists finestre, r. split; [exact E|].
  intros stats log Hr. destruct (K stats log Hr) as (K1 & K2 & K3 & K4 & K5).
  assert (Media : forall e, In e log ->
            exists m, Finestre.l_stats e !! "media" = Some m /\
                      Finestre.chiave_media (Finestre.l_stats e) = m).
  { intros e He. rewrite K2 in He. apply list_elem_of_In, list_elem_of_omap in He.
    destruct He as (w & _ & Hw).
    unfold Ricerca.voce_finestra, Ricerca.valuta_finestra in Hw.
    destruct (Finestre.somma_file_tif_finestra amb lista (fst w) (snd w))
      as [[out|]|e0]; cbv beta iota delta [mbind esito_bind] in Hw;
      [|discriminate Hw|discriminate Hw].
    destruct (Finestre.ritaglia_raster_sommato_con_shapefile amb _ shp) as [arr|];
      [|discriminate Hw].
    destruct (Finestre.calcola_statistiche_su_array_ritagliato amb (Some arr) cfg)
      as [d|] eqn:Ed; [|discriminate Hw].
    destruct (Finestre.vero (Some d)); [|discriminate Hw].
    injection Hw as <-. cbn [Finestre.l_stats].
    destruct (chiave_media_calcolata amb cfg arr d Hm Ed) as [M1 M2].
    eexists. split; [exact M1|exact M2]. }
  split; [exact K1|]. split; [exact K2|].
  split; [intros w _; apply media_della_voce; exact Hm|].
  split; [intros e He; destruct (Media e He) as (m & M & _); rewrite M; eauto|].
  split; [exact K4|].
  intros Hne Hnan.
  destruct (selezione_del_log log K3 Hne) as (sel & Ps & Is & Le & Eq).
  { intros e He. destruct (Media e He) as (m & M1 & M2). rewrite M2.
    apply (Hnan e m He M1). }
  destruct (Media sel Is) as (m_sel & S1 & S2).
  exists sel, m_sel. split; [exact Is|].
  split; [rewrite (K5 Hne), Ps; reflexivity|]. split; [exact S1|].
  intros e m He M. destruct (Media e He) as (m' & M1 & M2).
  rewrite M in M1. injection M1 as <-.
  specialize (Le e He). specialize (Eq e He). rewrite M2, S2 in Le, Eq.
  split; [exact Le|exact Eq].
Qed.

Lemma finestra_con_media_massima_witness :
  exists stats log,
    Finestre.finestre_mobili_tracciate Esempi.amb 5 Esempi.tre_tile 2 Esempi.t0
      "zona.shp" Esempi.tutte
    = Some ([(Esempi.alle 10, Esempi.alle 12); (Esempi.alle 11, Esempi.alle 13)],
            Ok (Some stats, log)) /\
    map (fun e => (Finestre.l_inizio e, Finestre.l_stats e !! "media")) log
      = [(Esempi.alle 10, Some 21%float); (Esempi.alle 11, Some 23%float)] /\
    exists sel,
      In sel log /\ stats = Finestre.l_stats sel /\
      Finestre.l_inizio sel = Esempi.alle 11.
Proof.
  destruct (finestra_con_media_massima Esempi.amb 5 Esempi.tre_tile 2 Esempi.t0
              "zona.shp" Esempi.tutte) as (finestre & r & E & K).
  - reflexivity.
  - vm_compute. lia.
  - assert (exists stats log,
      Finestre.finestre_mobili_tracciate Esempi.amb 5 Esempi.tre_tile 2 Esempi.t0
        "zona.shp" Esempi.tutte
      = Some ([(Esempi.alle 10, Esempi.alle 12); (Esempi.alle 11, Esempi.alle 13)],
              Ok (stats, log)) /\
      map (fun e => (Finestre.l_inizio e, Finestre.l_stats e !! "media")) log
        = [(Esempi.alle 10, Some 21%float); (Esempi.alle 11, Some 23%float)])
      as (stats & log & E' & L)
      by (eexists _, _; split; vm_compute; reflexivity).
    rewrite E' in E. injection E as <- <-.
    destruct (K stats log eq_refl) as (_ & _ & _ & _ & _ & Sel).
    destruct Sel as (sel & m_sel & Is & Es & Em & Cmp).
    + intros N. rewrite N in L. discriminate L.
    + intros e m He Hm.
      assert (In (Finestre.l_inizio e, Finestre.l_stats e !! "media")
                 (map (fun e => (Finestre.l_inizio e, Finestre.l_stats e !! "media")) log))
        as I by (apply in_map_iff; exists e; split; [reflexivity|exact He]).
      rewrite L, Hm in I.
      destruct I as [I|[I|[]]]; injection I as _ <-; reflexivity.
    + exists (Finestre.l_stats sel), log. rewrite Es in E'.
      split; [exact E'|]. split; [exact L|].
      exists sel. split; [exact Is|]. split; [reflexivity|].
      assert (In (Finestre.l_inizio sel, Finestre.l_stats sel !! "media")
                 (map (fun e => (Finestre.l_inizio e, Finestre.l_stats e !! "media")) log))
        as I by (apply in_map_iff; exists sel; split; [reflexivity|exact Is]).
      rewrite L, Em in I.
      destruct I as [I|[I|[]]]; injection I as I1 I2; [|symmetry; exact I1].
      exfalso. subst m_sel.
      assert (exists e, In e log /\ Finestre.l_stats e !! "media" = Some 23%float)
        as (e & He & Me).
      { assert (In (Esempi.alle 11, Some 23%float)
                   (map (fun e => (Finestre.l_inizio e, Finestre.l_stats e !! "media")) log))
          as J by (rewrite L; right; left; reflexivity).
        apply in_map_iff in J. destruct J as (e & Je & He).
        exists e. split; [exact He|]. injection Je as _ Je. exact Je. }
      destruct (Cmp e 23%float He Me) as [C _]. vm_compute in C. discriminate C.
Defined.

(** C2, the claim as stated fails: with the mean disabled (only the
    maximum is asked for) the key of the selection is 0 for every window.
    Over one-hour windows on tiles of 10, 11 and 12 mm the window of 10:00
    is selected, and its mean, 10, is below the mean, 12, of the window of
    12:00. *)
Lemma finestra_con_media_massima_controesempio :
  match Finestre.finestre_mobili_tracciate Esempi.amb 5 Esempi.tre_tile 1
          Esempi.t0 "zona.shp" {[ "max" := true ]} with
  | Some (finestre, Ok (Some stats, log)) =>
      finestre = [(Esempi.alle 10, Esempi.alle 11); (Esempi.alle 11, Esempi.alle 12);
                  (Esempi.alle 12, Esempi.alle 13)] /\
      map (fun e => (Finestre.l_inizio e, Finestre.l_stats e !! "max")) log
        = [(Esempi.alle 10, Some 10%float); (Esempi.alle 11, Some 11%float);
           (Esempi.alle 12, Some 12%float)] /\
      stats !! "max" = Some 10%float /\
      Ricerca.media_finestra Esempi.amb Esempi.tre_tile "zona.shp"
        (Esempi.alle 10, Esempi.alle 11) = Some 10%float /\
      Ricerca.media_finestra Esempi.amb Esempi.tre_tile "zona.shp"
        (Esempi.alle 12, Esempi.alle 13) = Some 12%float /\
      PrimFloat.ltb 10 12 = true
  | _ => False
  end.
Proof. vm_compute. repeat split; reflexivity. Qed.

Lemma py_max_da_In {A} (key : A -> float) : forall (resto : list A) (migliore : A),
  In (Finestre.py_max_da key migliore resto) (migliore :: resto).
Proof.
  induction resto as [|x resto IH]; intros migliore; simpl; [auto|].
  destruct (IH (if PrimFloat.ltb (key migliore) (key x) then x else migliore))
    as [E|I]; [|auto].
  rewrite <- E. destruct (PrimFloat.ltb (key migliore) (key x)); auto.
Qed.

Lemma py_max_In {A} (key : A -> float) (l : list A) (m : A) :
  Finestre.py_max key l = Some m -> In m l.
Proof.
  destruct l as [|x l]; simpl; [discriminate|].
  intros H. injection H as <-. apply py_max_da_In.
Qed.

(** X9.  With enough fuel the search returns, and its log agrees with
    what it did: every logged window is one of the windows the summation
    was called on, is as long as the duration, lists exactly the tiles of
    the list that fall in it (at least one) and carries a dictionary that
    is not empty; the entries come in increasing order of their start; and
    the statistics returned are those of a logged window when the log is
    not empty, and are null or empty when it is. *)
Theorem voci_del_log_regolari :
  forall (amb : ambiente) (fuel : nat) (lista : list (percorso * Z))
         (durata_ore data_corrente : Z) (shp : string) (cfg : gmap string bool),
    (Finestre.carburante lista durata_ore <= fuel)%nat ->
    exists finestre r,
      Finestre.finestre_mobili_tracciate amb fuel lista durata_ore data_corrente
        shp cfg = Some (finestre, r) /\
      forall stats log,
        r = Ok (stats, log) ->
        (forall e, In e log ->
           In (Finestre.l_inizio e, Finestre.l_fine e) finestre /\
           Finestre.l_fine e = Finestre.l_inizio e + durata_ore * 3600 /\
           Finestre.l_file e
             = map (fun x => nome (fst x))
                   (Finestre.tile_finestra lista (Finestre.l_inizio e)
                                                 (Finestre.l_fine e)) /\
           Finestre.l_file e <> [] /\
           Finestre.l_stats e <> ∅) /\
        StronglySorted (fun a b => Finestre.l_inizio a < Finestre.l_inizio b) log /\
        (log = [] -> Finestre.vero stats = false) /\
        (log <> [] -> exists sel, In sel log /\ stats = Some (Finestre.l_stats sel)).
Proof.
  intros amb fuel lista durata_ore data_corrente shp cfg Hf.
  destruct (ricerca_esito amb fuel lista durata_ore data_corrente shp cfg Hf)
    as (finestre & r & R & K).
  exists finestre, r. split; [exact R|].
  intros stats log H. destruct (K stats log H) as (Kv & Ks & Kn & Kp).
  split; [|split; [exact Ks|split; [exact Kn|]]].
  - intros e He. rewrite List.Forall_forall in Kv.
    destruct (Kv e He) as [(V1 & V2 & V3 & V4 & _) I].
    split; [exact I|]. split; [exact V1|].
    split; [rewrite V2; unfold Finestre.file_finestra; rewrite map_map; reflexivity|].
    split; [exact V3|].
    intros E. rewrite E in V4. unfold Finestre.vero in V4.
    rewrite bool_decide_eq_true_2 in V4 by reflexivity. discriminate.
  - intros N. specialize (Kp N).
    destruct (Finestre.py_max _ _) as [m|] eqn:Em.
    + apply py_max_In in Em. apply in_map_iff in Em.
      destruct Em as (sel & <- & Hs). exists sel. split; [exact Hs|exact Kp].
    + destruct log; [contradiction|discriminate Em].
Qed.

Lemma voci_del_log_regolari_witness :
  exists finestre r,
    Finestre.finestre_mobili_tracciate Esempi.amb 5 Esempi.tre_tile 2 Esempi.t0
      "zona.shp" Esempi.tutte = Some (finestre, r).
Proof.
  destruct (voci_del_log_regolari Esempi.amb 5 Esempi.tre_tile 2 Esempi.t0
              "zona.shp" Esempi.tutte) as (finestre & r & R & _).
  - vm_compute. lia.
  - exists finestre, r. exact R.
Defined.

(** ** The ranking of the log *)

Section Classifica.
Import Registro.
Context {A : Type} (key : A -> float).

Lemma inserisci_decrescente_perm (x : A) (l : list A) :
  Permutation (inserisci_decrescente key x l) (x :: l).
Proof.
  induction l as [|y l IH]; simpl; [reflexivity|].
  destruct (PrimFloat.ltb (key x) (key y)); [|reflexivity].
  rewrite IH. apply perm_swap.
Qed.

Lemma ordinate_perm (l : list A) :
  Permutation (fold_right (inserisci_decrescente key) [] l) l.
Proof.
  induction l as [|x l IH]; simpl; [reflexivity|].
  rewrite inserisci_decrescente_perm, IH. reflexivity.
Qed.

Lemma inserisci_decrescente_ordinata (x : A) (l : list A) :
  PrimFloat.is_nan (key x) = false ->
  (forall y, In y l -> PrimFloat.is_nan (key y) = false) ->
  StronglySorted (fun a b => PrimFloat.leb (key b) (key a) = true) l ->
  StronglySorted (fun a b => PrimFloat.leb (key b) (key a) = true)
                 (inserisci_decrescente key x l).
Proof.
  intros Nx. induction l as [|y l IH]; simpl; intros Nl S.
  - constructor; constructor.
  - apply StronglySorted_inv in S. destruct S as [S F].
    destruct (PrimFloat.ltb (key x) (key y)) eqn:E.
    + constructor; [apply IH; [intros z Hz; apply Nl; right; exact Hz|exact S]|].
      rewrite List.Forall_forall. intros z Hz.
      apply (Permutation_in _ (inserisci_decrescente_perm x l)) in Hz.
      destruct Hz as [<-|Hz]; [apply Confronti.lt_le; exact E|].
      rewrite List.Forall_forall in F. apply F. exact Hz.
    + assert (PrimFloat.leb (key y) (key x) = true) as L
        by (apply Confronti.non_lt_le; [exact Nx|apply Nl; left; reflexivity|exact E]).
      constructor; [constructor; assumption|].
      constructor; [exact L|].
      eapply List.Forall_impl; [|exact F]. simpl. intros z Hz.
      eapply Confronti.le_trans; eassumption.
Qed.

Lemma ordinate_decrescenti (l : list A) :
  (forall y, In y l -> PrimFloat.is_nan (key y) = false) ->
  StronglySorted (fun a b => PrimFloat.leb (key b) (key a) = true)
                 (fold_right (inserisci_decrescente key) [] l).
Proof.
  induction l as [|x l IH]; simpl; intros N; [constructor|].
  apply inserisci_decrescente_ordinata.
  - apply N. left. reflexivity.
  - intros y Hy. apply N. right.
    apply (Permutation_in _ (ordinate_perm l)). exact Hy.
  - apply IH. intros y Hy. apply N. right. exact Hy.
Qed.

(** The first of the ranking is the first element of the list whose key
    is not exceeded. *)
Lemma ordinate_primo : forall l : list A,
  (forall y, In y l -> PrimFloat.is_nan (key y) = false) ->
  match fold_right (inserisci_decrescente key) [] l with
  | [] => l = []
  | m :: _ =>
      exists pre post,
        l = pre ++ m :: post /\
        (forall y, In y pre -> PrimFloat.ltb (key y) (key m) = true) /\
        (forall y, In y post -> PrimFloat.leb (key y) (key m) = true)
  end.
Proof.
  induction l as [|x l IH]; intros N; [reflexivity|].
  cbn [fold_right].
  assert (Nl : forall y, In y l -> PrimFloat.is_nan (key y) = false)
    by (intros y Hy; apply N; right; exact Hy).
  specialize (IH Nl).
  destruct (fold_right (inserisci_decrescente key) [] l) as [|m s] eqn:E.
  - subst l. simpl. exists [], []. repeat split; intros y [].
  - destruct IH as (pre & post & El & Hpre & Hpost). simpl.
    destruct (PrimFloat.ltb (key x) (key m)) eqn:L.
    + exists (x :: pre), post. split; [rewrite El; reflexivity|].
      split; [|exact Hpost]. intros y [<-|Hy]; [exact L|apply Hpre; exact Hy].
    + assert (Nm : PrimFloat.is_nan (key m) = false).
      { apply Nl. rewrite El. apply in_or_app. right. left. reflexivity. }
      assert (Lm : PrimFloat.leb (key m) (key x) = true)
        by (apply Confronti.non_lt_le; [apply N; left; reflexivity|exact Nm|exact L]).
      exists [], l. split; [reflexivity|]. split; [intros y []|].
      intros y Hy. rewrite El in Hy. apply in_app_or in Hy.
      destruct Hy as [Hy|[<-|Hy]].
      * eapply Confronti.le_trans; [apply Confronti.lt_le, Hpre; exact Hy|exact Lm].
      * exact Lm.
      * eapply Confronti.le_trans; [apply Hpost; exact Hy|exact Lm].
Qed.

Lemma lt_le_assurdo (x y : float) :
  PrimFloat.ltb x y = true -> PrimFloat.leb y x = true -> False.
Proof.
  intros L1 L2. pose proof (Confronti.le_lt_trans _ _ _ L2 L1) as L.
  apply Confronti.ltb_rango in L. destruct L as (a & b & Ha & Hb & L).
  rewrite Ha in Hb. injection Hb as <-. exact (Confronti.lt3_irrefl a L).
Qed.

(** The first element whose key is not exceeded is unique. *)
Lemma primo_massimo_unico : forall (pre1 pre2 post1 post2 : list A) (m1 m2 : A),
  pre1 ++ m1 :: post1 = pre2 ++ m2 :: post2 ->
  (forall y, In y pre1 -> PrimFloat.ltb (key y) (key m1) = true) ->
  (forall y, In y post1 -> PrimFloat.leb (key y) (key m1) = true) ->
  (forall y, In y pre2 -> PrimFloat.ltb (key y) (key m2) = true) ->
  (forall y, In y post2 -> PrimFloat.leb (key y) (key m2) = true) ->
  m1 = m2.
Proof.
  induction pre1 as [|z pre1 IH]; intros [|z2 pre2] post1 post2 m1 m2 E H1 K1 H2 K2;
    simpl in E.
  - injection E as E _. exact E.
  - injection E as E1 E2. subst z2. exfalso.
    apply (lt_le_assurdo (key m1) (key m2)).
    + apply H2. left. reflexivity.
    + apply K1. rewrite E2. apply in_or_app. right. left. reflexivity.
  - injection E as E1 E2. subst z. exfalso.
    apply (lt_le_assurdo (key m2) (key m1)).
    + apply H1. left. reflexivity.
    + apply K2. rewrite <- E2. apply in_or_app. right. left. reflexivity.
  - injection E as E1 E2. subst z2.
    apply (IH pre2 post1 post2 m1 m2 E2).
    + intros y Hy. apply H1. right. exact Hy.
    + exact K1.
    + intros y Hy. apply H2. right. exact Hy.
    + exact K2.
Qed.

(** The first of the ranking is the element [max] selects. *)
Lemma ordinate_testa_py_max (l : list A) :
  (forall y, In y l -> PrimFloat.is_nan (key y) = false) ->
  head (fold_right (inserisci_decrescente key) [] l) = Finestre.py_max key l.
Proof.
  intros N. pose proof (ordinate_primo l N) as P.
  destruct l as [|x l].
  - reflexivity.
  - destruct (fold_right (inserisci_decrescente key) [] (x :: l)) as [|m s].
    + discriminate P.
    + destruct P as (pre & post & E & Hpre & Hpost).
      destruct (py_max_da_primo key l x N) as (pre' & post' & E' & Hpre' & Hpost').
      simpl. f_equal.
      rewrite E in E'.
      exact (primo_massimo_unico pre pre' post post' _ _ E' Hpre Hpost Hpre' Hpost').
Qed.

End Classifica.

Lemma py_max_map {A B} (f : A -> B) (key : B -> float) (l : list A) :
  Finestre.py_max key (map f l) = f <$> Finestre.py_max (fun x => key (f x)) l.
Proof.
  destruct l as [|x l]; [reflexivity|]. simpl. f_equal.
  revert x. induction l as [|y l IH]; intros x; simpl; [reflexivity|].
  rewrite <- IH. destruct (PrimFloat.ltb (key (f x)) (key (f y))); reflexivity.
Qed.

(** X10.  The ranking [log_finestre_analizzate] writes for a list of
    windows whose mean keys are numbers holds the same windows, in
    non-increasing order of the key, and its first entry (the one flagged
    as the maximum) is the first window of the list among those with the
    greatest key: the window [max] selects on the same list. *)
Theorem classifica_del_log :
  forall finestre_dati : list Finestre.voce_log,
    (forall e, In e finestre_dati ->
       F.is_nan (Finestre.chiave_media (Finestre.l_stats e)) = false) ->
    Permutation (Registro.finestre_ordinate finestre_dati) finestre_dati /\
    StronglySorted
      (fun a b =>
         PrimFloat.leb (Finestre.chiave_media (Finestre.l_stats b))
                       (Finestre.chiave_media (Finestre.l_stats a)) = true)
      (Registro.finestre_ordinate finestre_dati) /\
    Registro.max_finestra finestre_dati
      = Finestre.py_max (fun x => Finestre.chiave_media (Finestre.l_stats x))
                        finestre_dati /\
    (finestre_dati <> [] ->
     exists m pre post,
       Registro.max_finestra finestre_dati = Some m /\
       finestre_dati = pre ++ m :: post /\
       (forall e, In e pre ->
          PrimFloat.ltb (Finestre.chiave_media (Finestre.l_stats e))
                        (Finestre.chiave_media (Finestre.l_stats m)) = true) /\
       (forall e, In e post ->
          PrimFloat.leb (Finestre.chiave_media (Finestre.l_stats e))
                        (Finestre.chiave_media (Finestre.l_stats m)) = true)).
Proof.
  intros l N. unfold Registro.max_finestra, Registro.finestre_ordinate, F.is_nan in *.
  split; [apply ordinate_perm|]. split; [apply ordinate_decrescenti; exact N|].
  split; [apply ordinate_testa_py_max; exact N|].
  intros Hne. pose proof (ordinate_primo _ l N) as P. cbv beta in P.
  destruct (fold_right _ [] l) as [|m s].
  - contradiction.
  - destruct P as (pre & post & E & Hpre & Hpost).
    exists m, pre, post. split; [reflexivity|]. auto.
Qed.

Lemma classifica_del_log_witness :
  Registro.max_finestra
    [{| Finestre.l_inizio := 3600; Finestre.l_fine := 7200;
        Finestre.l_stats := {[ "media" := 1%float ]};
        Finestre.l_file := ["b.tif"] |};
     {| Finestre.l_inizio := 0; Finestre.l_fine := 3600;
        Finestre.l_stats := {[ "media" := 2%float ]};
        Finestre.l_file := ["a.tif"] |}]
  = Some {| Finestre.l_inizio := 0; Finestre.l_fine := 3600;
            Finestre.l_stats := {[ "media" := 2%float ]};
            Finestre.l_file := ["a.tif"] |}.
Proof.
  match goal with |- Registro.max_finestra ?l = _ =>
    destruct (classifica_del_log l) as (_ & _ & E & _)
  end.
  - intros e [<-|[<-|[]]]; reflexivity.
  - rewrite E. reflexivity.
Defined.

(** X11.  With enough fuel, when the search returns statistics with a
    log that is not empty and whose mean keys are numbers, the window the
    log ranking flags as the maximum is the one whose statistics the
    search returned: the log and the result sheet name the same window. *)
Theorem finestra_massima_del_log :
  forall (amb : ambiente) (fuel : nat) (lista : list (percorso * Z))
         (durata_ore data_corrente : Z) (shp : string) (cfg : gmap string bool),
    (Finestre.carburante lista durata_ore <= fuel)%nat ->
    exists r,
      Finestre.finestre_mobili_con_somma_e_ritaglio amb fuel lista durata_ore
        data_corrente shp cfg = Some r /\
      forall stats log,
        Finestre.risultato_durata r = (stats, log) ->
        log <> [] ->
        (forall e, In e log ->
           F.is_nan (Finestre.chiave_media (Finestre.l_stats e)) = false) ->
        exists sel,
          Registro.max_finestra log = Some sel /\
          stats = Some (Finestre.l_stats sel).
Proof.
  intros amb fuel lista durata_ore data_corrente shp cfg Hf.
  destruct (ricerca_esito amb fuel lista durata_ore data_corrente shp cfg Hf)
    as (finestre & r & R & K).
  exists r. unfold Finestre.finestre_mobili_con_somma_e_ritaglio. rewrite R.
  split; [reflexivity|].
  intros stats log H Hne N.
  destruct r as [[stats' log']|e]; simpl in H; injection H as <- <-;
    [|contradiction].
  destruct (K stats' log' eq_refl) as (_ & _ & _ & Kp).
  specialize (Kp Hne). rewrite py_max_map in Kp. cbn [snd] in Kp.
  unfold Registro.max_finestra, Registro.finestre_ordinate.
  rewrite ordinate_testa_py_max by exact N.
  destruct (Finestre.py_max _ log') as [sel|] eqn:Em.
  - exists sel. split; [reflexivity|exact Kp].
  - destruct log'; [contradiction|discriminate Em].
Qed.

Lemma finestra_massima_del_log_witness :
  exists r,
    Finestre.finestre_mobili_con_somma_e_ritaglio Esempi.amb 5 Esempi.tre_tile 2
      Esempi.t0 "zona.shp" Esempi.tutte = Some r.
Proof.
  destruct (finestra_massima_del_log Esempi.amb 5 Esempi.tre_tile 2 Esempi.t0
              "zona.shp" Esempi.tutte) as (r & R & _).
  - vm_compute. lia.
  - exists r. exact R.
Defined.

(** ** The worker *)

Section Dizionari.
Import Lavoro.
Context {V : Type}.

Lemma dict_set_chiavi (d : dict V) (k : Z) (v : V) (k' : Z) :
  In k' (map fst (dict_set d k v)) <-> k' = k \/ In k' (map fst d).
Proof.
  induction d as [|[k0 v0] d IH]; simpl.
  - intuition.
  - destruct (Z.eqb_spec k0 k) as [->|N]; simpl; [intuition|].
    rewrite IH. intuition.
Qed.

Lemma dict_set_NoDup (d : dict V) (k : Z) (v : V) :
  List.NoDup (map fst d) -> List.NoDup (map fst (dict_set d k v)).
Proof.
  induction d as [|[k0 v0] d IH]; simpl; intros N.
  - constructor; [intros []|constructor].
  - apply List.NoDup_cons_iff in N. destruct N as [N0 N].
    destruct (Z.eqb_spec k0 k) as [->|Ne]; simpl.
    + constructor; assumption.
    + constructor; [|apply IH; exact N].
      rewrite dict_set_chiavi. intros [E|I]; [congruence|contradiction].
Qed.

Lemma dict_get_set (d : dict V) (k : Z) (v : V) (k' : Z) :
  dict_get (dict_set d k v) k' = if k =? k' then Some v else dict_get d k'.
Proof.
  unfold dict_get. induction d as [|[k0 v0] d IH]; simpl.
  - destruct (k =? k'); reflexivity.
  - destruct (Z.eqb_spec k0 k) as [->|Ne]; simpl.
    + destruct (k =? k'); reflexivity.
    + destruct (Z.eqb_spec k0 k') as [->|Ne']; simpl.
      * destruct (Z.eqb_spec k k') as [->|_]; [contradiction|reflexivity].
      * exact IH.
Qed.

End Dizionari.

Lemma tutte_nulle_campi (durate : list Z) :
  List.NoDup (map fst (Lavoro.tutte_nulle durate)) /\
  (forall durata, In durata (map fst (Lavoro.tutte_nulle durate)) <-> In durata durate) /\
  (forall durata, In durata durate ->
     Lavoro.dict_get (Lavoro.tutte_nulle durate) durata = Some None).
Proof.
  unfold Lavoro.tutte_nulle.
  assert (G : forall (l : list Z) (d : Lavoro.dict (option (gmap string float))),
    List.NoDup (map fst d) ->
    (forall k, In k (map fst d) -> Lavoro.dict_get d k = Some None) ->
    let d' := fold_left (fun d durata => Lavoro.dict_set d durata None) l d in
    List.NoDup (map fst d') /\
    (forall k, In k (map fst d') <-> In k l \/ In k (map fst d)) /\
    (forall k, In k (map fst d') -> Lavoro.dict_get d' k = Some None)).
  { induction l as [|x l IH]; intros d N H; simpl.
    - split; [exact N|]. split; [intuition|exact H].
    - destruct (IH (Lavoro.dict_set d x None)) as (I1 & I2 & I3).
      + apply dict_set_NoDup. exact N.
      + intros k Hk. rewrite dict_get_set. destruct (Z.eqb_spec x k); [reflexivity|].
        apply H. apply dict_set_chiavi in Hk. destruct Hk as [E|Hk]; [congruence|exact Hk].
      + split; [exact I1|]. split; [|exact I3].
        intros k. rewrite I2, dict_set_chiavi. intuition. }
  destruct (G durate [] (List.NoDup_nil _)) as (G1 & G2 & G3); [intros k []|].
  split; [exact G1|]. split.
  - intros k. rewrite G2. simpl. intuition.
  - intros k Hk. apply G3. apply G2. left. exact Hk.
Qed.

Section Durate.
Import Lavoro.
Variable amb : ambiente.
Variable fct : list (percorso * Z).
Variable data_corrente : Z.
Variable zona_path : string.
Variable cfg : gmap string bool.

(** The search of the worker for one duration returns. *)
Lemma ricerca_del_lavoro (durata : Z) :
  exists r,
    Finestre.finestre_mobili_con_somma_e_ritaglio amb
      (Finestre.carburante fct durata) fct durata data_corrente zona_path cfg
    = Some r.
Proof.
  destruct (ricerca_esito amb (Finestre.carburante fct durata) fct durata
              data_corrente zona_path cfg (le_n _)) as (finestre & r & R & _).
  exists r. unfold Finestre.finestre_mobili_con_somma_e_ritaglio. rewrite R.
  reflexivity.
Qed.

Lemma per_durata_tutte : forall (durate : list Z)
    (ris : dict (option (gmap string float))) (log : dict (list Finestre.voce_log)),
  List.NoDup (map fst ris) ->
  exists ris' log',
    fold_left (per_durata amb fct data_corrente zona_path cfg) durate
              (Some (ris, log)) = Some (ris', log') /\
    List.NoDup (map fst ris') /\
    (forall k, In k (map fst ris') <-> In k durate \/ In k (map fst ris)) /\
    (forall k, In k durate ->
       exists r,
         Finestre.finestre_mobili_con_somma_e_ritaglio amb
           (Finestre.carburante fct k) fct k data_corrente zona_path cfg = Some r /\
         dict_get ris' k = Some (fst (Finestre.risultato_durata r)) /\
         dict_get log' k = Some (snd (Finestre.risultato_durata r))) /\
    (forall k, ~ In k durate ->
       dict_get ris' k = dict_get ris k /\ dict_get log' k = dict_get log k).
Proof.
  induction durate as [|d durate IH]; intros ris log N.
  - exists ris, log. simpl. split; [reflexivity|]. split; [exact N|].
    split; [intuition|]. split; [intros k []|auto].
  - cbn [fold_left]. unfold per_durata at 2.
    destruct (ricerca_del_lavoro d) as [r R].
    cbn [mbind option_bind]. rewrite R. cbn [mbind option_bind].
    destruct (Finestre.risultato_durata r) as [risultato finestre_log] eqn:Er.
    destruct (IH (dict_set ris d risultato) (dict_set log d finestre_log))
      as (ris' & log' & E & I1 & I2 & I3 & I4).
    { apply dict_set_NoDup. exact N. }
    exists ris', log'. split; [exact E|]. split; [exact I1|]. split; [|split].
    + intros k. rewrite I2, dict_set_chiavi. simpl. intuition.
    + intros k Hk. destruct (in_dec Z.eq_dec k durate) as [I|NI].
      * apply I3. exact I.
      * destruct Hk as [<-|Hk]; [|contradiction].
        exists r. split; [exact R|].
        destruct (I4 d NI) as [G1 G2]. rewrite G1, G2, !dict_get_set, Z.eqb_refl, Er.
        split; reflexivity.
    + intros k Hk. destruct (I4 k) as [G1 G2].
      { intros I. apply Hk. right. exact I. }
      rewrite G1, G2, !dict_get_set.
      destruct (Z.eqb_spec d k) as [->|Ne]; [exfalso; apply Hk; left; reflexivity|].
      split; reflexivity.
Qed.

End Durate.

(** X12.  A task always returns: for the zone name of its file (the
    name up to the first dot) and its day, a dictionary whose keys are the
    requested durations, each once, whatever fails inside. *)
Theorem processa_restituisce_ogni_durata :
  forall (amb : ambiente) (zona_path : string) (data_corrente : Z)
         (durate : list Z) (cfg : gmap string bool)
         (integrity_report : option Integrita.FileIntegrityReport),
    exists t,
      Lavoro.processa_zona_giorno amb zona_path data_corrente durate cfg
        integrity_report = Some t /\
      Lavoro.z_nome t = Lavoro.prima_del_punto zona_path /\
      Lavoro.z_data t = data_corrente /\
      List.NoDup (map fst (Lavoro.z_risultati t)) /\
      (forall durata,
         In durata (map fst (Lavoro.z_risultati t)) <-> In durata durate) /\
      (forall durata,
         In durata durate -> exists v, Lavoro.dict_get (Lavoro.z_risultati t) durata = Some v).
Proof.
  intros amb zona_path data_corrente durate cfg report.
  destruct (tutte_nulle_campi durate) as (T1 & T2 & T3).
  assert (Nulle : exists t,
    Some {| Lavoro.z_nome := Lavoro.prima_del_punto zona_path;
            Lavoro.z_data := data_corrente;
            Lavoro.z_risultati := Lavoro.tutte_nulle durate;
            Lavoro.z_log := [] |} = Some t /\
    Lavoro.z_nome t = Lavoro.prima_del_punto zona_path /\
    Lavoro.z_data t = data_corrente /\
    List.NoDup (map fst (Lavoro.z_risultati t)) /\
    (forall durata,
       In durata (map fst (Lavoro.z_risultati t)) <-> In durata durate) /\
    (forall durata,
       In durata durate ->
       exists v, Lavoro.dict_get (Lavoro.z_risultati t) durata = Some v)).
  { eexists. split; [reflexivity|]. cbn. repeat split; try assumption; try apply T2.
    intros durata H. exists None. apply T3. exact H. }
  unfold Lavoro.processa_zona_giorno. cbv zeta.
  destruct (Elenco.ottieni_lista_file_giorno amb data_corrente report)
    as [[|p raster_giorno]|e]; try exact Nulle.
  destruct (Lavoro.con_timestamp (p :: raster_giorno)) as [[|x fct]|e];
    try exact Nulle.
  destruct (per_durata_tutte amb (x :: fct) data_corrente zona_path cfg durate [] [])
    as (ris & log & E & I1 & I2 & I3 & _); [constructor|].
  match goal with |- context [?X ≫= _] =>
    replace X with (Some (ris, log)) by (symmetry; exact E)
  end.
  cbn [mbind option_bind].
  eexists. split; [reflexivity|]. cbn. repeat split; try assumption.
  - intros H. apply I2 in H. destruct H as [H|[]]. exact H.
  - intros H. apply I2. left. exact H.
  - intros durata H. destruct (I3 durata H) as (r & _ & G & _). eauto.
Qed.

(** X13.  In a task the durations do not affect one another: when the
    day has tiles with a timestamp, the entry of every requested duration,
    in the results and in the log, is the outcome of the search for that
    duration alone (null statistics and an empty log when that search
    raised), whatever happens with the other durations.  In every other
    case (an exception while listing the tiles or reading a timestamp, no
    tile, no timestamp) every duration gets a null result and the log is
    empty. *)
Theorem durate_indipendenti :
  forall (amb : ambiente) (zona_path : string) (data_corrente : Z)
         (durate : list Z) (cfg : gmap string bool)
         (integrity_report : option Integrita.FileIntegrityReport),
    exists t,
      Lavoro.processa_zona_giorno amb zona_path data_corrente durate cfg
        integrity_report = Some t /\
      let nulle :=
        (forall durata, In durata durate ->
           Lavoro.dict_get (Lavoro.z_risultati t) durata = Some None) /\
        Lavoro.z_log t = [] in
      match Elenco.ottieni_lista_file_giorno amb data_corrente integrity_report with
      | Ok (p :: raster_giorno) =>
          match Lavoro.con_timestamp (p :: raster_giorno) with
          | Ok (x :: fct) =>
              forall durata, In durata durate ->
                exists r,
                  Finestre.finestre_mobili_con_somma_e_ritaglio amb
                    (Finestre.carburante (x :: fct) durata) (x :: fct) durata
                    data_corrente zona_path cfg = Some r /\
                  Lavoro.dict_get (Lavoro.z_risultati t) durata
                    = Some (fst (Finestre.risultato_durata r)) /\
                  Lavoro.dict_get (Lavoro.z_log t) durata
                    = Some (snd (Finestre.risultato_durata r))
          | _ => nulle
          end
      | _ => nulle
      end.
Proof.
  intros amb zona_path data_corrente durate cfg report.
  destruct (tutte_nulle_campi durate) as (_ & _ & T3).
  unfold Lavoro.processa_zona_giorno. cbv zeta.
  destruct (Elenco.ottieni_lista_file_giorno amb data_corrente report)
    as [[|p raster_giorno]|e];
    try (eexists; split; [reflexivity|split; [exact T3|reflexivity]]).
  destruct (Lavoro.con_timestamp (p :: raster_giorno)) as [[|x fct]|e];
    try (eexists; split; [reflexivity|split; [exact T3|reflexivity]]).
  destruct (per_durata_tutte amb (x :: fct) data_corrente zona_path cfg durate [] [])
    as (ris & log & E & _ & _ & I3 & _); [constructor|].
  match goal with |- context [?X ≫= _] =>
    replace X with (Some (ris, log)) by (symmetry; exact E)
  end.
  cbn [mbind option_bind]. eexists. split; [reflexivity|exact I3].
Qed.

Lemma tile_oraria_marca (f : string) :
  Elenco.tile_oraria f = true ->
  Nomi.estrai_timestamp f = Ok (Some (Elenco.marca f)) /\
  Tempo.minute (Elenco.marca f) = 0 /\ Tempo.second (Elenco.marca f) = 0.
Proof.
  unfold Elenco.tile_oraria, Elenco.marca. intros H.
  apply andb_true_iff in H. destruct H as [_ H].
  destruct (Nomi.estrai_timestamp f) as [[t|]|e]; try discriminate.
  apply andb_true_iff in H. destruct H as [H1 H2].
  apply Z.eqb_eq in H1, H2. auto.
Qed.

(** X14.  With the report of a verification and a day of the verified
    range, the pairs a task hands to the search are the tiles of the
    day's list, each with the timestamp of its name, which is at the top
    of an hour; reading a timestamp does not raise, no tile is dropped,
    and every tile of the list opens and reads: the search of such a task
    cannot lose a window to an unreadable first tile. *)
Theorem tile_del_lavoro_leggibili :
  forall (amb : ambiente) (data_inizio data_fine d : Z)
         (report : Integrita.FileIntegrityReport),
    Integrita.verifica_integrita_archivio amb data_inizio data_fine = Ok report ->
    In d (Tempo.date_range data_inizio data_fine) ->
    exists raster_giorno fct,
      Elenco.ottieni_lista_file_giorno amb d (Some report) = Ok raster_giorno /\
      Lavoro.con_timestamp raster_giorno = Ok fct /\
      map fst fct = raster_giorno /\
      Finestre.tutti_leggibili amb fct /\
      forall p t, In (p, t) fct ->
        Nomi.estrai_timestamp (nome p) = Ok (Some t) /\
        Tempo.minute t = 0 /\ Tempo.second t = 0 /\
        cartella p = Tempo.date d.
Proof.
  intros amb di df d report H Hd.
  unfold Integrita.verifica_integrita_archivio in H.
  pose proof (verifica_giorni_attesi amb (Tempo.date_range di df)
                Integrita.report_vuoto) as C.
  rewrite H in C. destruct C as (_ & Cv & _). simpl in Cv.
  set (attese := match os_listdir amb (Tempo.date d) with
                 | Some nomi => Elenco.tile_leggibili amb d nomi
                 | None => []
                 end).
  assert (El : Elenco.ottieni_lista_file_giorno amb d (Some report)
               = Ok (map (Elenco.nel_giorno d) (Ordinamento.sorted String.leb attese))).
  { unfold Elenco.ottieni_lista_file_giorno. rewrite Cv.
    rewrite (validi_della_data amb d (Tempo.date_range di df) Hd
               (date_range_giorni_NoDup di df)).
    - subst attese. unfold Elenco.validi_del_giorno.
      destruct (os_listdir amb (Tempo.date d)) as [nomi|]; [|reflexivity].
      cbv beta iota delta [mbind esito_bind]. f_equal.
      rewrite map_map. cbn [Elenco.voce_del_file Integrita.v_percorso].
      apply sorted_map. apply percorso_leb_nel_giorno.
    - intros d' Hd' E. exact (date_range_stessa_data di df d' d Hd' Hd E). }
  assert (Att : forall f, In f (Ordinamento.sorted String.leb attese) ->
                  Elenco.tile_oraria f = true /\
                  Elenco.leggibile amb (Elenco.nel_giorno d f) = true).
  { intros f Hf. apply sorted_In in Hf. subst attese.
    destruct (os_listdir amb (Tempo.date d)) as [nomi|]; [|destruct Hf].
    unfold Elenco.tile_leggibili in Hf. apply filter_In in Hf.
    destruct Hf as [_ Hf]. apply andb_true_iff in Hf. exact Hf. }
  set (s := Ordinamento.sorted String.leb attese) in *.
  exists (map (Elenco.nel_giorno d) s),
         (map (fun f => (Elenco.nel_giorno d f, Elenco.marca f)) s).
  split; [exact El|]. split; [|split; [|split]].
  - unfold Lavoro.con_timestamp.
    rewrite (mapM_esito_Ok _ (fun p => (p, Some (Elenco.marca (nome p))))).
    + cbv beta iota delta [mbind esito_bind]. f_equal. clear.
      induction s as [|f s IH]; [reflexivity|]. cbn. f_equal. exact IH.
    + intros p Hp. apply in_map_iff in Hp. destruct Hp as (f & <- & Hf).
      unfold basename. cbn [Elenco.nel_giorno nome].
      destruct (tile_oraria_marca f (proj1 (Att f Hf))) as (-> & _). reflexivity.
  - rewrite map_map. reflexivity.
  - intros p t Hp. apply in_map_iff in Hp. destruct Hp as (f & E & Hf).
    injection E as <- <-. exact (proj2 (Att f Hf)).
  - intros p t Hp. apply in_map_iff in Hp. destruct Hp as (f & E & Hf).
    injection E as <- <-. cbn [Elenco.nel_giorno nome cartella].
    destruct (tile_oraria_marca f (proj1 (Att f Hf))) as (E1 & E2 & E3). auto.
Qed.

Lemma tile_del_lavoro_leggibili_witness :
  exists report fct,
    Integrita.verifica_integrita_archivio Esempi.amb Esempi.t0 Esempi.t0 = Ok report /\
    Lavoro.con_timestamp [Esempi.file "r_20230105100000.tif"] = Ok fct /\
    Finestre.tutti_leggibili Esempi.amb fct.
Proof.
  assert (exists r,
    Integrita.verifica_integrita_archivio Esempi.amb Esempi.t0 Esempi.t0 = Ok r)
    as [r H] by (eexists; vm_compute; reflexivity).
  destruct (tile_del_lavoro_leggibili Esempi.amb Esempi.t0 Esempi.t0 Esempi.t0 r H)
    as (rg & fct & E1 & E2 & _ & L & _).
  - left. reflexivity.
  - exists r, fct. split; [exact H|].
    assert (Elenco.ottieni_lista_file_giorno Esempi.amb Esempi.t0 (Some r)
            = Ok [Esempi.file "r_20230105100000.tif"]) as E.
    { unfold Elenco.ottieni_lista_file_giorno.
      pose proof (verifica_giorni_attesi Esempi.amb
                    (Tempo.date_range Esempi.t0 Esempi.t0) Integrita.report_vuoto) as C.
      unfold Integrita.verifica_integrita_archivio in H. rewrite H in C.
      destruct C as (_ & -> & _). vm_compute. reflexivity. }
    rewrite E in E1. injection E1 as <-. split; [exact E2|exact L].
Defined.

(** ** Gathering the results of the tasks *)

Section Scritture.
Import Principale.

(** Storing a value in a sheet that exists. *)
Lemma salva_valore_Ok (rf : risultati_finali) (c d z : string) (v : float)
    (per_data : gmap string (gmap string float)) :
  rf !! c = Some per_data ->
  salva_valore rf c d z v
    = Ok (<[c := <[d := <[z := v]> (default ∅ (per_data !! d))]> per_data]> rf).
Proof.
  intros E. unfold salva_valore. rewrite E.
  destruct (per_data !! d) as [pz|] eqn:Ed.
  - rewrite Ed. reflexivity.
  - rewrite lookup_insert_eq. simpl. rewrite insert_insert_eq. reflexivity.
Qed.

Lemma salva_valore_KeyError (rf : risultati_finali) (c d z : string) (v : float) :
  rf !! c = None -> salva_valore rf c d z v = Eccezione "KeyError".
Proof. intros E. unfold salva_valore. rewrite E. reflexivity. Qed.

Lemma scrivi_lookup (rf : risultati_finali) (c d z : string) (v : float) (c' : string) :
  scrivi c d z v rf !! c'
    = if decide (c = c')
      then (fun per_data => <[d := <[z := v]> (default ∅ (per_data !! d))]> per_data)
             <$> rf !! c
      else rf !! c'.
Proof.
  unfold scrivi. destruct (rf !! c) as [pd|] eqn:E.
  - rewrite (salva_valore_Ok rf c d z v pd E). cbv beta iota.
    destruct (decide (c = c')) as [<-|N].
    + rewrite lookup_insert_eq. reflexivity.
    + rewrite lookup_insert_ne by exact N. reflexivity.
  - rewrite (salva_valore_KeyError rf c d z v E). cbv beta iota.
    destruct (decide (c = c')) as [<-|N]; [rewrite E|]; reflexivity.
Qed.

Lemma scrivi_fogli (rf : risultati_finali) (c d z : string) (v : float) (c' : string) :
  is_Some (scrivi c d z v rf !! c') <-> is_Some (rf !! c').
Proof.
  rewrite scrivi_lookup. destruct (decide (c = c')) as [<-|N]; [|reflexivity].
  destruct (rf !! c); simpl; split; intros [x H]; try discriminate; eauto.
Qed.

(** A stored value read back. *)
Lemma scrivi_valore (rf : risultati_finali) (c d z : string) (v : float)
    (c' d' z' : string) :
  valore_salvato (scrivi c d z v rf) c' d' z'
    = if decide (c = c' /\ d = d' /\ z = z')
      then match rf !! c with Some _ => Some v | None => None end
      else valore_salvato rf c' d' z'.
Proof.
  unfold valore_salvato. rewrite scrivi_lookup.
  destruct (decide (c = c')) as [<-|Nc].
  - destruct (rf !! c) as [pd|] eqn:E; simpl.
    + destruct (decide (d = d')) as [<-|Nd].
      * rewrite lookup_insert_eq. simpl.
        destruct (decide (z = z')) as [<-|Nz].
        -- rewrite lookup_insert_eq. rewrite decide_True by auto. reflexivity.
        -- rewrite lookup_insert_ne by exact Nz.
           rewrite decide_False by tauto.
           destruct (pd !! d); reflexivity.
      * rewrite lookup_insert_ne by exact Nd. rewrite decide_False by tauto.
        reflexivity.
    + destruct (decide _); reflexivity.
  - rewrite decide_False by tauto. reflexivity.
Qed.

(** Two values for different cells can be stored in either order. *)
Lemma scrivi_commuta (rf : risultati_finali) (c1 d1 z1 c2 d2 z2 : string)
    (v1 v2 : float) :
  (d1, z1) <> (d2, z2) ->
  scrivi c1 d1 z1 v1 (scrivi c2 d2 z2 v2 rf)
    = scrivi c2 d2 z2 v2 (scrivi c1 d1 z1 v1 rf).
Proof.
  intros N. apply map_eq. intros c. rewrite !scrivi_lookup.
  repeat case_decide; subst; try congruence; try reflexivity.
  destruct (rf !! c) as [pd|]; [|reflexivity]. simpl. f_equal.
  destruct (decide (d1 = d2)) as [<-|Nd].
  - assert (z1 <> z2) by congruence.
    rewrite !lookup_insert_eq, !insert_insert_eq. simpl. f_equal.
    apply insert_insert_ne. congruence.
  - rewrite !lookup_insert_ne by congruence.
    apply insert_insert_ne. congruence.
Qed.

End Scritture.

(** ** Sheet names *)

Lemma caratteri_app (s t : string) :
  list_ascii_of_string (s +:+ t) = list_ascii_of_string s ++ list_ascii_of_string t.
Proof. induction s as [|c s IH]; simpl; [reflexivity|]. rewrite IH. reflexivity. Qed.

(** The decimal digits of a number hold no underscore. *)
Lemma pretty_N_go_senza_trattino (x : N) : forall s : string,
  ~ In "_"%char (list_ascii_of_string s) ->
  ~ In "_"%char (list_ascii_of_string (pretty_N_go x s)).
Proof.
  induction (N.lt_wf_0 x) as [x _ IH]. intros s Hs.
  destruct (N.eq_dec x 0%N) as [->|Nx].
  - rewrite pretty_N_go_0. exact Hs.
  - rewrite pretty_N_go_step by lia. apply IH.
    + apply N.div_lt; lia.
    + simpl. intros [E|I]; [|exact (Hs I)].
      unfold pretty_N_char in E.
      repeat case_match; discriminate E.
Qed.

Lemma pretty_Z_senza_trattino (z : Z) :
  ~ In "_"%char (list_ascii_of_string (pretty z)).
Proof.
  assert (P : forall p : positive,
            ~ In "_"%char (list_ascii_of_string (pretty (N.pos p)))).
  { intros p. unfold pretty, pretty_N. rewrite decide_False by discriminate.
    apply pretty_N_go_senza_trattino. simpl. tauto. }
  destruct z as [|p|p]; unfold pretty, pretty_Z.
  - simpl. intros [E|[]]. discriminate E.
  - apply P.
  - rewrite caratteri_app. simpl. intros [E|I]; [discriminate E|exact (P p I)].
Qed.

Lemma append_h_inj : forall p q : string, p +:+ "h" = q +:+ "h" -> p = q.
Proof.
  induction p as [|c p IH]; intros [|c' q]; simpl; intros E.
  - reflexivity.
  - injection E as _ E. destruct q; discriminate E.
  - injection E as _ E. destruct p; discriminate E.
  - injection E as -> E. f_equal. apply IH. exact E.
Qed.

Lemma nome_foglio_inj : forall (s1 s2 p1 p2 : string),
  ~ In "_"%char (list_ascii_of_string p1) ->
  ~ In "_"%char (list_ascii_of_string p2) ->
  s1 +:+ "_" +:+ p1 +:+ "h" = s2 +:+ "_" +:+ p2 +:+ "h" ->
  s1 = s2 /\ p1 = p2.
Proof.
  assert (Assurdo : forall (p s q : string),
    ~ In "_"%char (list_ascii_of_string p) ->
    p +:+ "h" = s +:+ "_" +:+ q -> False).
  { intros p s q Hp E.
    assert (In "_"%char (list_ascii_of_string (p +:+ "h"))) as I.
    { rewrite E, caratteri_app. apply in_or_app. right. left. reflexivity. }
    rewrite caratteri_app in I. apply in_app_or in I.
    destruct I as [I|[I|[]]]; [exact (Hp I)|discriminate I]. }
  induction s1 as [|c s1 IH]; intros [|c' s2] p1 p2 H1 H2; simpl; intros E.
  - injection E as E. split; [reflexivity|]. apply append_h_inj. exact E.
  - injection E as _ E. exfalso. exact (Assurdo p1 s2 _ H1 E).
  - injection E as _ E. exfalso. symmetry in E. exact (Assurdo p2 s1 _ H2 E).
  - injection E as -> E. destruct (IH s2 p1 p2 H1 H2 E) as [-> ->]. auto.
Qed.

(** Two sheets of the results have the same name only for the same
    statistic and the same duration. *)
Lemma chiave_foglio_inj (stat1 stat2 : string) (durata1 durata2 : Z) :
  Tabelle.chiave_foglio stat1 durata1 = Tabelle.chiave_foglio stat2 durata2 ->
  stat1 = stat2 /\ durata1 = durata2.
Proof.
  unfold Tabelle.chiave_foglio. intros E.
  apply nome_foglio_inj in E; try apply pretty_Z_senza_trattino.
  destruct E as [-> E]. split; [reflexivity|]. apply (inj pretty). exact E.
Qed.

(** ** The values of one task *)

Section ValoriDiUnTask.
Import Principale.

Lemma scrivi_tutte_fogli (d z : string) : forall (W : list (string * float))
    (rf : risultati_finali) (c : string),
  is_Some (scrivi_tutte d z W rf !! c) <-> is_Some (rf !! c).
Proof.
  unfold scrivi_tutte. induction W as [|[c0 v0] W IH]; intros rf c; simpl.
  - reflexivity.
  - rewrite IH. apply scrivi_fogli.
Qed.

Lemma scrivi_tutte_altrove (d z d' z' : string) : forall (W : list (string * float))
    (rf : risultati_finali) (c : string),
  (d', z') <> (d, z) ->
  valore_salvato (scrivi_tutte d' z' W rf) c d z = valore_salvato rf c d z.
Proof.
  unfold scrivi_tutte. induction W as [|[c0 v0] W IH]; intros rf c N; simpl.
  - reflexivity.
  - rewrite IH by exact N. rewrite scrivi_valore.
    rewrite decide_False; [reflexivity|]. intros (_ & -> & ->). apply N. reflexivity.
Qed.

Lemma scrivi_tutte_origine (d z : string) : forall (W : list (string * float))
    (rf : risultati_finali) (c d' z' : string) (v : float),
  valore_salvato (scrivi_tutte d z W rf) c d' z' = Some v ->
  valore_salvato rf c d' z' = Some v \/ (d = d' /\ z = z' /\ In (c, v) W).
Proof.
  unfold scrivi_tutte. induction W as [|[c0 v0] W IH]; intros rf c d' z' v; simpl.
  - auto.
  - intros H. apply IH in H. destruct H as [H|(-> & -> & H)]; [|auto].
    rewrite scrivi_valore in H.
    destruct (decide (c0 = c /\ d = d' /\ z = z')) as [(-> & -> & ->)|N]; [|auto].
    destruct (rf !! c); [|discriminate H]. injection H as ->. auto.
Qed.

Lemma scrivi_tutte_valore (d z c : string) (v : float) :
  forall (W : list (string * float)) (rf : risultati_finali),
  is_Some (rf !! c) ->
  (forall v', In (c, v') W -> v' = v) ->
  In (c, v) W \/ valore_salvato rf c d z = Some v ->
  valore_salvato (scrivi_tutte d z W rf) c d z = Some v.
Proof.
  unfold scrivi_tutte. induction W as [|[c0 v0] W IH]; intros rf K U H; simpl.
  - destruct H as [[]|H]. exact H.
  - apply IH.
    + apply scrivi_fogli. exact K.
    + intros v' Hv'. apply U. right. exact Hv'.
    + rewrite scrivi_valore.
      destruct (decide (c0 = c /\ d = d /\ z = z)) as [(-> & _)|N].
      * right. destruct K as [pd ->]. f_equal. apply U. left. reflexivity.
      * destruct H as [[E|H]|H]; [|auto..].
        injection E as -> _. exfalso. apply N. auto.
Qed.

Lemma scrivi_tutte_commuta (d1 z1 d2 z2 : string) :
  (d1, z1) <> (d2, z2) ->
  forall (W1 W2 : list (string * float)) (rf : risultati_finali),
  scrivi_tutte d1 z1 W1 (scrivi_tutte d2 z2 W2 rf)
    = scrivi_tutte d2 z2 W2 (scrivi_tutte d1 z1 W1 rf).
Proof.
  intros N.
  assert (Uno : forall (c : string) (v : float) (W2 : list (string * float))
                       (rf : risultati_finali),
    scrivi c d1 z1 v (scrivi_tutte d2 z2 W2 rf)
      = scrivi_tutte d2 z2 W2 (scrivi c d1 z1 v rf)).
  { intros c v. unfold scrivi_tutte. induction W2 as [|[c0 v0] W2 IH]; intros rf; simpl.
    - reflexivity.
    - rewrite IH. f_equal. apply scrivi_commuta. exact N. }
  unfold scrivi_tutte at 1 3. induction W1 as [|[c v] W1 IH]; intros W2 rf; simpl.
  - reflexivity.
  - rewrite Uno. apply IH.
Qed.

End ValoriDiUnTask.

Section Raccolta.
Import Principale.
Variable strftime : Z -> string.
Variable attive : list string.

Lemma salva_statistiche_scritte (z : string) (data durata : Z)
    (valori : gmap string float) : forall (stats : list string) (rf : risultati_finali),
  (forall stat, In stat stats ->
     is_Some (rf !! Tabelle.chiave_foglio stat durata)) ->
  per_ogni (salva_statistica strftime z data durata valori) stats rf
    = (scrivi_tutte (strftime data) z
         (flat_map (fun stat =>
                      match valori !! stat with
                      | Some v =>
                          if PrimFloat.is_nan v then []
                          else [(Tabelle.chiave_foglio stat durata, v)]
                      | None => []
                      end) stats) rf,
       None).
Proof.
  induction stats as [|stat stats IH]; intros rf K; [reflexivity|].
  cbn [per_ogni flat_map]. unfold salva_statistica at 1.
  destruct (valori !! stat) as [v|]; [|apply IH; intros s Hs; apply K; right; exact Hs].
  destruct (PrimFloat.is_nan v); [apply IH; intros s Hs; apply K; right; exact Hs|].
  destruct (K stat (or_introl eq_refl)) as [pd E].
  assert (Es : salva_valore rf (Tabelle.chiave_foglio stat durata) (strftime data) z v
               = Ok (scrivi (Tabelle.chiave_foglio stat durata) (strftime data) z v rf)).
  { unfold scrivi. rewrite (salva_valore_Ok _ _ _ _ _ pd E). reflexivity. }
  rewrite Es.
  change (scrivi_tutte (strftime data) z
            ([(Tabelle.chiave_foglio stat durata, v)] ++ ?W) rf)
    with (scrivi_tutte (strftime data) z W
            (scrivi (Tabelle.chiave_foglio stat durata) (strftime data) z v rf)).
  apply IH. intros s Hs. apply scrivi_fogli. apply K. right. exact Hs.
Qed.

(** A name of [scritture]: the non-NaN value of an active statistic of
    a duration of the task. *)
Lemma scritture_In (t : Lavoro.esito_zona) (c : string) (v : float) :
  In (c, v) (scritture attive t) <->
  exists durata valori stat,
    In (durata, Some valori) (Lavoro.z_risultati t) /\
    In stat attive /\ valori !! stat = Some v /\
    PrimFloat.is_nan v = false /\ c = Tabelle.chiave_foglio stat durata.
Proof.
  unfold scritture. rewrite in_flat_map. split.
  - intros ([durata [valori|]] & Hd & H); cbn [fst snd] in H; [|destruct H].
    destruct (Finestre.vero (Some valori)); [|destruct H].
    apply in_flat_map in H. destruct H as (stat & Hs & H).
    destruct (valori !! stat) as [v'|] eqn:Ev; [|destruct H].
    destruct (PrimFloat.is_nan v') eqn:En; [destruct H|].
    destruct H as [H|[]]. injection H as <- <-.
    exists durata, valori, stat. auto.
  - intros (durata & valori & stat & Hd & Hs & Ev & En & ->).
    exists (durata, Some valori). split; [exact Hd|]. cbn [fst snd].
    assert (Finestre.vero (Some valori) = true) as ->.
    { unfold Finestre.vero. apply negb_true_iff. apply bool_decide_eq_false_2.
      intros E. rewrite E, lookup_empty in Ev. discriminate Ev. }
    apply in_flat_map. exists stat. split; [exact Hs|].
    rewrite Ev, En. left. reflexivity.
Qed.

(** With its sheets in place, a task stores its values and nothing is
    raised. *)
Lemma salva_risultati_scritte (t : Lavoro.esito_zona) (rf : risultati_finali) :
  (forall durata stat,
     In durata (map fst (Lavoro.z_risultati t)) -> In stat attive ->
     is_Some (rf !! Tabelle.chiave_foglio stat durata)) ->
  salva_risultati strftime attive rf t
    = (scrivi_tutte (strftime (Lavoro.z_data t)) (Lavoro.z_nome t)
         (scritture attive t) rf, None).
Proof.
  unfold salva_risultati, scritture.
  generalize (Lavoro.z_risultati t). intros voci. revert rf.
  induction voci as [|[durata valori] voci IH]; intros rf K; [reflexivity|].
  cbn [per_ogni flat_map]. unfold salva_durata at 1. cbn [fst snd].
  assert (Kv : forall rf' : risultati_finali,
            (forall c, is_Some (rf' !! c) <-> is_Some (rf !! c)) ->
            forall d s, In d (map fst voci) -> In s attive ->
                        is_Some (rf' !! Tabelle.chiave_foglio s d)).
  { intros rf' E d s Hd Hs. apply E. apply K; [right; exact Hd|exact Hs]. }
  destruct valori as [valori|]; [|apply IH; apply Kv; reflexivity].
  destruct (Finestre.vero (Some valori)); [|apply IH; apply Kv; reflexivity].
  rewrite salva_statistiche_scritte
    by (intros s Hs; apply K; [left; reflexivity|exact Hs]).
  unfold scrivi_tutte at 2. rewrite fold_left_app.
  fold (scrivi_tutte (strftime (Lavoro.z_data t)) (Lavoro.z_nome t)).
  apply IH. apply Kv. intros c. apply scrivi_tutte_fogli.
Qed.

(** The sheets [main] prepares. *)
Lemma tabelle_vuote_fogli (durate : list Z) (c : string) :
  (is_Some (tabelle_vuote durate attive !! c) <->
   exists stat durata,
     In stat attive /\ In durata durate /\ c = Tabelle.chiave_foglio stat durata) /\
  (forall d z, valore_salvato (tabelle_vuote durate attive) c d z = None).
Proof.
  unfold tabelle_vuote.
  assert (G : forall (durate : list Z) (rf : risultati_finali),
    (forall pd, rf !! c = Some pd -> pd = ∅) ->
    let rf' := fold_left (fun rf durata =>
                 fold_left (fun rf stat =>
                              <[Tabelle.chiave_foglio stat durata := ∅]> rf)
                           attive rf) durate rf in
    (is_Some (rf' !! c) <->
     is_Some (rf !! c) \/
     exists stat durata,
       In stat attive /\ In durata durate /\ c = Tabelle.chiave_foglio stat durata) /\
    (forall pd, rf' !! c = Some pd -> pd = ∅)).
  { assert (Gs : forall (durata : Z) (stats : list string) (rf : risultati_finali),
      (forall pd, rf !! c = Some pd -> pd = ∅) ->
      let rf' := fold_left (fun rf stat =>
                              <[Tabelle.chiave_foglio stat durata := ∅]> rf)
                           stats rf in
      (is_Some (rf' !! c) <->
       is_Some (rf !! c) \/
       exists stat, In stat stats /\ c = Tabelle.chiave_foglio stat durata) /\
      (forall pd, rf' !! c = Some pd -> pd = ∅)).
    { intros durata. induction stats as [|s stats IH]; intros rf V; simpl.
      - split; [|exact V]. split; [auto|]. intros [H|(s & [] & _)]. exact H.
      - destruct (IH (<[Tabelle.chiave_foglio s durata := ∅]> rf)) as [I1 I2].
        { intros pd. destruct (decide (Tabelle.chiave_foglio s durata = c)) as [<-|N].
          - rewrite lookup_insert_eq. intros H. injection H as <-. reflexivity.
          - rewrite lookup_insert_ne by exact N. apply V. }
        split; [|exact I2]. rewrite I1.
        destruct (decide (Tabelle.chiave_foglio s durata = c)) as [<-|N].
        + rewrite lookup_insert_eq. split; [|eauto].
          intros _. right. exists s. auto.
        + rewrite lookup_insert_ne by exact N. split.
          * intros [H|(s' & Hs & E)]; [auto|]. right. exists s'. auto.
          * intros [H|(s' & [<-|Hs] & E)]; [auto|congruence|].
            right. exists s'. auto. }
    induction durate0 as [|d durate0 IH]; intros rf V; simpl.
    - split; [|exact V]. split; [auto|]. intros [H|(s & d & _ & [] & _)]. exact H.
    - destruct (Gs d attive rf V) as [S1 S2]. cbv zeta in S1, S2.
      destruct (IH _ S2) as [I1 I2]. split; [|exact I2]. rewrite I1, S1. split.
      + intros [[H|(s & Hs & E)]|(s & d' & Hs & Hd & E)]; [auto| |].
        * right. exists s, d. auto.
        * right. exists s, d'. auto.
      + intros [H|(s & d' & Hs & [<-|Hd] & E)]; [auto| |].
        * left. right. exists s. auto.
        * right. exists s, d'. auto. }
  destruct (G durate ∅) as [G1 G2].
  { intros pd. rewrite lookup_empty. discriminate. }
  split.
  - rewrite G1. rewrite lookup_empty. split.
    + intros [[x H]|H]; [discriminate H|exact H].
    + auto.
  - intros d z. unfold valore_salvato.
    destruct (fold_left _ durate ∅ !! c) as [pd|] eqn:E; [|reflexivity].
    rewrite (G2 pd eq_refl). simpl. rewrite lookup_empty. reflexivity.
Qed.

End Raccolta.

Section Completati.
Import Principale.
Variable strftime : Z -> string.
Variable attive : list string.

Lemma raccogli_scritte : forall (completati : list Lavoro.esito_zona)
    (rf : risultati_finali),
  (forall t durata stat,
     In t completati -> In durata (map fst (Lavoro.z_risultati t)) ->
     In stat attive -> is_Some (rf !! Tabelle.chiave_foglio stat durata)) ->
  raccogli strftime attive completati rf
    = fold_left (fun rf t =>
                   scrivi_tutte (strftime (Lavoro.z_data t)) (Lavoro.z_nome t)
                                (scritture attive t) rf)
                completati rf /\
  (forall c, is_Some (raccogli strftime attive completati rf !! c) <-> is_Some (rf !! c)).
Proof.
  unfold raccogli.
  induction completati as [|t completati IH]; intros rf K; simpl.
  - split; reflexivity.
  - rewrite (salva_risultati_scritte strftime attive t rf)
      by (intros durata stat; apply K; left; reflexivity).
    cbn [fst].
    destruct (IH (scrivi_tutte (strftime (Lavoro.z_data t)) (Lavoro.z_nome t)
                    (scritture attive t) rf)) as [I1 I2].
    { intros t' durata stat Ht' Hd Hs. apply scrivi_tutte_fogli.
      apply (K t'); [right; exact Ht'|exact Hd|exact Hs]. }
    split; [exact I1|]. intros c. rewrite I2. apply scrivi_tutte_fogli.
Qed.

Lemma raccolti_origine : forall (completati : list Lavoro.esito_zona)
    (rf : risultati_finali) (c d z : string) (v : float),
  valore_salvato
    (fold_left (fun rf t =>
                  scrivi_tutte (strftime (Lavoro.z_data t)) (Lavoro.z_nome t)
                               (scritture attive t) rf)
               completati rf) c d z = Some v ->
  valore_salvato rf c d z = Some v \/
  exists t, In t completati /\ strftime (Lavoro.z_data t) = d /\
            Lavoro.z_nome t = z /\ In (c, v) (scritture attive t).
Proof.
  induction completati as [|t completati IH]; intros rf c d z v; simpl; [auto|].
  intros H. apply IH in H. destruct H as [H|(t' & I & H)].
  - apply scrivi_tutte_origine in H. destruct H as [H|(E1 & E2 & H)]; [auto|].
    right. exists t. auto.
  - right. exists t'. auto.
Qed.

Lemma raccolti_altrove : forall (completati : list Lavoro.esito_zona)
    (rf : risultati_finali) (c d z : string),
  (forall t, In t completati -> (strftime (Lavoro.z_data t), Lavoro.z_nome t) <> (d, z)) ->
  valore_salvato
    (fold_left (fun rf t =>
                  scrivi_tutte (strftime (Lavoro.z_data t)) (Lavoro.z_nome t)
                               (scritture attive t) rf)
               completati rf) c d z = valore_salvato rf c d z.
Proof.
  induction completati as [|t completati IH]; intros rf c d z N; simpl; [reflexivity|].
  rewrite IH by (intros t' Ht'; apply N; right; exact Ht').
  apply scrivi_tutte_altrove. apply N. left. reflexivity.
Qed.

Lemma raccolti_commutano (t1 t2 : Lavoro.esito_zona) (rf : risultati_finali) :
  (strftime (Lavoro.z_data t1), Lavoro.z_nome t1)
    <> (strftime (Lavoro.z_data t2), Lavoro.z_nome t2) ->
  scrivi_tutte (strftime (Lavoro.z_data t1)) (Lavoro.z_nome t1) (scritture attive t1)
    (scrivi_tutte (strftime (Lavoro.z_data t2)) (Lavoro.z_nome t2)
       (scritture attive t2) rf)
  = scrivi_tutte (strftime (Lavoro.z_data t2)) (Lavoro.z_nome t2) (scritture attive t2)
      (scrivi_tutte (strftime (Lavoro.z_data t1)) (Lavoro.z_nome t1)
         (scritture attive t1) rf).
Proof. intros N. apply scrivi_tutte_commuta. exact N. Qed.

Lemma raccolti_permutati : forall (l l' : list Lavoro.esito_zona),
  Permutation l l' ->
  List.NoDup (map (fun t => (strftime (Lavoro.z_data t), Lavoro.z_nome t)) l) ->
  forall rf : risultati_finali,
    fold_left (fun rf t =>
                 scrivi_tutte (strftime (Lavoro.z_data t)) (Lavoro.z_nome t)
                              (scritture attive t) rf) l rf
    = fold_left (fun rf t =>
                   scrivi_tutte (strftime (Lavoro.z_data t)) (Lavoro.z_nome t)
                                (scritture attive t) rf) l' rf.
Proof.
  induction 1 as [|x l l' P IH|x y l|l l' l'' P1 IH1 P2 IH2]; intros N rf.
  - reflexivity.
  - simpl. apply IH. simpl in N. apply List.NoDup_cons_iff in N. tauto.
  - simpl. f_equal. apply raccolti_commutano.
    simpl in N. apply List.NoDup_cons_iff in N. destruct N as [N _].
    intros E. apply N. left. congruence.
  - rewrite IH1 by exact N. apply IH2.
    eapply Permutation_NoDup; [|exact N]. apply Permutation_map. exact P1.
Qed.

End Completati.

Lemma NoDup_fst_unico {K V} (l : list (K * V)) (k : K) (a b : V) :
  List.NoDup (map fst l) -> In (k, a) l -> In (k, b) l -> a = b.
Proof.
  induction l as [|[k0 v0] l IH]; simpl; intros N Ha Hb; [destruct Ha|].
  apply List.NoDup_cons_iff in N. destruct N as [N0 N].
  destruct Ha as [Ha|Ha], Hb as [Hb|Hb].
  - congruence.
  - injection Ha as -> _. exfalso. apply N0.
    apply in_map_iff. exists (k, b). auto.
  - injection Hb as -> _. exfalso. apply N0.
    apply in_map_iff. exists (k, a). auto.
  - apply IH; assumption.
Qed.

Lemma tabelle_vuote_pronte (strftime : Z -> string) (attive : list string)
    (durate : list Z) (completati : list Lavoro.esito_zona) :
  (forall t durata, In t completati ->
     In durata (map fst (Lavoro.z_risultati t)) -> In durata durate) ->
  forall t durata stat,
    In t completati -> In durata (map fst (Lavoro.z_risultati t)) ->
    In stat attive ->
    is_Some (Principale.tabelle_vuote durate attive !! Tabelle.chiave_foglio stat durata).
Proof.
  intros H t durata stat Ht Hd Hs.
  apply (tabelle_vuote_fogli attive durate). exists stat, durata.
  split; [exact Hs|]. split; [exact (H t durata Ht Hd)|reflexivity].
Qed.

(** X15.  [main] stores in the sheets only what the tasks returned:
    with tasks whose durations are among the configured ones, storing the
    results of a task never raises, and every value found in a sheet, at a
    date and a zone, is a statistic that is not NaN, active in the
    configuration, of a completed task of that zone and that day, for the
    duration and the statistic the sheet is named after. *)
Theorem raccolta_fedele :
  forall (strftime : Z -> string) (attive : list string) (durate : list Z)
         (completati : list Lavoro.esito_zona),
    (forall t durata, In t completati ->
       In durata (map fst (Lavoro.z_risultati t)) -> In durata durate) ->
    let vuote := Principale.tabelle_vuote durate attive in
    let rf := Principale.raccogli strftime attive completati vuote in
    (forall pre t post,
       completati = pre ++ t :: post ->
       snd (Principale.salva_risultati strftime attive
              (Principale.raccogli strftime attive pre vuote) t) = None) /\
    (forall c d z v,
       Principale.valore_salvato rf c d z = Some v ->
       F.is_nan v = false /\
       exists t durata valori stat,
         In t completati /\ Lavoro.z_nome t = z /\ strftime (Lavoro.z_data t) = d /\
         In (durata, Some valori) (Lavoro.z_risultati t) /\
         In stat attive /\ valori !! stat = Some v /\
         c = Tabelle.chiave_foglio stat durata).
Proof.
  intros strftime attive durate completati H vuote rf.
  pose proof (tabelle_vuote_pronte strftime attive durate completati H) as K.
  split.
  - intros pre t post E.
    destruct (raccogli_scritte strftime attive pre vuote) as [_ F].
    { intros t' durata stat Ht'. apply K. rewrite E. apply in_or_app. left. exact Ht'. }
    rewrite salva_risultati_scritte; [reflexivity|].
    intros durata stat Hd Hs. apply F. apply (K t); [|exact Hd|exact Hs].
    rewrite E. apply in_or_app. right. left. reflexivity.
  - intros c d z v Hv. subst rf.
    destruct (raccogli_scritte strftime attive completati vuote K) as [E _].
    rewrite E in Hv. apply raccolti_origine in Hv.
    destruct Hv as [Hv|(t & Ht & Ed & Ez & Hw)].
    + subst vuote. rewrite (proj2 (tabelle_vuote_fogli attive durate c)) in Hv.
      discriminate Hv.
    + apply scritture_In in Hw.
      destruct Hw as (durata & valori & stat & I1 & I2 & I3 & I4 & I5).
      split; [exact I4|]. exists t, durata, valori, stat.
      repeat split; assumption.
Qed.

Lemma raccolta_fedele_witness :
  Principale.valore_salvato
    (Principale.raccogli (fun t => pretty (Tempo.date t)) ["media"]
       [{| Lavoro.z_nome := "IM_01"; Lavoro.z_data := 0;
           Lavoro.z_risultati := [(1, Some {[ "media" := 2%float ]})];
           Lavoro.z_log := [] |}]
       (Principale.tabelle_vuote [1] ["media"]))
    "media_1h" "0" "IM_01" = Some 2%float /\
  F.is_nan 2%float = false.
Proof.
  split; [vm_compute; reflexivity|].
  exact (proj1 (proj2 (raccolta_fedele (fun t => pretty (Tempo.date t)) ["media"] [1]
           [{| Lavoro.z_nome := "IM_01"; Lavoro.z_data := 0;
               Lavoro.z_risultati := [(1, Some {[ "media" := 2%float ]})];
               Lavoro.z_log := [] |}]
           ltac:(intros t durata [<-|[]] [<-|[]]; left; reflexivity))
         "media_1h" "0" "IM_01" 2%float ltac:(vm_compute; reflexivity))).
Defined.

(** X16.  Every statistic of every task reaches its cell: with one
    task for each zone and day and tasks whose durations are among the
    configured ones, a statistic of a completed task (whose dictionary
    holds each duration once, as a task's always does) that is active and
    not NaN is the value of the sheet named after the statistic and the
    duration, at the date of the task and the zone of the task, whatever
    the other tasks stored and whatever the order of completion. *)
Theorem raccolta_completa :
  forall (strftime : Z -> string) (attive : list string) (durate : list Z)
         (completati : list Lavoro.esito_zona),
    (forall t durata, In t completati ->
       In durata (map fst (Lavoro.z_risultati t)) -> In durata durate) ->
    List.NoDup (map (fun t => (strftime (Lavoro.z_data t), Lavoro.z_nome t)) completati) ->
    forall t durata valori stat v,
      In t completati ->
      List.NoDup (map fst (Lavoro.z_risultati t)) ->
      In (durata, Some valori) (Lavoro.z_risultati t) ->
      In stat attive -> valori !! stat = Some v -> F.is_nan v = false ->
      Principale.valore_salvato
        (Principale.raccogli strftime attive completati
           (Principale.tabelle_vuote durate attive))
        (Tabelle.chiave_foglio stat durata) (strftime (Lavoro.z_data t))
        (Lavoro.z_nome t) = Some v.
Proof.
  intros strftime attive durate completati H N t durata valori stat v
    Ht Nt Hd Hs Ev En.
  pose proof (tabelle_vuote_pronte strftime attive durate completati H) as K.
  destruct (raccogli_scritte strftime attive completati _ K) as [E _].
  rewrite E. clear E.
  apply in_split in Ht. destruct Ht as (pre & post & ->).
  rewrite fold_left_app. cbn [fold_left].
  rewrite map_app in N. cbn [map] in N.
  rewrite raccolti_altrove.
  - apply scrivi_tutte_valore.
    + assert (is_Some (Principale.tabelle_vuote durate attive
                         !! Tabelle.chiave_foglio stat durata)) as S.
      { apply (K {| Lavoro.z_nome := Lavoro.z_nome t; Lavoro.z_data := Lavoro.z_data t;
                    Lavoro.z_risultati := Lavoro.z_risultati t;
                    Lavoro.z_log := Lavoro.z_log t |}).
        - apply in_or_app. right. left. destruct t; reflexivity.
        - apply in_map_iff. exists (durata, Some valori). auto.
        - exact Hs. }
      revert S. generalize (Principale.tabelle_vuote durate attive).
      clear. induction pre as [|t' pre IH]; intros rf S; simpl; [exact S|].
      apply IH. apply scrivi_tutte_fogli. exact S.
    + intros v' Hv'. apply scritture_In in Hv'.
      destruct Hv' as (durata' & valori' & stat' & I1 & I2 & I3 & I4 & I5).
      apply chiave_foglio_inj in I5. destruct I5 as [<- <-].
      assert (Some valori' = Some valori) as Ev'
        by (eapply NoDup_fst_unico; eassumption).
      injection Ev' as ->. congruence.
    + left. apply scritture_In. exists durata, valori, stat. auto.
  - intros t' Ht' Eq. apply NoDup_remove_2 in N. apply N.
    apply in_or_app. right. apply in_map_iff. exists t'. auto.
Qed.

Lemma raccolta_completa_witness :
  Principale.valore_salvato
    (Principale.raccogli (fun t => pretty (Tempo.date t)) ["media"]
       [{| Lavoro.z_nome := "IM_01"; Lavoro.z_data := 0;
           Lavoro.z_risultati := [(1, Some {[ "media" := 2%float ]})];
           Lavoro.z_log := [] |}]
       (Principale.tabelle_vuote [1] ["media"]))
    (Tabelle.chiave_foglio "media" 1) "0" "IM_01" = Some 2%float.
Proof.
  apply (raccolta_completa (fun t => pretty (Tempo.date t)) ["media"] [1]
           [{| Lavoro.z_nome := "IM_01"; Lavoro.z_data := 0;
               Lavoro.z_risultati := [(1, Some {[ "media" := 2%float ]})];
               Lavoro.z_log := [] |}]
           ltac:(intros t durata [<-|[]] [<-|[]]; left; reflexivity)
           ltac:(repeat constructor; intros [])
           {| Lavoro.z_nome := "IM_01"; Lavoro.z_data := 0;
              Lavoro.z_risultati := [(1, Some {[ "media" := 2%float ]})];
              Lavoro.z_log := [] |}
           1 {[ "media" := 2%float ]} "media" 2%float).
  - left. reflexivity.
  - repeat constructor. intros [].
  - left. reflexivity.
  - left. reflexivity.
  - reflexivity.
  - reflexivity.
Defined.

(** X17.  The order in which the tasks complete does not matter: with
    one task for each zone and day and tasks whose durations are among
    the configured ones, gathering the same results in any order gives the
    same sheets. *)
Theorem raccolta_indipendente_dall_ordine :
  forall (strftime : Z -> string) (attive : list string) (durate : list Z)
         (completati completati' : list Lavoro.esito_zona),
    (forall t durata, In t completati ->
       In durata (map fst (Lavoro.z_risultati t)) -> In durata durate) ->
    List.NoDup (map (fun t => (strftime (Lavoro.z_data t), Lavoro.z_nome t)) completati) ->
    Permutation completati completati' ->
    Principale.raccogli strftime attive completati
      (Principale.tabelle_vuote durate attive)
    = Principale.raccogli strftime attive completati'
        (Principale.tabelle_vuote durate attive).
Proof.
  intros strftime attive durate completati completati' H N P.
  destruct (raccogli_scritte strftime attive completati _
              (tabelle_vuote_pronte strftime attive durate completati H)) as [-> _].
  destruct (raccogli_scritte strftime attive completati'
              (Principale.tabelle_vuote durate attive)) as [-> _].
  { apply (tabelle_vuote_pronte strftime attive durate completati').
    intros t durata Ht. apply H. apply (Permutation_in _ (Permutation_sym P)). exact Ht. }
  apply raccolti_permutati; assumption.
Qed.

Lemma raccolta_indipendente_dall_ordine_witness :
  Principale.raccogli (fun t => pretty (Tempo.date t)) ["media"]
    [{| Lavoro.z_nome := "IM_01"; Lavoro.z_data := 0;
        Lavoro.z_risultati := [(1, Some {[ "media" := 2%float ]})];
        Lavoro.z_log := [] |};
     {| Lavoro.z_nome := "IM_02"; Lavoro.z_data := 0;
        Lavoro.z_risultati := [(1, Some {[ "media" := 3%float ]})];
        Lavoro.z_log := [] |}]
    (Principale.tabelle_vuote [1] ["media"])
  = Principale.raccogli (fun t => pretty (Tempo.date t)) ["media"]
      [{| Lavoro.z_nome := "IM_02"; Lavoro.z_data := 0;
          Lavoro.z_risultati := [(1, Some {[ "media" := 3%float ]})];
          Lavoro.z_log := [] |};
       {| Lavoro.z_nome := "IM_01"; Lavoro.z_data := 0;
          Lavoro.z_risultati := [(1, Some {[ "media" := 2%float ]})];
          Lavoro.z_log := [] |}]
      (Principale.tabelle_vuote [1] ["media"]).
Proof.
  apply (raccolta_indipendente_dall_ordine (fun t => pretty (Tempo.date t))
           ["media"] [1]).
  - intros t durata [<-|[<-|[]]] [<-|[]]; left; reflexivity.
  - repeat constructor; simpl; intros H;
      repeat (destruct H as [H|H]; [discriminate H|]); exact H.
  - apply perm_swap.
Defined.

(** ** The tables of the results *)

Lemma posizione_mappa (g : string -> float) (z : string) : forall cols : list string,
  In z cols ->
  exists j, Tabelle.posizione z cols = Some j /\ nth j (map g cols) nan = g z.
Proof.
  induction cols as [|c cols IH]; intros I; [destruct I|]. simpl.
  destruct (String.eqb_spec c z) as [->|N].
  - exists O. auto.
  - destruct I as [E|I]; [contradiction|].
    destruct (IH I) as (j & -> & E). exists (S j). auto.
Qed.

Lemma posizione_assente (z : string) : forall cols : list string,
  ~ In z cols -> Tabelle.posizione z cols = None.
Proof.
  induction cols as [|c cols IH]; intros N; [reflexivity|]. simpl.
  destruct (String.eqb_spec c z) as [->|Ne]; [exfalso; apply N; left; reflexivity|].
  rewrite IH; [reflexivity|]. intros I. apply N. right. exact I.
Qed.

Lemma chiavi_del_dizionario {V} (m : gmap string V) :
  List.NoDup (map fst (map_to_list m)) /\
  forall k, In k (map fst (map_to_list m)) <-> is_Some (m !! k).
Proof.
  split.
  - apply NoDup_ListNoDup. apply NoDup_fst_map_to_list.
  - intros k. rewrite in_map_iff. split.
    + intros ([k' v] & <- & I). apply list_elem_of_In, elem_of_map_to_list in I.
      simpl. eauto.
    + intros [v E]. exists (k, v). split; [reflexivity|].
      apply list_elem_of_In, elem_of_map_to_list. exact E.
Qed.

(** The table built from the dictionary of one sheet. *)
Lemma tabella_campi (dati : gmap string (gmap string float)) (zone : list string) :
  let df := Principale.tabella dati zone in
  Tabelle.colonne df = zone /\
  StronglySorted (fun a b => String.leb a b = true) (Tabelle.date df) /\
  List.NoDup (Tabelle.date df) /\
  (forall d, In d (Tabelle.date df) <-> is_Some (dati !! d)) /\
  (forall d z per_zona,
     dati !! d = Some per_zona -> In z zone ->
     Tabelle.cella df d z = Some (default nan (per_zona !! z))) /\
  (forall d z, dati !! d = None \/ ~ In z zone -> Tabelle.cella df d z = None).
Proof.
  intros df. destruct (chiavi_del_dizionario dati) as [N K].
  set (s := Ordinamento.sorted String.leb (map fst (map_to_list dati))) in *.
  assert (Ed : Tabelle.date df = s).
  { unfold Tabelle.date, df, Principale.tabella. cbn [Tabelle.righe]. fold s.
    rewrite map_map. cbn [fst]. apply map_id. }
  assert (Ns : List.NoDup s).
  { eapply Permutation_NoDup; [|exact N]. symmetry. apply sorted_permutazione. }
  assert (Ks : forall d, In d s <-> is_Some (dati !! d)).
  { intros d. unfold s. rewrite sorted_In. apply K. }
  split; [reflexivity|]. rewrite Ed.
  split; [apply sorted_ordinata; [apply String.leb_total|apply string_leb_trans]|].
  split; [exact Ns|]. split; [exact Ks|]. split.
  - intros d z pz E Hz. unfold Tabelle.cella.
    set (riga := fun data_str : string =>
           (data_str,
            map (fun zona => default nan (default ∅ (dati !! data_str) !! zona)) zone)).
    assert (Er : Tabelle.righe df = map riga s) by reflexivity.
    rewrite Er.
    assert (F : List.find (fun r => String.eqb (fst r) d) (map riga s) = Some (riga d)).
    { apply (find_unico (map riga s) (riga d)).
      - rewrite map_map. cbn [riga fst]. rewrite map_id. exact Ns.
      - apply in_map. apply Ks. rewrite E. eauto. }
    rewrite F.
    destruct (posizione_mappa
                (fun zona => default nan (default ∅ (dati !! d) !! zona)) z zone Hz)
      as (j & Ej & En).
    change (Tabelle.colonne df) with zone. rewrite Ej. cbn [riga snd].
    rewrite En, E. reflexivity.
  - intros d z [E|Nz]; unfold Tabelle.cella.
    + rewrite find_assente; [reflexivity|].
      change (map fst (Tabelle.righe df)) with (Tabelle.date df). rewrite Ed.
      rewrite Ks, E. intros [x H]. discriminate H.
    + change (Tabelle.colonne df) with zone. rewrite (posizione_assente z zone Nz).
      destruct (List.find _ _); reflexivity.
Qed.

(** X18.  A sheet of the results is written exactly when it received a
    value.  Its columns are the zone names in the order of the zone files,
    its rows are the dates that received a value, each once, in increasing
    order, and its cell at such a date and at a zone is the value stored
    for them, or NaN when none was stored. *)
Theorem foglio_dei_risultati :
  forall (rf : Principale.risultati_finali) (zone_shapefiles : list string)
         (chiave : string),
    match Principale.dataframes_finali rf zone_shapefiles !! chiave with
    | None => forall d z, Principale.valore_salvato rf chiave d z = None
    | Some df =>
        Tabelle.colonne df = map Lavoro.prima_del_punto zone_shapefiles /\
        Tabelle.date df <> [] /\
        StronglySorted (fun a b => String.leb a b = true) (Tabelle.date df) /\
        List.NoDup (Tabelle.date df) /\
        (forall d, In d (Tabelle.date df) <->
                   exists per_data, rf !! chiave = Some per_data /\
                                    is_Some (per_data !! d)) /\
        (forall d z,
           In d (Tabelle.date df) -> In z (Tabelle.colonne df) ->
           Tabelle.cella df d z
             = Some (default nan (Principale.valore_salvato rf chiave d z)))
    end.
Proof.
  intros rf zs c. unfold Principale.dataframes_finali. rewrite lookup_omap.
  destruct (rf !! c) as [dati|] eqn:E; simpl.
  - destruct (decide (dati = ∅)) as [->|Ne].
    + rewrite bool_decide_eq_true_2 by reflexivity.
      intros d z. unfold Principale.valore_salvato. rewrite E. simpl.
      rewrite lookup_empty. reflexivity.
    + rewrite bool_decide_eq_false_2 by exact Ne.
      destruct (tabella_campi dati (Principale.zone_ordinate zs))
        as (T1 & T2 & T3 & T4 & T5 & T6).
      split; [exact T1|]. split; [|split; [exact T2|split; [exact T3|split]]].
      * intros Ev. apply Ne. apply map_empty. intros d.
        destruct (dati !! d) eqn:Ed; [|reflexivity].
        exfalso. assert (In d (Tabelle.date
                   (Principale.tabella dati (Principale.zone_ordinate zs)))) as I
          by (apply T4; rewrite Ed; eauto).
        rewrite Ev in I. exact I.
      * intros d. rewrite T4. split.
        -- intros H. exists dati. auto.
        -- intros (pd & Ep & H). injection Ep as <-. exact H.
      * intros d z Hd Hz. apply T4 in Hd. destruct Hd as [pz Ep].
        rewrite (T5 d z pz Ep) by exact Hz.
        unfold Principale.valore_salvato. rewrite E. simpl. rewrite Ep. simpl.
        destruct (pz !! z); reflexivity.
  - intros d z. unfold Principale.valore_salvato. rewrite E. reflexivity.
Qed.

(** ** Curve numbers *)

Lemma cifra_limiti (c : ascii) (d : Z) : Nomi.cifra c = Some d -> 0 <= d <= 9.
Proof.
  unfold Nomi.cifra.
  destruct (Z.leb_spec 48 (Z.of_nat (nat_of_ascii c)));
    destruct (Z.leb_spec (Z.of_nat (nat_of_ascii c)) 57); simpl;
    intros Hc; try discriminate Hc. injection Hc as <-. lia.
Qed.

Lemma rovescia_app : forall (s t : string) (acc : list ascii),
  CurveNumber.rovescia (s +:+ t) acc
    = CurveNumber.rovescia t (CurveNumber.rovescia s acc).
Proof.
  induction s as [|c s IH]; intros t acc; [reflexivity|]. simpl. apply IH.
Qed.

Lemma numero_zona_limiti (stem : string) (n : Z) :
  CurveNumber.numero_zona stem = Some n -> 0 <= n <= 99.
Proof.
  unfold CurveNumber.numero_zona.
  assert (G : forall fine : list ascii,
    match fine with
    | c1 :: c2 :: _ =>
        match Nomi.cifra c1, Nomi.cifra c2 with
        | Some d1, Some d2 => Some (Nomi.numero [d2; d1])
        | Some d1, None => Some (Nomi.numero [d1])
        | None, _ => None
        end
    | [c1] =>
        match Nomi.cifra c1 with
        | Some d1 => Some (Nomi.numero [d1])
        | None => None
        end
    | [] => None
    end = Some n -> 0 <= n <= 99).
  { intros [|c1 [|c2 fine]]; [discriminate| |].
    - destruct (Nomi.cifra c1) as [d1|] eqn:E1; [|discriminate].
      apply cifra_limiti in E1. intros H. injection H as <-.
      unfold Nomi.numero. simpl. lia.
    - destruct (Nomi.cifra c1) as [d1|] eqn:E1; [|discriminate].
      apply cifra_limiti in E1.
      destruct (Nomi.cifra c2) as [d2|] eqn:E2; intros H; injection H as <-;
        [apply cifra_limiti in E2|]; unfold Nomi.numero; simpl; lia. }
  apply G.
Qed.

(** X19.  The zone number of a CN raster is read from the end of the
    stem of its name: it lies between 0 and 99, and a stem that ends in
    two digits gets the number these two digits spell, whatever comes
    before them; a stem with a longer number is keyed by its last two
    digits, and one digit or the same digit after a zero give the same
    key. *)
Theorem numero_zona_ultime_due_cifre :
  (forall (stem : string) (n : Z),
     CurveNumber.numero_zona stem = Some n -> 0 <= n <= 99) /\
  (forall (prima : string) (c2 c1 : ascii) (d2 d1 : Z),
     Nomi.cifra c2 = Some d2 -> Nomi.cifra c1 = Some d1 ->
     CurveNumber.numero_zona (prima +:+ String c2 (String c1 EmptyString))
       = Some (10 * d2 + d1)) /\
  CurveNumber.zona_key <$> CurveNumber.numero_zona "zona_101" = Some "IM_01" /\
  CurveNumber.zona_key <$> CurveNumber.numero_zona "zona_01" = Some "IM_01" /\
  CurveNumber.zona_key <$> CurveNumber.numero_zona "zona_1" = Some "IM_01" /\
  CurveNumber.numero_zona "zona" = None.
Proof.
  split; [|split; [|repeat split; reflexivity]].
  - apply numero_zona_limiti.
  - intros prima c2 c1 d2 d1 E2 E1. unfold CurveNumber.numero_zona.
    rewrite rovescia_app. cbn [CurveNumber.rovescia].
    assert (c1 <> "010"%char) as N.
    { intros ->. vm_compute in E1. discriminate E1. }
    destruct c1 as [[] [] [] [] [] [] [] []]; try (exfalso; apply N; reflexivity);
      rewrite E1, E2; unfold Nomi.numero; simpl; f_equal; lia.
Qed.

(** X20.  [calcola_cn_per_zone] gives an empty dictionary when the
    directory does not exist.  Otherwise every entry is the mean of a
    raster of the directory that could be read and whose stem ends in a
    zone number, under the key [IM_] and that number on two digits; a
    raster that cannot be read or has no zone number adds nothing and
    stops nothing: every readable raster with a zone number has its key in
    the result. *)
Theorem cn_per_zone_chiavi :
  forall raster_folder : CurveNumber.cartella_cn,
    let zone_cn := CurveNumber.calcola_cn_per_zone raster_folder in
    (CurveNumber.exists_ raster_folder = false -> zone_cn = ∅) /\
    (forall k cn,
       zone_cn !! k = Some cn ->
       CurveNumber.exists_ raster_folder = true /\
       exists asc_file n,
         In asc_file (CurveNumber.glob_ASC raster_folder) /\
         CurveNumber.numero_zona (CurveNumber.stem asc_file) = Some n /\
         0 <= n <= 99 /\ k = CurveNumber.zona_key n /\
         CurveNumber.cn_medio raster_folder asc_file = Ok cn) /\
    (forall asc_file n cn,
       CurveNumber.exists_ raster_folder = true ->
       In asc_file (CurveNumber.glob_ASC raster_folder) ->
       CurveNumber.numero_zona (CurveNumber.stem asc_file) = Some n ->
       CurveNumber.cn_medio raster_folder asc_file = Ok cn ->
       is_Some (zone_cn !! CurveNumber.zona_key n)).
Proof.
  intros dir zone_cn. subst zone_cn. unfold CurveNumber.calcola_cn_per_zone.
  destruct (CurveNumber.exists_ dir); cbn [negb].
  2:{ split; [reflexivity|]. split.
      - intros k cn. rewrite lookup_empty. discriminate.
      - intros f n cn H. discriminate H. }
  split; [discriminate|].
  set (passo := fun (zone_cn : gmap string float) (asc_file : string) =>
         match CurveNumber.numero_zona (CurveNumber.stem asc_file) with
         | Some n =>
             match CurveNumber.cn_medio dir asc_file with
             | Ok cn => <[CurveNumber.zona_key n := cn]> zone_cn
             | Eccezione _ => zone_cn
             end
         | None => zone_cn
         end).
  assert (G : forall (l : list string) (m : gmap string float),
    (forall k cn,
       fold_left passo l m !! k = Some cn ->
       m !! k = Some cn \/
       exists asc_file n,
         In asc_file l /\
         CurveNumber.numero_zona (CurveNumber.stem asc_file) = Some n /\
         0 <= n <= 99 /\ k = CurveNumber.zona_key n /\
         CurveNumber.cn_medio dir asc_file = Ok cn) /\
    (forall k, is_Some (m !! k) -> is_Some (fold_left passo l m !! k)) /\
    (forall asc_file n cn,
       In asc_file l ->
       CurveNumber.numero_zona (CurveNumber.stem asc_file) = Some n ->
       CurveNumber.cn_medio dir asc_file = Ok cn ->
       is_Some (fold_left passo l m !! CurveNumber.zona_key n))).
  { induction l as [|f l IH]; intros m; simpl.
    - split; [auto|]. split; [auto|]. intros f n cn [].
    - destruct (IH (passo m f)) as (I1 & I2 & I3).
      assert (Pm : forall k, is_Some (m !! k) -> is_Some (passo m f !! k)).
      { intros k Hk. unfold passo.
        destruct (CurveNumber.numero_zona (CurveNumber.stem f)); [|exact Hk].
        destruct (CurveNumber.cn_medio dir f); [|exact Hk].
        destruct (decide (CurveNumber.zona_key z = k)) as [<-|N].
        - rewrite lookup_insert_eq. eauto.
        - rewrite lookup_insert_ne by exact N. exact Hk. }
      split; [|split].
      + intros k cn H. apply I1 in H. destruct H as [H|(g & n & Hg & R)].
        * unfold passo in H.
          destruct (CurveNumber.numero_zona (CurveNumber.stem f)) as [n|] eqn:En;
            [|auto].
          destruct (CurveNumber.cn_medio dir f) as [cn'|e] eqn:Ec; [|auto].
          destruct (decide (CurveNumber.zona_key n = k)) as [<-|N].
          -- rewrite lookup_insert_eq in H. injection H as <-.
             right. exists f, n. split; [left; reflexivity|].
             split; [exact En|].
             split; [exact (numero_zona_limiti _ _ En)|].
             split; [reflexivity|exact Ec].
          -- rewrite lookup_insert_ne in H by exact N. auto.
        * right. exists g, n. split; [right; exact Hg|exact R].
      + intros k Hk. apply I2. apply Pm. exact Hk.
      + intros g n cn [<-|Hg] En Ec.
        * apply I2. unfold passo. rewrite En, Ec, lookup_insert_eq. eauto.
        * apply (I3 g n cn Hg En Ec). }
  destruct (G (Ordinamento.sorted String.leb (CurveNumber.glob_ASC dir)) ∅)
    as (G1 & _ & G3).
  split.
  - intros k cn H. split; [reflexivity|]. apply G1 in H.
    destruct H as [H|(f & n & Hf & R)]; [rewrite lookup_empty in H; discriminate H|].
    exists f, n. split; [apply sorted_In in Hf; exact Hf|exact R].
  - intros f n cn _ Hf En Ec. apply (G3 f n cn); [|exact En|exact Ec].
    apply sorted_In. exact Hf.
Qed.

(** ** The Peq0 table *)

(** The cell function of the Peq0 table raises exactly on a positive
    antecedent rainfall with a curve number equal to zero. *)
Lemma peq0_cella_solleva (cn p5 : float) :
  riuscito (Peq0.peq0_cella cn p5) = false <->
  F.notna p5 && F.gt0 p5 = true /\ PrimFloat.eqb cn F.zero = true.
Proof.
  unfold Peq0.peq0_cella, Peq0.calcola_peq0, Peq0.peq0_S.
  destruct (F.notna p5 && F.gt0 p5); simpl.
  - destruct (PrimFloat.eqb cn F.zero); simpl; intuition discriminate.
  - intuition discriminate.
Qed.

Lemma peq0_cella_zero (cn p5 : float) :
  F.notna p5 && F.gt0 p5 = false -> Peq0.peq0_cella cn p5 = Ok F.zero.
Proof. unfold Peq0.peq0_cella. intros ->. reflexivity. Qed.

(** X21.  Computing the Peq0 table raises ([ZeroDivisionError])
    exactly when some zone has a curve number equal to zero and some cell
    of its column holds a positive antecedent rainfall; the cells that are
    zero, negative or missing, and the zones without a curve number, never
    make it raise. *)
Theorem peq0_solleva_per_cn_zero :
  forall (cum_5d : Tabelle.DataFrame) (zone_cn : gmap string float),
    riuscito (Tabelle.calcola_peq0_per_tutte_zone cum_5d zone_cn) = false <->
    exists r col p5 cn,
      In r (Tabelle.righe cum_5d) /\
      In (col, p5) (zip (Tabelle.colonne cum_5d) (snd r)) /\
      zone_cn !! col = Some cn /\
      PrimFloat.eqb cn F.zero = true /\
      F.notna p5 = true /\ F.gt0 p5 = true.
Proof.
  intros cum zone_cn. unfold Tabelle.calcola_peq0_per_tutte_zone.
  set (g := fun cp : string * float =>
         match zone_cn !! fst cp with
         | Some cn_value => Peq0.peq0_cella cn_value (snd cp)
         | None => Ok F.zero
         end).
  set (h := fun r : string * list float =>
         celle ← mapM g (zip (Tabelle.colonne cum) (snd r)); Ok (fst r, celle)).
  assert (Eh : forall r, riuscito (h r) = false <->
                         riuscito (mapM g (zip (Tabelle.colonne cum) (snd r))) = false).
  { intros r. unfold h. destruct (mapM g _); simpl; reflexivity. }
  assert (Eg : forall cp, riuscito (g cp) = false <->
             exists cn, zone_cn !! fst cp = Some cn /\
                        PrimFloat.eqb cn F.zero = true /\
                        F.notna (snd cp) = true /\ F.gt0 (snd cp) = true).
  { intros [col p5]. unfold g. cbn [fst snd].
    destruct (zone_cn !! col) as [cn|].
    - rewrite peq0_cella_solleva, andb_true_iff. split.
      + intros [[H1 H2] H3]. exists cn. auto.
      + intros (cn' & E & H3 & H1 & H2). injection E as <-. auto.
    - split; [discriminate|]. intros (cn & E & _). discriminate E. }
  assert (Et : riuscito (nuove ← mapM h (Tabelle.righe cum);
                         Ok {| Tabelle.colonne := Tabelle.colonne cum;
                               Tabelle.righe := nuove |}) = false <->
               riuscito (mapM h (Tabelle.righe cum)) = false).
  { destruct (mapM h _); simpl; reflexivity. }
  rewrite Et, mapM_esito_errore. split.
  - intros (r & Hr & R). apply Eh, mapM_esito_errore in R.
    destruct R as ([col p5] & Hc & R). apply Eg in R.
    destruct R as (cn & E & H3 & H1 & H2). exists r, col, p5, cn.
    repeat split; assumption.
  - intros (r & col & p5 & cn & Hr & Hc & E & H3 & H1 & H2).
    exists r. split; [exact Hr|]. apply Eh, mapM_esito_errore.
    exists (col, p5). split; [exact Hc|]. apply Eg. exists cn.
    repeat split; assumption.
Qed.

Lemma fillna0_non_mancante (x : float) : PrimFloat.is_nan (F.fillna0 x) = false.
Proof.
  unfold F.fillna0. destruct (PrimFloat.is_nan x) eqn:E; [reflexivity|exact E].
Qed.

(** X22.  The Cum_5d table has the dates and the columns of the 24h
    table, a cell for every column in every row, and no missing cell: a
    gap in the 24h table becomes a number, never NaN.  The cells of its
    first row are zero. *)
Theorem cum_5d_senza_mancanti :
  forall (amb : ambiente) (df : Tabelle.DataFrame),
    let cum_5d := Tabelle.calcola_cum_5d amb df in
    Tabelle.colonne cum_5d = Tabelle.colonne df /\
    Tabelle.date cum_5d = Tabelle.date df /\
    (forall i r,
       Tabelle.righe cum_5d !! i = Some r ->
       length (snd r) = length (Tabelle.colonne df) /\
       Forall (fun v => F.is_nan v = false) (snd r) /\
       (i = 0%nat -> Forall (fun v => v = F.zero) (snd r))).
Proof.
  intros amb df cum. split; [reflexivity|]. split; [apply date_con_colonne|].
  intros i r H. apply cum_5d_riga in H. destruct H as [_ ->].
  split; [rewrite length_map, length_seq; reflexivity|]. split.
  - rewrite List.Forall_forall. intros v Hv. apply in_map_iff in Hv.
    destruct Hv as (j & <- & _).
    destruct i as [|k]; [reflexivity|apply fillna0_non_mancante].
  - intros ->. rewrite List.Forall_forall. intros v Hv. apply in_map_iff in Hv.
    destruct Hv as (j & <- & _). reflexivity.
Qed.

(** The cells of a row of the Peq0 table. *)
Lemma peq0_riga (amb : ambiente) (df : Tabelle.DataFrame)
    (zone_cn : gmap string float) (p : Tabelle.DataFrame) :
  Tabelle.calcola_peq0_per_tutte_zone (Tabelle.calcola_cum_5d amb df) zone_cn = Ok p ->
  Tabelle.colonne p = Tabelle.colonne df /\
  Tabelle.date p = Tabelle.date df /\
  forall i r,
    Tabelle.righe p !! i = Some r ->
    length (snd r) = length (Tabelle.colonne df) /\
    forall j col v,
      Tabelle.colonne df !! j = Some col -> snd r !! j = Some v ->
      match zone_cn !! col with
      | Some cn =>
          Peq0.peq0_cella cn
            match i with
            | O => F.zero
            | S k => F.fillna0 (pd_rolling_sum amb 6 1 (Tabelle.serie df j) k)
            end = Ok v
      | None => v = F.zero
      end.
Proof.
  unfold Tabelle.calcola_peq0_per_tutte_zone.
  set (cum := Tabelle.calcola_cum_5d amb df).
  change (Tabelle.colonne cum) with (Tabelle.colonne df).
  set (g := fun cp : string * float =>
         match zone_cn !! fst cp with
         | Some cn_value => Peq0.peq0_cella cn_value (snd cp)
         | None => Ok F.zero
         end).
  set (h := fun r : string * list float =>
         celle ← mapM g (zip (Tabelle.colonne df) (snd r)); Ok (fst r, celle)).
  destruct (mapM h (Tabelle.righe cum)) as [nuove|e] eqn:Em;
    cbv beta iota delta [mbind esito_bind]; [|discriminate].
  intros H. injection H as <-. cbn [Tabelle.colonne Tabelle.righe].
  apply mapM_esito_Forall2 in Em.
  assert (Hh : forall r r', h r = Ok r' ->
            fst r' = fst r /\
            Forall2 (fun cp v => g cp = Ok v) (zip (Tabelle.colonne df) (snd r)) (snd r')).
  { intros r r'. unfold h.
    destruct (mapM g (zip (Tabelle.colonne df) (snd r))) as [celle|e] eqn:Ec;
      cbv beta iota delta [mbind esito_bind]; [|discriminate].
    intros H. injection H as <-. split; [reflexivity|].
    apply mapM_esito_Forall2. exact Ec. }
  split; [reflexivity|]. split.
  - transitivity (Tabelle.date cum); [|apply date_con_colonne].
    unfold Tabelle.date. cbn [Tabelle.righe].
    clear -Em Hh. induction Em as [|r r' l l' E _ IH]; [reflexivity|].
    simpl. rewrite IH. f_equal. apply (Hh r r' E).
  - intros i r' Hr'.
    destruct (Forall2_lookup_r _ _ _ _ _ Em Hr') as (r & Hr & E).
    apply Hh in E. destruct E as [_ F2].
    apply cum_5d_riga in Hr. destruct Hr as [Hi Er].
    assert (Len : length (snd r) = length (Tabelle.colonne df))
      by (rewrite Er, length_map, length_seq; reflexivity).
    split.
    + rewrite <- (Forall2_length _ _ _ F2), length_zip_with, Len. lia.
    + intros j col v Hc Hv.
      destruct (Forall2_lookup_r _ _ _ _ _ F2 Hv) as ([col' p5] & Hz & Eg).
      apply lookup_zip_with_Some in Hz.
      destruct Hz as (x & y & Exy & Hx & Hy). injection Exy as -> ->.
      rewrite Hc in Hx. injection Hx as <-.
      rewrite Er in Hy. rewrite list_lookup_fmap in Hy.
      assert (seq 0 (length (Tabelle.colonne df)) !! j = Some j) as Es.
      { apply lookup_seq. split; [reflexivity|]. apply lookup_lt_Some in Hc. exact Hc. }
      rewrite Es in Hy. simpl in Hy. injection Hy as <-.
      unfold g in Eg. cbn [fst snd] in Eg.
      destruct (zone_cn !! col); [exact Eg|]. injection Eg as <-. reflexivity.
Qed.

(** The keys of the curve numbers are zone keys. *)
Lemma cn_per_zone_origine (raster_folder : CurveNumber.cartella_cn) (k : string)
    (cn : float) :
  CurveNumber.calcola_cn_per_zone raster_folder !! k = Some cn ->
  exists n, 0 <= n <= 99 /\ k = CurveNumber.zona_key n.
Proof.
  unfold CurveNumber.calcola_cn_per_zone.
  destruct (CurveNumber.exists_ raster_folder); cbn [negb];
    [|rewrite lookup_empty; discriminate].
  generalize (Ordinamento.sorted String.leb (CurveNumber.glob_ASC raster_folder)).
  intros l.
  assert (G : forall (l : list string) (m : gmap string float),
    fold_left (fun zone_cn asc_file =>
                 match CurveNumber.numero_zona (CurveNumber.stem asc_file) with
                 | Some n =>
                     match CurveNumber.cn_medio raster_folder asc_file with
                     | Ok cn => <[CurveNumber.zona_key n := cn]> zone_cn
                     | Eccezione _ => zone_cn
                     end
                 | None => zone_cn
                 end) l m !! k = Some cn ->
    m !! k = Some cn \/ exists n, 0 <= n <= 99 /\ k = CurveNumber.zona_key n).
  { clear l. induction l as [|f l IH]; intros m; simpl; [auto|].
    intros H. apply IH in H. destruct H as [H|H]; [|auto].
    destruct (CurveNumber.numero_zona (CurveNumber.stem f)) as [n|] eqn:En; [|auto].
    destruct (CurveNumber.cn_medio raster_folder f); [|auto].
    destruct (decide (CurveNumber.zona_key n = k)) as [<-|N].
    - right. exists n. split; [exact (numero_zona_limiti _ _ En)|reflexivity].
    - rewrite lookup_insert_ne in H by exact N. auto. }
  intros H. apply G in H. destruct H as [H|H]; [|exact H].
  rewrite lookup_empty in H. discriminate H.
Qed.

(** X23.  When the Peq0 table is computed from the 24h table, it has
    the dates and the columns of that table and a cell for every column in
    every row; every cell of its first row is zero; and the column of a
    zone that has no curve number is zero on every date.  With the curve
    numbers [calcola_cn_per_zone] reads, that is the case of every zone
    whose name is not [IM_] followed by two digits. *)
Theorem peq0_zero_dove_non_si_calcola :
  forall (amb : ambiente) (df : Tabelle.DataFrame) (zone_cn : gmap string float)
         (p : Tabelle.DataFrame),
    Tabelle.calcola_peq0_per_tutte_zone (Tabelle.calcola_cum_5d amb df) zone_cn = Ok p ->
    Tabelle.colonne p = Tabelle.colonne df /\
    Tabelle.date p = Tabelle.date df /\
    (forall i r, Tabelle.righe p !! i = Some r ->
                 length (snd r) = length (Tabelle.colonne df)) /\
    (forall r, Tabelle.righe p !! 0%nat = Some r ->
               Forall (fun v => v = F.zero) (snd r)) /\
    (forall i j r col v,
       Tabelle.righe p !! i = Some r ->
       Tabelle.colonne df !! j = Some col -> snd r !! j = Some v ->
       zone_cn !! col = None -> v = F.zero) /\
    (forall raster_folder col,
       zone_cn = CurveNumber.calcola_cn_per_zone raster_folder ->
       (forall n, 0 <= n <= 99 -> col <> CurveNumber.zona_key n) ->
       zone_cn !! col = None).
Proof.
  intros amb df zone_cn p H.
  destruct (peq0_riga amb df zone_cn p H) as (P1 & P2 & P3).
  split; [exact P1|]. split; [exact P2|]. split; [|split; [|split]].
  - intros i r Hr. apply (P3 i r Hr).
  - intros r Hr. destruct (P3 O r Hr) as [Len Hc].
    rewrite Forall_lookup. intros j v Hv.
    assert (j < length (Tabelle.colonne df))%nat as Hj
      by (rewrite <- Len; apply lookup_lt_Some in Hv; exact Hv).
    apply lookup_lt_is_Some in Hj. destruct Hj as [col Ecol].
    specialize (Hc j col v Ecol Hv).
    destruct (zone_cn !! col); [|exact Hc].
    rewrite peq0_cella_zero in Hc by reflexivity. injection Hc as <-. reflexivity.
  - intros i j r col v Hr Hcol Hv E. destruct (P3 i r Hr) as [_ Hc].
    specialize (Hc j col v Hcol Hv). rewrite E in Hc. exact Hc.
  - intros dir col -> N.
    destruct (CurveNumber.calcola_cn_per_zone dir !! col) as [cn|] eqn:E; [|reflexivity].
    exfalso. apply cn_per_zone_origine in E. destruct E as (n & B & ->).
    exact (N n B eq_refl).
Qed.

Lemma peq0_zero_dove_non_si_calcola_witness :
  exists p,
    Tabelle.calcola_peq0_per_tutte_zone
      (Tabelle.calcola_cum_5d Esempi.amb Esempi.tabella_base)
      {[ "IM_01" := 80%float ]} = Ok p /\
    Tabelle.date p = Tabelle.date Esempi.tabella_base.
Proof.
  assert (exists p,
    Tabelle.calcola_peq0_per_tutte_zone
      (Tabelle.calcola_cum_5d Esempi.amb Esempi.tabella_base)
      {[ "IM_01" := 80%float ]} = Ok p)
    as [p H] by (eexists; vm_compute; reflexivity).
  exists p. split; [exact H|].
  exact (proj1 (proj2 (peq0_zero_dove_non_si_calcola Esempi.amb Esempi.tabella_base
                         {[ "IM_01" := 80%float ]} p H))).
Defined.

(** ** The rows of the merged sheet *)

Lemma sort_values_Data_sorted (l : list (string * list float)) :
  Tabelle.sort_values_Data l
    = Ordinamento.sorted (fun a b => String.leb (fst a) (fst b)) l.
Proof.
  unfold Tabelle.sort_values_Data, Ordinamento.sorted.
  induction l as [|r l IH]; [reflexivity|]. simpl. rewrite IH.
  generalize (fold_right
    (Ordinamento.inserisci (fun a b : string * list float => String.leb (fst a) (fst b)))
    [] l).
  intros s. induction s as [|x s IHs]; [reflexivity|]. simpl.
  destruct (String.leb (fst r) (fst x)); [reflexivity|]. rewrite IHs. reflexivity.
Qed.

Lemma StronglySorted_map_fst {B} (l : list (string * B)) :
  StronglySorted (fun a b => String.leb (fst a) (fst b) = true) l ->
  StronglySorted (fun a b => String.leb a b = true) (map fst l).
Proof.
  induction 1 as [|x s S IHS F]; simpl; constructor; [exact IHS|].
  rewrite List.Forall_forall in *. intros d Hd. apply in_map_iff in Hd.
  destruct Hd as (y & <- & Hy). apply F. exact Hy.
Qed.

Lemma merge_left_date (base peq0 : Tabelle.DataFrame) :
  (forall d, In d (map (fun riga => fst (fst riga)) (Tabelle.merge_left base peq0))
             <-> In d (Tabelle.date base)) /\
  (length (Tabelle.righe base) <= length (Tabelle.merge_left base peq0))%nat.
Proof.
  unfold Tabelle.merge_left, Tabelle.date.
  set (g := fun r : string * list float =>
         match List.filter (fun q => String.eqb (fst q) (fst r)) (Tabelle.righe peq0) with
         | [] => [(fst r, snd r, @None (list float))]
         | trovate => map (fun q => (fst r, snd r, Some (snd q))) trovate
         end).
  assert (G : forall r,
            (forall x, In x (g r) -> fst (fst x) = fst r) /\ (1 <= length (g r))%nat).
  { intros r. unfold g.
    destruct (List.filter _ (Tabelle.righe peq0)) as [|q trovate].
    - split; [intros x [<-|[]]; reflexivity|simpl; lia].
    - split; [|rewrite length_map; simpl; lia].
      intros x Hx. apply in_map_iff in Hx. destruct Hx as (y & <- & _). reflexivity. }
  split.
  - intros d. rewrite !in_map_iff. split.
    + intros (x & <- & Hx). apply in_flat_map in Hx. destruct Hx as (r & Hr & Hx).
      exists r. split; [symmetry; apply (G r); exact Hx|exact Hr].
    + intros (r & <- & Hr). destruct (g r) as [|x gr] eqn:Eg.
      * exfalso. pose proof (proj2 (G r)) as L. rewrite Eg in L. simpl in L. lia.
      * exists x. split.
        -- apply (G r). rewrite Eg. left. reflexivity.
        -- apply in_flat_map. exists r. split; [exact Hr|]. rewrite Eg. left. reflexivity.
  - induction (Tabelle.righe base) as [|r l IH]; [simpl; lia|].
    cbn [flat_map]. rewrite length_app. pose proof (proj2 (G r)). cbn [length]. lia.
Qed.

(** X24.  The sheet [somma_statistiche_con_peq0] returns has the
    columns of the base table and a cell for each of them in every row;
    its rows are in non-decreasing order of the date string; its dates are
    those of the base table, none lost and none added; and it has at least
    as many rows as the base table, exactly as many when the dates of the
    Peq0 table are distinct. *)
Theorem somma_con_peq0_ordinata :
  forall base peq0 r : Tabelle.DataFrame,
    Tabelle.somma_statistiche_con_peq0 base peq0 = Ok r ->
    Tabelle.colonne r = Tabelle.colonne base /\
    (forall riga, In riga (Tabelle.righe r) ->
                  length (snd riga) = length (Tabelle.colonne base)) /\
    StronglySorted (fun a b => String.leb a b = true) (Tabelle.date r) /\
    (forall d, In d (Tabelle.date r) <-> In d (Tabelle.date base)) /\
    (length (Tabelle.righe base) <= length (Tabelle.righe r))%nat /\
    (List.NoDup (Tabelle.date peq0) ->
     length (Tabelle.righe r) = length (Tabelle.righe base)).
Proof.
  intros base peq0 r H. pose proof H as H0.
  apply somma_con_peq0_Ok in H. destruct H as (_ & piani & _ & Lp & ->).
  cbn [Tabelle.colonne Tabelle.righe]. unfold Tabelle.date. cbn [Tabelle.righe].
  set (result := map (fun riga : string * list float * option (list float) =>
                   (fst (fst riga),
                    map (Tabelle.cella_sommata (length (Tabelle.colonne base)) riga)
                        piani))
                 (Tabelle.merge_left base peq0)) in *.
  pose proof (sort_values_perm result) as P.
  destruct (merge_left_date base peq0) as [M1 M2].
  split; [reflexivity|]. split; [|split; [|split; [|split]]].
  - intros riga H. apply (Permutation_in _ P) in H. subst result.
    apply in_map_iff in H. destruct H as (x & <- & _). cbn [snd].
    rewrite length_map. exact Lp.
  - apply StronglySorted_map_fst. rewrite sort_values_Data_sorted.
    apply sorted_ordinata.
    + intros x y. apply String.leb_total.
    + intros x y z. apply string_leb_trans.
  - intros d. rewrite <- M1.
    assert (map fst result
            = map (fun riga => fst (fst riga)) (Tabelle.merge_left base peq0)) as <-
      by (subst result; rewrite map_map; reflexivity).
    split; apply Permutation_in; [|symmetry]; apply Permutation_map; exact P.
  - rewrite (Permutation_length P). subst result. rewrite length_map. exact M2.
  - intros N.
    destruct (righe_sommate base peq0 _ N H0) as (piani' & _ & _ & P').
    cbn [Tabelle.righe] in P'.
    rewrite (Permutation_length P'), length_map. reflexivity.
Qed.

Lemma somma_con_peq0_ordinata_witness :
  exists r,
    Tabelle.somma_statistiche_con_peq0 Esempi.tabella_base Esempi.tabella_peq0 = Ok r /\
    Tabelle.colonne r = ["IM_01"; "IM_02"] /\
    StronglySorted (fun a b => String.leb a b = true) (Tabelle.date r).
Proof.
  assert (exists r,
    Tabelle.somma_statistiche_con_peq0 Esempi.tabella_base Esempi.tabella_peq0 = Ok r)
    as [r H] by (eexists; vm_compute; reflexivity).
  exists r. split; [exact H|].
  destruct (somma_con_peq0_ordinata Esempi.tabella_base Esempi.tabella_peq0 r H)
    as (C & _ & S & _).
  split; [exact C|exact S].
Defined.

(** ** The Peq0 phase *)

Lemma per_ogni_invariante {S A} (P : S -> Prop) (corpo : S -> A -> S * option string) :
  (forall s x, P s -> P (fst (corpo s x))) ->
  forall (l : list A) (s : S), P s -> P (fst (Principale.per_ogni corpo l s)).
Proof.
  intros H. induction l as [|x l IH]; intros s Hs; [exact Hs|]. simpl.
  specialize (H s x Hs). destruct (corpo s x) as [s' [e|]]; [exact H|].
  apply IH. exact H.
Qed.

(** Gathering results never adds or removes a sheet. *)
Lemma raccogli_fogli (strftime : Z -> string) (attive : list string) (c : string) :
  forall (completati : list Lavoro.esito_zona) (rf : Principale.risultati_finali),
    is_Some (Principale.raccogli strftime attive completati rf !! c)
    <-> is_Some (rf !! c).
Proof.
  assert (St : forall z data durata valori (rf : Principale.risultati_finali) stat,
    is_Some (fst (Principale.salva_statistica strftime z data durata valori rf stat) !! c)
    <-> is_Some (rf !! c)).
  { intros z data durata valori rf stat. unfold Principale.salva_statistica.
    destruct (valori !! stat) as [v|]; [|reflexivity].
    destruct (PrimFloat.is_nan v); [reflexivity|].
    pose proof (scrivi_fogli rf (Tabelle.chiave_foglio stat durata)
                  (strftime data) z v c) as S.
    unfold Principale.scrivi in S.
    destruct (Principale.salva_valore rf _ _ _ _); [exact S|reflexivity]. }
  assert (Du : forall z data (rf : Principale.risultati_finali) voce,
    is_Some (fst (Principale.salva_durata strftime attive z data rf voce) !! c)
    <-> is_Some (rf !! c)).
  { intros z data rf [durata [valori|]]; unfold Principale.salva_durata; cbn [fst snd];
      [|reflexivity].
    destruct (Finestre.vero (Some valori)); [|reflexivity].
    apply (per_ogni_invariante
             (fun s : Principale.risultati_finali => is_Some (s !! c) <-> is_Some (rf !! c)));
      [|reflexivity].
    intros s x Hs. rewrite St. exact Hs. }
  unfold Principale.raccogli.
  induction completati as [|t completati IH]; intros rf; [reflexivity|]. simpl.
  rewrite IH. unfold Principale.salva_risultati.
  apply (per_ogni_invariante
           (fun s : Principale.risultati_finali => is_Some (s !! c) <-> is_Some (rf !! c)));
    [|reflexivity].
  intros s x Hs. rewrite Du. exact Hs.
Qed.

Lemma crea_fogli_peq0_base (dataframes : gmap string Tabelle.DataFrame)
    (peq0_df cum_5d : Tabelle.DataFrame) (durate : list Z) (attive : list string)
    (fogli : gmap string Tabelle.DataFrame) :
  Tabelle.crea_fogli_peq0 dataframes peq0_df cum_5d durate attive = Ok fogli ->
  is_Some (fogli !! "Peq0") /\ is_Some (fogli !! "Cum_5d").
Proof.
  intros H.
  assert (G : forall k : string,
    is_Some ((<["Cum_5d" := cum_5d]> (<["Peq0" := peq0_df]> ∅)
              : gmap string Tabelle.DataFrame) !! k) ->
    is_Some (fogli !! k)).
  { intros k K.
    apply (crea_fogli_peq0_invariante (fun f => is_Some (f !! k)) _ _ _ _ _ _) in H;
      [exact H|exact K|].
    intros f stat durata df I.
    destruct (decide (Tabelle.chiave_foglio stat durata +:+ "_Peq0" = k)) as [<-|N].
    - rewrite lookup_insert_eq. eauto.
    - rewrite lookup_insert_ne by exact N. exact I. }
  split; apply G.
  - rewrite lookup_insert_ne by discriminate. rewrite lookup_insert_eq. eauto.
  - rewrite lookup_insert_eq. eauto.
Qed.

(** X25.  The Peq0 phase adds its sheets only when the option is set,
    24 is among the durations, the directory of the CN rasters is
    configured and exists, at least one curve number could be read, and
    the sheet of the daily mean was written: this needs the statistic
    [media] to be active, although Peq0 has an option of its own.  Then
    the sheets [Peq0] and [Cum_5d] are among those added. *)
Theorem fogli_peq0_solo_con_media_24h :
  forall (amb : ambiente)
         (strftime : Z -> string) (attive : list string) (durate : list Z)
         (completati : list Lavoro.esito_zona) (zone_shapefiles : list string)
         (peq_0 : bool) (raster_cn_directory : option CurveNumber.cartella_cn)
         (fogli : gmap string Tabelle.DataFrame),
    let rf := Principale.raccogli strftime attive completati
                (Principale.tabelle_vuote durate attive) in
    Principale.fase_peq0 amb peq_0 durate raster_cn_directory
      (Principale.dataframes_finali rf zone_shapefiles) attive = Ok (Some fogli) ->
    peq_0 = true /\ In 24 durate /\ In "media" attive /\
    (exists raster_cn_dir,
       raster_cn_directory = Some raster_cn_dir /\
       CurveNumber.exists_ raster_cn_dir = true /\
       CurveNumber.calcola_cn_per_zone raster_cn_dir <> ∅) /\
    is_Some (Principale.dataframes_finali rf zone_shapefiles !! "media_24h") /\
    is_Some (fogli !! "Peq0") /\ is_Some (fogli !! "Cum_5d").
Proof.
  intros amb strftime attive durate completati zs peq_0 raster_cn fogli rf.
  unfold Principale.fase_peq0.
  destruct peq_0; cbn [negb]; [|discriminate].
  destruct (existsb (Z.eqb 24) durate) eqn:E24; cbn [negb]; [|discriminate].
  destruct raster_cn as [dir|]; [|discriminate].
  destruct (CurveNumber.exists_ dir) eqn:Ex; cbn [negb]; [|discriminate].
  destruct (decide (CurveNumber.calcola_cn_per_zone dir = ∅)) as [Ez|Nz].
  { rewrite bool_decide_eq_true_2 by exact Ez. discriminate. }
  rewrite bool_decide_eq_false_2 by exact Nz.
  destruct (Principale.dataframes_finali rf zs !! "media_24h") as [df_24h|] eqn:Ed;
    [|discriminate].
  destruct (Tabelle.calcola_peq0_per_tutte_zone _ _) as [peq0_df|e];
    cbv beta iota delta [mbind esito_bind]; [|discriminate].
  destruct (Tabelle.crea_fogli_peq0 _ _ _ _ _) as [fogli_peq0|e] eqn:Ef;
    cbv beta iota; [|discriminate].
  intros H. injection H as <-.
  split; [reflexivity|]. split.
  { apply existsb_exists in E24. destruct E24 as (x & Hx & Ex24).
    apply Z.eqb_eq in Ex24. subst x. exact Hx. }
  split.
  { unfold Principale.dataframes_finali in Ed. rewrite lookup_omap in Ed.
    destruct (rf !! "media_24h") as [dati|] eqn:Er; [|discriminate Ed].
    assert (is_Some (Principale.tabelle_vuote durate attive !! "media_24h")) as K.
    { apply (raccogli_fogli strftime attive "media_24h" completati). fold rf.
      rewrite Er. eauto. }
    apply (tabelle_vuote_fogli attive durate) in K.
    destruct K as (stat & durata & Hs & _ & E).
    change "media_24h" with (Tabelle.chiave_foglio "media" 24) in E.
    apply chiave_foglio_inj in E. destruct E as [<- _]. exact Hs. }
  split; [exists dir; auto|]. split; [eauto|].
  eapply crea_fogli_peq0_base. exact Ef.
Qed.

Lemma fogli_peq0_solo_con_media_24h_witness :
  exists fogli,
    Principale.fase_peq0 Esempi.amb true [24]
      (Some {| CurveNumber.exists_ := true;
               CurveNumber.glob_ASC := ["cn_zona_01.ASC"];
               CurveNumber.cn_medio := fun _ => Ok 80%float |})
      (Principale.dataframes_finali
         (Principale.raccogli (fun t => pretty (Tempo.date t)) ["media"]
            [{| Lavoro.z_nome := "IM_01"; Lavoro.z_data := 0;
                Lavoro.z_risultati := [(24, Some {[ "media" := 2%float ]})];
                Lavoro.z_log := [] |}]
            (Principale.tabelle_vuote [24] ["media"]))
         ["IM_01.shp"])
      ["media"] = Ok (Some fogli) /\
    is_Some (fogli !! "Peq0").
Proof.
  assert (exists fogli,
    Principale.fase_peq0 Esempi.amb true [24]
      (Some {| CurveNumber.exists_ := true;
               CurveNumber.glob_ASC := ["cn_zona_01.ASC"];
               CurveNumber.cn_medio := fun _ => Ok 80%float |})
      (Principale.dataframes_finali
         (Principale.raccogli (fun t => pretty (Tempo.date t)) ["media"]
            [{| Lavoro.z_nome := "IM_01"; Lavoro.z_data := 0;
                Lavoro.z_risultati := [(24, Some {[ "media" := 2%float ]})];
                Lavoro.z_log := [] |}]
            (Principale.tabelle_vuote [24] ["media"]))
         ["IM_01.shp"])
      ["media"] = Ok (Some fogli)) as [fogli H]
    by (eexists; vm_compute; reflexivity).
  exists fogli. split; [exact H|].
  exact (proj1 (proj2 (proj2 (proj2 (proj2 (proj2
           (fogli_peq0_solo_con_media_24h _ _ _ _ _ _ _ _ _ H))))))).
Defined.

(** ** The timestamp of a name *)

(** The fields of a timestamp the constructor built. *)
Lemma datetime_campi (y m d hh mm ss t : Z) :
  Tempo.datetime y m d hh mm ss = Ok t ->
  Tempo.date t = Tempo.giorni_da_civile y m d /\
  (t mod Tempo.giorno) / Tempo.ora = hh /\
  Tempo.minute t = mm /\ Tempo.second t = ss.
Proof.
  unfold Tempo.datetime.
  destruct (_ && _) eqn:E; [|discriminate].
  intros H. injection H as <-.
  repeat (apply andb_true_iff in E; destruct E as [E ?]).
  repeat match goal with K : (_ <=? _) = true |- _ => apply Z.leb_le in K end.
  generalize (Tempo.giorni_da_civile y m d). intros G.
  unfold Tempo.date, Tempo.minute, Tempo.second, Tempo.giorno, Tempo.ora.
  assert (E1 : (G * 86400 + hh * 3600 + mm * 60 + ss) mod 86400
               = hh * 3600 + mm * 60 + ss).
  { symmetry. apply (Z.mod_unique _ 86400 G); lia. }
  assert (E2 : (G * 86400 + hh * 3600 + mm * 60 + ss) mod 3600 = mm * 60 + ss).
  { symmetry. apply (Z.mod_unique _ 3600 (G * 24 + hh)); lia. }
  rewrite E1, E2. repeat split.
  - symmetry. apply (Z.div_unique _ 86400 G (hh * 3600 + mm * 60 + ss)); lia.
  - symmetry. apply (Z.div_unique _ 3600 hh (mm * 60 + ss)); lia.
  - symmetry. apply (Z.div_unique _ 60 mm ss); lia.
  - symmetry. apply (Z.mod_unique _ 60 (G * 1440 + hh * 60 + mm)); lia.
Qed.

Lemma cifre_length : forall (n : nat) (s : string) (ds : list Z),
  Nomi.cifre n s = Some ds -> length ds = n.
Proof.
  induction n as [|n IH]; intros s ds H.
  - injection H as <-. reflexivity.
  - simpl in H. destruct s as [|c s]; [discriminate H|].
    destruct (Nomi.cifra c) as [x|]; [|discriminate H].
    destruct (Nomi.cifre n s) as [xs|] eqn:E; [|discriminate H].
    injection H as <-. simpl. f_equal. exact (IH s xs E).
Qed.

Lemma cerca_cifre_length (n : nat) : forall (s : string) (ds : list Z),
  Nomi.cerca_cifre n s = Some ds -> length ds = n.
Proof.
  induction s as [|c s IH]; intros ds; simpl.
  - destruct (Nomi.cifre n EmptyString) as [xs|] eqn:E; [|discriminate].
    intros H. injection H as <-. exact (cifre_length _ _ _ E).
  - destruct (Nomi.cifre n (String c s)) as [xs|] eqn:E.
    + intros H. injection H as <-. exact (cifre_length _ _ _ E).
    + apply IH.
Qed.

Lemma cifre_prefisso : forall (m n : nat) (s : string) (ds : list Z),
  (m <= n)%nat -> Nomi.cifre n s = Some ds -> Nomi.cifre m s = Some (firstn m ds).
Proof.
  induction m as [|m IH]; intros n s ds Hle H; [reflexivity|].
  destruct n as [|n]; [lia|]. simpl in H.
  destruct s as [|c s]; [discriminate H|].
  simpl. destruct (Nomi.cifra c) as [x|]; [|discriminate H].
  destruct (Nomi.cifre n s) as [xs|] eqn:E; [|discriminate H].
  injection H as <-. rewrite (IH n s xs) by (lia || exact E). reflexivity.
Qed.

(** A name with no run of [m] digits has no longer run. *)
Lemma cerca_cifre_None_mono (m n : nat) : (m <= n)%nat -> forall s : string,
  Nomi.cerca_cifre m s = None -> Nomi.cerca_cifre n s = None.
Proof.
  intros Hle. induction s as [|c s IH]; simpl.
  - destruct (Nomi.cifre n EmptyString) as [ds|] eqn:E; [|reflexivity].
    rewrite (cifre_prefisso m n _ ds Hle E). discriminate.
  - destruct (Nomi.cifre n (String c s)) as [ds|] eqn:E.
    + rewrite (cifre_prefisso m n _ ds Hle E). discriminate.
    + destruct (Nomi.cifre m (String c s)); [discriminate|]. exact IH.
Qed.

(** A digit and its value. *)
Lemma cifra_valore (c : ascii) (d : Z) :
  Nomi.cifra c = Some d <->
  48 <= Z.of_nat (nat_of_ascii c) <= 57 /\ d = Z.of_nat (nat_of_ascii c) - 48.
Proof.
  unfold Nomi.cifra. cbv zeta.
  destruct (Z.leb_spec 48 (Z.of_nat (nat_of_ascii c))) as [Ha|Ha];
    destruct (Z.leb_spec (Z.of_nat (nat_of_ascii c)) 57) as [Hb|Hb]; cbn [andb].
  - split; [intros H; injection H as <-; lia|intros [_ ->]; reflexivity].
  - split; [discriminate|lia].
  - split; [discriminate|lia].
  - split; [discriminate|lia].
Qed.

Lemma sequenza_a_cons (c : ascii) (s : string) (k n : nat) (ds : list Z) :
  Sequenze.sequenza_a (String c s) (S k) n ds <-> Sequenze.sequenza_a s k n ds.
Proof. unfold Sequenze.sequenza_a. reflexivity. Qed.

(** [cifre] reads the run of digits at the start of a string. *)
Lemma cifre_sequenza : forall (n : nat) (s : string) (ds : list Z),
  Nomi.cifre n s = Some ds <-> Sequenze.sequenza_a s 0 n ds.
Proof.
  induction n as [|n IH]; intros s ds.
  - unfold Sequenze.sequenza_a. simpl. split.
    + intros H. injection H as <-. split; [reflexivity|]. intros i Hi. lia.
    + intros [L _]. destruct ds; [reflexivity|discriminate L].
  - simpl. destruct s as [|c s].
    + split; [discriminate|]. intros [_ H].
      destruct (H O ltac:(lia)) as (c & G & _). discriminate G.
    + split.
      * destruct (Nomi.cifra c) as [d|] eqn:Ec; [|discriminate].
        destruct (Nomi.cifre n s) as [ds'|] eqn:Es; [|discriminate].
        intros H. injection H as <-.
        apply IH in Es. destruct Es as [L K]. apply cifra_valore in Ec.
        split; [simpl; f_equal; exact L|].
        intros [|i] Hi.
        -- exists c. split; [reflexivity|]. simpl. exact Ec.
        -- destruct (K i ltac:(lia)) as (c' & G & B & V).
           exists c'. split; [exact G|]. split; [exact B|exact V].
      * intros [L K].
        destruct ds as [|d ds']; [discriminate L|].
        destruct (K O ltac:(lia)) as (c0 & G & B & V).
        injection G as <-. simpl in V.
        rewrite (proj2 (cifra_valore c d) (conj B V)).
        assert (Es : Nomi.cifre n s = Some ds').
        { apply IH. split; [simpl in L; lia|].
          intros i Hi. destruct (K (S i) ltac:(lia)) as (c' & G & B' & V').
          exists c'. split; [exact G|]. split; [exact B'|exact V']. }
        rewrite Es. reflexivity.
Qed.

(** The search finds the leftmost run. *)
Lemma cerca_cifre_prima (n : nat) : forall (s : string) (ds : list Z),
  Nomi.cerca_cifre n s = Some ds -> exists k, Sequenze.prima_sequenza s n k ds.
Proof.
  assert (Zero : forall s ds, Nomi.cifre n s = Some ds ->
                              Sequenze.prima_sequenza s n 0 ds).
  { intros s ds E. split; [exact (proj1 (cifre_sequenza n s ds) E)|].
    intros j ds' Hj. lia. }
  induction s as [|c s IH]; intros ds; simpl.
  - destruct (Nomi.cifre n EmptyString) as [xs|] eqn:E; [|discriminate].
    intros H. injection H as <-. exists O. apply Zero. exact E.
  - destruct (Nomi.cifre n (String c s)) as [xs|] eqn:E.
    + intros H. injection H as <-. exists O. apply Zero. exact E.
    + intros H. destruct (IH ds H) as (k & Sk & Pk).
      exists (S k). split; [exact (proj2 (sequenza_a_cons c s k n ds) Sk)|].
      intros [|j] ds' Hj.
      * intros Q. pose proof (proj2 (cifre_sequenza n _ ds') Q) as Q'. congruence.
      * intros Q. apply (Pk j ds'); [lia|].
        exact (proj1 (sequenza_a_cons c s j n ds') Q).
Qed.

(** A search that finds nothing: no position starts a run. *)
Lemma cerca_cifre_nessuna (n : nat) : forall (s : string),
  Nomi.cerca_cifre n s = None -> forall k ds, ~ Sequenze.sequenza_a s k n ds.
Proof.
  induction s as [|c s IH]; simpl.
  - destruct (Nomi.cifre n EmptyString) as [xs|] eqn:E; [discriminate|].
    intros _ k ds Q. destruct n as [|n]; [discriminate E|].
    destruct Q as [_ Q]. destruct (Q O ltac:(lia)) as (c & G & _). discriminate G.
  - destruct (Nomi.cifre n (String c s)) as [xs|] eqn:E; [discriminate|].
    intros H [|k] ds Q.
    + pose proof (proj2 (cifre_sequenza n _ ds) Q) as Q'. congruence.
    + exact (IH H k ds (proj1 (sequenza_a_cons c s k n ds) Q)).
Qed.

(** X26.  The timestamp [estrai_timestamp] reads from a name is the
    one its digits spell: the leftmost run of 14 decimal digits of the
    name, or, when the name has no such run, its leftmost run of 12 digits
    with the seconds at zero, read as year, month, day, hour, minute and
    second; the minute and the second the scans test are those two fields.
    A name with no run of 12 digits has no timestamp, and reading it does
    not raise. *)
Theorem timestamp_del_nome :
  (forall (nome_file : string) (t : Z),
     Nomi.estrai_timestamp nome_file = Ok (Some t) ->
     exists k ds y m d hh mm ss,
       (Sequenze.prima_sequenza nome_file 14 k ds \/
        ((forall j ds', ~ Sequenze.sequenza_a nome_file j 14 ds') /\
         Sequenze.prima_sequenza nome_file 12 k ds)) /\
       y = Nomi.numero (firstn 4 ds) /\
       m = Nomi.numero (firstn 2 (skipn 4 ds)) /\
       d = Nomi.numero (firstn 2 (skipn 6 ds)) /\
       hh = Nomi.numero (firstn 2 (skipn 8 ds)) /\
       mm = Nomi.numero (firstn 2 (skipn 10 ds)) /\
       ss = Nomi.numero (skipn 12 ds) /\
       Tempo.datetime y m d hh mm ss = Ok t /\
       Tempo.date t = Tempo.giorni_da_civile y m d /\
       (t mod Tempo.giorno) / Tempo.ora = hh /\
       Tempo.minute t = mm /\ Tempo.second t = ss) /\
  (forall nome_file : string,
     (forall k ds, ~ Sequenze.sequenza_a nome_file k 12 ds) ->
     Nomi.estrai_timestamp nome_file = Ok None).
Proof.
  split.
  - intros nome t. unfold Nomi.estrai_timestamp.
    destruct (Nomi.cerca_cifre 14 nome) as [ds|] eqn:E14.
    + pose proof (cerca_cifre_length 14 nome ds E14) as L.
      destruct (cerca_cifre_prima 14 nome ds E14) as [k Pk].
      do 14 (destruct ds as [|? ds]; [simpl in L; discriminate L|]).
      destruct ds as [|? ?]; [|simpl in L; discriminate L].
      cbv beta iota.
      destruct (Tempo.datetime _ _ _ _ _ _) as [t'|e] eqn:Ed;
        cbv beta iota delta [mbind esito_bind]; [|discriminate].
      intros H. injection H as <-.
      eexists k, _, _, _, _, _, _, _. split; [left; exact Pk|].
      do 6 (split; [reflexivity|]). split; [exact Ed|].
      exact (datetime_campi _ _ _ _ _ _ _ Ed).
    + destruct (Nomi.cerca_cifre 12 nome) as [ds|] eqn:E12; [|discriminate].
      pose proof (cerca_cifre_length 12 nome ds E12) as L.
      destruct (cerca_cifre_prima 12 nome ds E12) as [k Pk].
      pose proof (cerca_cifre_nessuna 14 nome E14) as N14.
      do 12 (destruct ds as [|? ds]; [simpl in L; discriminate L|]).
      destruct ds as [|? ?]; [|simpl in L; discriminate L].
      cbv beta iota.
      destruct (Tempo.datetime _ _ _ _ _ _) as [t'|e] eqn:Ed;
        cbv beta iota delta [mbind esito_bind]; [|discriminate].
      intros H. injection H as <-.
      eexists k, _, _, _, _, _, _, _. split; [right; split; [exact N14|exact Pk]|].
      do 6 (split; [reflexivity|]). split; [exact Ed|].
      exact (datetime_campi _ _ _ _ _ _ _ Ed).
  - intros nome N. unfold Nomi.estrai_timestamp.
    assert (H12 : Nomi.cerca_cifre 12 nome = None).
    { destruct (Nomi.cerca_cifre 12 nome) as [ds|] eqn:E; [|reflexivity].
      exfalso. destruct (cerca_cifre_prima 12 nome ds E) as (k & Sk & _).
      exact (N k ds Sk). }
    rewrite (cerca_cifre_None_mono 12 14 ltac:(lia) nome H12), H12. reflexivity.
Qed.
